(** * EuropeOrthoViewer: capability parsing, defaults and service URLs

    A shallow embedding of the pure parts of [wms_utils.py],
    [wmts_utils.py] and [rest_utils.py], and of the two listing / adding
    procedures that drive them, together with the properties of the
    specification that concern them.

    Conventions of the embedding.
    - A Python [str] is a [string]; its characters are the 8-bit [ascii]
      characters.  The text operations ([lower], [upper], [strip], [split],
      [isdigit], [int]) are Python's on ASCII text, which is what
      capability documents and service URLs are made of; characters above
      127 are carried through unchanged, which is not what Python does
      with them, so a property that depends on these operations is stated
      for ASCII text ([Py.isascii]).
    - [None] is [None]; a value that may be missing is an [option].
    - An exception is a constructor of an error type, threaded through the
      callers exactly where the source lets it propagate or catches it.
    - The XML tree is what [xml.etree.ElementTree] hands to the code: an
      element has a tag (["{uri}local"] or ["local"]), attributes, a text
      and children.  The parser [ET.fromstring], the blocking transport
      and the QGIS layer validator are collaborators and are parameters;
      the parser returns a tree or raises any exception.
    - Where the interpreter's library has changed what the code does
      ([urlunsplit], in CPython 3.12.4), both behaviours are embedded and
      the properties that depend on it are stated for both. *)

From Stdlib Require Import String Ascii List Bool Arith ZArith Lia DecimalString.
From Stdlib Require Import Sorting.Sorted.
From stdpp Require Import base option gmap strings.
Import ListNotations.
Set Warnings "-register-all,-clear-no-such-hyp".
Set Warnings "-at-level-200-changed".
Arguments String.append !s1 s2 : simpl nomatch.
Open Scope string_scope.
Open Scope list_scope.

(** ** Python text primitives *)

Module Py.

(** [str.isspace] on one ASCII character: TAB, LF, VT, FF, CR, the four
    separators FS, GS, RS, US, and the blank. *)
Definition is_space (c : ascii) : bool :=
  let n := nat_of_ascii c in
  ((9 <=? n) && (n <=? 13) || (28 <=? n) && (n <=? 32))%nat.

Definition is_upper (c : ascii) : bool :=
  let n := nat_of_ascii c in ((65 <=? n) && (n <=? 90))%nat.

Definition is_lower (c : ascii) : bool :=
  let n := nat_of_ascii c in ((97 <=? n) && (n <=? 122))%nat.

Definition is_digit (c : ascii) : bool :=
  let n := nat_of_ascii c in ((48 <=? n) && (n <=? 57))%nat.

Definition is_alpha (c : ascii) : bool := is_upper c || is_lower c.

Definition lower_char (c : ascii) : ascii :=
  if is_upper c then ascii_of_nat (nat_of_ascii c + 32) else c.

Definition upper_char (c : ascii) : ascii :=
  if is_lower c then ascii_of_nat (nat_of_ascii c - 32) else c.

Fixpoint smap (f : ascii -> ascii) (s : string) : string :=
  match s with
  | EmptyString => EmptyString
  | String c s' => String (f c) (smap f s')
  end.

(** [s.lower()] and [s.upper()] *)
Definition lower (s : string) : string := smap lower_char s.
Definition upper (s : string) : string := smap upper_char s.

Fixpoint sall (p : ascii -> bool) (s : string) : bool :=
  match s with
  | EmptyString => true
  | String c s' => p c && sall p s'
  end.

(** [bool(s)]: a string is truthy when it is not empty. *)
Definition truthy (s : string) : bool :=
  match s with EmptyString => false | _ => true end.

(** [s.isdigit()], on ASCII text: outside it Python also accepts digits
    of other scripts and superscripts. *)
Definition isdigit (s : string) : bool := truthy s && sall is_digit s.

(** [s.isascii()]: every character is below 128.  On such text the
    operations of this module are Python's. *)
Definition is_ascii (c : ascii) : bool := (nat_of_ascii c <? 128)%nat.
Definition isascii (s : string) : bool := sall is_ascii s.

(** [s.startswith(p)] *)
Fixpoint startswith (p s : string) : bool :=
  match p with
  | EmptyString => true
  | String a p' =>
      match s with
      | EmptyString => false
      | String b s' => Ascii.eqb a b && startswith p' s'
      end
  end.

(** [s[n:]] *)
Fixpoint drop (n : nat) (s : string) : string :=
  match n, s with
  | S k, String _ s' => drop k s'
  | _, _ => s
  end.

(** [s.endswith(p)] *)
Fixpoint endswith (p s : string) : bool :=
  String.eqb p s ||
  match s with
  | EmptyString => false
  | String _ s' => endswith p s'
  end.

(** [sub in s] *)
Fixpoint contains (sub s : string) : bool :=
  startswith sub s ||
  match s with
  | EmptyString => false
  | String _ s' => contains sub s'
  end.

(** [s.lstrip()], [s.rstrip()], [s.strip()] *)
Fixpoint lstrip (s : string) : string :=
  match s with
  | EmptyString => EmptyString
  | String c s' => if is_space c then lstrip s' else s
  end.

Fixpoint rstrip (s : string) : string :=
  match s with
  | EmptyString => EmptyString
  | String c s' =>
      match rstrip s' with
      | EmptyString => if is_space c then EmptyString else String c EmptyString
      | r => String c r
      end
  end.

Definition strip (s : string) : string := rstrip (lstrip s).

(** [s.replace(old, new)] for a non-empty [old]: occurrences are replaced
    from the left and do not overlap.  [skip] counts the characters of an
    occurrence that are still to be dropped. *)
Fixpoint replace_from (old new s : string) (skip : nat) : string :=
  match s with
  | EmptyString => EmptyString
  | String c s' =>
      match skip with
      | S k => replace_from old new s' k
      | O =>
          if startswith old s
          then new +:+ replace_from old new s' (String.length old - 1)
          else String c (replace_from old new s' 0)
      end
  end.

Definition replace (old new s : string) : string := replace_from old new s 0.

(** [s.split(sep)] for a one-character separator: never an empty list. *)
Fixpoint split_on (sep : ascii) (s : string) : list string :=
  match s with
  | EmptyString => [EmptyString]
  | String c s' =>
      if Ascii.eqb c sep then EmptyString :: split_on sep s'
      else match split_on sep s' with
           | [] => [String c EmptyString]
           | w :: ws => String c w :: ws
           end
  end.

(** [s.split()]: the maximal runs of characters that are not white space.
    [cur] is the run being read, in reverse. *)
Fixpoint rev_string (acc s : string) : string :=
  match s with
  | EmptyString => acc
  | String c s' => rev_string (String c acc) s'
  end.

Fixpoint split_ws_from (cur : string) (s : string) : list string :=
  match s with
  | EmptyString =>
      if truthy cur then [rev_string EmptyString cur] else []
  | String c s' =>
      if is_space c
      then (if truthy cur then [rev_string EmptyString cur] else [])
             ++ split_ws_from EmptyString s'
      else split_ws_from (String c cur) s'
  end.

Definition split_ws (s : string) : list string := split_ws_from EmptyString s.

(** [sep.join(l)] *)
Fixpoint join (sep : string) (l : list string) : string :=
  match l with
  | [] => EmptyString
  | [x] => x
  | x :: l' => x +:+ sep +:+ join sep l'
  end.

(** [int(s)] for a string of ASCII decimal digits that is within the
    interpreter's limit for the conversion (4300 digits unless configured
    otherwise), beyond which [int()] raises [ValueError]. *)
Definition digit_val (c : ascii) : Z := Z.of_nat (nat_of_ascii c - 48).

Fixpoint int_from (acc : Z) (s : string) : Z :=
  match s with
  | EmptyString => acc
  | String c s' => int_from (10 * acc + digit_val c) s'
  end.

Definition int_of (s : string) : Z := int_from 0 s.

End Py.

(** ** Exceptions *)

(** What a fallible step of the code yields: a value, or one of the
    exceptions the modules raise and catch. *)
Inductive Exn : Type :=
| ValueError (msg : string)
| RuntimeError (msg : string)
| ParseError (msg : string)
| LookupError (msg : string)
| TypeError.

Inductive Outcome (A : Type) : Type :=
| Ok (a : A)
| Raise (e : Exn).
Arguments Ok {A} a.
Arguments Raise {A} e.

Definition bind {A B} (m : Outcome A) (k : A -> Outcome B) : Outcome B :=
  match m with
  | Ok a => k a
  | Raise e => Raise e
  end.

Notation "'let?' x ':=' m 'in' k" := (bind m (fun x => k))
  (at level 10, x name, m at level 100, k at level 200).

(** [str(e)] of a caught exception. *)
Definition exn_text (e : Exn) : string :=
  match e with
  | ValueError m | RuntimeError m | ParseError m | LookupError m => m
  | TypeError => "TypeError"
  end.

(** [x or ""] for an optional string. *)
Definition or_empty (o : option string) : string :=
  match o with Some s => s | None => "" end.

(** [a or b] on strings: the first if it is not empty. *)
Definition str_or (a b : string) : string := if Py.truthy a then a else b.

(** ** WMTS defaults ([wmts_utils.py]) *)

Module Wmts.

(** The inner loops [for pref in prefs: for c in candidates: if c.lower() == pref: return c]. *)
Fixpoint first_pref (prefs candidates : list string) : option string :=
  match prefs with
  | [] => None
  | pref :: prefs' =>
      match List.find (fun c => String.eqb (Py.lower c) pref) candidates with
      | Some c => Some c
      | None => first_pref prefs' candidates
      end
  end.

Definition _prefer_format (fmts : list string) : option string :=
  match fmts with
  | [] => None
  | _ =>
      let lower_pairs :=
        List.map (fun f => (f, Py.lower f)) (List.filter Py.truthy fmts) in
      let filtered :=
        List.map fst
          (List.filter (fun p => negb (String.eqb (snd p) "image/jpgpng")) lower_pairs) in
      let candidates :=
        match filtered with
        | [] => List.map fst lower_pairs
        | _ => filtered
        end in
      match first_pref ["image/png"; "image/png8"; "image/png32"] candidates with
      | Some c => Some c
      | None =>
          match List.find (fun c => Py.contains "png" (Py.lower c)) candidates with
          | Some c => Some c
          | None =>
              match first_pref ["image/jpeg"; "image/jpg"] candidates with
              | Some c => Some c
              | None => List.hd_error candidates
              end
          end
      end
  end.

(** An entry of a layer's [matrix_sets]: [{"id": ..., "crs": ...}]. *)
Record MatrixSet : Type := { ms_id : string; ms_crs : option string }.

Definition is_3857 (crs : option string) : bool :=
  let s := Py.replace "::" ":" (Py.lower (or_empty crs)) in
  Py.contains "3857" s || Py.contains "900913" s
  || Py.contains "webmercator" (Py.replace " " "" s).

Definition is_4326 (crs : option string) : bool :=
  let s := Py.lower (or_empty crs) in
  Py.contains "4326" s || Py.contains "wgs84" (Py.replace " " "" s).

Definition _prefer_matrix_set (sets : list MatrixSet) : option string :=
  match sets with
  | [] => None
  | first :: _ =>
      match List.find (fun s => is_3857 (ms_crs s)) sets with
      | Some s => Some (ms_id s)
      | None =>
          match List.find (fun s => is_4326 (ms_crs s)) sets with
          | Some s => Some (ms_id s)
          | None => Some (ms_id first)
          end
      end
  end.

(** [for token in reversed(parts): if token.isdigit(): return token] *)
Definition last_digit_token (parts : list string) : option string :=
  List.find Py.isdigit (List.rev parts).

Definition _to_qgis_authid (crs_str : option string) : option string :=
  if Py.truthy (or_empty crs_str) then
    let s := Py.strip (or_empty crs_str) in
    if Py.startswith "EPSG:" (Py.upper s) then Some (Py.upper s)
    else if Py.contains "epsg" (Py.lower s) then
      match last_digit_token (Py.split_on ":" (Py.replace "::" ":" s)) with
      | Some token => Some ("EPSG:" +:+ token)
      | None => None
      end
    else None
  else None.

End Wmts.

(** ** ArcGIS REST resolution ([rest_utils.py]) *)

Module Rest.

(** An entry of the service info's [layers] array, as the code reads it:
    [L.get("id")] and [L.get("name")]. *)
Record Layer : Type := { l_id : option Z; l_name : option string }.

(** A layer identifier is an [int] or a [str]. *)
Inductive Ident : Type :=
| IdInt (z : Z)
| IdStr (s : string).

(** [str(z)] *)
Definition str_of_Z (z : Z) : string := NilZero.string_of_int (Z.to_int z).

(** The identifier as an f-string prints it. *)
Definition ident_text (i : Ident) : string :=
  match i with IdInt z => str_of_Z z | IdStr s => s end.

(** [int(L.get("id"))]: [int(None)] raises [TypeError]. *)
Definition int_id (L : Layer) : Outcome Z :=
  match l_id L with Some z => Ok z | None => Raise TypeError end.

(** [for L in layers: if int(L.get("id")) == lid: return lid, L.get("name")] *)
Fixpoint find_id (lid : Z) (layers : list Layer) : Outcome (option Layer) :=
  match layers with
  | [] => Ok None
  | L :: rest =>
      let? i := int_id L in
      if Z.eqb i lid then Ok (Some L) else find_id lid rest
  end.

(** [(L.get("name") or "").strip().lower()] *)
Definition norm_name (L : Layer) : string :=
  Py.lower (Py.strip (or_empty (l_name L))).

(** [isinstance(i, int) or (isinstance(i, str) and i.isdigit())] *)
Definition is_numeric (i : Ident) : bool :=
  match i with IdInt _ => true | IdStr s => Py.isdigit s end.

(** [int(i)] for a numeric identifier. *)
Definition ident_value (i : Ident) : Z :=
  match i with IdInt z => z | IdStr s => Py.int_of s end.

Definition _resolve_layer (layers : list Layer) (layer_identifier : Ident)
  : Outcome (Z * option string) :=
  match layers with
  | [] => Raise (ValueError "Service does not advertise any 'layers'.")
  | _ =>
      if is_numeric layer_identifier then
        let lid := ident_value layer_identifier in
        let? found := find_id lid layers in
        match found with
        | Some L => Ok (lid, l_name L)
        | None =>
            Raise (ValueError ("Layer id '" +:+ ident_text layer_identifier +:+ "' not found."))
        end
      else
        let needle := Py.lower (Py.strip (ident_text layer_identifier)) in
        match List.find (fun L => String.eqb (norm_name L) needle) layers with
        | Some L => let? i := int_id L in Ok (i, l_name L)
        | None =>
            match List.find (fun L => Py.truthy needle && Py.contains needle (norm_name L)) layers with
            | Some L => let? i := int_id L in Ok (i, l_name L)
            | None =>
                Raise (ValueError ("Layer '" +:+ ident_text layer_identifier +:+ "' not found by name."))
            end
        end
  end.

(** [_parse_supported_formats]: the trimmed, lower-cased tokens that are
    not blank, in order. *)
Definition _parse_supported_formats (fmt_str : option string) : list string :=
  List.map (fun t => Py.lower (Py.strip t))
    (List.filter (fun t => Py.truthy (Py.strip t)) (Py.split_on "," (or_empty fmt_str))).

Definition mem (x : string) (l : list string) : bool :=
  List.existsb (String.eqb x) l.

Definition arcgis_prefs : list string :=
  ["png32"; "png24"; "png8"; "png"; "jpg"; "jpeg"].

Definition _prefer_arcgis_format (requested_fmt : option string) (available : list string) : string :=
  let fallback :=
    match List.find (fun p => mem p available) arcgis_prefs with
    | Some p => p
    | None => match available with a :: _ => a | [] => "png32" end
    end in
  if Py.truthy (or_empty requested_fmt) then
    let r := Py.lower (Py.strip (or_empty requested_fmt)) in
    if mem r available then r else fallback
  else fallback.

End Rest.

(** ** The element tree of [xml.etree.ElementTree] *)

Module Xml.

(** An element: its tag as ElementTree spells it (["{uri}local"], or
    ["local"] without a namespace), its attributes, its text (the text
    before the first child, [None] when there is none) and its children
    in document order. *)
Inductive Element : Type :=
| Elem (tag : string) (attrib : gmap string string) (text : option string)
       (children : list Element).

Definition tag (e : Element) : string :=
  match e with Elem t _ _ _ => t end.
Definition attrib (e : Element) : gmap string string :=
  match e with Elem _ a _ _ => a end.
Definition text (e : Element) : option string :=
  match e with Elem _ _ x _ => x end.
Definition children (e : Element) : list Element :=
  match e with Elem _ _ _ c => c end.

(** The path ["name"]: children whose tag is exactly [name]. *)
Definition tag_is (name : string) (e : Element) : bool :=
  String.eqb (tag e) name.

(** The path ["{*}name"]: children named [name] in any namespace or in
    none (the tag is [name] or ends with ["}name"]). *)
Definition tag_any (name : string) (e : Element) : bool :=
  String.eqb (tag e) name || Py.endswith ("}" +:+ name) (tag e).

(** [elem.findall(path)] and [elem.find(path)] for a one-step path. *)
Definition findall (p : Element -> bool) (e : Element) : list Element :=
  List.filter p (children e).
Definition find (p : Element -> bool) (e : Element) : option Element :=
  List.find p (children e).

(** [elem.get(key)] *)
Definition get (e : Element) (key : string) : option string :=
  attrib e !! key.

(** [f] over the elements of [l] that satisfy [p], results appended:
    the loop [for child in findall(...): acc += f(child)]. *)
Definition flat_map_filter {B} (p : Element -> bool) (f : Element -> list B)
  : list Element -> list B :=
  fix go (l : list Element) : list B :=
    match l with
    | [] => []
    | x :: l' => if p x then f x ++ go l' else go l'
    end.

End Xml.

(** ** WMS capabilities ([wms_utils.py]) *)

Module Wms.

Definition NS_XLINK : string := "{http://www.w3.org/1999/xlink}".

Definition _findall_any (elem : Xml.Element) (localname : string) : list Xml.Element :=
  Xml.findall (Xml.tag_any localname) elem ++ Xml.findall (Xml.tag_is localname) elem.

Definition _first_any (elem : Xml.Element) (localname : string) : option Xml.Element :=
  match Xml.find (Xml.tag_any localname) elem with
  | Some res => Some res
  | None => Xml.find (Xml.tag_is localname) elem
  end.

(** The inner function [normalize_crs_tokens]: the codes of one CRS/SRS
    text, separated by blanks or commas. *)
Definition normalize_crs_tokens (text : string) : list string :=
  if Py.truthy text then
    List.map Py.strip (List.filter Py.truthy (Py.split_ws (Py.replace "," " " text)))
  else [].

(** One round of the loop [for crs in combined_crs] of [walk_layers]:
    what the token adds to [normalized_crs]. *)
Definition normalize_crs (crs : string) : list string :=
  if Py.truthy crs then
    let cs := Py.strip crs in
    let up := Py.upper cs in
    if Py.startswith "EPSG:" up then [up]
    else if Py.contains "EPSG" up then
      match Wmts.last_digit_token (Py.split_on ":" (Py.replace "::" ":" cs)) with
      | Some token => ["EPSG:" +:+ token]
      | None => []
      end
    else []
  else [].

(** [sorted(l)] for strings: ascending in the order of the characters'
    codes. *)
Fixpoint insert_sorted (x : string) (l : list string) : list string :=
  match l with
  | [] => [x]
  | y :: l' => if String.leb x y then x :: l else y :: insert_sorted x l'
  end.

Definition sorted (l : list string) : list string :=
  List.fold_right insert_sorted [] l.

(** [sorted(set(l))] *)
Definition sorted_set (l : list string) : list string :=
  sorted (elements (list_to_set l : gset string)).

(** A listed layer: [{"name": ..., "title": ..., "crs_list": [...]}]. *)
Record Layer : Type :=
  { name : string; title : string; crs_list : list string }.

(** The CRS and SRS entries of one element, in the order the code reads
    them. *)
Definition own_crs (elem : Xml.Element) : list string :=
  List.flat_map (fun e => normalize_crs_tokens (or_empty (Xml.text e))) (_findall_any elem "CRS")
  ++ List.flat_map (fun e => normalize_crs_tokens (or_empty (Xml.text e))) (_findall_any elem "SRS").

(** The entry the element itself contributes: one when it has a [Name]
    whose text is not blank. *)
Definition own_layer (elem : Xml.Element) (combined_crs : list string) : list Layer :=
  match _first_any elem "Name" with
  | Some name_el =>
      if Py.truthy (Py.strip (or_empty (Xml.text name_el))) then
        let nm := Py.strip (or_empty (Xml.text name_el)) in
        let ttl :=
          match _first_any elem "Title" with
          | Some title_el =>
              if Py.truthy (or_empty (Xml.text title_el))
              then Py.strip (or_empty (Xml.text title_el))
              else nm
          | None => nm
          end in
        [ {| name := nm; title := ttl;
             crs_list := sorted_set (List.flat_map normalize_crs combined_crs) |} ]
      else []
  | None => []
  end.

(** The inner function [walk_layers].  The children are visited in the
    order of [_findall_any(elem, "Layer")]: those named [Layer] in any
    namespace, then once more those named [Layer] without a namespace. *)
Fixpoint walk_layers (elem : Xml.Element) (inherited_crs : list string) {struct elem}
  : list Layer :=
  let combined_crs := inherited_crs ++ own_crs elem in
  own_layer elem combined_crs
  ++ match elem with
     | Xml.Elem _ _ _ children =>
         Xml.flat_map_filter (Xml.tag_any "Layer")
           (fun child => walk_layers child combined_crs) children
         ++ Xml.flat_map_filter (Xml.tag_is "Layer")
           (fun child => walk_layers child combined_crs) children
     end.

(** The loop that keeps the first entry of every name. *)
Fixpoint uniq_from (seen : gset string) (all_layers : list Layer) : list Layer :=
  match all_layers with
  | [] => []
  | d :: rest =>
      if decide (name d ∈ seen) then uniq_from seen rest
      else d :: uniq_from ({[ name d ]} ∪ seen) rest
  end.

(** The root layer: the first [Layer] of [Capability], else the first
    [Layer] of the document element. *)
Definition root_layer (root : Xml.Element) : option Xml.Element :=
  let under_cap :=
    match _first_any root "Capability" with
    | Some cap => _first_any cap "Layer"
    | None => None
    end in
  match under_cap with
  | Some l => Some l
  | None => _first_any root "Layer"
  end.

(** [_parse_layers_from_caps] once [ET.fromstring] has produced the tree. *)
Definition parse_layers_of_root (root : Xml.Element) : list Layer :=
  match root_layer root with
  | None => []
  | Some rl => uniq_from ∅ (walk_layers rl [])
  end.

(** [_extract_getmap_base] once [ET.fromstring] has produced the tree. *)
Definition getmap_base_of_root (root : Xml.Element) : string :=
  let cap := match _first_any root "Capability" with Some c => c | None => root end in
  match _first_any cap "Request" with
  | None => ""
  | Some req =>
  match _first_any req "GetMap" with
  | None => ""
  | Some getmap =>
  match (match _first_any getmap "DCPType" with
         | Some d => Some d
         | None => _first_any getmap "DCP"
         end) with
  | None => ""
  | Some dcp =>
  match _first_any dcp "HTTP" with
  | None => ""
  | Some http =>
  match _first_any http "Get" with
  | None => ""
  | Some get =>
  match _first_any get "OnlineResource" with
  | None => ""
  | Some or_el =>
      Py.strip
        (str_or (or_empty (Xml.get or_el (NS_XLINK +:+ "href")))
           (str_or (or_empty (Xml.get or_el "href")) ""))
  end end end end end end.

End Wms.

(** ** [urllib.parse] *)

(** The functions of [urllib.parse] that the modules call.  [urlsplit] is
    CPython's since its security releases of 2023 (it drops leading
    control characters and blanks, and a scheme starts with a letter);
    [urlunsplit] is CPython's since 3.12.4, and [urlunsplit_before] is
    what it was before, which differs for parts without a network
    location.  A percent escape [%XY] stands for the character of code
    [XY], which is what the library reads and writes as long as the
    decoded text is ASCII; it decodes and encodes other text by UTF-8. *)

Module Url.

(** The five parts of [urlsplit]. *)
Record SplitResult : Type :=
  { scheme : string; netloc : string; path : string; query : string; fragment : string }.

(** The longest prefix without a character satisfying [p], and the rest
    (empty, or starting with such a character). *)
Fixpoint span_until (p : ascii -> bool) (s : string) : string * string :=
  match s with
  | EmptyString => (EmptyString, EmptyString)
  | String c s' =>
      if p c then (EmptyString, s)
      else let (a, b) := span_until p s' in (String c a, b)
  end.

(** [a, b = s.split(c, 1)] when [c] occurs in [s]; [(s, "")] when not. *)
Definition cut (c : ascii) (s : string) : string * string :=
  let (a, b) := span_until (Ascii.eqb c) s in
  (a, match b with String _ b' => b' | EmptyString => EmptyString end).

Fixpoint sfilter (p : ascii -> bool) (s : string) : string :=
  match s with
  | EmptyString => EmptyString
  | String c s' => if p c then String c (sfilter p s') else sfilter p s'
  end.

(** [_WHATWG_C0_CONTROL_OR_SPACE]: the characters up to the blank. *)
Definition is_c0_or_space (c : ascii) : bool := (nat_of_ascii c <=? 32)%nat.

Fixpoint lstrip_c0 (s : string) : string :=
  match s with
  | EmptyString => EmptyString
  | String c s' => if is_c0_or_space c then lstrip_c0 s' else s
  end.

(** [_UNSAFE_URL_BYTES_TO_REMOVE]: TAB, CR and LF. *)
Definition is_unsafe (c : ascii) : bool :=
  let n := nat_of_ascii c in ((n =? 9) || (n =? 13) || (n =? 10))%nat.

Definition scheme_char (c : ascii) : bool :=
  Py.is_alpha c || Py.is_digit c
  || Ascii.eqb c "+" || Ascii.eqb c "-" || Ascii.eqb c ".".

Definition first_is (p : ascii -> bool) (s : string) : bool :=
  match s with String c _ => p c | EmptyString => false end.

(** The scheme of a URL, lower-cased, and what follows its colon; no
    scheme when the text before the first colon is empty, does not start
    with a letter or has a character that a scheme cannot have. *)
Definition split_scheme (url : string) : string * string :=
  let (pre, rest) := span_until (Ascii.eqb ":") url in
  match rest with
  | String _ after =>
      if first_is Py.is_alpha pre && Py.sall scheme_char pre
      then (Py.lower pre, after)
      else (EmptyString, url)
  | EmptyString => (EmptyString, url)
  end.

Definition netloc_end (c : ascii) : bool :=
  Ascii.eqb c "/" || Ascii.eqb c "?" || Ascii.eqb c "#".

(** [if url[:2] == '//': netloc, url = _splitnetloc(url, 2)] *)
Definition split_netloc (url : string) : string * string :=
  if Py.startswith "//" url then span_until netloc_end (Py.drop 2 url)
  else (EmptyString, url).

Section Split.

(** The checks [urlsplit] makes on the network location (matching
    brackets, a bracketed host that is an IP literal, NFKC normalisation):
    the message of the [ValueError] when it is refused.  They only look at
    the network location and accept the empty one. *)
Variable netloc_error : string -> option string.

Definition urlsplit (url : string) : Outcome SplitResult :=
  let url := sfilter (fun c => negb (is_unsafe c)) (lstrip_c0 url) in
  let (sch, url) := split_scheme url in
  let (loc, url) := split_netloc url in
  match (if Py.truthy loc then netloc_error loc else None) with
  | Some msg => Raise (ValueError msg)
  | None =>
      let (url, frag) := cut "#" url in
      let (url, qry) := cut "?" url in
      Ok {| scheme := sch; netloc := loc; path := url; query := qry; fragment := frag |}
  end.

End Split.

Definition uses_netloc : list string :=
  [""; "ftp"; "http"; "gopher"; "nntp"; "telnet"; "imap"; "wais"; "file"; "mms";
   "https"; "shttp"; "snews"; "prospero"; "rtsp"; "rtsps"; "rtspu"; "rsync";
   "svn"; "svn+ssh"; "sftp"; "nfs"; "git"; "git+ssh"; "ws"; "wss"; "itms-services"].

Definition urlunsplit (parts : SplitResult) : string :=
  let url := path parts in
  let url :=
    if Py.truthy (netloc parts) then
      "//" +:+ netloc parts
      +:+ (if Py.truthy url && negb (Py.startswith "/" url) then "/" +:+ url else url)
    else if Py.startswith "//" url then "//" +:+ url
    else if Py.truthy (scheme parts) && Rest.mem (scheme parts) uses_netloc
            && (negb (Py.truthy url) || Py.startswith "/" url)
    then "//" +:+ url
    else url in
  let url := if Py.truthy (scheme parts) then scheme parts +:+ ":" +:+ url else url in
  let url := if Py.truthy (query parts) then url +:+ "?" +:+ query parts else url in
  if Py.truthy (fragment parts) then url +:+ "#" +:+ fragment parts else url.

(** *** Percent escapes *)

Definition hex_digit (n : nat) : ascii :=
  if (n <? 10)%nat then ascii_of_nat (48 + n) else ascii_of_nat (55 + n).

Definition hex_val (c : ascii) : option nat :=
  let n := nat_of_ascii c in
  if Py.is_digit c then Some (n - 48)
  else if ((65 <=? n) && (n <=? 70))%nat then Some (n - 55)
  else if ((97 <=? n) && (n <=? 102))%nat then Some (n - 87)
  else None.

(** [_ALWAYS_SAFE]: letters, digits and [_.-~]. *)
Definition always_safe (c : ascii) : bool :=
  Py.is_alpha c || Py.is_digit c
  || Ascii.eqb c "_" || Ascii.eqb c "." || Ascii.eqb c "-" || Ascii.eqb c "~".

(** [quote_plus(s)]: safe characters as they are, a blank as [+], any
    other character as [%XY] in upper-case hexadecimal. *)
Fixpoint quote_plus (s : string) : string :=
  match s with
  | EmptyString => EmptyString
  | String c s' =>
      if always_safe c then String c (quote_plus s')
      else if Ascii.eqb c " " then String "+" (quote_plus s')
      else String "%"
             (String (hex_digit (nat_of_ascii c / 16))
                (String (hex_digit (nat_of_ascii c mod 16)) (quote_plus s')))
  end.

(** [unquote(s)]: every [%XY] with two hexadecimal digits becomes the
    character of that code; a percent sign not followed by two such
    digits stays. *)
Fixpoint unquote (s : string) : string :=
  match s with
  | EmptyString => EmptyString
  | String c t =>
      if Ascii.eqb c "%" then
        match t with
        | String h1 (String h2 rest) =>
            match hex_val h1, hex_val h2 with
            | Some a, Some b => String (ascii_of_nat (16 * a + b)) (unquote rest)
            | _, _ => String c (unquote t)
            end
        | _ => String c (unquote t)
        end
      else String c (unquote t)
  end.

(** [unquote(s.replace('+', ' '))] *)
Definition unquote_plus (s : string) : string := unquote (Py.replace "+" " " s).

(** *** Query strings *)

(** [parse_qsl(qs, keep_blank_values=True)]: the fields between [&] that
    are not empty, each split at its first [=] (a field without one has
    an empty value), both sides decoded. *)
Definition parse_field (name_value : string) : string * string :=
  let (n, v) := cut "=" name_value in (unquote_plus n, unquote_plus v).

Definition parse_qsl (qs : string) : list (string * string) :=
  List.map parse_field (List.filter Py.truthy (Py.split_on "&" qs)).

(** A [dict] with string keys and values keeps the order in which the
    keys were first inserted; [d[k] = v] on a present key changes the
    value in place. *)
Definition Dict : Type := list (string * string).

Fixpoint dict_set (k v : string) (d : Dict) : Dict :=
  match d with
  | [] => [(k, v)]
  | (k', v') :: d' =>
      if String.eqb k' k then (k', v) :: d' else (k', v') :: dict_set k v d'
  end.

(** [dict(pairs)] *)
Definition dict_of (pairs : list (string * string)) : Dict :=
  List.fold_left (fun d kv => dict_set (fst kv) (snd kv) d) pairs [].

(** [urlencode(q, doseq=True)] for string values. *)
Definition urlencode (q : Dict) : string :=
  Py.join "&" (List.map (fun kv => quote_plus (fst kv) +:+ "=" +:+ quote_plus (snd kv)) q).

(** *** The service base *)

(** [k.lower() in {"service", "request", "version"}] *)
Definition caps_key (k : string) : bool :=
  Rest.mem (Py.lower k) ["service"; "request"; "version"].

(** The loop [for k in list(q.keys()): if ...: q.pop(k, None)]. *)
Definition drop_caps_keys (q : Dict) : Dict :=
  List.filter (fun kv => negb (caps_key (fst kv))) q.

Definition with_query (parts : SplitResult) (q : string) : SplitResult :=
  {| scheme := scheme parts; netloc := netloc parts; path := path parts;
     query := q; fragment := fragment parts |}.

Section ServiceBase.

Variable netloc_error : string -> option string.

(** [wms_utils._normalize_service_base] *)
Definition wms_normalize_service_base (url : string) : Outcome string :=
  let? parts := urlsplit netloc_error url in
  let q := drop_caps_keys (dict_of (parse_qsl (query parts))) in
  Ok (urlunsplit (with_query parts (urlencode q))).

(** [wmts_utils._normalize_service_base] *)
Definition wmts_normalize_service_base (url : string) : Outcome string :=
  if Py.truthy url then wms_normalize_service_base url else Ok "".

(** [wms_utils._build_caps_url] *)
Definition wms_build_caps_url (base_url version : string) : Outcome string :=
  let? parts := urlsplit netloc_error (Py.strip base_url) in
  let q := dict_of (parse_qsl (query parts)) in
  let q := dict_set "VERSION" version
             (dict_set "REQUEST" "GetCapabilities" (dict_set "SERVICE" "WMS" q)) in
  Ok (urlunsplit (with_query parts (urlencode q))).

(** [wmts_utils._build_caps_url] *)
Definition wmts_build_caps_url (base_url : string) : Outcome string :=
  let? parts := urlsplit netloc_error (Py.strip base_url) in
  let q := dict_of (parse_qsl (query parts)) in
  let q := dict_set "REQUEST" "GetCapabilities" (dict_set "SERVICE" "WMTS" q) in
  Ok (urlunsplit (with_query parts (urlencode q))).

End ServiceBase.

(** *** The interpreter's release *)

(** [urlunsplit] before CPython 3.12.4: without a network location, the
    two slashes are written for a scheme that uses network locations
    unless the path starts with two slashes, and the path is then made
    absolute; a path that starts with two slashes is written as it is. *)
Definition uses_netloc_before : list string :=
  [""; "ftp"; "http"; "gopher"; "nntp"; "telnet"; "imap"; "wais"; "file"; "mms";
   "https"; "shttp"; "snews"; "prospero"; "rtsp"; "rtspu"; "rsync";
   "svn"; "svn+ssh"; "sftp"; "nfs"; "git"; "git+ssh"; "ws"; "wss"].

Definition urlunsplit_before (parts : SplitResult) : string :=
  let url := path parts in
  let url :=
    if Py.truthy (netloc parts)
       || (Py.truthy (scheme parts) && Rest.mem (scheme parts) uses_netloc_before
           && negb (Py.startswith "//" url))
    then
      "//" +:+ netloc parts
      +:+ (if Py.truthy url && negb (Py.startswith "/" url) then "/" +:+ url else url)
    else url in
  let url := if Py.truthy (scheme parts) then scheme parts +:+ ":" +:+ url else url in
  let url := if Py.truthy (query parts) then url +:+ "?" +:+ query parts else url in
  if Py.truthy (fragment parts) then url +:+ "#" +:+ fragment parts else url.

Inductive Release : Type := Before_3_12_4 | Since_3_12_4.

(** The URL helpers of the modules with the [urlunsplit] of a given
    release of the interpreter. *)
Module On.

Section Release.

Variable release : Release.
Variable netloc_error : string -> option string.

Definition urlunsplit (parts : SplitResult) : string :=
  match release with
  | Before_3_12_4 => urlunsplit_before parts
  | Since_3_12_4 => Url.urlunsplit parts
  end.

(** [wms_utils._normalize_service_base] *)
Definition wms_normalize_service_base (url : string) : Outcome string :=
  let? parts := urlsplit netloc_error url in
  let q := drop_caps_keys (dict_of (parse_qsl (query parts))) in
  Ok (urlunsplit (with_query parts (urlencode q))).

(** [wmts_utils._normalize_service_base] *)
Definition wmts_normalize_service_base (url : string) : Outcome string :=
  if Py.truthy url then wms_normalize_service_base url else Ok "".

(** [wms_utils._build_caps_url] *)
Definition wms_build_caps_url (base_url version : string) : Outcome string :=
  let? parts := urlsplit netloc_error (Py.strip base_url) in
  let q := dict_of (parse_qsl (query parts)) in
  let q := dict_set "VERSION" version
             (dict_set "REQUEST" "GetCapabilities" (dict_set "SERVICE" "WMS" q)) in
  Ok (urlunsplit (with_query parts (urlencode q))).

(** [wmts_utils._build_caps_url] *)
Definition wmts_build_caps_url (base_url : string) : Outcome string :=
  let? parts := urlsplit netloc_error (Py.strip base_url) in
  let q := dict_of (parse_qsl (query parts)) in
  let q := dict_set "REQUEST" "GetCapabilities" (dict_set "SERVICE" "WMTS" q) in
  Ok (urlunsplit (with_query parts (urlencode q))).

(** [rest_utils._clean_base_url] *)
Definition _clean_base_url (url : string) : Outcome string :=
  let? parts := urlsplit netloc_error (Py.strip url) in
  Ok (urlunsplit
        {| scheme := scheme parts; netloc := netloc parts;
           path := path parts; query := ""; fragment := "" |}).

End Release.

End On.

(** Whether the decoded keys and values of a query are ASCII text. *)
Definition plain_query (qs : string) : bool :=
  List.forallb (fun kv => Py.isascii (fst kv) && Py.isascii (snd kv)) (parse_qsl qs).

End Url.

(** ** The collaborators: transport, tree widget, dialogs, project *)

Module Gui.

(** A line of the tree widget, as [load_wms_layers] fills it: the two
    columns, the check state, and the data under [Qt.UserRole] and
    [Qt.UserRole + 1]. *)
Record Item : Type :=
  { item_name : string; item_title : string; item_checked : bool;
    item_base : string; item_crs : list string }.

(** What the procedures act on: the tree widget, the message boxes shown
    (title and text), the URLs requested from the network, and, for the
    map project, the layer descriptors constructed and those added. *)
Record World : Type :=
  { tree : list Item;
    dialogs : list (string * string);
    requests : list string;
    constructed : list string;
    project : list (string * string) }.

(** A procedure: it changes the world and returns or raises. *)
Definition M (A : Type) : Type := World -> World * Outcome A.

Definition ret {A} (a : A) : M A := fun w => (w, Ok a).
Definition lift {A} (o : Outcome A) : M A := fun w => (w, o).
Definition mbind {A B} (m : M A) (k : A -> M B) : M B :=
  fun w => match m w with
           | (w', Ok a) => k a w'
           | (w', Raise e) => (w', Raise e)
           end.

(** [QMessageBox.critical(None, title, text)] *)
Definition critical (title text : string) : M unit :=
  fun w => ({| tree := tree w; dialogs := dialogs w ++ [(title, text)];
               requests := requests w; constructed := constructed w;
               project := project w |}, Ok tt).

(** [tree_widget.clear()] followed by [addTopLevelItem] for each item. *)
Definition refill (items : list Item) : M unit :=
  fun w => ({| tree := items; dialogs := dialogs w;
               requests := requests w; constructed := constructed w;
               project := project w |}, Ok tt).

Definition log_request (url : string) (w : World) : World :=
  {| tree := tree w; dialogs := dialogs w; requests := requests w ++ [url];
     constructed := constructed w; project := project w |}.

Definition log_constructed (uri : string) (w : World) : World :=
  {| tree := tree w; dialogs := dialogs w; requests := requests w;
     constructed := constructed w ++ [uri]; project := project w |}.

(** [QgsProject.instance().addMapLayer(layer)] *)
Definition addMapLayer (uri display_name : string) : M unit :=
  fun w => ({| tree := tree w; dialogs := dialogs w; requests := requests w;
               constructed := constructed w;
               project := project w ++ [(uri, display_name)] |}, Ok tt).

End Gui.

Notation "'let!' x ':=' m 'in' k" := (Gui.mbind m (fun x => k))
  (at level 10, x name, m at level 100, k at level 200).

(** The line feed of the messages. *)
Definition nl : string := String (ascii_of_nat 10) EmptyString.

(** ** Transport ([net_utils.py]) *)

Module Net.

Section Transport.

(** [_blocking_get(url, timeout_ms)]: the bytes and the final URL, or
    [None] and the text of the error. *)
Variable _blocking_get : string -> Z -> option string * string.

Definition http_get_bytes (url : string) (timeout_ms : Z) : Gui.M (string * string) :=
  fun w =>
    let w' := Gui.log_request url w in
    match _blocking_get url timeout_ms with
    | (None, err_or_url) =>
        (w', Raise (RuntimeError ("Network error for " +:+ url +:+ ": " +:+ err_or_url)))
    | (Some data, err_or_url) => (w', Ok (data, err_or_url))
    end.

End Transport.

End Net.

(** ** Listing the layers of a WMS ([wms_utils.load_wms_layers]) *)

Module WmsLoad.

Section Load.

Variable netloc_error : string -> option string.
Variable _blocking_get : string -> Z -> option string * string.
(** [ET.fromstring]: the tree, or the exception that the parser raises:
    [ParseError] for a document that is not well formed, and also
    [ValueError] or [LookupError] for a document declared in an encoding
    that it does not support. *)
Variable fromstring : string -> Outcome Xml.Element.

Definition parse (xml_bytes : string) : Outcome Xml.Element := fromstring xml_bytes.

Definition _parse_layers_from_caps (xml_bytes : string) : Outcome (list Wms.Layer) :=
  let? root := parse xml_bytes in Ok (Wms.parse_layers_of_root root).

Definition _extract_getmap_base (xml_bytes : string) : Outcome string :=
  let? root := parse xml_bytes in Ok (Wms.getmap_base_of_root root).

(** [clean_url] *)
Definition clean_url (url : string) : string := Py.strip url.

Definition item_of (base_url : string) (lyr : Wms.Layer) : Gui.Item :=
  {| Gui.item_name := Wms.name lyr; Gui.item_title := Wms.title lyr;
     Gui.item_checked := false;
     Gui.item_base := base_url; Gui.item_crs := Wms.crs_list lyr |}.

(** How one round of the loop over the versions ends when it does not
    raise: with [return] after filling the tree, or with [continue]
    after finding no layer. *)
Inductive Round : Type := Returned | NoLayers.

(** The body of the [try] for one version. *)
Definition round (wms_link ver : string) : Gui.M Round :=
  let! caps_url := Gui.lift (Url.wms_build_caps_url netloc_error wms_link ver) in
  let! got := Net.http_get_bytes _blocking_get caps_url 15000 in
  let xml_bytes := fst got in
  let used_caps_url := snd got in
  let! layers := Gui.lift (_parse_layers_from_caps xml_bytes) in
  match layers with
  | [] => Gui.ret NoLayers
  | _ =>
      let! advertised_getmap := Gui.lift (_extract_getmap_base xml_bytes) in
      let! base_url :=
        Gui.lift (Url.wms_normalize_service_base netloc_error
                    (str_or advertised_getmap used_caps_url)) in
      let! _ := Gui.refill (List.map (item_of base_url) layers) in
      Gui.ret Returned
  end.

(** [except (ET.ParseError, RuntimeError) as e]: the text of [e] when the
    clause catches it. *)
Definition caught (e : Exn) : option string :=
  match e with
  | ParseError m | RuntimeError m => Some m
  | _ => None
  end.

Definition failure_text (wms_link : string) (errors : list string) : string :=
  "Failed to read WMS GetCapabilities from:" +:+ nl +:+ wms_link +:+ nl +:+ nl
  +:+ "Details:" +:+ nl +:+ Py.join nl errors.

(** The loop [for ver in ("1.3.0", "1.1.1")] and the message box after it. *)
Fixpoint versions (wms_link : string) (vers : list string) (errors : list string)
  : Gui.M unit :=
  match vers with
  | [] => Gui.critical "WMS Error" (failure_text wms_link errors)
  | ver :: rest =>
      fun w =>
        match round wms_link ver w with
        | (w', Ok Returned) => (w', Ok tt)
        | (w', Ok NoLayers) =>
            versions wms_link rest
              (errors ++ ["No layers found in capabilities (version " +:+ ver +:+ ")."]) w'
        | (w', Raise e) =>
            match caught e with
            | Some m => versions wms_link rest (errors ++ [ver +:+ ": " +:+ m]) w'
            | None => (w', Raise e)
            end
        end
  end.

Definition load_wms_layers (wms_link : string) : Gui.M unit :=
  versions (clean_url wms_link) ["1.3.0"; "1.1.1"] [].

End Load.

End WmsLoad.

(** ** WMTS capabilities and adding a WMTS layer ([wmts_utils.py]) *)

Module WmtsCaps.

Definition wmts (local : string) : string := "{http://www.opengis.net/wmts/1.0}" +:+ local.
Definition ows (local : string) : string := "{http://www.opengis.net/ows/1.1}" +:+ local.
Definition xlink (local : string) : string := "{http://www.w3.org/1999/xlink}" +:+ local.

(** [(el.text or "").strip()] *)
Definition stripped_text (e : Xml.Element) : string := Py.strip (or_empty (Xml.text e)).

(** [_extract_gettile_base] once the tree is there. *)
Definition gettile_href (op : Xml.Element) : option string :=
  if String.eqb (Py.lower (or_empty (Xml.get op "name"))) "gettile" then
    match Xml.find (Xml.tag_is (ows "DCP")) op with
    | None => None
    | Some dcp =>
    match Xml.find (Xml.tag_is (ows "HTTP")) dcp with
    | None => None
    | Some http =>
    match Xml.find (Xml.tag_is (ows "Get")) http with
    | None => None
    | Some get =>
        Some (Py.strip (str_or (or_empty (Xml.get get (xlink "href")))
                          (str_or (or_empty (Xml.get get "href")) "")))
    end end end
  else None.

Fixpoint first_some {A B} (f : A -> option B) (l : list A) : option B :=
  match l with
  | [] => None
  | x :: l' => match f x with Some y => Some y | None => first_some f l' end
  end.

Definition gettile_base_of_root (root : Xml.Element) : string :=
  match Xml.find (Xml.tag_is (ows "OperationsMetadata")) root with
  | None => ""
  | Some ops =>
      or_empty (first_some gettile_href (Xml.findall (Xml.tag_is (ows "Operation")) ops))
  end.

(** A value of the dictionary of tile matrix sets: [{"crs": ..., "count": ...}]. *)
Record Tms : Type := { tms_crs : option string; tms_count : nat }.

Definition _parse_tile_matrix_sets (root : Xml.Element) : gmap string Tms :=
  match Xml.find (Xml.tag_is (wmts "Contents")) root with
  | None => ∅
  | Some contents =>
      List.fold_left
        (fun out tms =>
           match Xml.find (Xml.tag_is (ows "Identifier")) tms with
           | None => out
           | Some id_el =>
               let crs :=
                 match Xml.find (Xml.tag_is (ows "SupportedCRS")) tms with
                 | Some crs_el => Some (stripped_text crs_el)
                 | None => None
                 end in
               <[ stripped_text id_el :=
                    {| tms_crs := crs;
                       tms_count := List.length (Xml.findall (Xml.tag_is (wmts "TileMatrix")) tms) |} ]> out
           end)
        (Xml.findall (Xml.tag_is (wmts "TileMatrixSet")) contents) ∅
  end.

(** An entry of the list of layers. *)
Record Layer : Type :=
  { identifier : string;
    title : string;
    formats : list string;
    matrix_sets : list Wmts.MatrixSet;
    styles : list string;
    default_style : option string;
    default_format : option string;
    default_matrix_set : option string }.

(** The links of a layer to tile matrix sets, with the CRS of each
    looked up in the dictionary. *)
Definition ms_links (tms_dict : gmap string Tms) (layer : Xml.Element) : list Wmts.MatrixSet :=
  List.flat_map
    (fun link =>
       match Xml.find (Xml.tag_is (wmts "TileMatrixSet")) link with
       | None => []
       | Some ms_el =>
           let ms_id := stripped_text ms_el in
           if Py.truthy ms_id then
             [ {| Wmts.ms_id := ms_id;
                  Wmts.ms_crs := match tms_dict !! ms_id with
                                 | Some t => tms_crs t
                                 | None => None
                                 end |} ]
           else []
       end)
    (Xml.findall (Xml.tag_is (wmts "TileMatrixSetLink")) layer).

(** The identifier of a [Style] element ([""] when it has none). *)
Definition style_id (st : Xml.Element) : string :=
  match Xml.find (Xml.tag_is (ows "Identifier")) st with
  | Some sid_el => stripped_text sid_el
  | None => ""
  end.

Definition is_default_flag (st : Xml.Element) : bool :=
  Rest.mem (Py.lower (or_empty (Xml.get st "isDefault"))) ["true"; "1"; "yes"].

(** The loop over the styles: the identifiers, and the last one flagged
    as default. *)
Definition styles_of (layer : Xml.Element) : list string * option string :=
  List.fold_left
    (fun acc st =>
       let sid := style_id st in
       if Py.truthy sid then
         (fst acc ++ [sid], if is_default_flag st then Some sid else snd acc)
       else acc)
    (Xml.findall (Xml.tag_is (wmts "Style")) layer) ([], None).

Definition pick_default_style (styles : list string) (flagged : option string) : option string :=
  match flagged with
  | Some s => Some s
  | None =>
      match List.find (fun s => String.eqb (Py.lower s) "default") styles with
      | Some s => Some s
      | None => List.hd_error styles
      end
  end.

Definition _parse_layers (root : Xml.Element) (tms_dict : gmap string Tms) : list Layer :=
  match Xml.find (Xml.tag_is (wmts "Contents")) root with
  | None => []
  | Some contents =>
      List.flat_map
        (fun layer =>
           match Xml.find (Xml.tag_is (ows "Identifier")) layer with
           | None => []
           | Some ident_el =>
               let ident := stripped_text ident_el in
               if Py.truthy ident then
                 let ttl := match Xml.find (Xml.tag_is (ows "Title")) layer with
                            | Some title_el => stripped_text title_el
                            | None => ident
                            end in
                 let fmts := List.filter Py.truthy
                               (List.map stripped_text
                                  (Xml.findall (Xml.tag_is (wmts "Format")) layer)) in
                 let links := ms_links tms_dict layer in
                 let st := styles_of layer in
                 [ {| identifier := ident; title := ttl; formats := fmts;
                      matrix_sets := links; styles := fst st;
                      default_style := pick_default_style (fst st) (snd st);
                      default_format := Wmts._prefer_format fmts;
                      default_matrix_set := Wmts._prefer_matrix_set links |} ]
               else []
           end)
        (Xml.findall (Xml.tag_is (wmts "Layer")) contents)
  end.

End WmtsCaps.

Module WmtsAdd.

Import WmtsCaps.

(** [a or b] on optional strings. *)
Definition opt_or (a b : option string) : option string :=
  if Py.truthy (or_empty a) then a else b.

(** Locating the layer: by identifier, then by identifier without
    regard to case, then by title without regard to case. *)
Definition find_layer (layers : list Layer) (layer_identifier : string) : option Layer :=
  let low := Py.lower (Py.strip layer_identifier) in
  match List.find (fun L => String.eqb (identifier L) layer_identifier) layers with
  | Some L => Some L
  | None =>
      match List.find (fun L => String.eqb (Py.lower (identifier L)) low) layers with
      | Some L => Some L
      | None =>
          List.find (fun L => String.eqb (Py.lower (Py.strip (title L))) low) layers
      end
  end.

(** What the code has settled before it tries the base URLs. *)
Record Plan : Type :=
  { common_params : list string; display_name : string; base_candidates : list string }.

Section Add.

Variable netloc_error : string -> option string.
Variable _blocking_get : string -> Z -> option string * string.
(** [ET.fromstring]: the tree, or the exception that the parser raises. *)
Variable fromstring : string -> Outcome Xml.Element.
(** [QgsRasterLayer(uri, display_name, "wms").isValid()] *)
Variable isValid : string -> string -> bool.

Definition parse (xml_bytes : string) : Outcome Xml.Element := fromstring xml_bytes.

Definition _extract_gettile_base (xml_bytes : string) : Outcome string :=
  let? root := parse xml_bytes in Ok (gettile_base_of_root root).

(** From the capabilities to the parameters and the base candidates. *)
Definition plan (layer_identifier : string) (matrix_set fmt : option string)
    (xml_bytes used_caps_url : string) : Outcome Plan :=
  let? root := parse xml_bytes in
  let tms_dict := _parse_tile_matrix_sets root in
  let layers := _parse_layers root tms_dict in
  match find_layer layers layer_identifier with
  | None =>
      Raise (ValueError ("WMTS layer '" +:+ layer_identifier +:+ "' not found in capabilities."))
  | Some m =>
      let? chosen_ms :=
        (let c := or_empty (opt_or matrix_set (default_matrix_set m)) in
         if Py.truthy c then Ok c
         else match matrix_sets m with
              | s :: _ => Ok (Wmts.ms_id s)
              | [] => Raise (ValueError ("WMTS layer '" +:+ identifier m +:+ "' has no TileMatrixSet."))
              end) in
      let chosen_fmt :=
        or_empty (opt_or (opt_or fmt (default_format m)) (Wmts._prefer_format (formats m))) in
      if negb (Py.truthy chosen_fmt) then
        Raise (ValueError ("WMTS layer '" +:+ identifier m +:+ "' has no advertised image formats."))
      else
        let crs_authid :=
          match List.find (fun ms => String.eqb (Wmts.ms_id ms) chosen_ms) (matrix_sets m) with
          | Some ms => Wmts._to_qgis_authid (Wmts.ms_crs ms)
          | None => None
          end in
        let chosen_style :=
          str_or (or_empty (default_style m))
            (match styles m with s :: _ => s | [] => "default" end) in
        let? caps_base := Url.wmts_normalize_service_base netloc_error used_caps_url in
        let? gettile := _extract_gettile_base xml_bytes in
        let? tile_base := Url.wmts_normalize_service_base netloc_error gettile in
        let rest_params :=
          [ "layers=" +:+ identifier m; "styles=" +:+ chosen_style;
            "format=" +:+ chosen_fmt; "tileMatrixSet=" +:+ chosen_ms ] in
        Ok {| common_params :=
                "contextualWMSLegend=0"
                :: (if Py.truthy (or_empty crs_authid)
                    then ("crs=" +:+ or_empty crs_authid) :: rest_params
                    else rest_params);
              display_name := str_or (title m) (identifier m);
              base_candidates := List.filter Py.truthy [caps_base; tile_base] |}
  end.

(** The descriptor for one base URL. *)
Definition uri_for (common_params : list string) (base_url : string) : string :=
  Py.join "&" (common_params ++ ["url=" +:+ base_url]).

(** The loop over the base candidates and the [raise] after it. *)
Fixpoint try_bases (common_params : list string) (display_name : string)
    (bases : list string) (last_err : option string) : Gui.M unit :=
  match bases with
  | [] =>
      Gui.lift (Raise (RuntimeError
        (str_or (or_empty last_err) "Could not create WMTS layer with any base URL.")))
  | base_url :: rest =>
      fun w =>
        let uri := uri_for common_params base_url in
        let w' := Gui.log_constructed uri w in
        if isValid uri display_name then Gui.addMapLayer uri display_name w'
        else try_bases common_params display_name rest
               (Some ("Invalid with base: " +:+ base_url)) w'
  end.

(** The body of the [try]. *)
Definition add_body (layer_identifier wmts_link : string) (matrix_set fmt : option string)
  : Gui.M unit :=
  let! caps_url := Gui.lift (Url.wmts_build_caps_url netloc_error wmts_link) in
  let! got := Net.http_get_bytes _blocking_get caps_url 15000 in
  let! p := Gui.lift (plan layer_identifier matrix_set fmt (fst got) (snd got)) in
  try_bases (common_params p) (display_name p) (base_candidates p) None.

(** [except (ET.ParseError, ValueError, RuntimeError) as e] *)
Definition caught (e : Exn) : option string :=
  match e with
  | ParseError m | ValueError m | RuntimeError m => Some m
  | LookupError _ | TypeError => None
  end.

Definition failure_text (layer_identifier wmts_link e : string) : string :=
  "Failed to add WMTS layer:" +:+ nl +:+ layer_identifier +:+ nl +:+ "from:" +:+ nl
  +:+ wmts_link +:+ nl +:+ nl +:+ e.

Definition add_wmts_layer (layer_identifier wmts_link : string) (matrix_set fmt : option string)
  : Gui.M unit :=
  let wmts_link := Py.strip wmts_link in
  fun w =>
    match add_body layer_identifier wmts_link matrix_set fmt w with
    | (w', Ok tt) => (w', Ok tt)
    | (w', Raise e) =>
        match caught e with
        | Some m => Gui.critical "WMTS Error" (failure_text layer_identifier wmts_link m) w'
        | None => (w', Raise e)
        end
    end.

End Add.

End WmtsAdd.

(** ** The preferences as the specification words them *)

Module Spec.

(** The pseudo-token that stands for no concrete format. *)
Definition is_pseudo (f : string) : bool := String.eqb (Py.lower f) "image/jpgpng".

(** The advertised formats once the pseudo-token (and empty strings) are
    filtered out. *)
Definition remaining (fmts : list string) : list string :=
  List.filter (fun f => Py.truthy f && negb (is_pseudo f)) fmts.

(** [c] is [pref], letter case apart. *)
Definition is_format (pref c : string) : bool := String.eqb (Py.lower c) pref.

Fixpoint first_of {A} (choices : list (option A)) : option A :=
  match choices with
  | [] => None
  | Some a :: _ => Some a
  | None :: rest => first_of rest
  end.

(** The preference order of the default format over the remaining
    formats; when nothing remains, the first advertised format that is
    not empty. *)
Definition prefer_format (fmts : list string) : option string :=
  let r := remaining fmts in
  match r with
  | [] => List.hd_error (List.filter Py.truthy fmts)
  | _ =>
      first_of
        [ List.find (is_format "image/png") r;
          List.find (is_format "image/png8") r;
          List.find (is_format "image/png32") r;
          List.find (fun c => Py.contains "png" (Py.lower c)) r;
          List.find (is_format "image/jpeg") r;
          List.find (is_format "image/jpg") r;
          List.hd_error r ]
  end.

(** A CRS string mentions a marker when it contains it, letter case
    apart. *)
Definition mentions (marker : string) (crs : option string) : bool :=
  Py.contains marker (Py.lower (or_empty crs)).

(** The same once the blanks of the CRS string are left out, for the
    markers written as words ([web mercator], [WGS 84]). *)
Definition mentions_word (marker : string) (crs : option string) : bool :=
  Py.contains marker (Py.replace " " "" (Py.lower (or_empty crs))).

(** A CRS indicates EPSG:3857 when it mentions [3857], [900913] or
    [web mercator]; it indicates EPSG:4326 when it mentions [4326] or
    [wgs84]. *)
Definition indicates_3857 (crs : option string) : bool :=
  mentions "3857" crs || mentions "900913" crs || mentions_word "webmercator" crs.

Definition indicates_4326 (crs : option string) : bool :=
  mentions "4326" crs || mentions_word "wgs84" crs.

End Spec.

(** ** The layers of a WMS document as the specification words them *)

Module WmsSpec.

(** The codes an element declares itself: the tokens of its CRS
    children, then of its SRS children, whatever their namespace. *)
Definition declared (e : Xml.Element) : list string :=
  List.flat_map (fun c => Wms.normalize_crs_tokens (or_empty (Xml.text c)))
    (Xml.findall (Xml.tag_any "CRS") e)
  ++ List.flat_map (fun c => Wms.normalize_crs_tokens (or_empty (Xml.text c)))
       (Xml.findall (Xml.tag_any "SRS") e).

(** The Layer elements at and below [e] in document order, each with its
    ancestors from the root layer down. *)
Fixpoint listing (e : Xml.Element) (ancestors : list Xml.Element) {struct e}
  : list (list Xml.Element * Xml.Element) :=
  (ancestors, e)
  :: match e with
     | Xml.Elem _ _ _ children =>
         Xml.flat_map_filter (Xml.tag_any "Layer")
           (fun child => listing child (ancestors ++ [e])) children
     end.

(** The name of a Layer element: the trimmed text of its first [Name]
    child, when that is not empty. *)
Definition layer_name (e : Xml.Element) : option string :=
  match Wms._first_any e "Name" with
  | Some name_el =>
      let nm := Py.strip (or_empty (Xml.text name_el)) in
      if Py.truthy nm then Some nm else None
  | None => None
  end.

(** Its title: the trimmed text of its first [Title] child, or its name. *)
Definition layer_title (e : Xml.Element) (nm : string) : string :=
  match Wms._first_any e "Title" with
  | Some title_el =>
      if Py.truthy (or_empty (Xml.text title_el))
      then Py.strip (or_empty (Xml.text title_el))
      else nm
  | None => nm
  end.

(** The normalised codes declared along a chain of elements. *)
Definition codes (chain : list Xml.Element) : list string :=
  List.flat_map Wms.normalize_crs (List.flat_map declared chain).

(** What a Layer element is listed as, given its ancestors: nothing
    unless it is named; its codes are those declared along the chain. *)
Definition entry (ae : list Xml.Element * Xml.Element) : list Wms.Layer :=
  Wms.own_layer (snd ae) (List.flat_map declared (fst ae ++ [snd ae])).

(** [d] stands in [l] before any other entry of the same name. *)
Definition first_of_name (l : list Wms.Layer) (d : Wms.Layer) : Prop :=
  exists pre post, l = pre ++ d :: post
                   /\ (forall x, In x pre -> Wms.name x <> Wms.name d).

End WmsSpec.

(** ** Listing the layers of a WMS as the specification words it *)

Module LoadSpec.

Section Spec.

Variable netloc_error : string -> option string.
Variable _blocking_get : string -> Z -> option string * string.
Variable fromstring : string -> Outcome Xml.Element.

(** How the attempt with one version ends. *)
Inductive Attempt : Type :=
| NotSent (e : Exn)                 (* no request URL could be built *)
| Listed (items : list Gui.Item)    (* a non-empty list of layers *)
| Failed (error : string)           (* network failure, [ParseError], or no layer *)
| Crashed (e : Exn).                (* an error that the procedure does not handle *)

(** The request of an attempt. *)
Definition caps_url (link ver : string) : Outcome string :=
  Url.wms_build_caps_url netloc_error link ver.

(** The attempt with version [ver], from the response to its request
    alone. *)
Definition attempt (link ver : string) : Attempt :=
  match caps_url link ver with
  | Raise e => NotSent e
  | Ok url =>
      match _blocking_get url 15000 with
      | (None, err) =>
          Failed (ver +:+ ": " +:+ "Network error for " +:+ url +:+ ": " +:+ err)
      | (Some xml_bytes, used_url) =>
          match fromstring xml_bytes with
          | Raise e =>
              match WmsLoad.caught e with
              | Some msg => Failed (ver +:+ ": " +:+ msg)
              | None => Crashed e
              end
          | Ok root =>
              match Wms.parse_layers_of_root root with
              | [] => Failed ("No layers found in capabilities (version " +:+ ver +:+ ").")
              | layers =>
                  match Url.wms_normalize_service_base netloc_error
                          (str_or (Wms.getmap_base_of_root root) used_url) with
                  | Ok base_url => Listed (List.map (WmsLoad.item_of base_url) layers)
                  | Raise e => Crashed e
                  end
              end
          end
      end
  end.

(** The world after the request of an attempt has been sent. *)
Definition sent (link ver : string) (w : Gui.World) : Gui.World :=
  match caps_url link ver with
  | Ok url => Gui.log_request url w
  | Raise _ => w
  end.

Definition with_tree (items : list Gui.Item) (w : Gui.World) : Gui.World :=
  fst (Gui.refill items w).

Definition with_dialog (title text : string) (w : Gui.World) : Gui.World :=
  fst (Gui.critical title text w).

(** Version 1.3.0 first; version 1.1.1 when, and only when, the first
    attempt failed; the list of the attempt that succeeded; the errors of
    both when both failed. *)
Definition load (wms_link : string) (w : Gui.World) : Gui.World * Outcome unit :=
  let link := Py.strip wms_link in
  let w1 := sent link "1.3.0" w in
  match attempt link "1.3.0" with
  | NotSent e => (w, Raise e)
  | Listed items => (with_tree items w1, Ok tt)
  | Crashed e => (w1, Raise e)
  | Failed e1 =>
      let w2 := sent link "1.1.1" w1 in
      match attempt link "1.1.1" with
      | NotSent e => (w1, Raise e)
      | Listed items => (with_tree items w2, Ok tt)
      | Crashed e => (w2, Raise e)
      | Failed e2 =>
          (with_dialog "WMS Error" (WmsLoad.failure_text link [e1; e2]) w2, Ok tt)
      end
  end.

(** Whether the second version is tried. *)
Definition falls_back (wms_link : string) : bool :=
  match attempt (Py.strip wms_link) "1.3.0" with
  | Failed _ => true
  | _ => false
  end.

End Spec.

End LoadSpec.

(** ** Scenarios *)

(** The documents, service answers and selections on which the
    properties below are exercised. *)

Module Demo.

Definition el (tag : string) (text : string) (children : list Xml.Element) : Xml.Element :=
  Xml.Elem tag ∅ (Some text) children.

(** The scenario of the specification: an ancestor declares EPSG:4326,
    the layer Ortho2023 declares EPSG:3857 and EPSG:25832. *)
Definition caps_ortho : Xml.Element :=
  el "WMT_MS_Capabilities" ""
    [ el "Capability" ""
        [ el "Layer" ""
            [ el "Title" "All" [];
              el "SRS" "EPSG:4326" [];
              el "Layer" ""
                [ el "Name" "Ortho2023" [];
                  el "SRS" "EPSG:3857 EPSG:25832" [] ] ] ] ].

Definition any_netloc : string -> option string := fun _ => None.

Definition scenario_matrix_sets : list Wmts.MatrixSet :=
  [ {| Wmts.ms_id := "EPSG4326"; Wmts.ms_crs := Some "urn:ogc:def:crs:EPSG::4326" |};
    {| Wmts.ms_id := "GoogleMapsCompatible"; Wmts.ms_crs := Some "EPSG:3857" |} ].

(** A national grid before a WGS 84 set, and national grids only. *)
Definition utm_then_wgs84 : list Wmts.MatrixSet :=
  [ {| Wmts.ms_id := "UTM32"; Wmts.ms_crs := Some "urn:ogc:def:crs:EPSG::25832" |};
    {| Wmts.ms_id := "WorldCRS84Quad"; Wmts.ms_crs := Some "WGS 84" |} ].

Definition national_grids : list Wmts.MatrixSet :=
  [ {| Wmts.ms_id := "UTM32"; Wmts.ms_crs := Some "urn:ogc:def:crs:EPSG::25832" |};
    {| Wmts.ms_id := "GK3"; Wmts.ms_crs := None |} ].

Definition roads_layers : list Rest.Layer :=
  [ {| Rest.l_id := Some 0%Z; Rest.l_name := Some "Parcels" |};
    {| Rest.l_id := Some 4%Z; Rest.l_name := Some "Main Roads" |} ].

(** A document with namespaces, an unnamed container between the root
    and the leaves, codes in URN form, and a name that occurs twice. *)
Definition wms (local : string) : string := "{http://www.opengis.net/wms}" +:+ local.

Definition caps_nested : Xml.Element :=
  el (wms "WMS_Capabilities") ""
    [ el (wms "Capability") ""
        [ el (wms "Layer") ""
            [ el (wms "Name") "root" [];
              el (wms "CRS") "urn:ogc:def:crs:EPSG::4326" [];
              el (wms "CRS") "CRS:84" [];
              el (wms "Layer") ""
                [ el (wms "Title") "container" [];
                  el (wms "CRS") "epsg:25832" [];
                  el (wms "Layer") ""
                    [ el (wms "Name") " leaf " []; el (wms "Title") "Leaf" [];
                      el (wms "CRS") "EPSG:3857" [] ];
                  el (wms "Layer") ""
                    [ el (wms "Name") "leaf" []; el (wms "Title") "Again" [] ] ] ] ] ].

(** A service whose answer to version 1.3.0 does not parse and whose
    answer to version 1.1.1 is the document of the scenario. *)
Definition wms_get (url : string) (timeout_ms : Z) : option string * string :=
  if Py.contains "VERSION=1.1.1" url then (Some "capabilities 1.1.1", url)
  else (Some "<html>", url).

Definition wms_fromstring (xml_bytes : string) : Outcome Xml.Element :=
  if String.eqb xml_bytes "capabilities 1.1.1" then Ok caps_ortho
  else Raise (ParseError "mismatched tag: line 1, column 2").

(** A service whose answer to version 1.3.0 is declared in an encoding
    that the parser does not support, which it refuses with a
    [ValueError]. *)
Definition gbk_get (url : string) (timeout_ms : Z) : option string * string :=
  if Py.contains "VERSION=1.1.1" url then (Some "capabilities 1.1.1", url)
  else (Some "<?xml version='1.0' encoding='gbk'?><WMS_Capabilities/>", url).

Definition gbk_fromstring (xml_bytes : string) : Outcome Xml.Element :=
  if String.eqb xml_bytes "capabilities 1.1.1" then Ok caps_ortho
  else Raise (ValueError "multi-byte encodings are not supported").

(** A service that answers nothing. *)
Definition no_get (url : string) (timeout_ms : Z) : option string * string :=
  (None, "Connection refused").

Definition stale_world : Gui.World :=
  {| Gui.tree := [ {| Gui.item_name := "old"; Gui.item_title := "Old layer";
                      Gui.item_checked := true; Gui.item_base := "http://old.example.org/wms";
                      Gui.item_crs := [] |} ];
     Gui.dialogs := []; Gui.requests := []; Gui.constructed := []; Gui.project := [] |}.

Definition tag0 (tag : string) (children : list Xml.Element) : Xml.Element :=
  Xml.Elem tag ∅ None children.

Definition tag1 (tag key value : string) (children : list Xml.Element) : Xml.Element :=
  Xml.Elem tag {[ key := value ]} None children.

(** WMTS capabilities with one layer, two tile matrix sets and a GetTile
    address of their own. *)
Definition wmts_caps : Xml.Element :=
  tag0 (WmtsCaps.wmts "Capabilities")
    [ tag0 (WmtsCaps.ows "OperationsMetadata")
        [ tag1 (WmtsCaps.ows "Operation") "name" "GetTile"
            [ tag0 (WmtsCaps.ows "DCP")
                [ tag0 (WmtsCaps.ows "HTTP")
                    [ tag1 (WmtsCaps.ows "Get") (WmtsCaps.xlink "href")
                        "https://tiles.example.org/wmts/tile?" [] ] ] ] ];
      tag0 (WmtsCaps.wmts "Contents")
        [ tag0 (WmtsCaps.wmts "Layer")
            [ el (WmtsCaps.ows "Identifier") "ortho" [];
              el (WmtsCaps.ows "Title") "Orthophoto" [];
              el (WmtsCaps.wmts "Format") "image/jpeg" [];
              el (WmtsCaps.wmts "Format") "image/png" [];
              tag1 (WmtsCaps.wmts "Style") "isDefault" "true"
                [ el (WmtsCaps.ows "Identifier") "default" [] ];
              tag0 (WmtsCaps.wmts "TileMatrixSetLink")
                [ el (WmtsCaps.wmts "TileMatrixSet") "EPSG4326" [] ];
              tag0 (WmtsCaps.wmts "TileMatrixSetLink")
                [ el (WmtsCaps.wmts "TileMatrixSet") "GoogleMapsCompatible" [] ] ];
          tag0 (WmtsCaps.wmts "TileMatrixSet")
            [ el (WmtsCaps.ows "Identifier") "EPSG4326" [];
              el (WmtsCaps.ows "SupportedCRS") "urn:ogc:def:crs:EPSG::4326" [] ];
          tag0 (WmtsCaps.wmts "TileMatrixSet")
            [ el (WmtsCaps.ows "Identifier") "GoogleMapsCompatible" [];
              el (WmtsCaps.ows "SupportedCRS") "urn:ogc:def:crs:EPSG::3857" [] ] ] ].

(** The service redirects the request for the capabilities to a mirror. *)
Definition wmts_get (url : string) (timeout_ms : Z) : option string * string :=
  (Some "wmts capabilities",
   "https://mirror.example.org/service?SERVICE=WMTS&REQUEST=GetCapabilities").

Definition wmts_fromstring (xml_bytes : string) : Outcome Xml.Element :=
  if String.eqb xml_bytes "wmts capabilities" then Ok wmts_caps
  else Raise (ParseError "syntax error: line 1, column 0").

(** A parser that meets a document declared in an encoding it does not
    know. *)
Definition unknown_encoding (xml_bytes : string) : Outcome Xml.Element :=
  Raise (LookupError "unknown encoding: x-unknown").

(** A validator that refuses every descriptor, and one that accepts the
    descriptors on the tile server only. *)
Definition never_valid (uri display_name : string) : bool := false.
Definition tiles_valid (uri display_name : string) : bool :=
  Py.contains "url=https://tiles.example.org" uri.

(** A service one of whose layers has no id. *)
Definition unnumbered_layers : list Rest.Layer :=
  [ {| Rest.l_id := Some 0%Z; Rest.l_name := Some "Parcels" |};
    {| Rest.l_id := None; Rest.l_name := Some "Sketch" |};
    {| Rest.l_id := Some 4%Z; Rest.l_name := Some "Main Roads" |} ].


(** A capabilities link whose other parameters have different keys, and
    how [urlsplit] reads it. *)
Definition caps_link : string :=
  "https://maps.example.org/ows?map=ortho&Service=WMS&REQUEST=GetCapabilities&version=1.3.0&lang=de".

Definition caps_link_parts : Url.SplitResult :=
  {| Url.scheme := "https"; Url.netloc := "maps.example.org"; Url.path := "/ows";
     Url.query := "map=ortho&Service=WMS&REQUEST=GetCapabilities&version=1.3.0&lang=de";
     Url.fragment := "" |}.

(** A link with an upper-case scheme and a slash in a parameter. *)
Definition slash_link : string := "HTTP://maps.example.org/ows?map=/data/ortho.map&SERVICE=WMS".

(** A link that gives the key [layers] twice. *)
Definition repeated_link : string := "http://maps.example.org/ows?layers=a&layers=b".

Definition empty_world : Gui.World :=
  {| Gui.tree := []; Gui.dialogs := []; Gui.requests := []; Gui.constructed := [];
     Gui.project := [] |}.

End Demo.

(** ** Notions used in the statements and proofs *)

(** No character of [s] satisfies [p]. *)
Definition none (p : ascii -> bool) (s : string) : bool :=
  Py.sall (fun c => negb (p c)) s.

(** The characters of an encoded string: safe ones, [+], and [%] with
    hexadecimal digits. *)
Definition quoted_char (c : ascii) : bool :=
  Url.always_safe c || Ascii.eqb c "+" || Ascii.eqb c "%".

(** What has to hold of the escape of one character for decoding to
    give the character back; it is checked on each of the 256 characters. *)
Definition escape_ok (c : ascii) : bool :=
  match Url.quote_plus (String c "") with
  | String x EmptyString =>
      quoted_char x
      && ((negb (Ascii.eqb "+" x) && negb (Ascii.eqb x "%") && Ascii.eqb x c)
          || (Ascii.eqb "+" x && Ascii.eqb c " "))
  | String p (String h1 (String h2 EmptyString)) =>
      Ascii.eqb p "%" && negb (Ascii.eqb "+" h1) && negb (Ascii.eqb "+" h2)
      && quoted_char h1 && quoted_char h2
      && match Url.hex_val h1, Url.hex_val h2 with
         | Some a, Some b => Ascii.eqb (ascii_of_nat (16 * a + b)) c
         | _, _ => false
         end
  | _ => false
  end.

(** The characters that have a meaning in a URL are never left as they
    are by the encoding. *)
Definition reserved (c : ascii) : bool :=
  Ascii.eqb "&" c || Ascii.eqb "=" c || Ascii.eqb "#" c || Ascii.eqb "?" c
  || Ascii.eqb ":" c || Ascii.eqb "/" c || Url.is_unsafe c || Url.is_c0_or_space c.

(** The field of a pair in an encoded query. *)
Definition field (kv : string * string) : string :=
  Url.quote_plus (fst kv) +:+ "=" +:+ Url.quote_plus (snd kv).

(** The keys of a dictionary, in its order. *)
Definition keys (d : Url.Dict) : list string := List.map fst d.

(** One step of [dict(pairs)]. *)
Definition put (d : Url.Dict) (kv : string * string) : Url.Dict :=
  Url.dict_set (fst kv) (snd kv) d.

(** A character that [urlsplit] does not remove. *)
Definition safe (c : ascii) : bool := negb (Url.is_unsafe c).

(** A question mark or a hash. *)
Definition qf (c : ascii) : bool := Ascii.eqb "?" c || Ascii.eqb "#" c.

(** What follows the path in a URL: nothing, a query, a fragment. *)
Definition good_tail (t : string) : Prop := t = "" \/ Url.first_is qf t = true.

(** The test [urlsplit] makes on what stands before the first colon. *)
Definition scheme_test (pre : string) : bool :=
  Url.first_is Py.is_alpha pre && Py.sall Url.scheme_char pre.

(** What [urlunsplit] appends to the path. *)
Definition tail_of (qry frag : string) : string :=
  (if Py.truthy qry then "?" +:+ qry else "") +:+ (if Py.truthy frag then "#" +:+ frag else "").

(** The part of a joined URL between the scheme and the query. *)
Definition body (P : Url.SplitResult) : string :=
  let url := Url.path P in
  if Py.truthy (Url.netloc P) then
    "//" +:+ Url.netloc P
    +:+ (if Py.truthy url && negb (Py.startswith "/" url) then "/" +:+ url else url)
  else if Py.startswith "//" url then "//" +:+ url
  else if Py.truthy (Url.scheme P) && Rest.mem (Url.scheme P) Url.uses_netloc
          && (negb (Py.truthy url) || Py.startswith "/" url)
  then "//" +:+ url
  else url.

(** A text that is not empty. *)
Definition truthy_not_empty (s : string) : Prop := s <> "".

Section Invariant.

Variable netloc_error : string -> option string.

(** What holds of the parts that [urlsplit] returns. *)
Record Inv (P : Url.SplitResult) : Prop := {
  inv_scheme_clean : none Url.is_unsafe (Url.scheme P) = true;
  inv_netloc_clean : none Url.is_unsafe (Url.netloc P) = true;
  inv_path_clean : none Url.is_unsafe (Url.path P) = true;
  inv_query_clean : none Url.is_unsafe (Url.query P) = true;
  inv_fragment_clean : none Url.is_unsafe (Url.fragment P) = true;
  inv_scheme :
    Url.scheme P = "" \/ (scheme_test (Url.scheme P) = true /\ Py.lower (Url.scheme P) = Url.scheme P);
  inv_netloc : none Url.netloc_end (Url.netloc P) = true;
  inv_netloc_ok : (if Py.truthy (Url.netloc P) then netloc_error (Url.netloc P) else None) = None;
  inv_netloc_path :
    Py.truthy (Url.netloc P) = true -> Url.path P = "" \/ Py.startswith "/" (Url.path P) = true;
  inv_path : none qf (Url.path P) = true;
  inv_query : none (Ascii.eqb "#") (Url.query P) = true;
  inv_bare :
    Url.scheme P = "" ->
    Url.split_scheme (Url.path P) = ("", Url.path P)
    /\ Url.first_is Url.is_c0_or_space (Url.path P) = false
}.

End Invariant.

(** Whether the texts of a list are all different. *)
Fixpoint distinct (l : list string) : bool :=
  match l with
  | [] => true
  | x :: l' => negb (Rest.mem x l') && distinct l'
  end.

(** A layer whose id is an integer other than [v]. *)
Definition other_id (v : Z) (L : Rest.Layer) : Prop :=
  exists j, Rest.l_id L = Some j /\ j <> v.

(** The names of a list of layer entries. *)
Definition names (l : list Wms.Layer) : gset string :=
  list_to_set (List.map Wms.name l).

(** Two lists that yield the same entries whatever has been seen. *)
Definition same_uniq (l1 l2 : list Wms.Layer) : Prop :=
  (forall seen, Wms.uniq_from seen l1 = Wms.uniq_from seen l2)
  /\ names l1 = names l2.

(** Two lists with the same elements. *)
Definition same_elems (l1 l2 : list string) : Prop := forall x, In x l1 <-> In x l2.

(** The order of [sorted] on strings. *)
Definition ascending (a b : string) : Prop := String.leb a b = true.

(** The world once descriptors have been constructed, and perhaps one
    layer added. *)
Definition after_tries (uris : list string) (added : list (string * string)) (w : Gui.World)
  : Gui.World :=
  {| Gui.tree := Gui.tree w; Gui.dialogs := Gui.dialogs w; Gui.requests := Gui.requests w;
     Gui.constructed := Gui.constructed w ++ uris;
     Gui.project := Gui.project w ++ added |}.

(** The message of the [RuntimeError] when no base URL is left: that of
    the last base URL tried. *)
Definition exhausted (bases : list string) (last_err : option string) : string :=
  str_or
    (or_empty (List.fold_left (fun _ b => Some ("Invalid with base: " +:+ b)) bases last_err))
    "Could not create WMTS layer with any base URL.".

(** Adding the layer [ortho] of the demonstration service. *)
Definition demo_add (isValid : string -> string -> bool) : Gui.World * Outcome unit :=
  WmtsAdd.add_wmts_layer Demo.any_netloc Demo.wmts_get Demo.wmts_fromstring isValid
    "ortho" "http://maps.example.org/wmts" None None Demo.empty_world.

(** The descriptor built for it with a base URL. *)
Definition demo_uri (base_url : string) : string :=
  "contextualWMSLegend=0&crs=EPSG:3857&layers=ortho&styles=default&format=image/png"
  +:+ "&tileMatrixSet=GoogleMapsCompatible&url=" +:+ base_url.

(** Induction on element trees: a property holds of every element when
    it holds of an element whose children all have it. *)

Section ElementInduction.

Variable P : Xml.Element -> Prop.
Hypothesis step : forall tag attrib text children,
    Forall P children -> P (Xml.Elem tag attrib text children).

Fixpoint Element_tree_ind (e : Xml.Element) : P e :=
  match e with
  | Xml.Elem tag attrib text children =>
      step tag attrib text children
        ((fix all (l : list Xml.Element) : Forall P l :=
            match l with
            | [] => @List.Forall_nil _ P
            | c :: l' => @List.Forall_cons _ P c l' (Element_tree_ind c) (all l')
            end) children)
  end.

End ElementInduction.

(** [squeezed s t]: [t] is [s] with some colons left out, each of them
    standing just before another colon of [s]. *)
Inductive squeezed : string -> string -> Prop :=
| squeezed_nil : squeezed "" ""
| squeezed_keep (c : ascii) (s t : string) :
    squeezed s t -> squeezed (String c s) (String c t)
| squeezed_drop (s t : string) :
    squeezed (String ":" s) t -> squeezed (String ":" (String ":" s)) t.

(** Whether a text holds no colon. *)
Definition colon_free (m : string) : bool :=
  Py.sall (fun c => negb (Ascii.eqb c ":")) m.

(** ** ArcGIS REST helpers ([rest_utils.py]) *)

Module RestSvc.

(** [_ensure_json_suffix] *)
Definition _ensure_json_suffix (url : string) : string :=
  if Py.contains "f=json" (Py.lower url) then url
  else
    let sep := if Py.contains "?" url then "&" else "?" in
    url +:+ sep +:+ "f=json".

(** [u[:-1]]: the string without its last character. *)
Fixpoint drop_last (u : string) : string :=
  match u with
  | EmptyString => EmptyString
  | String c EmptyString => EmptyString
  | String c u' => String c (drop_last u')
  end.

(** [_strip_trailing_slash] *)
Definition _strip_trailing_slash (u : string) : string :=
  if Py.endswith "/" u then drop_last u else u.

(** [_detect_service_type_from_url] *)
Definition _detect_service_type_from_url (url : string) : string :=
  let u := Py.lower url in
  if Py.contains "/featureserver" u then "FEATURE"
  else if Py.contains "/mapserver" u then "MAP"
  else if Py.contains "/imageserver" u then "MAP"
  else "UNKNOWN".

Section Clean.

Variable netloc_error : string -> option string.

(** [_clean_base_url] *)
Definition _clean_base_url (url : string) : Outcome string :=
  let? parts := Url.urlsplit netloc_error (Py.strip url) in
  Ok (Url.urlunsplit
        {| Url.scheme := Url.scheme parts; Url.netloc := Url.netloc parts;
           Url.path := Url.path parts; Url.query := ""; Url.fragment := "" |}).

End Clean.

End RestSvc.

(** ** Routing by URL ([main.py]) *)

Module Main.

(** [detect_service_type] *)
Definition detect_service_type (url : string) : string :=
  if negb (Py.truthy url) then "WMS"
  else
    let u := Py.lower url in
    if Py.contains "/mapserver" u || Py.contains "/featureserver" u
       || Py.contains "/rest/services/" u
    then "REST"
    else if Py.contains "service=wmts" u || Py.contains "{tilematrix}" u
            || Py.contains "tilematrixset=" u || Py.contains "/wmts/" u
    then "WMTS"
    else "WMS".

End Main.

(** ** The dialog ([ui.py]) *)

Module Ui.

(** The payload that [load_wmts_layers] stores under [Qt.UserRole + 1]. *)
Record WmtsPayload : Type :=
  { p_formats : list string;
    p_matrix_sets : list Wmts.MatrixSet;
    p_styles : list string;
    p_default_style : option string;
    p_default_format : option string;
    p_default_matrix_set : option string;
    p_caps_base : string;
    p_tile_base : string }.

(** What an item of the tree holds under [Qt.UserRole + 1]: the list of
    CRS codes of a WMS layer, the dictionary of a WMTS layer, another
    dictionary (without the key [matrix_sets]), or nothing. *)
Inductive Payload : Type :=
| CrsList (crs : list string)
| WmtsDict (p : WmtsPayload)
| OtherDict
| NoPayload.

(** A top-level item of the tree: its two columns, its check state, and
    its data under [Qt.UserRole] and [Qt.UserRole + 1]. *)
Record Item : Type :=
  { text0 : string; text1 : string; checked : bool;
    base : option string; payload : Payload }.

(** [_normalize_epsg]; [None] is as falsy as the empty string. *)
Definition _normalize_epsg (s : string) : string :=
  if Py.truthy s then
    let t := Py.strip s in
    if Py.startswith "EPSG:" (Py.upper t) then Py.upper t
    else if Py.contains "epsg" (Py.lower t) then
      match Wmts.last_digit_token (Py.split_on ":" (Py.replace "::" ":" t)) with
      | Some token => "EPSG:" +:+ token
      | None => ""
      end
    else ""
  else "".

(** What one item adds to [crs_set] in [get_all_supported_crs]. *)
Definition crs_of_payload (p : Payload) : list string :=
  match p with
  | CrsList l =>
      List.filter Py.truthy
        (List.map (fun crs => str_or (_normalize_epsg crs)
                                (if Py.startswith "EPSG:" crs then crs else "")) l)
  | WmtsDict d =>
      List.filter Py.truthy
        (List.map (fun ms => _normalize_epsg (or_empty (Wmts.ms_crs ms))) (p_matrix_sets d))
  | OtherDict => []
  | NoPayload => []
  end.

(** [get_all_supported_crs] *)
Definition get_all_supported_crs (tree : list Item) : list string :=
  Wms.sorted_set (List.flat_map (fun it => crs_of_payload (payload it)) tree).

(** [populate_layers]: the tree it leaves. *)
Definition populate_layers (layers : list Wms.Layer) : list Item :=
  List.map (fun lyr => {| text0 := Wms.name lyr; text1 := Wms.title lyr; checked := false;
                          base := None; payload := CrsList (Wms.crs_list lyr) |}) layers.

(** [selected_layer_names] and [selected_items] *)
Definition selected_layer_names (tree : list Item) : list string :=
  List.map text0 (List.filter checked tree).

Definition selected_items (tree : list Item) : list Item :=
  List.filter checked tree.

(** An item as [load_wms_layers] makes it. *)
Definition of_wms (i : Gui.Item) : Item :=
  {| text0 := Gui.item_name i; text1 := Gui.item_title i; checked := Gui.item_checked i;
     base := Some (Gui.item_base i); payload := CrsList (Gui.item_crs i) |}.

End Ui.

(** ** Procedures on the dialog's tree *)

Module Panel.

(** The world of [Gui.World] with the items of the dialog in the tree. *)
Record World : Type :=
  { tree : list Ui.Item;
    dialogs : list (string * string);
    requests : list string;
    constructed : list string;
    project : list (string * string) }.

Definition M (A : Type) : Type := World -> World * Outcome A.

(** The part of the world that a procedure without access to the tree
    acts on, and the world after it. *)
Definition outside (w : World) : Gui.World :=
  {| Gui.tree := []; Gui.dialogs := dialogs w; Gui.requests := requests w;
     Gui.constructed := constructed w; Gui.project := project w |}.

Definition inside (w : World) (g : Gui.World) : World :=
  {| tree := tree w; dialogs := Gui.dialogs g; requests := Gui.requests g;
     constructed := Gui.constructed g; project := Gui.project g |}.

Definition run {A} (m : Gui.M A) : M A :=
  fun w => let (g, o) := m (outside w) in (inside w g, o).

Definition mbind {A B} (m : M A) (k : A -> M B) : M B :=
  fun w => match m w with
           | (w', Ok a) => k a w'
           | (w', Raise e) => (w', Raise e)
           end.

(** [tree_widget.clear()] followed by [addTopLevelItem] for each item. *)
Definition refill (items : list Ui.Item) : M unit :=
  fun w => ({| tree := items; dialogs := dialogs w; requests := requests w;
               constructed := constructed w; project := project w |}, Ok tt).

End Panel.

Notation "'let*' x ':=' m 'in' k" := (Panel.mbind m (fun x => k))
  (at level 10, x name, m at level 100, k at level 200).

(** ** Listing the layers of a WMTS ([wmts_utils.load_wmts_layers]) *)

Module WmtsLoad.

Section Load.

Variable netloc_error : string -> option string.
Variable _blocking_get : string -> Z -> option string * string.
Variable fromstring : string -> Outcome Xml.Element.

Definition item_of (caps_base tile_base : string) (lyr : WmtsCaps.Layer) : Ui.Item :=
  {| Ui.text0 := WmtsCaps.identifier lyr; Ui.text1 := WmtsCaps.title lyr;
     Ui.checked := false; Ui.base := Some caps_base;
     Ui.payload :=
       Ui.WmtsDict
         {| Ui.p_formats := WmtsCaps.formats lyr;
            Ui.p_matrix_sets := WmtsCaps.matrix_sets lyr;
            Ui.p_styles := WmtsCaps.styles lyr;
            Ui.p_default_style := WmtsCaps.default_style lyr;
            Ui.p_default_format := WmtsCaps.default_format lyr;
            Ui.p_default_matrix_set := WmtsCaps.default_matrix_set lyr;
            Ui.p_caps_base := caps_base;
            Ui.p_tile_base := tile_base |} |}.

(** The body of the [try]. *)
Definition load_body (wmts_link : string) : Panel.M unit :=
  let* caps_url := Panel.run (Gui.lift (Url.wmts_build_caps_url netloc_error wmts_link)) in
  let* got := Panel.run (Net.http_get_bytes _blocking_get caps_url 15000) in
  let xml_bytes := fst got in
  let used_caps_url := snd got in
  let* root := Panel.run (Gui.lift (WmtsAdd.parse fromstring xml_bytes)) in
  let tms_dict := WmtsCaps._parse_tile_matrix_sets root in
  let layers := WmtsCaps._parse_layers root tms_dict in
  match layers with
  | [] => Panel.run (Gui.lift (Raise (ValueError "No layers found in WMTS GetCapabilities.")))
  | _ =>
      let* caps_base :=
        Panel.run (Gui.lift (Url.wmts_normalize_service_base netloc_error used_caps_url)) in
      let* gettile :=
        Panel.run (Gui.lift (WmtsAdd._extract_gettile_base fromstring xml_bytes)) in
      let* tile_base :=
        Panel.run (Gui.lift (Url.wmts_normalize_service_base netloc_error gettile)) in
      Panel.refill (List.map (item_of caps_base tile_base) layers)
  end.

Definition failure_text (wmts_link : string) (errors : list string) : string :=
  "Failed to read WMTS GetCapabilities from:" +:+ nl +:+ wmts_link +:+ nl +:+ nl
  +:+ "Details:" +:+ nl +:+ Py.join nl errors.

(** [load_wmts_layers]: the [try], its [except (ET.ParseError, ValueError,
    RuntimeError)] clause, and the message box after it. *)
Definition load_wmts_layers (wmts_link : string) : Panel.M unit :=
  let wmts_link := Py.strip wmts_link in
  fun w =>
    match load_body wmts_link w with
    | (w', Ok tt) => (w', Ok tt)
    | (w', Raise e) =>
        match WmtsAdd.caught e with
        | Some m => Panel.run (Gui.critical "WMTS Error" (failure_text wmts_link [m])) w'
        | None => (w', Raise e)
        end
    end.

End Load.

End WmtsLoad.

(** ** Adding a WMS layer ([wms_utils.add_wms_layer]) *)

Module WmsAdd.

Section Add.

(** [QgsProject.instance().crs().authid()] *)
Variable project_crs : string.
(** [QgsRasterLayer(uri, layer_name, "wms").isValid()] *)
Variable isValid : string -> string -> bool.

(** The CRS of the descriptor: [crs], else that of the project, else
    EPSG:4326. *)
Definition effective_crs (crs : option string) : string :=
  if Py.truthy (or_empty crs) then or_empty crs else str_or project_crs "EPSG:4326".

Definition wms_uri (layer_name wms_link crs img_format : string) : string :=
  Py.join "&"
    [ "contextualWMSLegend=0"; "crs=" +:+ crs; "dpiMode=7"; "format=" +:+ img_format;
      "layers=" +:+ layer_name; "styles="; "url=" +:+ wms_link ].

Definition failure_text (layer_name wms_link crs img_format : string) : string :=
  "Failed to add WMS layer:" +:+ nl +:+ layer_name +:+ nl +:+ "from:" +:+ nl +:+ wms_link
  +:+ nl +:+ nl +:+ "CRS: " +:+ crs +:+ nl +:+ "Format: " +:+ img_format.

Definition add_wms_layer (layer_name wms_link : string) (crs : option string)
    (img_format : string) : Gui.M unit :=
  let wms_link := WmsLoad.clean_url wms_link in
  let crs := effective_crs crs in
  let uri := wms_uri layer_name wms_link crs img_format in
  fun w =>
    let w' := Gui.log_constructed uri w in
    if isValid uri layer_name then Gui.addMapLayer uri layer_name w'
    else Gui.critical "Error" (failure_text layer_name wms_link crs img_format) w'.

End Add.

End WmsAdd.

(** ** Notions for the properties of the helpers *)

(** [d.get(k)] on a dictionary. *)
Definition get (k : string) (d : Url.Dict) : option string :=
  match List.find (fun kv => String.eqb (fst kv) k) d with
  | Some kv => Some (snd kv)
  | None => None
  end.

(** The value a key has in a list of pairs read from the left: that of
    its last occurrence. *)
Definition last_value (k : string) (pairs : list (string * string)) : option string :=
  get k (List.rev pairs).

Section QueryRewriting.

Variable netloc_error : string -> option string.

(** The shape the four URL helpers share: split, rebuild the dictionary
    of the query with [F], join. *)
Definition rewrite_query (F : Url.Dict -> Url.Dict) (url : string) : Outcome string :=
  let? parts := Url.urlsplit netloc_error url in
  Ok (Url.urlunsplit
        (Url.with_query parts
           (Url.urlencode (F (Url.dict_of (Url.parse_qsl (Url.query parts))))))).

End QueryRewriting.

(** The [q.update({...})] of [wms_utils._build_caps_url] and of
    [wmts_utils._build_caps_url]. *)
Definition wms_caps_update (version : string) (q : Url.Dict) : Url.Dict :=
  Url.dict_set "VERSION" version
    (Url.dict_set "REQUEST" "GetCapabilities" (Url.dict_set "SERVICE" "WMS" q)).

Definition wmts_caps_update (q : Url.Dict) : Url.Dict :=
  Url.dict_set "REQUEST" "GetCapabilities" (Url.dict_set "SERVICE" "WMTS" q).

(** The last character of a text. *)
Fixpoint last_char (s : string) : option ascii :=
  match s with
  | EmptyString => None
  | String c s' => match last_char s' with Some d => Some d | None => Some c end
  end.

(** A text that does not end with white space. *)
Definition tidy (s : string) : bool :=
  match last_char s with Some c => negb (Py.is_space c) | None => true end.

(** The parts of a URL without its query and fragment. *)
Definition bare (P : Url.SplitResult) : Url.SplitResult :=
  {| Url.scheme := Url.scheme P; Url.netloc := Url.netloc P; Url.path := Url.path P;
     Url.query := ""; Url.fragment := "" |}.

(** What a failed listing leaves: the world with one more message. *)
Definition reported (link m : string) (w : Panel.World) : Panel.World :=
  {| Panel.tree := Panel.tree w;
     Panel.dialogs := Panel.dialogs w ++ [("WMTS Error", WmtsLoad.failure_text link [m])];
     Panel.requests := Panel.requests w;
     Panel.constructed := Panel.constructed w;
     Panel.project := Panel.project w |}.

Definition requested (url : string) (w : Panel.World) : Panel.World :=
  {| Panel.tree := Panel.tree w; Panel.dialogs := Panel.dialogs w;
     Panel.requests := Panel.requests w ++ [url];
     Panel.constructed := Panel.constructed w; Panel.project := Panel.project w |}.

Definition listed (items : list Ui.Item) (w : Panel.World) : Panel.World :=
  {| Panel.tree := items; Panel.dialogs := Panel.dialogs w;
     Panel.requests := Panel.requests w;
     Panel.constructed := Panel.constructed w; Panel.project := Panel.project w |}.

(** The dialog before anything is listed. *)
Definition empty_panel : Panel.World :=
  {| Panel.tree := []; Panel.dialogs := []; Panel.requests := [];
     Panel.constructed := []; Panel.project := [] |}.

(** A check of the network location that refuses an opening bracket
    without its closing bracket, as [urlsplit] does. *)
Definition bracket_netloc (loc : string) : option string :=
  if Py.contains "[" loc && negb (Py.contains "]" loc) then Some "Invalid IPv6 URL" else None.

(** The layer of the demonstration capabilities as [_parse_layers] lists it. *)
Definition demo_wmts_layer : WmtsCaps.Layer :=
  {| WmtsCaps.identifier := "ortho";
     WmtsCaps.title := "Orthophoto";
     WmtsCaps.formats := ["image/jpeg"; "image/png"];
     WmtsCaps.matrix_sets :=
       [ {| Wmts.ms_id := "EPSG4326"; Wmts.ms_crs := Some "urn:ogc:def:crs:EPSG::4326" |};
         {| Wmts.ms_id := "GoogleMapsCompatible";
            Wmts.ms_crs := Some "urn:ogc:def:crs:EPSG::3857" |} ];
     WmtsCaps.styles := ["default"];
     WmtsCaps.default_style := Some "default";
     WmtsCaps.default_format := Some "image/png";
     WmtsCaps.default_matrix_set := Some "GoogleMapsCompatible" |}.

(** * Properties *)

(** ** Text primitives on examples *)

Example py_lower_ex : Py.lower "Image/PNG8" = "image/png8".
Proof. reflexivity. Qed.

Example py_strip_ex : Py.strip "  a b  " = "a b".
Proof. reflexivity. Qed.

Example py_replace_ex : Py.replace "::" ":" "urn:ogc:def:crs:EPSG:::3857" = "urn:ogc:def:crs:EPSG::3857".
Proof. reflexivity. Qed.

Example py_split_ex : Py.split_on ":" "a::b:" = ["a"; ""; "b"; ""].
Proof. reflexivity. Qed.

Example py_split_ws_ex : Py.split_ws "  EPSG:4326   EPSG:3857 " = ["EPSG:4326"; "EPSG:3857"].
Proof. reflexivity. Qed.

Example py_contains_ex : Py.contains "png" "image/jpgpng" = true.
Proof. reflexivity. Qed.

Example prefer_format_ex1 : Wmts._prefer_format ["image/jpeg"; "image/png8"; "image/PNG"] = Some "image/PNG".
Proof. reflexivity. Qed.

Example prefer_format_ex2 : Wmts._prefer_format ["image/jpgpng"] = Some "image/jpgpng".
Proof. reflexivity. Qed.

Example prefer_matrix_set_ex :
  Wmts._prefer_matrix_set
    [ {| Wmts.ms_id := "EPSG4326"; Wmts.ms_crs := Some "urn:ogc:def:crs:EPSG::4326" |};
      {| Wmts.ms_id := "GoogleMapsCompatible"; Wmts.ms_crs := Some "EPSG:3857" |} ]
  = Some "GoogleMapsCompatible".
Proof. reflexivity. Qed.

Example to_qgis_authid_ex : Wmts._to_qgis_authid (Some "urn:ogc:def:crs:EPSG::3857") = Some "EPSG:3857".
Proof. reflexivity. Qed.

Example parse_supported_formats_ex :
  Rest._parse_supported_formats (Some "PNG32, PNG24, JPG") = ["png32"; "png24"; "jpg"].
Proof. reflexivity. Qed.

Example resolve_layer_ex1 :
  Rest._resolve_layer [ {| Rest.l_id := Some 3%Z; Rest.l_name := Some "Main Roads" |} ] (Rest.IdStr "Roads")
  = Ok (3%Z, Some "Main Roads").
Proof. reflexivity. Qed.

Example resolve_layer_ex2 :
  Rest._resolve_layer [ {| Rest.l_id := Some 3%Z; Rest.l_name := Some "Main Roads" |} ] (Rest.IdInt (-7))
  = Raise (ValueError "Layer id '-7' not found.").
Proof. reflexivity. Qed.

Example parse_layers_ortho :
  Wms.parse_layers_of_root Demo.caps_ortho
  = [ {| Wms.name := "Ortho2023"; Wms.title := "Ortho2023";
         Wms.crs_list := ["EPSG:25832"; "EPSG:3857"; "EPSG:4326"] |} ].
Proof. vm_compute. reflexivity. Qed.

Example urlsplit_ex :
  Url.urlsplit Demo.any_netloc "HTTP://Example.com:8080/geo/wms?map=a.map&SERVICE=WMS#top"
  = Ok {| Url.scheme := "http"; Url.netloc := "Example.com:8080"; Url.path := "/geo/wms";
          Url.query := "map=a.map&SERVICE=WMS"; Url.fragment := "top" |}.
Proof. reflexivity. Qed.

Example normalize_ex1 :
  Url.wms_normalize_service_base Demo.any_netloc
    "https://example.com/geo/wms?map=/srv/a.map&Service=WMS&REQUEST=GetCapabilities&version=1.3.0"
  = Ok "https://example.com/geo/wms?map=%2Fsrv%2Fa.map".
Proof. reflexivity. Qed.

Example build_caps_ex :
  Url.wms_build_caps_url Demo.any_netloc " https://example.com/wms?map=a b " "1.3.0"
  = Ok "https://example.com/wms?map=a+b&SERVICE=WMS&REQUEST=GetCapabilities&VERSION=1.3.0".
Proof. reflexivity. Qed.

Example unquote_ex : Url.unquote_plus "a%2Fb+c%zz%4" = "a/b c%zz%4".
Proof. reflexivity. Qed.


(** ** Lists: the first element that satisfies a test *)

Lemma find_first {A} (p : A -> bool) (pre post : list A) (x : A) :
  Forall (fun y => p y = false) pre -> p x = true ->
  List.find p (pre ++ x :: post) = Some x.
Proof.
  intros Hpre Hx. induction Hpre as [|y pre Hy _ IH]; simpl.
  - now rewrite Hx.
  - now rewrite Hy.
Qed.

Lemma find_none_all {A} (p : A -> bool) (l : list A) :
  Forall (fun y => p y = false) l -> List.find p l = None.
Proof.
  intros H. induction H as [|y l Hy _ IH]; simpl; [reflexivity|]. now rewrite Hy.
Qed.

Lemma find_split {A} (p : A -> bool) (l : list A) (x : A) :
  List.find p l = Some x ->
  exists pre post, l = pre ++ x :: post /\ Forall (fun y => p y = false) pre /\ p x = true.
Proof.
  induction l as [|y l IH]; simpl; [discriminate|].
  destruct (p y) eqn:E.
  - intros [= ->]. exists [], l. repeat split; [constructor|exact E].
  - intros H. destruct (IH H) as (pre & post & -> & Hpre & Hx).
    exists (y :: pre), post. repeat split; [constructor; assumption|exact Hx].
Qed.

Lemma find_none_iff {A} (p : A -> bool) (l : list A) :
  List.find p l = None <-> Forall (fun y => p y = false) l.
Proof.
  split; [|apply find_none_all].
  induction l as [|y l IH]; simpl; [constructor|].
  destruct (p y) eqn:E; [discriminate|]. intros H. constructor; auto.
Qed.

(** ** Text: a string occurs in whatever is built around it *)

Lemma append_assoc3 (a b c : string) : (a +:+ b) +:+ c = a +:+ (b +:+ c).
Proof. induction a as [|x a IH]; simpl; [reflexivity|]. now rewrite IH. Qed.

Lemma append_empty_r (a : string) : a +:+ "" = a.
Proof. induction a as [|x a IH]; simpl; [reflexivity|]. now rewrite IH. Qed.

Lemma startswith_append (p s : string) : Py.startswith p (p +:+ s) = true.
Proof.
  induction p as [|c p IH]; simpl; [reflexivity|].
  rewrite Ascii.eqb_refl. exact IH.
Qed.

Lemma contains_here (sub s : string) : Py.contains sub (sub +:+ s) = true.
Proof.
  destruct sub as [|c sub]; [destruct s; reflexivity|].
  simpl. rewrite Ascii.eqb_refl. rewrite startswith_append. reflexivity.
Qed.

Lemma contains_later (sub a s : string) :
  Py.contains sub s = true -> Py.contains sub (a +:+ s) = true.
Proof.
  intros H. induction a as [|c a IH]; simpl; [exact H|].
  rewrite IH. apply orb_true_r.
Qed.

Lemma contains_middle (sub a b : string) : Py.contains sub (a +:+ sub +:+ b) = true.
Proof. apply contains_later, contains_here. Qed.

(** ** Membership and emptiness as the code tests them *)

Lemma mem_In (x : string) (l : list string) : Rest.mem x l = true <-> In x l.
Proof.
  unfold Rest.mem. rewrite existsb_exists. split.
  - intros (y & Hy & E). apply String.eqb_eq in E. now subst.
  - intros H. exists x. split; [exact H|apply String.eqb_refl].
Qed.

Lemma mem_not_In (x : string) (l : list string) : Rest.mem x l = false <-> ~ In x l.
Proof.
  rewrite <- mem_In. destruct (Rest.mem x l); split; intros; congruence.
Qed.

Lemma truthy_nonempty (s : string) : Py.truthy s = true <-> s <> "".
Proof. destruct s; simpl; split; congruence. Qed.


(** ** The default format of a WMTS layer *)

Lemma filter_map_fst_pairs (fmts : list string) :
  List.map fst
    (List.filter (fun p : string * string => negb (String.eqb (snd p) "image/jpgpng"))
       (List.map (fun f => (f, Py.lower f)) (List.filter Py.truthy fmts)))
  = Spec.remaining fmts.
Proof.
  unfold Spec.remaining, Spec.is_pseudo.
  induction fmts as [|f fmts IH]; simpl; [reflexivity|].
  destruct (Py.truthy f); simpl; [|exact IH].
  destruct (String.eqb (Py.lower f) "image/jpgpng"); simpl; [exact IH|].
  now rewrite IH.
Qed.

Lemma map_fst_pairs (l : list string) :
  List.map fst (List.map (fun f => (f, Py.lower f)) l) = l.
Proof. induction l; simpl; congruence. Qed.

(** When nothing concrete remains, every non-empty format is the
    pseudo-token. *)
Lemma remaining_nil_pseudo (fmts : list string) :
  Spec.remaining fmts = [] ->
  Forall (fun f => Spec.is_pseudo f = true) (List.filter Py.truthy fmts).
Proof.
  unfold Spec.remaining.
  induction fmts as [|f fmts IH]; simpl; intros H; [constructor|].
  destruct (Py.truthy f); simpl in *; [|auto].
  destruct (Spec.is_pseudo f) eqn:E; simpl in *; [|discriminate].
  constructor; auto.
Qed.

Lemma pseudo_find_none (pref : string) (l : list string) :
  pref <> "image/jpgpng" ->
  Forall (fun f => Spec.is_pseudo f = true) l ->
  List.find (fun c => String.eqb (Py.lower c) pref) l = None.
Proof.
  intros Hp H. induction H as [|f l Hf _ IH]; simpl; [reflexivity|].
  unfold Spec.is_pseudo in Hf. apply String.eqb_eq in Hf. rewrite Hf.
  destruct (String.eqb "image/jpgpng" pref) eqn:E; [|exact IH].
  apply String.eqb_eq in E. congruence.
Qed.

Lemma pseudo_find_png (l : list string) :
  Forall (fun f => Spec.is_pseudo f = true) l ->
  List.find (fun c => Py.contains "png" (Py.lower c)) l = List.hd_error l.
Proof.
  intros H. destruct H as [|f l Hf _]; simpl; [reflexivity|].
  unfold Spec.is_pseudo in Hf. apply String.eqb_eq in Hf. now rewrite Hf.
Qed.

Lemma prefer_format_spec (fmts : list string) :
  Wmts._prefer_format fmts = Spec.prefer_format fmts.
Proof.
  unfold Wmts._prefer_format, Spec.prefer_format.
  destruct fmts as [|f0 fmts0]; [reflexivity|].
  remember (f0 :: fmts0) as fmts eqn:Hfmts. clear Hfmts.
  rewrite filter_map_fst_pairs, map_fst_pairs.
  destruct (Spec.remaining fmts) as [|c r] eqn:Hr.
  - pose proof (remaining_nil_pseudo fmts Hr) as Hp.
    remember (List.filter Py.truthy fmts) as ne eqn:Hne. clear Hne.
    unfold Wmts.first_pref.
    rewrite !pseudo_find_none by (auto; discriminate).
    rewrite pseudo_find_png by exact Hp.
    destruct (List.hd_error ne); reflexivity.
  - remember (c :: r) as cands eqn:Hc. clear Hc.
    unfold Wmts.first_pref, Spec.first_of, Spec.is_format.
    repeat match goal with
           | |- context [List.find ?p cands] => destruct (List.find p cands); try reflexivity
           end.
    destruct (List.hd_error cands); reflexivity.
Qed.

Lemma remaining_incl (fmts : list string) (c : string) :
  In c (Spec.remaining fmts) -> In c fmts /\ c <> "".
Proof.
  unfold Spec.remaining. rewrite filter_In. intros [H1 H2]. split; [exact H1|].
  intros ->. discriminate.
Qed.

Lemma first_of_in {A} (choices : list (option A)) (a : A) :
  Spec.first_of choices = Some a -> In (Some a) choices.
Proof.
  induction choices as [|[x|] rest IH]; simpl; intros H; try discriminate.
  - left. exact H.
  - right. auto.
Qed.

(** The chooser returns one of the advertised formats, and a non-empty one. *)
Lemma prefer_format_member (fmts : list string) (c : string) :
  Wmts._prefer_format fmts = Some c -> In c fmts /\ c <> "".
Proof.
  rewrite prefer_format_spec. unfold Spec.prefer_format.
  destruct (Spec.remaining fmts) as [|x r] eqn:Hr.
  - intros H. destruct (List.filter Py.truthy fmts) as [|y l] eqn:E; [discriminate|].
    simpl in H. injection H as ->.
    assert (Hin : In c (List.filter Py.truthy fmts)) by (rewrite E; left; reflexivity).
    apply filter_In in Hin. destruct Hin as [H1 H2]. split; [exact H1|].
    intros ->. discriminate.
  - intros H. apply remaining_incl. rewrite Hr.
    remember (x :: r) as cands eqn:Hc. clear Hc.
    apply first_of_in in H.
    repeat (destruct H as [H|H]; [try (apply find_some in H; tauto)|]).
    + destruct cands; simpl in H; [discriminate|].
      injection H as ->. left. reflexivity.
    + destruct H.
Qed.

Lemma filter_truthy_nil (fmts : list string) :
  List.filter Py.truthy fmts = [] <-> (forall f, In f fmts -> f = "").
Proof.
  induction fmts as [|f fmts IH]; simpl.
  - split; [intros _ g []|reflexivity].
  - destruct f as [|a f]; simpl.
    + rewrite IH. split; intros H g; [intros [<-|Hg]; auto|auto].
    + split; [discriminate|]. intros H. specialize (H (String a f) (or_introl eq_refl)).
      discriminate.
Qed.

Lemma prefer_format_none (fmts : list string) :
  Wmts._prefer_format fmts = None <-> (forall f, In f fmts -> f = "").
Proof.
  rewrite prefer_format_spec. unfold Spec.prefer_format.
  destruct (Spec.remaining fmts) as [|x r] eqn:Hr.
  - rewrite <- filter_truthy_nil.
    destruct (List.filter Py.truthy fmts); simpl; split; congruence.
  - split.
    + intros H. exfalso. unfold Spec.first_of in H.
      repeat match type of H with
             | context [List.find ?p (x :: r)] => destruct (List.find p (x :: r)); try discriminate
             end.
    + intros H. exfalso.
      assert (Hin : In x (Spec.remaining fmts)) by (rewrite Hr; left; reflexivity).
      apply remaining_incl in Hin. destruct Hin as [H1 H2]. auto.
Qed.

(** ** The CRS markers *)

(** [replace("::", ":")] only leaves out colons that stand before another
    colon, and [replace(" ", "")] keeps that relation. *)
Lemma replace_colons_cons (c : ascii) (s : string) :
  Py.replace "::" ":" (String c s)
  = if Py.startswith "::" (String c s)
    then String ":" (Py.replace "::" ":" (Py.drop 1 s))
    else String c (Py.replace "::" ":" s).
Proof.
  unfold Py.replace. cbn [Py.replace_from].
  destruct (Py.startswith "::" (String c s)) eqn:E; [|reflexivity].
  destruct s as [|d s]; [simpl in E; rewrite andb_false_r in E; discriminate|].
  reflexivity.
Qed.

Lemma squeezed_refl (s : string) : squeezed s s.
Proof. induction s; constructor; assumption. Qed.

Lemma replace_colons_squeezed_aux (n : nat) (s : string) :
  (String.length s <= n)%nat -> squeezed s (Py.replace "::" ":" s).
Proof.
  revert s. induction n as [|n IH]; intros s Hn.
  - destruct s; [constructor|simpl in Hn; lia].
  - destruct s as [|c s]; [constructor|].
    rewrite replace_colons_cons.
    destruct (Py.startswith "::" (String c s)) eqn:E.
    + destruct s as [|d s]; [simpl in E; rewrite andb_false_r in E; discriminate|].
      cbn [Py.startswith] in E. apply andb_true_iff in E. destruct E as [E1 E2].
      apply andb_true_iff in E2. destruct E2 as [E2 _].
      apply Ascii.eqb_eq in E1, E2. subst c d.
      apply squeezed_drop. apply squeezed_keep. simpl. apply IH. simpl in Hn. lia.
    + apply squeezed_keep. apply IH. simpl in Hn. lia.
Qed.

Lemma replace_colons_squeezed (s : string) : squeezed s (Py.replace "::" ":" s).
Proof. apply (replace_colons_squeezed_aux (String.length s)). lia. Qed.

Lemma remove_blanks_cons (c : ascii) (s : string) :
  Py.replace " " "" (String c s)
  = if Ascii.eqb " " c then Py.replace " " "" s else String c (Py.replace " " "" s).
Proof.
  unfold Py.replace. cbn [Py.replace_from Py.startswith String.length Nat.sub].
  rewrite andb_true_r. destruct (Ascii.eqb " " c); reflexivity.
Qed.

Lemma remove_blanks_squeezed (s t : string) :
  squeezed s t -> squeezed (Py.replace " " "" s) (Py.replace " " "" t).
Proof.
  induction 1 as [|c s t H IH|s t H IH].
  - constructor.
  - rewrite !remove_blanks_cons. destruct (Ascii.eqb " " c); [exact IH|].
    now constructor.
  - rewrite !remove_blanks_cons in *. cbn [Ascii.eqb Bool.eqb] in *.
    now apply squeezed_drop.
Qed.

Lemma startswith_squeezed (s t : string) :
  squeezed s t ->
  forall m, colon_free m = true -> Py.startswith m s = Py.startswith m t.
Proof.
  induction 1 as [|c s t H IH|s t H IH]; intros m Hm.
  - reflexivity.
  - destruct m as [|a m]; [reflexivity|]. simpl.
    simpl in Hm. apply andb_true_iff in Hm. destruct Hm as [_ Hm].
    now rewrite (IH m Hm).
  - rewrite <- (IH m Hm). destruct m as [|a m]; [reflexivity|].
    simpl in Hm. apply andb_true_iff in Hm. destruct Hm as [Ha _].
    simpl. destruct (Ascii.eqb a ":"); [discriminate|reflexivity].
Qed.

Lemma contains_squeezed (m s t : string) :
  colon_free m = true -> squeezed s t -> Py.contains m s = Py.contains m t.
Proof.
  intros Hm H. induction H as [|c s t H IH|s t H IH].
  - reflexivity.
  - cbn [Py.contains]. rewrite IH.
    now rewrite (startswith_squeezed _ _ (squeezed_keep c s t H) m Hm).
  - rewrite <- IH. cbn [Py.contains].
    destruct m as [|a m]; [reflexivity|].
    simpl in Hm. apply andb_true_iff in Hm. destruct Hm as [Ha _].
    simpl. destruct (Ascii.eqb a ":"); [discriminate|reflexivity].
Qed.

(** The code's two tests are the indicators of the specification: the
    folding of [::] into [:] that the first applies changes none of its
    three answers. *)
Lemma is_3857_indicates (crs : option string) :
  Wmts.is_3857 crs = Spec.indicates_3857 crs.
Proof.
  unfold Wmts.is_3857, Spec.indicates_3857, Spec.mentions, Spec.mentions_word.
  cbv zeta.
  pose proof (replace_colons_squeezed (Py.lower (or_empty crs))) as H.
  rewrite <- (contains_squeezed "3857" _ _ eq_refl H).
  rewrite <- (contains_squeezed "900913" _ _ eq_refl H).
  rewrite <- (contains_squeezed "webmercator" _ _ eq_refl (remove_blanks_squeezed _ _ H)).
  reflexivity.
Qed.

Lemma is_4326_indicates (crs : option string) :
  Wmts.is_4326 crs = Spec.indicates_4326 crs.
Proof. reflexivity. Qed.

(** A text found in [s] is found, its blanks left out, in [s] with its
    blanks left out. *)
Lemma contains_split (m s : string) :
  Py.contains m s = true -> exists a b, s = a +:+ m +:+ b.
Proof.
  induction s as [|c s IH]; cbn [Py.contains]; intros H.
  - rewrite orb_false_r in H. destruct m; [|discriminate]. now exists "", "".
  - apply orb_true_iff in H. destruct H as [H|H].
    + exists "". revert H. generalize (String c s). clear.
      induction m as [|a m IH]; intros s H.
      * now exists s.
      * destruct s as [|d s]; [discriminate|]. simpl in H.
        apply andb_true_iff in H. destruct H as [E H]. apply Ascii.eqb_eq in E. subst d.
        destruct (IH s H) as (b & Hb). exists b. simpl in *. now f_equal.
    + destruct (IH H) as (a & b & ->). now exists (String c a), b.
Qed.

Lemma remove_blanks_app (a b : string) :
  Py.replace " " "" (a +:+ b) = Py.replace " " "" a +:+ Py.replace " " "" b.
Proof.
  induction a as [|c a IH]; [reflexivity|].
  cbn [String.append]. rewrite !remove_blanks_cons.
  destruct (Ascii.eqb " " c); [exact IH|]. cbn [String.append]. now rewrite IH.
Qed.

Lemma contains_without_blanks (m s : string) :
  Py.contains m s = true ->
  Py.contains (Py.replace " " "" m) (Py.replace " " "" s) = true.
Proof.
  intros H. destruct (contains_split m s H) as (a & b & ->).
  rewrite !remove_blanks_app. apply contains_middle.
Qed.


Lemma prefer_format_in_remaining (fmts : list string) (c : string) :
  Spec.remaining fmts <> [] ->
  Wmts._prefer_format fmts = Some c -> In c (Spec.remaining fmts).
Proof.
  rewrite prefer_format_spec. unfold Spec.prefer_format.
  destruct (Spec.remaining fmts) as [|x r] eqn:Hr; [congruence|]. intros _ H.
  remember (x :: r) as cands eqn:Hc.
  apply first_of_in in H.
  repeat (destruct H as [H|H]; [try (apply find_some in H; tauto)|]).
  - subst cands. simpl in H. injection H as ->. left. reflexivity.
  - destruct H.
Qed.

(** C4.  The default format of a WMTS layer follows this order over the
    advertised formats from which the pseudo-token [image/jpgpng] has been
    filtered out: a format that is [image/png], [image/png8] or
    [image/png32] (letter case apart); else one that contains [png]; else
    one that is [image/jpeg] or [image/jpg]; else the first that remains.
    The pseudo-token is only ever chosen when nothing else remains, as for
    the list that holds it alone. *)
Theorem prefer_format_preference_order (fmts : list string) :
  Wmts._prefer_format fmts = Spec.prefer_format fmts
  /\ Wmts._prefer_format ["image/jpgpng"] = Some "image/jpgpng"
  /\ (forall c, Wmts._prefer_format fmts = Some c -> Spec.is_pseudo c = true ->
        Spec.remaining fmts = []).
Proof.
  split; [apply prefer_format_spec|]. split; [reflexivity|].
  intros c Hc Hp.
  destruct (Spec.remaining fmts) as [|x r] eqn:Hr; [reflexivity|exfalso].
  assert (Hin : In c (Spec.remaining fmts)).
  { apply prefer_format_in_remaining; [rewrite Hr; discriminate|exact Hc]. }
  unfold Spec.remaining in Hin. apply filter_In in Hin. destruct Hin as [_ Hin].
  rewrite Hp in Hin. rewrite andb_false_r in Hin. discriminate.
Qed.

Lemma prefer_format_preference_order_witness :
  Wmts._prefer_format ["IMAGE/JPGPNG"; ""] = Some "IMAGE/JPGPNG"
  /\ Spec.is_pseudo "IMAGE/JPGPNG" = true
  /\ Spec.remaining ["IMAGE/JPGPNG"; ""] = [].
Proof.
  split; [reflexivity|]. split; [reflexivity|].
  apply (proj2 (proj2 (prefer_format_preference_order ["IMAGE/JPGPNG"; ""])) "IMAGE/JPGPNG");
    reflexivity.
Defined.

(** C10.  When the list of formats holds at least one non-empty string,
    the chooser of the default format returns one of the strings of the
    list; it returns [None] exactly when the list is empty or all its
    strings are empty. *)
Theorem prefer_format_returns_advertised (fmts : list string) :
  ((exists f, In f fmts /\ f <> "") ->
     exists c, Wmts._prefer_format fmts = Some c /\ In c fmts)
  /\ (Wmts._prefer_format fmts = None <-> fmts = [] \/ (forall f, In f fmts -> f = "")).
Proof.
  split.
  - intros (f & Hf & Hne).
    destruct (Wmts._prefer_format fmts) as [c|] eqn:E.
    + exists c. split; [reflexivity|]. now apply prefer_format_member.
    + exfalso. pose proof (proj1 (prefer_format_none fmts) E f Hf). auto.
  - rewrite prefer_format_none. split.
    + intros H. right. exact H.
    + intros [-> | H]; [intros f []|exact H].
Qed.

Lemma prefer_format_returns_advertised_witness :
  (exists f, In f [""; "image/tiff"; "image/jpgpng"] /\ f <> "")
  /\ exists c, Wmts._prefer_format [""; "image/tiff"; "image/jpgpng"] = Some c
               /\ In c [""; "image/tiff"; "image/jpgpng"].
Proof.
  assert (H : exists f, In f [""; "image/tiff"; "image/jpgpng"] /\ f <> "").
  { exists "image/tiff". split; [right; left; reflexivity|discriminate]. }
  split; [exact H|].
  exact (proj1 (prefer_format_returns_advertised [""; "image/tiff"; "image/jpgpng"]) H).
Defined.

(** ** The default tile matrix set of a WMTS layer *)

(** C3.  The default tile matrix set is the first set whose CRS indicates
    EPSG:3857 when there is one, wherever it stands in the list; otherwise
    the first whose CRS indicates EPSG:4326; otherwise the first set of
    the list; and [None] for the empty list.  A CRS indicates EPSG:3857
    when, letter case apart, it contains [3857] or [900913], or
    [webmercator] once its blanks are left out ([Spec.indicates_3857]); it
    indicates EPSG:4326 when it contains [4326], or [wgs84] once its
    blanks are left out ([Spec.indicates_4326]).  In particular a CRS
    that contains [web mercator] indicates the former and one that
    contains [wgs84] or [wgs 84] the latter. *)
Theorem prefer_matrix_set_preference (sets : list Wmts.MatrixSet) :
  Wmts._prefer_matrix_set [] = None
  /\ (forall pre s post,
        sets = pre ++ s :: post ->
        Forall (fun x => Spec.indicates_3857 (Wmts.ms_crs x) = false) pre ->
        Spec.indicates_3857 (Wmts.ms_crs s) = true ->
        Wmts._prefer_matrix_set sets = Some (Wmts.ms_id s))
  /\ (Forall (fun x => Spec.indicates_3857 (Wmts.ms_crs x) = false) sets ->
      forall pre s post,
        sets = pre ++ s :: post ->
        Forall (fun x => Spec.indicates_4326 (Wmts.ms_crs x) = false) pre ->
        Spec.indicates_4326 (Wmts.ms_crs s) = true ->
        Wmts._prefer_matrix_set sets = Some (Wmts.ms_id s))
  /\ (Forall (fun x => Spec.indicates_3857 (Wmts.ms_crs x) = false) sets ->
      Forall (fun x => Spec.indicates_4326 (Wmts.ms_crs x) = false) sets ->
      forall s rest, sets = s :: rest ->
        Wmts._prefer_matrix_set sets = Some (Wmts.ms_id s))
  /\ (forall crs,
        Spec.mentions "web mercator" crs = true -> Spec.indicates_3857 crs = true)
  /\ (forall crs,
        Spec.mentions "wgs 84" crs = true -> Spec.indicates_4326 crs = true).
Proof.
  assert (E3 : forall l : list Wmts.MatrixSet,
             Forall (fun x => Spec.indicates_3857 (Wmts.ms_crs x) = false) l ->
             Forall (fun x => Wmts.is_3857 (Wmts.ms_crs x) = false) l).
  { intros l. apply List.Forall_impl. intros x. now rewrite is_3857_indicates. }
  split; [reflexivity|]. unfold Wmts._prefer_matrix_set.
  split; [|split; [|split; [|split]]].
  - intros pre s post -> Hpre Hs.
    rewrite (find_first (fun x => Wmts.is_3857 (Wmts.ms_crs x)) pre post s (E3 _ Hpre));
      [|now rewrite is_3857_indicates].
    destruct pre; reflexivity.
  - intros H3 pre s post E Hpre Hs.
    rewrite (find_none_all _ _ (E3 _ H3)). subst sets.
    rewrite (find_first (fun x => Wmts.is_4326 (Wmts.ms_crs x)) pre post s Hpre Hs).
    destruct pre; reflexivity.
  - intros H3 H4 s rest E.
    rewrite (find_none_all _ _ (E3 _ H3)).
    rewrite (find_none_all (fun x => Wmts.is_4326 (Wmts.ms_crs x)) _ H4).
    subst sets. reflexivity.
  - intros crs H. unfold Spec.indicates_3857, Spec.mentions_word.
    apply (contains_without_blanks "web mercator") in H.
    change (Py.replace " " "" "web mercator") with "webmercator" in H.
    rewrite H. apply orb_true_r.
  - intros crs H. unfold Spec.indicates_4326, Spec.mentions_word.
    apply (contains_without_blanks "wgs 84") in H.
    change (Py.replace " " "" "wgs 84") with "wgs84" in H.
    rewrite H. apply orb_true_r.
Qed.

(** The three branches: a Web Mercator set that stands second, a WGS 84
    set that stands second when no set is in Web Mercator, and the first
    set when none is in either. *)
Lemma prefer_matrix_set_preference_witness :
  Wmts._prefer_matrix_set Demo.scenario_matrix_sets = Some "GoogleMapsCompatible"
  /\ Wmts._prefer_matrix_set Demo.utm_then_wgs84 = Some "WorldCRS84Quad"
  /\ Wmts._prefer_matrix_set Demo.national_grids = Some "UTM32".
Proof.
  split; [|split].
  - apply (proj1 (proj2 (prefer_matrix_set_preference Demo.scenario_matrix_sets))
             [ {| Wmts.ms_id := "EPSG4326"; Wmts.ms_crs := Some "urn:ogc:def:crs:EPSG::4326" |} ]
             {| Wmts.ms_id := "GoogleMapsCompatible"; Wmts.ms_crs := Some "EPSG:3857" |}
             []).
    + reflexivity.
    + constructor; [reflexivity|constructor].
    + reflexivity.
  - apply (proj1 (proj2 (proj2 (prefer_matrix_set_preference Demo.utm_then_wgs84)))
             ltac:(repeat constructor)
             [ {| Wmts.ms_id := "UTM32"; Wmts.ms_crs := Some "urn:ogc:def:crs:EPSG::25832" |} ]
             {| Wmts.ms_id := "WorldCRS84Quad"; Wmts.ms_crs := Some "WGS 84" |}
             []).
    + reflexivity.
    + constructor; [reflexivity|constructor].
    + reflexivity.
  - apply (proj1 (proj2 (proj2 (proj2 (prefer_matrix_set_preference Demo.national_grids))))
             ltac:(repeat constructor) ltac:(repeat constructor)
             {| Wmts.ms_id := "UTM32"; Wmts.ms_crs := Some "urn:ogc:def:crs:EPSG::25832" |}
             [ {| Wmts.ms_id := "GK3"; Wmts.ms_crs := None |} ]).
    reflexivity.
Defined.

(** The markers of the two reference systems, in the spellings met in
    capability documents. *)
Example indicates_3857_examples :
  Wmts.is_3857 (Some "urn:ogc:def:crs:EPSG::3857") = true
  /\ Wmts.is_3857 (Some "EPSG:900913") = true
  /\ Wmts.is_3857 (Some "WGS 84 / Web Mercator") = true
  /\ Wmts.is_3857 (Some "WebMercator") = true
  /\ Wmts.is_3857 (Some "urn:ogc:def:crs:EPSG::4326") = false
  /\ Wmts.is_3857 None = false.
Proof. repeat split. Qed.

Example indicates_4326_examples :
  Wmts.is_4326 (Some "urn:ogc:def:crs:EPSG::4326") = true
  /\ Wmts.is_4326 (Some "WGS 84") = true
  /\ Wmts.is_4326 (Some "urn:ogc:def:crs:OGC:1.3:CRS84") = false
  /\ Wmts.is_4326 None = false.
Proof. repeat split. Qed.


(** ** The image format of an ArcGIS MapServer layer *)

(** The choice when the requested format does not decide. *)
Lemma arcgis_fallback_pref (available pre post : list string) (p : string) :
  Rest.arcgis_prefs = pre ++ p :: post ->
  (forall q, In q pre -> ~ In q available) -> In p available ->
  List.find (fun q => Rest.mem q available) Rest.arcgis_prefs = Some p.
Proof.
  intros -> Hpre Hp. apply find_first.
  - apply List.Forall_forall. intros q Hq. apply mem_not_In. auto.
  - now apply mem_In.
Qed.

Lemma arcgis_fallback_none (available : list string) :
  (forall q, In q Rest.arcgis_prefs -> ~ In q available) ->
  List.find (fun q => Rest.mem q available) Rest.arcgis_prefs = None.
Proof.
  intros H. apply find_none_all, List.Forall_forall. intros q Hq. apply mem_not_In. auto.
Qed.

(** C6.  The format for an ArcGIS MapServer layer is the requested format
    (as a token: trimmed and in lower case, like the advertised tokens)
    when it is in the advertised set; otherwise the first of [png32],
    [png24], [png8], [png], [jpg], [jpeg] that is in the advertised set;
    otherwise the first advertised token; otherwise [png32].  For the
    advertised formats [PNG32, PNG24, JPG] and no requested format it is
    [png32]. *)
Theorem prefer_arcgis_format_preference (requested : option string) (available : list string) :
  let r := Py.lower (Py.strip (or_empty requested)) in
  let asked := or_empty requested <> "" /\ In r available in
  (asked -> Rest._prefer_arcgis_format requested available = r)
  /\ (~ asked ->
      (forall pre p post,
          ["png32"; "png24"; "png8"; "png"; "jpg"; "jpeg"] = pre ++ p :: post ->
          (forall q, In q pre -> ~ In q available) -> In p available ->
          Rest._prefer_arcgis_format requested available = p)
      /\ ((forall q, In q ["png32"; "png24"; "png8"; "png"; "jpg"; "jpeg"] -> ~ In q available) ->
          Rest._prefer_arcgis_format requested available
          = match available with a :: _ => a | [] => "png32" end))
  /\ Rest._prefer_arcgis_format None (Rest._parse_supported_formats (Some "PNG32, PNG24, JPG"))
     = "png32".
Proof.
  intros r asked. split; [|split; [|reflexivity]].
  - intros [Hne Hin]. unfold Rest._prefer_arcgis_format. fold r.
    apply truthy_nonempty in Hne. rewrite Hne.
    apply mem_In in Hin. now rewrite Hin.
  - intros Hno.
    assert (Hfall : Rest._prefer_arcgis_format requested available
                    = match List.find (fun p => Rest.mem p available) Rest.arcgis_prefs with
                      | Some p => p
                      | None => match available with a :: _ => a | [] => "png32" end
                      end).
    { unfold Rest._prefer_arcgis_format. fold r.
      destruct (Py.truthy (or_empty requested)) eqn:Ht; [|reflexivity].
      destruct (Rest.mem r available) eqn:Hm; [|reflexivity].
      exfalso. apply Hno. split; [now apply truthy_nonempty|now apply mem_In]. }
    rewrite Hfall. split.
    + intros pre p post E Hpre Hp.
      now rewrite (arcgis_fallback_pref available pre post p E Hpre Hp).
    + intros Hnone. now rewrite (arcgis_fallback_none available Hnone).
Qed.

Lemma prefer_arcgis_format_preference_witness :
  Rest._prefer_arcgis_format (Some " PNG24 ") ["png32"; "png24"; "jpg"] = "png24"
  /\ Rest._prefer_arcgis_format (Some "gif") ["bmp"; "jpg"; "png8"] = "png8".
Proof.
  split.
  - apply (proj1 (prefer_arcgis_format_preference (Some " PNG24 ") ["png32"; "png24"; "jpg"])).
    split; [discriminate|right; left; reflexivity].
  - assert (Hno : ~ (or_empty (Some "gif") <> ""
                     /\ In (Py.lower (Py.strip (or_empty (Some "gif")))) ["bmp"; "jpg"; "png8"])).
    { intros [_ H]. simpl in H. intuition discriminate. }
    apply (proj1 (proj1 (proj2 (prefer_arcgis_format_preference (Some "gif") ["bmp"; "jpg"; "png8"])) Hno)
             ["png32"; "png24"] "png8" ["png"; "jpg"; "jpeg"]).
    + reflexivity.
    + intros q Hq H. simpl in Hq, H. intuition (subst; discriminate).
    + right. right. left. reflexivity.
Defined.

(** ** Resolving an ArcGIS layer by identifier *)



Lemma eqb_false_forall (needle : string) (l : list Rest.Layer) :
  Forall (fun X => Rest.norm_name X <> needle) l ->
  Forall (fun X => String.eqb (Rest.norm_name X) needle = false) l.
Proof.
  intros H. induction H; constructor; auto. now apply String.eqb_neq.
Qed.

(** The layer a name designates: the first whose name is the needle, else
    (for a needle that is not empty) the first whose name contains it. *)
Lemma resolve_by_name (layers : list Rest.Layer) (ident : Rest.Ident) :
  layers <> [] -> Rest.is_numeric ident = false ->
  Rest._resolve_layer layers ident
  = let needle := Py.lower (Py.strip (Rest.ident_text ident)) in
    match List.find (fun L => String.eqb (Rest.norm_name L) needle) layers with
    | Some L => let? i := Rest.int_id L in Ok (i, Rest.l_name L)
    | None =>
        match List.find (fun L => Py.truthy needle && Py.contains needle (Rest.norm_name L)) layers with
        | Some L => let? i := Rest.int_id L in Ok (i, Rest.l_name L)
        | None =>
            Raise (ValueError ("Layer '" +:+ Rest.ident_text ident +:+ "' not found by name."))
        end
    end.
Proof.
  intros Hne Hnum. unfold Rest._resolve_layer. rewrite Hnum.
  destruct layers; [congruence|reflexivity].
Qed.





(** ** The layers of a WMS capabilities document *)

Lemma flat_map_filter_eq {B} (p : Xml.Element -> bool) (f : Xml.Element -> list B)
    (l : list Xml.Element) :
  Xml.flat_map_filter p f l = List.flat_map f (List.filter p l).
Proof.
  induction l as [|x l IH]; simpl; [reflexivity|].
  destruct (p x); simpl; now rewrite IH.
Qed.

(** [walk_layers] as the source writes it: the element's own entry, then
    the entries of the children that [_findall_any] returns. *)
Lemma walk_layers_eq (elem : Xml.Element) (inherited_crs : list string) :
  Wms.walk_layers elem inherited_crs
  = let combined_crs := inherited_crs ++ Wms.own_crs elem in
    Wms.own_layer elem combined_crs
    ++ List.flat_map (fun child => Wms.walk_layers child combined_crs)
         (Wms._findall_any elem "Layer").
Proof.
  destruct elem as [t a x cs]. cbv zeta.
  unfold Wms._findall_any, Xml.findall. rewrite flat_map_app.
  simpl. now rewrite !flat_map_filter_eq.
Qed.

Lemma listing_eq (e : Xml.Element) (ancestors : list Xml.Element) :
  WmsSpec.listing e ancestors
  = (ancestors, e)
    :: List.flat_map (fun child => WmsSpec.listing child (ancestors ++ [e]))
         (Xml.findall (Xml.tag_any "Layer") e).
Proof.
  destruct e as [t a x cs]. unfold Xml.findall. simpl. now rewrite flat_map_filter_eq.
Qed.

(** *** Keeping the first entry of every name *)

Lemma names_cons (d : Wms.Layer) (l : list Wms.Layer) :
  names (d :: l) = {[ Wms.name d ]} ∪ names l.
Proof. reflexivity. Qed.

Lemma names_app (a b : list Wms.Layer) : names (a ++ b) = names a ∪ names b.
Proof.
  unfold names. rewrite List.map_app. apply list_to_set_app_L.
Qed.

Lemma elem_of_names (x : string) (l : list Wms.Layer) :
  x ∈ names l <-> exists d, In d l /\ Wms.name d = x.
Proof.
  unfold names. rewrite elem_of_list_to_set, list_elem_of_In, in_map_iff.
  split; intros (d & H1 & H2); exists d; auto.
Qed.

Lemma uniq_from_app (a b : list Wms.Layer) (seen : gset string) :
  Wms.uniq_from seen (a ++ b)
  = Wms.uniq_from seen a ++ Wms.uniq_from (names a ∪ seen) b.
Proof.
  revert seen. induction a as [|d a IH]; intros seen; simpl.
  - f_equal. unfold names. simpl. set_solver.
  - destruct (decide (Wms.name d ∈ seen)) as [Hin|Hout].
    + rewrite IH. f_equal. f_equal. rewrite names_cons. set_solver.
    + simpl. f_equal. rewrite IH. f_equal. f_equal. rewrite names_cons. set_solver.
Qed.

Lemma uniq_from_covered (b : list Wms.Layer) (seen : gset string) :
  names b ⊆ seen -> Wms.uniq_from seen b = [].
Proof.
  induction b as [|d b IH]; intros H; simpl; [reflexivity|].
  rewrite names_cons in H.
  destruct (decide (Wms.name d ∈ seen)) as [Hin|Hout]; [|set_solver].
  apply IH. set_solver.
Qed.

Lemma same_uniq_refl (l : list Wms.Layer) : same_uniq l l.
Proof. split; reflexivity. Qed.

Lemma same_uniq_app (a a' b b' : list Wms.Layer) :
  same_uniq a a' -> same_uniq b b' -> same_uniq (a ++ b) (a' ++ b').
Proof.
  intros [Ha Na] [Hb Nb]. split.
  - intros seen. rewrite !uniq_from_app, Ha, Na, Hb. reflexivity.
  - rewrite !names_app. congruence.
Qed.

Lemma same_uniq_absorb (a b : list Wms.Layer) :
  names b ⊆ names a -> same_uniq (a ++ b) a.
Proof.
  intros H. split.
  - intros seen. rewrite uniq_from_app, (uniq_from_covered b (names a ∪ seen)); [apply app_nil_r|].
    intros x Hx. apply elem_of_union. left. apply H, Hx.
  - rewrite names_app. apply set_eq. intros x. rewrite elem_of_union.
    split; [intros [Hx|Hx]; [exact Hx|apply H, Hx]|intros Hx; left; exact Hx].
Qed.

Lemma same_uniq_trans (a b c : list Wms.Layer) :
  same_uniq a b -> same_uniq b c -> same_uniq a c.
Proof.
  intros [H1 N1] [H2 N2]. split; [intros seen; now rewrite H1|congruence].
Qed.

Lemma same_uniq_flat_map {A} (f g : A -> list Wms.Layer) (l : list A) :
  Forall (fun x => same_uniq (f x) (g x)) l ->
  same_uniq (List.flat_map f l) (List.flat_map g l).
Proof.
  intros H. induction H as [|x l Hx _ IH]; simpl.
  - apply same_uniq_refl.
  - now apply same_uniq_app.
Qed.

(** *** [sorted(set(l))] *)

Lemma same_elems_set (l1 l2 : list string) :
  same_elems l1 l2 -> (list_to_set l1 : gset string) = list_to_set l2.
Proof.
  intros H. apply set_eq. intros x.
  rewrite !elem_of_list_to_set, !list_elem_of_In. apply H.
Qed.

Lemma sorted_set_same (l1 l2 : list string) :
  same_elems l1 l2 -> Wms.sorted_set l1 = Wms.sorted_set l2.
Proof. intros H. unfold Wms.sorted_set. now rewrite (same_elems_set l1 l2 H). Qed.

Lemma insert_sorted_In (x y : string) (l : list string) :
  In y (Wms.insert_sorted x l) <-> y = x \/ In y l.
Proof.
  induction l as [|z l IH]; simpl; [intuition|].
  destruct (String.leb x z); simpl; [intuition|]. rewrite IH. intuition.
Qed.

Lemma sorted_In (y : string) (l : list string) : In y (Wms.sorted l) <-> In y l.
Proof.
  induction l as [|x l IH]; simpl; [reflexivity|].
  rewrite insert_sorted_In, IH. intuition.
Qed.

Lemma sorted_set_In (y : string) (l : list string) : In y (Wms.sorted_set l) <-> In y l.
Proof.
  unfold Wms.sorted_set. rewrite sorted_In, <- list_elem_of_In, elem_of_elements,
    elem_of_list_to_set, list_elem_of_In. reflexivity.
Qed.

Lemma insert_sorted_HdRel (x a : string) (l : list string) :
  String.leb a x = true -> HdRel ascending a l -> HdRel ascending a (Wms.insert_sorted x l).
Proof.
  intros Hax H. destruct l as [|z l]; simpl; [constructor; exact Hax|].
  destruct (String.leb x z); constructor; [exact Hax|].
  now inversion H.
Qed.

Lemma insert_sorted_Sorted (x : string) (l : list string) :
  Sorted ascending l -> Sorted ascending (Wms.insert_sorted x l).
Proof.
  induction 1 as [|z l Hs IH Hd]; simpl; [repeat constructor|].
  destruct (String.leb x z) eqn:E.
  - constructor; [constructor; assumption|constructor; exact E].
  - constructor; [exact IH|]. apply insert_sorted_HdRel; [|exact Hd].
    destruct (String.leb_total x z) as [H|H]; congruence.
Qed.

Lemma sorted_Sorted (l : list string) : Sorted ascending (Wms.sorted l).
Proof.
  induction l as [|x l IH]; simpl; [constructor|]. now apply insert_sorted_Sorted.
Qed.

Lemma insert_sorted_NoDup (x : string) (l : list string) :
  ~ In x l -> List.NoDup l -> List.NoDup (Wms.insert_sorted x l).
Proof.
  intros Hx H. induction H as [|z l Hz Hl IH]; simpl.
  - constructor; [intros []|constructor].
  - destruct (String.leb x z).
    + constructor; [exact Hx|]. constructor; assumption.
    + constructor.
      * rewrite insert_sorted_In. intros [->|H]; [apply Hx; left; reflexivity|contradiction].
      * apply IH. intros H. apply Hx. right. exact H.
Qed.

Lemma sorted_NoDup (l : list string) : List.NoDup l -> List.NoDup (Wms.sorted l).
Proof.
  induction 1 as [|x l Hx Hl IH]; simpl; [constructor|].
  apply insert_sorted_NoDup; [|exact IH]. now rewrite sorted_In.
Qed.

Lemma sorted_set_NoDup (l : list string) : List.NoDup (Wms.sorted_set l).
Proof.
  unfold Wms.sorted_set. apply sorted_NoDup, NoDup_ListNoDup, NoDup_elements.
Qed.

(** *** The codes of an element and of its ancestors *)

Lemma filter_is_any (name : string) (l : list Xml.Element) (e : Xml.Element) :
  In e (List.filter (Xml.tag_is name) l) -> In e (List.filter (Xml.tag_any name) l).
Proof.
  rewrite !filter_In. intros [H1 H2]. split; [exact H1|].
  unfold Xml.tag_any. unfold Xml.tag_is in H2. now rewrite H2.
Qed.

Lemma findall_any_elems {B} (f : Xml.Element -> list B) (e : Xml.Element) (name : string) (y : B) :
  In y (List.flat_map f (Wms._findall_any e name))
  <-> In y (List.flat_map f (Xml.findall (Xml.tag_any name) e)).
Proof.
  unfold Wms._findall_any, Xml.findall. rewrite flat_map_app, in_app_iff, !in_flat_map.
  split.
  - intros [H|(c & Hc & Hy)]; [exact H|]. exists c. split; [now apply filter_is_any|exact Hy].
  - intros H. left. exact H.
Qed.

Lemma own_crs_declared (e : Xml.Element) :
  same_elems (Wms.own_crs e) (WmsSpec.declared e).
Proof.
  intros x. unfold Wms.own_crs, WmsSpec.declared.
  rewrite !in_app_iff, !findall_any_elems. reflexivity.
Qed.

Lemma same_elems_app (a a' b b' : list string) :
  same_elems a a' -> same_elems b b' -> same_elems (a ++ b) (a' ++ b').
Proof. intros Ha Hb x. rewrite !in_app_iff, (Ha x), (Hb x). reflexivity. Qed.

Lemma same_elems_flat_map (f : string -> list string) (l l' : list string) :
  same_elems l l' -> same_elems (List.flat_map f l) (List.flat_map f l').
Proof.
  intros H x. rewrite !in_flat_map. split; intros (t & Ht & Hx); exists t; split; auto;
    now apply H.
Qed.

Lemma combined_chain (e : Xml.Element) (inherited : list string) (ancestors : list Xml.Element) :
  same_elems inherited (List.flat_map WmsSpec.declared ancestors) ->
  same_elems (inherited ++ Wms.own_crs e) (List.flat_map WmsSpec.declared (ancestors ++ [e])).
Proof.
  intros H. rewrite flat_map_app. simpl. rewrite app_nil_r.
  apply same_elems_app; [exact H|apply own_crs_declared].
Qed.

Lemma own_layer_same (e : Xml.Element) (l l' : list string) :
  same_elems l l' -> Wms.own_layer e l = Wms.own_layer e l'.
Proof.
  intros H. unfold Wms.own_layer.
  now rewrite (sorted_set_same _ _ (same_elems_flat_map Wms.normalize_crs l l' H)).
Qed.

Lemma flat_map_flat_map {A B C} (f : B -> list C) (g : A -> list B) (l : list A) :
  List.flat_map f (List.flat_map g l) = List.flat_map (fun x => List.flat_map f (g x)) l.
Proof.
  induction l as [|x l IH]; simpl; [reflexivity|]. now rewrite flat_map_app, IH.
Qed.

(** Visiting the children that have no namespace a second time, and
    reading their CRS twice, changes nothing once the first entry of
    every name is kept. *)
Lemma walk_layers_listing (e : Xml.Element) :
  forall inherited ancestors,
    same_elems inherited (List.flat_map WmsSpec.declared ancestors) ->
    same_uniq (Wms.walk_layers e inherited)
      (List.flat_map WmsSpec.entry (WmsSpec.listing e ancestors)).
Proof.
  induction e as [t a x cs IH] using Element_tree_ind. intros inherited ancestors Hinh.
  set (e := Xml.Elem t a x cs).
  rewrite walk_layers_eq, listing_eq. cbv zeta.
  set (combined := inherited ++ Wms.own_crs e).
  pose proof (combined_chain e inherited ancestors Hinh) as Hcomb. fold combined in Hcomb.
  cbn [List.flat_map]. unfold WmsSpec.entry at 1. cbn [fst snd].
  rewrite flat_map_flat_map.
  apply same_uniq_app.
  - rewrite (own_layer_same e _ _ Hcomb). apply same_uniq_refl.
  - unfold Wms._findall_any. rewrite flat_map_app.
    eapply same_uniq_trans.
    + apply same_uniq_absorb. intros nm. rewrite !elem_of_names.
      intros (d & Hd & Hnm). exists d. split; [|exact Hnm].
      apply in_flat_map in Hd. destruct Hd as (c & Hc & Hd).
      apply in_flat_map. exists c. split; [|exact Hd].
      unfold Xml.findall in *. now apply filter_is_any.
    + apply same_uniq_flat_map. apply List.Forall_forall. intros c Hc.
      unfold Xml.findall in Hc. apply filter_In in Hc. destruct Hc as [Hc _].
      simpl in Hc. apply (proj1 (List.Forall_forall _ _) IH c Hc). exact Hcomb.
Qed.

(** *** What keeping the first entry of every name yields *)

Lemma uniq_from_sublist (l : list Wms.Layer) (seen : gset string) :
  sublist (Wms.uniq_from seen l) l.
Proof.
  revert seen. induction l as [|d l IH]; intros seen; simpl; [constructor|].
  destruct (decide (Wms.name d ∈ seen)); [apply sublist_cons|apply sublist_skip]; apply IH.
Qed.

Lemma uniq_from_In (l : list Wms.Layer) (seen : gset string) (d : Wms.Layer) :
  In d (Wms.uniq_from seen l)
  <-> WmsSpec.first_of_name l d /\ Wms.name d ∉ seen.
Proof.
  unfold WmsSpec.first_of_name.
  revert seen. induction l as [|d0 l IH]; intros seen; simpl.
  - split; [intros []|]. intros [(pre & post & E & _) _]. destruct pre; discriminate.
  - destruct (decide (Wms.name d0 ∈ seen)) as [Hin|Hout].
    + rewrite IH. split.
      * intros [(pre & post & -> & Hpre) Hd]. split; [|exact Hd].
        exists (d0 :: pre), post. split; [reflexivity|].
        intros x [<-|Hx]; [intros E; apply Hd; now rewrite <- E|now apply Hpre].
      * intros [(pre & post & E & Hpre) Hd]. split; [|exact Hd].
        destruct pre as [|p pre]; simpl in E; injection E as -> ->; [contradiction|].
        exists pre, post. split; [reflexivity|]. intros x Hx. apply Hpre. now right.
    + simpl. rewrite IH. split.
      * intros [<-|[(pre & post & -> & Hpre) Hd]].
        -- split; [|exact Hout]. exists [], l. split; [reflexivity|intros x []].
        -- split; [|intros H; apply Hd; apply elem_of_union; now right].
           exists (d0 :: pre), post. split; [reflexivity|].
           intros x [<-|Hx]; [|now apply Hpre].
           intros E. apply Hd. apply elem_of_union. left. apply elem_of_singleton. now symmetry.
      * intros [(pre & post & E & Hpre) Hd].
        destruct pre as [|p pre]; simpl in E; injection E as -> ->; [now left|].
        right. split.
        -- exists pre, post. split; [reflexivity|]. intros x Hx. apply Hpre. now right.
        -- intros H. apply elem_of_union in H. destruct H as [H|H]; [|contradiction].
           apply elem_of_singleton in H. apply (Hpre p); [now left|now symmetry].
Qed.

Lemma uniq_from_NoDup (l : list Wms.Layer) (seen : gset string) :
  List.NoDup (List.map Wms.name (Wms.uniq_from seen l)).
Proof.
  revert seen. induction l as [|d l IH]; intros seen; simpl; [constructor|].
  destruct (decide (Wms.name d ∈ seen)); [apply IH|]. simpl. constructor; [|apply IH].
  intros H. apply in_map_iff in H. destruct H as (x & E & Hx).
  apply uniq_from_In in Hx. destruct Hx as [_ Hx]. apply Hx.
  apply elem_of_union. left. apply elem_of_singleton. exact E.
Qed.

Lemma parse_layers_listing (root rl : Xml.Element) :
  Wms.root_layer root = Some rl ->
  Wms.parse_layers_of_root root
  = Wms.uniq_from ∅ (List.flat_map WmsSpec.entry (WmsSpec.listing rl [])).
Proof.
  intros H. unfold Wms.parse_layers_of_root. rewrite H.
  apply (walk_layers_listing rl [] []). intros x. reflexivity.
Qed.

(** *** The normalised form of a code *)

Lemma normalize_crs_form (tok c : string) :
  In c (Wms.normalize_crs tok) -> Py.startswith "EPSG:" c = true.
Proof.
  unfold Wms.normalize_crs. destruct (Py.truthy tok); [|intros []].
  destruct (Py.startswith "EPSG:" (Py.upper (Py.strip tok))) eqn:E1.
  - intros [<-|[]]. exact E1.
  - destruct (Py.contains "EPSG" (Py.upper (Py.strip tok))); [|intros []].
    destruct (Wmts.last_digit_token _) as [d|]; [|intros []].
    intros [<-|[]]. apply (startswith_append "EPSG:" d).
Qed.

(** The last segment made of digits only. *)
Lemma last_digit_token_split (pre post : list string) (d : string) :
  Py.isdigit d = true -> Forall (fun s => Py.isdigit s = false) post ->
  Wmts.last_digit_token (pre ++ d :: post) = Some d.
Proof.
  intros Hd Hpost. unfold Wmts.last_digit_token.
  rewrite rev_app_distr. simpl. rewrite <- app_assoc. simpl.
  apply find_first; [|exact Hd].
  apply List.Forall_forall. intros s Hs. apply in_rev in Hs.
  now apply (proj1 (List.Forall_forall _ _) Hpost).
Qed.

Lemma last_digit_token_none (segs : list string) :
  Forall (fun s => Py.isdigit s = false) segs -> Wmts.last_digit_token segs = None.
Proof.
  intros H. unfold Wmts.last_digit_token. apply find_none_all.
  apply List.Forall_forall. intros s Hs. apply in_rev in Hs.
  now apply (proj1 (List.Forall_forall _ _) H).
Qed.


Lemma entry_eq (ancestors : list Xml.Element) (e : Xml.Element) :
  WmsSpec.entry (ancestors, e)
  = match WmsSpec.layer_name e with
    | None => []
    | Some nm =>
        [ {| Wms.name := nm; Wms.title := WmsSpec.layer_title e nm;
             Wms.crs_list := Wms.sorted_set (WmsSpec.codes (ancestors ++ [e])) |} ]
    end.
Proof.
  unfold WmsSpec.entry, Wms.own_layer, WmsSpec.layer_name, WmsSpec.layer_title, WmsSpec.codes.
  cbn [fst snd].
  destruct (Wms._first_any e "Name") as [name_el|]; [|reflexivity].
  cbv zeta. destruct (Py.truthy (Py.strip (or_empty (Xml.text name_el)))); reflexivity.
Qed.

Lemma codes_In (chain : list Xml.Element) (c : string) :
  In c (WmsSpec.codes chain)
  <-> exists a tok, In a chain /\ In tok (WmsSpec.declared a) /\ In c (Wms.normalize_crs tok).
Proof.
  unfold WmsSpec.codes. rewrite in_flat_map. split.
  - intros (tok & Htok & Hc). apply in_flat_map in Htok. destruct Htok as (a & Ha & Htok).
    exists a, tok. auto.
  - intros (a & tok & Ha & Htok & Hc). exists tok. split; [|exact Hc].
    apply in_flat_map. exists a. auto.
Qed.

(** C1.  From the tree of a WMS capabilities document the parser lists
    the named Layer elements found at and below the root layer, in
    document order, keeping for every name its first occurrence only.  A
    Layer element without a [Name] of non-blank text is not listed, yet
    its own codes reach its descendants.  The [crs_list] of a listed layer
    is the sorted list, without repetition, of the normalised codes that
    the layer and its ancestors declare in their CRS and SRS children.  A
    declared token that starts with [EPSG:] (letter case apart) is kept in
    upper case; another token that contains [EPSG] is reduced to [EPSG:]
    followed by its last segment between colons made of digits only, when
    it has one; every other token is dropped. *)
Theorem wms_layers_inherit_crs (root : Xml.Element) :
  match Wms.root_layer root with
  | None => Wms.parse_layers_of_root root = []
  | Some rl =>
      let all := List.flat_map WmsSpec.entry (WmsSpec.listing rl []) in
      sublist (Wms.parse_layers_of_root root) all
      /\ List.NoDup (List.map Wms.name (Wms.parse_layers_of_root root))
      /\ (forall d, In d (Wms.parse_layers_of_root root) <-> WmsSpec.first_of_name all d)
  end
  /\ (forall ancestors e,
        WmsSpec.entry (ancestors, e)
        = match WmsSpec.layer_name e with
          | None => []
          | Some nm =>
              [ {| Wms.name := nm; Wms.title := WmsSpec.layer_title e nm;
                   Wms.crs_list := Wms.sorted_set (WmsSpec.codes (ancestors ++ [e])) |} ]
          end)
  /\ (forall chain,
        (forall c, In c (Wms.sorted_set (WmsSpec.codes chain))
                   <-> exists a tok, In a chain /\ In tok (WmsSpec.declared a)
                                     /\ In c (Wms.normalize_crs tok))
        /\ List.NoDup (Wms.sorted_set (WmsSpec.codes chain))
        /\ Sorted ascending (Wms.sorted_set (WmsSpec.codes chain)))
  /\ (forall tok c, In c (Wms.normalize_crs tok) -> Py.startswith "EPSG:" c = true)
  /\ (forall tok, tok <> "" ->
        (Py.startswith "EPSG:" (Py.upper (Py.strip tok)) = true ->
           Wms.normalize_crs tok = [Py.upper (Py.strip tok)])
        /\ (Py.startswith "EPSG:" (Py.upper (Py.strip tok)) = false ->
            Py.contains "EPSG" (Py.upper (Py.strip tok)) = true ->
            (forall pre d post,
                Py.split_on ":" (Py.replace "::" ":" (Py.strip tok)) = pre ++ d :: post ->
                Py.isdigit d = true -> Forall (fun s => Py.isdigit s = false) post ->
                Wms.normalize_crs tok = ["EPSG:" +:+ d])
            /\ (Forall (fun s => Py.isdigit s = false)
                  (Py.split_on ":" (Py.replace "::" ":" (Py.strip tok))) ->
                Wms.normalize_crs tok = []))
        /\ (Py.startswith "EPSG:" (Py.upper (Py.strip tok)) = false ->
            Py.contains "EPSG" (Py.upper (Py.strip tok)) = false ->
            Wms.normalize_crs tok = [])).
Proof.
  split; [|split; [|split; [|split]]].
  - destruct (Wms.root_layer root) as [rl|] eqn:Hrl.
    + cbv zeta. rewrite (parse_layers_listing root rl Hrl). split; [|split].
      * apply uniq_from_sublist.
      * apply uniq_from_NoDup.
      * intros d. rewrite uniq_from_In. split; [tauto|]. intros H. split; [exact H|].
        apply not_elem_of_empty.
    + unfold Wms.parse_layers_of_root. now rewrite Hrl.
  - apply entry_eq.
  - intros chain. split; [|split].
    + intros c. rewrite sorted_set_In. apply codes_In.
    + apply sorted_set_NoDup.
    + apply sorted_Sorted.
  - apply normalize_crs_form.
  - intros tok Htok. apply truthy_nonempty in Htok.
    unfold Wms.normalize_crs. rewrite Htok. split; [|split].
    + intros ->. reflexivity.
    + intros -> ->. split.
      * intros pre d post -> Hd Hpost. now rewrite (last_digit_token_split pre post d Hd Hpost).
      * intros H. now rewrite (last_digit_token_none _ H).
    + intros -> ->. reflexivity.
Qed.

Lemma wms_layers_inherit_crs_witness :
  In {| Wms.name := "Ortho2023"; Wms.title := "Ortho2023";
        Wms.crs_list := ["EPSG:25832"; "EPSG:3857"; "EPSG:4326"] |}
     (Wms.parse_layers_of_root Demo.caps_ortho).
Proof.
  pose proof (proj1 (wms_layers_inherit_crs Demo.caps_ortho)) as H. cbv zeta in H.
  apply (proj2 (proj2 (proj2 H) _)).
  exists [], []. split; [vm_compute; reflexivity|intros x []].
Defined.

Example parse_layers_nested :
  Wms.parse_layers_of_root Demo.caps_nested
  = [ {| Wms.name := "root"; Wms.title := "root"; Wms.crs_list := ["EPSG:4326"] |};
      {| Wms.name := "leaf"; Wms.title := "Leaf";
         Wms.crs_list := ["EPSG:25832"; "EPSG:3857"; "EPSG:4326"] |} ].
Proof. vm_compute. reflexivity. Qed.


(** ** Listing the layers of a WMS: version 1.3.0, then 1.1.1 *)

Section LoadProofs.

Variable netloc_error : string -> option string.
Variable _blocking_get : string -> Z -> option string * string.
Variable fromstring : string -> Outcome Xml.Element.

Lemma urlsplit_raises (url : string) (e : Exn) :
  Url.urlsplit netloc_error url = Raise e -> exists m, e = ValueError m.
Proof.
  unfold Url.urlsplit.
  destruct (Url.split_scheme _) as [sch u1]. destruct (Url.split_netloc u1) as [loc u2].
  destruct (if Py.truthy loc then netloc_error loc else None) as [m|].
  - intros [= <-]. now exists m.
  - destruct (Url.cut "#" u2) as [u3 frag]. destruct (Url.cut "?" u3). discriminate.
Qed.

Lemma build_caps_url_raises (link ver : string) (e : Exn) :
  Url.wms_build_caps_url netloc_error link ver = Raise e -> exists m, e = ValueError m.
Proof.
  unfold Url.wms_build_caps_url, bind.
  destruct (Url.urlsplit netloc_error (Py.strip link)) eqn:E; [discriminate|].
  intros [= <-]. now apply urlsplit_raises in E.
Qed.

Lemma normalize_service_base_raises (url : string) (e : Exn) :
  Url.wms_normalize_service_base netloc_error url = Raise e -> exists m, e = ValueError m.
Proof.
  unfold Url.wms_normalize_service_base, bind.
  destruct (Url.urlsplit netloc_error url) eqn:E; [discriminate|].
  intros [= <-]. now apply urlsplit_raises in E.
Qed.

Lemma versions_nil (link : string) (errors : list string) (w : Gui.World) :
  WmsLoad.versions netloc_error _blocking_get fromstring link [] errors w
  = (LoadSpec.with_dialog "WMS Error" (WmsLoad.failure_text link errors) w, Ok tt).
Proof. reflexivity. Qed.

(** One turn of the loop over the versions. *)
Lemma versions_step (link ver : string) (rest errors : list string) (w : Gui.World) :
  WmsLoad.versions netloc_error _blocking_get fromstring link (ver :: rest) errors w
  = match LoadSpec.attempt netloc_error _blocking_get fromstring link ver with
    | LoadSpec.NotSent e => (w, Raise e)
    | LoadSpec.Listed items =>
        (LoadSpec.with_tree items (LoadSpec.sent netloc_error link ver w), Ok tt)
    | LoadSpec.Crashed e => (LoadSpec.sent netloc_error link ver w, Raise e)
    | LoadSpec.Failed e1 =>
        WmsLoad.versions netloc_error _blocking_get fromstring link rest (errors ++ [e1])
          (LoadSpec.sent netloc_error link ver w)
    end.
Proof.
  cbn [WmsLoad.versions].
  unfold WmsLoad.round, LoadSpec.attempt, LoadSpec.sent, LoadSpec.caps_url,
    Gui.mbind, Gui.lift, Gui.ret, Net.http_get_bytes.
  destruct (Url.wms_build_caps_url netloc_error link ver) as [url|e] eqn:Eb.
  - destruct (_blocking_get url 15000%Z) as [[xml_bytes|] used]; [|reflexivity].
    cbn [fst snd].
    unfold WmsLoad._parse_layers_from_caps, WmsLoad._extract_getmap_base, WmsLoad.parse, bind.
    destruct (fromstring xml_bytes) as [root|e0];
      [|destruct e0; reflexivity].
    destruct (Wms.parse_layers_of_root root) as [|l ls]; [reflexivity|].
    destruct (Url.wms_normalize_service_base netloc_error _) as [base|e] eqn:En; [reflexivity|].
    apply normalize_service_base_raises in En. destruct En as [m ->]. reflexivity.
  - apply build_caps_url_raises in Eb. destruct Eb as [m ->]. reflexivity.
Qed.

Lemma load_wms_layers_spec (wms_link : string) (w : Gui.World) :
  WmsLoad.load_wms_layers netloc_error _blocking_get fromstring wms_link w
  = LoadSpec.load netloc_error _blocking_get fromstring wms_link w.
Proof.
  unfold WmsLoad.load_wms_layers, LoadSpec.load, WmsLoad.clean_url. cbv zeta.
  rewrite versions_step.
  destruct (LoadSpec.attempt _ _ _ (Py.strip wms_link) "1.3.0"); try reflexivity.
  rewrite versions_step.
  destruct (LoadSpec.attempt _ _ _ (Py.strip wms_link) "1.1.1"); try reflexivity.
Qed.

End LoadProofs.

Lemma contains_refl (s : string) : Py.contains s s = true.
Proof. rewrite <- (append_empty_r s) at 2. apply contains_here. Qed.

Lemma failure_text_both (link e1 e2 : string) :
  Py.contains e1 (WmsLoad.failure_text link [e1; e2]) = true
  /\ Py.contains e2 (WmsLoad.failure_text link [e1; e2]) = true.
Proof.
  unfold WmsLoad.failure_text. cbn [Py.join]. split.
  - do 7 apply contains_later. apply contains_here.
  - do 9 apply contains_later. apply contains_refl.
Qed.

Lemma caught_iff (e : Exn) (m : string) :
  WmsLoad.caught e = Some m <-> e = ParseError m \/ e = RuntimeError m.
Proof.
  destruct e; cbn [WmsLoad.caught]; split;
    try discriminate; try (intros [H|H]; discriminate).
  - intros [= <-]. now right.
  - intros [H|H]; [discriminate|congruence].
  - intros [= <-]. now left.
  - intros [H|H]; [congruence|discriminate].
Qed.

Lemma falls_back_iff (netloc_error : string -> option string)
    (_blocking_get : string -> Z -> option string * string)
    (fromstring : string -> Outcome Xml.Element) (wms_link : string) :
  LoadSpec.falls_back netloc_error _blocking_get fromstring wms_link = true
  <-> exists url,
        LoadSpec.caps_url netloc_error (Py.strip wms_link) "1.3.0" = Ok url
        /\ ((exists err, _blocking_get url 15000%Z = (None, err))
            \/ (exists xml used msg,
                   _blocking_get url 15000%Z = (Some xml, used)
                   /\ (fromstring xml = Raise (ParseError msg)
                       \/ fromstring xml = Raise (RuntimeError msg)))
            \/ (exists xml used root,
                   _blocking_get url 15000%Z = (Some xml, used) /\ fromstring xml = Ok root
                   /\ Wms.parse_layers_of_root root = [])).
Proof.
  unfold LoadSpec.falls_back, LoadSpec.attempt.
  destruct (LoadSpec.caps_url netloc_error (Py.strip wms_link) "1.3.0") as [url|e].
  2:{ split; [discriminate|]. intros (u & H & _). discriminate. }
  destruct (_blocking_get url 15000%Z) as [[xml|] used] eqn:Eg.
  2:{ split; [|reflexivity]. intros _. exists url. split; [reflexivity|].
      left. now exists used. }
  assert (Hcases :
            (exists url0,
               Ok url = Ok url0
               /\ ((exists err, _blocking_get url0 15000%Z = (None, err))
                   \/ (exists x us msg,
                          _blocking_get url0 15000%Z = (Some x, us)
                          /\ (fromstring x = Raise (ParseError msg)
                              \/ fromstring x = Raise (RuntimeError msg)))
                   \/ (exists x us r,
                          _blocking_get url0 15000%Z = (Some x, us) /\ fromstring x = Ok r
                          /\ Wms.parse_layers_of_root r = [])))
            <-> ((exists msg, fromstring xml = Raise (ParseError msg)
                              \/ fromstring xml = Raise (RuntimeError msg))
                 \/ (exists r, fromstring xml = Ok r /\ Wms.parse_layers_of_root r = []))).
  { split.
    - intros (u & [= <-] & H). rewrite Eg in H.
      destruct H as [(err & H)|[(x & us & m & [= <- <-] & H)|(x & us & r & [= <- <-] & H)]].
      + discriminate.
      + left. now exists m.
      + right. now exists r.
    - intros H. exists url. split; [reflexivity|].
      destruct H as [(m & H)|(r & H)].
      + right. left. now exists xml, used, m.
      + right. right. now exists xml, used, r. }
  rewrite Hcases. clear Hcases.
  destruct (fromstring xml) as [root|e] eqn:Ef.
  2:{ destruct (WmsLoad.caught e) as [m|] eqn:Ec.
      - split; [|reflexivity]. intros _. left. exists m.
        apply caught_iff in Ec. destruct Ec as [-> | ->]; auto.
      - split; [discriminate|]. intros [(m & H)|(r & H & _)]; [|discriminate].
        assert (Hc : WmsLoad.caught e = Some m)
          by (apply caught_iff; destruct H as [H|H]; injection H as ->; auto).
        congruence. }
  destruct (Wms.parse_layers_of_root root) as [|l ls] eqn:El.
  { split; [|reflexivity]. intros _. right. now exists root. }
  assert (Hno : ~ ((exists msg, @Ok Xml.Element root = Raise (ParseError msg)
                                \/ @Ok Xml.Element root = Raise (RuntimeError msg))
                   \/ (exists r, Ok root = Ok r /\ Wms.parse_layers_of_root r = []))).
  { intros [(m & [H|H])|(r & [= <-] & H)]; congruence. }
  destruct (Url.wms_normalize_service_base netloc_error _);
    (split; [discriminate|intros H; contradiction]).
Qed.

Lemma attempt_not_sent (netloc_error : string -> option string)
    (_blocking_get : string -> Z -> option string * string)
    (fromstring : string -> Outcome Xml.Element) (link ver : string) (e : Exn)
    (w : Gui.World) :
  LoadSpec.attempt netloc_error _blocking_get fromstring link ver = LoadSpec.NotSent e ->
  LoadSpec.sent netloc_error link ver w = w.
Proof.
  unfold LoadSpec.attempt, LoadSpec.sent.
  destruct (LoadSpec.caps_url netloc_error link ver) as [url|x]; [|reflexivity].
  destruct (_blocking_get url 15000%Z) as [[xml|] used]; [|discriminate].
  destruct (fromstring xml) as [root|e0]; [|destruct (WmsLoad.caught e0); discriminate].
  destruct (Wms.parse_layers_of_root _); [discriminate|].
  destruct (Url.wms_normalize_service_base _ _); discriminate.
Qed.

Lemma sent_keeps (netloc_error : string -> option string) (link ver : string) (w : Gui.World) :
  Gui.dialogs (LoadSpec.sent netloc_error link ver w) = Gui.dialogs w.
Proof.
  unfold LoadSpec.sent. destruct (LoadSpec.caps_url netloc_error link ver); reflexivity.
Qed.

Lemma sent_keeps_tree (netloc_error : string -> option string) (link ver : string) (w : Gui.World) :
  Gui.tree (LoadSpec.sent netloc_error link ver w) = Gui.tree w
  /\ Gui.project (LoadSpec.sent netloc_error link ver w) = Gui.project w.
Proof.
  unfold LoadSpec.sent. destruct (LoadSpec.caps_url netloc_error link ver); split; reflexivity.
Qed.

(** C2, as amended.  Listing the layers of a WMS first makes the attempt
    with version 1.3.0.  The attempt with version 1.1.1 is made when, and
    only when, the first one fails on the network, fails to parse with a
    [ParseError] (or a [RuntimeError]), or yields no layer; another
    exception of the parser, such as the [ValueError] or [LookupError] of
    an encoding it does not support, is not caught: it ends the listing
    after the first request.  When the second attempt yields layers, the
    tree holds exactly its layers, with the base URL of its own response,
    and no message is shown; when both attempts fail, one message is
    shown, and it contains the error of each. *)
Theorem load_wms_layers_version_fallback
    (netloc_error : string -> option string)
    (_blocking_get : string -> Z -> option string * string)
    (fromstring : string -> Outcome Xml.Element)
    (wms_link : string) (w : Gui.World) :
  let link := Py.strip wms_link in
  let attempt := LoadSpec.attempt netloc_error _blocking_get fromstring link in
  let sent := LoadSpec.sent netloc_error link in
  let falls_back := LoadSpec.falls_back netloc_error _blocking_get fromstring wms_link in
  let result := WmsLoad.load_wms_layers netloc_error _blocking_get fromstring wms_link w in
  (forall items, attempt "1.3.0" = LoadSpec.Listed items ->
     result = (LoadSpec.with_tree items (sent "1.3.0" w), Ok tt))
  /\ Gui.requests (fst result)
     = Gui.requests (if falls_back then sent "1.1.1" (sent "1.3.0" w) else sent "1.3.0" w)
  /\ (falls_back = true
      <-> exists url,
            LoadSpec.caps_url netloc_error link "1.3.0" = Ok url
            /\ ((exists err, _blocking_get url 15000%Z = (None, err))
                \/ (exists xml used msg,
                       _blocking_get url 15000%Z = (Some xml, used)
                       /\ (fromstring xml = Raise (ParseError msg)
                           \/ fromstring xml = Raise (RuntimeError msg)))
                \/ (exists xml used root,
                       _blocking_get url 15000%Z = (Some xml, used) /\ fromstring xml = Ok root
                       /\ Wms.parse_layers_of_root root = [])))
  /\ (forall url xml used e,
        LoadSpec.caps_url netloc_error link "1.3.0" = Ok url ->
        _blocking_get url 15000%Z = (Some xml, used) ->
        fromstring xml = Raise e ->
        (forall msg, e <> ParseError msg) -> (forall msg, e <> RuntimeError msg) ->
        result = (sent "1.3.0" w, Raise e))
  /\ (forall e1 items,
        attempt "1.3.0" = LoadSpec.Failed e1 -> attempt "1.1.1" = LoadSpec.Listed items ->
        Gui.tree (fst result) = items
        /\ Gui.dialogs (fst result) = Gui.dialogs w
        /\ snd result = Ok tt)
  /\ (forall e1 e2,
        attempt "1.3.0" = LoadSpec.Failed e1 -> attempt "1.1.1" = LoadSpec.Failed e2 ->
        Gui.dialogs (fst result)
        = Gui.dialogs w ++ [("WMS Error", WmsLoad.failure_text link [e1; e2])]
        /\ Py.contains e1 (WmsLoad.failure_text link [e1; e2]) = true
        /\ Py.contains e2 (WmsLoad.failure_text link [e1; e2]) = true
        /\ Gui.tree (fst result) = Gui.tree w
        /\ snd result = Ok tt).
Proof.
  intros link attempt sent falls_back result.
  assert (Hr : result = LoadSpec.load netloc_error _blocking_get fromstring wms_link w)
    by apply load_wms_layers_spec.
  unfold LoadSpec.load in Hr. cbv zeta in Hr.
  fold link in Hr. fold attempt in Hr. fold sent in Hr.
  split; [|split; [|split; [|split; [|split]]]].
  - intros items H. rewrite Hr, H. reflexivity.
  - unfold falls_back, LoadSpec.falls_back. fold link. fold attempt. rewrite Hr.
    destruct (attempt "1.3.0") eqn:E1; cbn [fst].
    + unfold sent. now rewrite (attempt_not_sent _ _ _ _ _ _ w E1).
    + reflexivity.
    + destruct (attempt "1.1.1") eqn:E2; cbn [fst]; try reflexivity.
      unfold sent.
      now rewrite (attempt_not_sent _ _ _ _ _ _ (LoadSpec.sent netloc_error link "1.3.0" w) E2).
    + reflexivity.
  - apply falls_back_iff.
  - intros url xml used e Hu Hg Hf Hp Hrt.
    assert (Hc : WmsLoad.caught e = None).
    { destruct (WmsLoad.caught e) as [m|] eqn:Ec; [|reflexivity].
      apply caught_iff in Ec. destruct Ec as [-> | ->];
        [now destruct (Hp m)|now destruct (Hrt m)]. }
    assert (Ha : attempt "1.3.0" = LoadSpec.Crashed e).
    { unfold attempt, LoadSpec.attempt. now rewrite Hu, Hg, Hf, Hc. }
    rewrite Hr, Ha. reflexivity.
  - intros e1 items H1 H2. rewrite Hr, H1, H2. cbn [fst snd]. unfold sent.
    split; [reflexivity|]. split; [|reflexivity].
    unfold LoadSpec.with_tree. cbn. now rewrite !sent_keeps.
  - intros e1 e2 H1 H2. rewrite Hr, H1, H2.
    destruct (failure_text_both link e1 e2) as [Ha Hb]. cbn [fst snd]. unfold sent.
    split; [|split; [exact Ha|split; [exact Hb|split; [|reflexivity]]]].
    + unfold LoadSpec.with_dialog. cbn. now rewrite !sent_keeps.
    + unfold LoadSpec.with_dialog. cbn.
      now rewrite !(proj1 (sent_keeps_tree _ _ _ _)).
Qed.

(** The scenario of the specification: the answer to version 1.3.0 does
    not parse, the answer to version 1.1.1 lists a layer. *)
Lemma load_wms_layers_version_fallback_witness :
  let result := WmsLoad.load_wms_layers Demo.any_netloc Demo.wms_get Demo.wms_fromstring
                  " http://maps.example.org/wms?map=ortho " Demo.stale_world in
  Gui.tree (fst result)
  = [ {| Gui.item_name := "Ortho2023"; Gui.item_title := "Ortho2023";
         Gui.item_checked := false;
         Gui.item_base := "http://maps.example.org/wms?map=ortho";
         Gui.item_crs := ["EPSG:25832"; "EPSG:3857"; "EPSG:4326"] |} ]
  /\ Gui.dialogs (fst result) = []
  /\ snd result = Ok tt.
Proof.
  cbv zeta.
  apply (proj1 (proj2 (proj2 (proj2 (proj2
           (load_wms_layers_version_fallback Demo.any_netloc Demo.wms_get Demo.wms_fromstring
              " http://maps.example.org/wms?map=ortho " Demo.stale_world)))))
           "1.3.0: mismatched tag: line 1, column 2").
  - vm_compute. reflexivity.
  - vm_compute. reflexivity.
Defined.

Example load_wms_layers_requests :
  Gui.requests
    (fst (WmsLoad.load_wms_layers Demo.any_netloc Demo.wms_get Demo.wms_fromstring
            "http://maps.example.org/wms?map=ortho" Demo.stale_world))
  = [ "http://maps.example.org/wms?map=ortho&SERVICE=WMS&REQUEST=GetCapabilities&VERSION=1.3.0";
      "http://maps.example.org/wms?map=ortho&SERVICE=WMS&REQUEST=GetCapabilities&VERSION=1.1.1" ].
Proof. vm_compute. reflexivity. Qed.

Example load_wms_layers_both_fail :
  Gui.dialogs
    (fst (WmsLoad.load_wms_layers Demo.any_netloc Demo.no_get Demo.wms_fromstring
            "http://h/wms" Demo.stale_world))
  = [ ("WMS Error",
       "Failed to read WMS GetCapabilities from:" +:+ nl +:+ "http://h/wms" +:+ nl +:+ nl
       +:+ "Details:" +:+ nl
       +:+ "1.3.0: Network error for http://h/wms?SERVICE=WMS&REQUEST=GetCapabilities&VERSION=1.3.0: Connection refused"
       +:+ nl
       +:+ "1.1.1: Network error for http://h/wms?SERVICE=WMS&REQUEST=GetCapabilities&VERSION=1.1.1: Connection refused") ].
Proof. vm_compute. reflexivity. Qed.

(** C2 as it is stated fails on a document that the parser refuses with
    another exception than [ParseError]: the answer to version 1.3.0 is
    declared in an encoding that the parser does not support, the answer
    to version 1.1.1 would list a layer, and the listing ends with the
    [ValueError] of the parser after the first request, the tree and the
    dialogs untouched. *)
Lemma load_wms_layers_unsupported_encoding :
  let result := WmsLoad.load_wms_layers Demo.any_netloc Demo.gbk_get Demo.gbk_fromstring
                  "http://maps.example.org/wms?map=ortho" Demo.stale_world in
  Demo.gbk_get
    "http://maps.example.org/wms?map=ortho&SERVICE=WMS&REQUEST=GetCapabilities&VERSION=1.3.0"
    15000%Z
  = (Some "<?xml version='1.0' encoding='gbk'?><WMS_Capabilities/>",
     "http://maps.example.org/wms?map=ortho&SERVICE=WMS&REQUEST=GetCapabilities&VERSION=1.3.0")
  /\ Demo.gbk_fromstring "<?xml version='1.0' encoding='gbk'?><WMS_Capabilities/>"
     = Raise (ValueError "multi-byte encodings are not supported")
  /\ (exists items,
        LoadSpec.attempt Demo.any_netloc Demo.gbk_get Demo.gbk_fromstring
          "http://maps.example.org/wms?map=ortho" "1.1.1" = LoadSpec.Listed items)
  /\ snd result = Raise (ValueError "multi-byte encodings are not supported")
  /\ Gui.requests (fst result)
     = [ "http://maps.example.org/wms?map=ortho&SERVICE=WMS&REQUEST=GetCapabilities&VERSION=1.3.0" ]
  /\ Gui.tree (fst result) = Gui.tree Demo.stale_world
  /\ Gui.dialogs (fst result) = Gui.dialogs Demo.stale_world.
Proof.
  cbv zeta. split; [reflexivity|]. split; [reflexivity|].
  split; [eexists; vm_compute; reflexivity|].
  vm_compute. repeat split.
Qed.


(** ** Adding a WMTS layer: the base URLs tried *)

Section AddProofs.

Variable isValid : string -> string -> bool.

Lemma after_tries_log (uri : string) (uris : list string) (added : list (string * string))
    (w : Gui.World) :
  after_tries uris added (Gui.log_constructed uri w) = after_tries (uri :: uris) added w.
Proof. unfold after_tries. cbn. now rewrite <- app_assoc. Qed.

(** The first base URL whose descriptor is valid wins. *)
Lemma try_bases_first (params : list string) (name : string) (pre post : list string)
    (b : string) (last_err : option string) (w : Gui.World) :
  Forall (fun x => isValid (WmtsAdd.uri_for params x) name = false) pre ->
  isValid (WmtsAdd.uri_for params b) name = true ->
  WmtsAdd.try_bases isValid params name (pre ++ b :: post) last_err w
  = (after_tries (List.map (WmtsAdd.uri_for params) (pre ++ [b]))
       [(WmtsAdd.uri_for params b, name)] w, Ok tt).
Proof.
  intros Hpre Hb. revert last_err w.
  induction Hpre as [|x pre Hx _ IH]; intros last_err w; cbn [app WmtsAdd.try_bases].
  - rewrite Hb. unfold Gui.addMapLayer, after_tries. cbn. reflexivity.
  - rewrite Hx, IH. now rewrite after_tries_log.
Qed.

Lemma try_bases_none (params : list string) (name : string) (bases : list string)
    (last_err : option string) (w : Gui.World) :
  Forall (fun x => isValid (WmtsAdd.uri_for params x) name = false) bases ->
  WmtsAdd.try_bases isValid params name bases last_err w
  = (after_tries (List.map (WmtsAdd.uri_for params) bases) [] w,
     Raise (RuntimeError (exhausted bases last_err))).
Proof.
  intros H. revert last_err w.
  induction H as [|x bases Hx _ IH]; intros last_err w; cbn [WmtsAdd.try_bases].
  - unfold Gui.lift, after_tries, exhausted. cbn. rewrite !app_nil_r. now destruct w.
  - rewrite Hx, IH, after_tries_log. reflexivity.
Qed.

Lemma exhausted_last (pre : list string) (b : string) (last_err : option string) :
  exhausted (pre ++ [b]) last_err = "Invalid with base: " +:+ b.
Proof. unfold exhausted. rewrite fold_left_app. reflexivity. Qed.

Lemma exhausted_nil : exhausted [] None = "Could not create WMTS layer with any base URL.".
Proof. reflexivity. Qed.

End AddProofs.

(** The base candidates of a plan: the normalised URL of the
    capabilities document as it was fetched, then the normalised GetTile
    URL that the document advertises, without the empty ones. *)
Lemma plan_candidates (netloc_error : string -> option string)
    (fromstring : string -> Outcome Xml.Element)
    (layer_identifier : string) (matrix_set fmt : option string)
    (xml_bytes used_caps_url : string) (p : WmtsAdd.Plan) :
  WmtsAdd.plan netloc_error fromstring layer_identifier matrix_set fmt xml_bytes used_caps_url
  = Ok p ->
  exists caps_base gettile tile_base,
    Url.wmts_normalize_service_base netloc_error used_caps_url = Ok caps_base
    /\ WmtsAdd._extract_gettile_base fromstring xml_bytes = Ok gettile
    /\ Url.wmts_normalize_service_base netloc_error gettile = Ok tile_base
    /\ WmtsAdd.base_candidates p = List.filter Py.truthy [caps_base; tile_base].
Proof.
  unfold WmtsAdd.plan, bind.
  destruct (WmtsAdd.parse fromstring xml_bytes) as [root|e]; [|discriminate].
  destruct (WmtsAdd.find_layer _ layer_identifier) as [m|]; [|discriminate].
  match goal with
  | |- context [match ?x with Ok _ => _ | Raise _ => _ end] => destruct x as [chosen_ms|e]
  end; [|discriminate].
  match goal with
  | |- context [if negb ?x then _ else _] => destruct (negb x)
  end; [discriminate|].
  destruct (Url.wmts_normalize_service_base netloc_error used_caps_url) as [caps_base|e] eqn:E1;
    [|discriminate].
  destruct (WmtsAdd._extract_gettile_base fromstring xml_bytes) as [gettile|e] eqn:E2;
    [|discriminate].
  destruct (Url.wmts_normalize_service_base netloc_error gettile) as [tile_base|e] eqn:E3;
    [|discriminate].
  intros [= <-]. exists caps_base, gettile, tile_base. repeat split; assumption.
Qed.

(** C9, as amended.  When a WMTS layer is added and the capabilities
    have yielded the parameters of the layer, at most two base URLs are
    tried, in this order and without the empty ones: the normalised URL of
    the capabilities document, then the normalised GetTile URL it
    advertises.  A descriptor is built and validated for each in turn; the
    first that is valid is added to the project and ends the operation.
    When none is valid the operation fails with one message, which names
    the last base URL tried. *)
Theorem add_wmts_layer_base_candidates
    (netloc_error : string -> option string)
    (_blocking_get : string -> Z -> option string * string)
    (fromstring : string -> Outcome Xml.Element)
    (isValid : string -> string -> bool)
    (layer_identifier wmts_link : string) (matrix_set fmt : option string)
    (w : Gui.World) (caps_url xml_bytes used_caps_url : string) (p : WmtsAdd.Plan) :
  let link := Py.strip wmts_link in
  let run := WmtsAdd.add_wmts_layer netloc_error _blocking_get fromstring isValid
               layer_identifier wmts_link matrix_set fmt w in
  let uri := WmtsAdd.uri_for (WmtsAdd.common_params p) in
  let invalid := fun b => isValid (uri b) (WmtsAdd.display_name p) = false in
  let w1 := Gui.log_request caps_url w in
  Url.wmts_build_caps_url netloc_error link = Ok caps_url ->
  _blocking_get caps_url 15000%Z = (Some xml_bytes, used_caps_url) ->
  WmtsAdd.plan netloc_error fromstring layer_identifier matrix_set fmt xml_bytes used_caps_url
  = Ok p ->
  (exists caps_base gettile tile_base,
      Url.wmts_normalize_service_base netloc_error used_caps_url = Ok caps_base
      /\ WmtsAdd._extract_gettile_base fromstring xml_bytes = Ok gettile
      /\ Url.wmts_normalize_service_base netloc_error gettile = Ok tile_base
      /\ WmtsAdd.base_candidates p = List.filter Py.truthy [caps_base; tile_base])
  /\ (forall pre b post,
        WmtsAdd.base_candidates p = pre ++ b :: post ->
        Forall invalid pre -> isValid (uri b) (WmtsAdd.display_name p) = true ->
        run = (after_tries (List.map uri (pre ++ [b])) [(uri b, WmtsAdd.display_name p)] w1,
               Ok tt))
  /\ (Forall invalid (WmtsAdd.base_candidates p) ->
      run = (LoadSpec.with_dialog "WMTS Error"
               (WmtsAdd.failure_text layer_identifier link
                  (exhausted (WmtsAdd.base_candidates p) None))
               (after_tries (List.map uri (WmtsAdd.base_candidates p)) [] w1),
             Ok tt))
  /\ (forall pre b, exhausted (pre ++ [b]) None = "Invalid with base: " +:+ b)
  /\ exhausted [] None = "Could not create WMTS layer with any base URL.".
Proof.
  intros link run uri invalid w1 Hurl Hget Hplan.
  assert (Hrun : run = match WmtsAdd.try_bases isValid (WmtsAdd.common_params p)
                               (WmtsAdd.display_name p) (WmtsAdd.base_candidates p) None w1 with
                       | (w', Ok tt) => (w', Ok tt)
                       | (w', Raise e) =>
                           match WmtsAdd.caught e with
                           | Some m =>
                               Gui.critical "WMTS Error"
                                 (WmtsAdd.failure_text layer_identifier link m) w'
                           | None => (w', Raise e)
                           end
                       end).
  { unfold run, WmtsAdd.add_wmts_layer, WmtsAdd.add_body, Gui.mbind, Gui.lift,
      Net.http_get_bytes. fold link. rewrite Hurl, Hget. cbn [fst snd]. rewrite Hplan.
    reflexivity. }
  split; [now apply plan_candidates in Hplan|].
  split; [|split; [|split; [intros pre b; apply exhausted_last|reflexivity]]].
  - intros pre b post E Hpre Hb. rewrite Hrun, E.
    now rewrite (try_bases_first isValid _ _ pre post b None w1 Hpre Hb).
  - intros Hall. rewrite Hrun.
    now rewrite (try_bases_none isValid _ _ _ None w1 Hall).
Qed.

(** The capabilities base is refused, the GetTile base is accepted. *)
Lemma add_wmts_layer_base_candidates_witness :
  demo_add Demo.tiles_valid
  = ({| Gui.tree := []; Gui.dialogs := [];
        Gui.requests := ["http://maps.example.org/wmts?SERVICE=WMTS&REQUEST=GetCapabilities"];
        Gui.constructed := [ demo_uri "https://mirror.example.org/service";
                             demo_uri "https://tiles.example.org/wmts/tile" ];
        Gui.project := [ (demo_uri "https://tiles.example.org/wmts/tile", "Orthophoto") ] |},
     Ok tt).
Proof.
  assert (Hplan : exists p,
             WmtsAdd.plan Demo.any_netloc Demo.wmts_fromstring "ortho" None None
               "wmts capabilities"
               "https://mirror.example.org/service?SERVICE=WMTS&REQUEST=GetCapabilities"
             = Ok p
             /\ p = {| WmtsAdd.common_params :=
                         [ "contextualWMSLegend=0"; "crs=EPSG:3857"; "layers=ortho";
                           "styles=default"; "format=image/png";
                           "tileMatrixSet=GoogleMapsCompatible" ];
                       WmtsAdd.display_name := "Orthophoto";
                       WmtsAdd.base_candidates :=
                         [ "https://mirror.example.org/service";
                           "https://tiles.example.org/wmts/tile" ] |}).
  { eexists. split; [vm_compute; reflexivity|reflexivity]. }
  destruct Hplan as (p & Hplan & Hp).
  unfold demo_add.
  rewrite (proj1 (proj2 (add_wmts_layer_base_candidates Demo.any_netloc Demo.wmts_get
                           Demo.wmts_fromstring Demo.tiles_valid "ortho"
                           "http://maps.example.org/wmts" None None Demo.empty_world
                           "http://maps.example.org/wmts?SERVICE=WMTS&REQUEST=GetCapabilities"
                           "wmts capabilities"
                           "https://mirror.example.org/service?SERVICE=WMTS&REQUEST=GetCapabilities"
                           p eq_refl eq_refl Hplan))
             ["https://mirror.example.org/service"] "https://tiles.example.org/wmts/tile" []).
  - subst p. vm_compute. reflexivity.
  - subst p. reflexivity.
  - subst p. constructor; [vm_compute; reflexivity|constructor].
  - subst p. vm_compute. reflexivity.
Defined.

(** C9 as it is stated fails when both base URLs are refused: the two
    descriptors are constructed and refused in turn, and the only message
    shown names the GetTile base, the last one tried; the base of the
    capabilities document, tried first, appears nowhere in it. *)
Lemma add_wmts_layer_names_last_base_only :
  Gui.constructed (fst (demo_add Demo.never_valid))
  = [ demo_uri "https://mirror.example.org/service";
      demo_uri "https://tiles.example.org/wmts/tile" ]
  /\ Gui.project (fst (demo_add Demo.never_valid)) = []
  /\ Gui.dialogs (fst (demo_add Demo.never_valid))
     = [ ("WMTS Error",
          "Failed to add WMTS layer:" +:+ nl +:+ "ortho" +:+ nl +:+ "from:" +:+ nl
          +:+ "http://maps.example.org/wmts" +:+ nl +:+ nl
          +:+ "Invalid with base: https://tiles.example.org/wmts/tile") ]
  /\ (forall title text, In (title, text) (Gui.dialogs (fst (demo_add Demo.never_valid))) ->
        Py.contains "https://tiles.example.org/wmts/tile" text = true
        /\ Py.contains "https://mirror.example.org/service" text = false).
Proof.
  split; [vm_compute; reflexivity|]. split; [vm_compute; reflexivity|].
  assert (H : Gui.dialogs (fst (demo_add Demo.never_valid))
     = [ ("WMTS Error",
          "Failed to add WMTS layer:" +:+ nl +:+ "ortho" +:+ nl +:+ "from:" +:+ nl
          +:+ "http://maps.example.org/wmts" +:+ nl +:+ nl
          +:+ "Invalid with base: https://tiles.example.org/wmts/tile") ])
    by (vm_compute; reflexivity).
  split; [exact H|]. rewrite H. intros title text [E|[]]. injection E as <- <-.
  split; vm_compute; reflexivity.
Qed.


(** ** Service URLs: query strings *)

Lemma sall_app (p : ascii -> bool) (a b : string) :
  Py.sall p (a +:+ b) = Py.sall p a && Py.sall p b.
Proof. induction a as [|c a IH]; simpl; [reflexivity|]. now rewrite IH, andb_assoc. Qed.

Lemma none_app (p : ascii -> bool) (a b : string) :
  none p (a +:+ b) = none p a && none p b.
Proof. apply sall_app. Qed.

Lemma sall_impl (p q : ascii -> bool) (s : string) :
  (forall c, p c = true -> q c = true) -> Py.sall p s = true -> Py.sall q s = true.
Proof.
  intros H. induction s as [|c s IH]; simpl; [reflexivity|].
  intros E. apply andb_true_iff in E. destruct E as [E1 E2]. now rewrite (H c E1), IH.
Qed.

Lemma span_until_app (p : ascii -> bool) (a b : string) :
  none p a = true -> b = "" \/ Url.first_is p b = true ->
  Url.span_until p (a +:+ b) = (a, b).
Proof.
  intros Ha Hb. induction a as [|c a IH]; simpl in *.
  - destruct b as [|c b]; [reflexivity|]. destruct Hb as [Hb|Hb]; [discriminate|].
    simpl in Hb. simpl. now rewrite Hb.
  - apply andb_true_iff in Ha. destruct Ha as [Hc Ha]. apply negb_true_iff in Hc.
    rewrite Hc, (IH Ha). reflexivity.
Qed.

Lemma span_until_parts (p : ascii -> bool) (s a b : string) :
  Url.span_until p s = (a, b) ->
  s = a +:+ b /\ none p a = true /\ (b = "" \/ Url.first_is p b = true).
Proof.
  revert a b. induction s as [|c s IH]; simpl; intros a b.
  - intros [= <- <-]. repeat split. now left.
  - destruct (p c) eqn:Hc.
    + intros [= <- <-]. repeat split. right. exact Hc.
    + destruct (Url.span_until p s) as [a' b'] eqn:E. intros [= <- <-].
      destruct (IH a' b' eq_refl) as (-> & Ha & Hb). repeat split; [|exact Hb].
      unfold none. simpl. rewrite Hc. exact Ha.
Qed.

Lemma cut_here (c : ascii) (a b : string) :
  none (Ascii.eqb c) a = true -> Url.cut c (a +:+ String c b) = (a, b).
Proof.
  intros Ha. unfold Url.cut. rewrite (span_until_app _ a (String c b) Ha).
  - reflexivity.
  - right. simpl. apply Ascii.eqb_refl.
Qed.

Lemma cut_absent (c : ascii) (a : string) :
  none (Ascii.eqb c) a = true -> Url.cut c a = (a, "").
Proof.
  intros Ha. unfold Url.cut. rewrite <- (append_empty_r a) at 1.
  rewrite (span_until_app _ a "" Ha); [reflexivity|now left].
Qed.

Lemma cut_parts (c : ascii) (s a b : string) :
  Url.cut c s = (a, b) ->
  none (Ascii.eqb c) a = true /\ (s = a +:+ String c b \/ (s = a /\ b = "")).
Proof.
  unfold Url.cut. destruct (Url.span_until (Ascii.eqb c) s) as [x y] eqn:E.
  apply span_until_parts in E. destruct E as (-> & Hx & Hy). intros [= <- <-].
  split; [exact Hx|]. destruct y as [|d y].
  - right. split; [apply append_empty_r|reflexivity].
  - left. destruct Hy as [Hy|Hy]; [discriminate|]. simpl in Hy.
    apply Ascii.eqb_eq in Hy. now subst d.
Qed.

(** *** Percent escapes *)

Lemma quote_plus_cons (c : ascii) (s : string) :
  Url.quote_plus (String c s) = Url.quote_plus (String c "") +:+ Url.quote_plus s.
Proof.
  simpl. destruct (Url.always_safe c); [reflexivity|].
  destruct (Ascii.eqb c " "); reflexivity.
Qed.

Lemma escape_ok_all (c : ascii) : escape_ok c = true.
Proof. destruct c as [[] [] [] [] [] [] [] []]; vm_compute; reflexivity. Qed.

Lemma replace_plus_cons (x : ascii) (t : string) :
  Py.replace_from "+" " " (String x t) 0
  = if Ascii.eqb "+" x then String " " (Py.replace_from "+" " " t 0)
    else String x (Py.replace_from "+" " " t 0).
Proof.
  cbn [Py.replace_from Py.startswith String.length Nat.sub].
  destruct (Ascii.eqb "+" x); reflexivity.
Qed.

Lemma unquote_plain (x : ascii) (t : string) :
  Ascii.eqb x "%" = false -> Url.unquote (String x t) = String x (Url.unquote t).
Proof. intros H. cbn [Url.unquote]. now rewrite H. Qed.

Lemma unquote_escape (h1 h2 : ascii) (a b : nat) (t : string) :
  Url.hex_val h1 = Some a -> Url.hex_val h2 = Some b ->
  Url.unquote (String "%" (String h1 (String h2 t)))
  = String (ascii_of_nat (16 * a + b)) (Url.unquote t).
Proof.
  intros H1 H2. cbn [Url.unquote].
  change (Ascii.eqb "%" "%") with true. cbv iota. now rewrite H1, H2.
Qed.

Lemma quote_plus_char (c : ascii) :
  Py.sall quoted_char (Url.quote_plus (String c "")) = true.
Proof.
  pose proof (escape_ok_all c) as H. unfold escape_ok in H.
  destruct (Url.quote_plus (String c "")) as [|x [|h1 [|h2 [|z r]]]]; try discriminate.
  - apply andb_true_iff in H. destruct H as [H _]. cbn. now rewrite H.
  - repeat (apply andb_true_iff in H; destruct H as [H ?]).
    apply Ascii.eqb_eq in H. subst x. cbn [Py.sall].
    repeat (apply andb_true_iff; split); try assumption; reflexivity.
Qed.

Lemma quote_plus_chars (s : string) : Py.sall quoted_char (Url.quote_plus s) = true.
Proof.
  induction s as [|c s IH]; [reflexivity|].
  now rewrite quote_plus_cons, sall_app, quote_plus_char, IH.
Qed.

(** Decoding the escape of one character gives the character back. *)
Lemma unquote_quote_char (c : ascii) (t : string) :
  Url.unquote (Py.replace_from "+" " " (Url.quote_plus (String c "") +:+ t) 0)
  = String c (Url.unquote (Py.replace_from "+" " " t 0)).
Proof.
  pose proof (escape_ok_all c) as H. unfold escape_ok in H.
  destruct (Url.quote_plus (String c "")) as [|x [|h1 [|h2 [|z r]]]]; try discriminate.
  - apply andb_true_iff in H. destruct H as [_ H].
    cbn [String.append]. rewrite replace_plus_cons.
    apply orb_true_iff in H. destruct H as [H|H].
    + apply andb_true_iff in H. destruct H as [H Hc].
      apply andb_true_iff in H. destruct H as [Hp Hq].
      apply negb_true_iff in Hp, Hq. apply Ascii.eqb_eq in Hc. subst x.
      rewrite Hp. now apply unquote_plain.
    + apply andb_true_iff in H. destruct H as [Hp Hc].
      apply Ascii.eqb_eq in Hc. subst c. rewrite Hp. now apply unquote_plain.
  - repeat (apply andb_true_iff in H; destruct H as [H ?]).
    apply Ascii.eqb_eq in H. subst x.
    match goal with
    | Hn1 : negb (Ascii.eqb "+" h1) = true, Hn2 : negb (Ascii.eqb "+" h2) = true |- _ =>
        apply negb_true_iff in Hn1, Hn2;
        cbn [String.append]; rewrite !replace_plus_cons, Hn1, Hn2
    end.
    change (Ascii.eqb "+" "%") with false. cbv iota.
    destruct (Url.hex_val h1) as [a|] eqn:E1; [|discriminate].
    destruct (Url.hex_val h2) as [b|] eqn:E2; [|discriminate].
    rewrite (unquote_escape h1 h2 a b _ E1 E2).
    match goal with Hc : Ascii.eqb _ c = true |- _ => apply Ascii.eqb_eq in Hc; now rewrite Hc end.
Qed.

Lemma unquote_quote (s : string) : Url.unquote_plus (Url.quote_plus s) = s.
Proof.
  unfold Url.unquote_plus, Py.replace.
  induction s as [|c s IH]; [reflexivity|].
  now rewrite quote_plus_cons, unquote_quote_char, IH.
Qed.

Lemma quoted_not_reserved (c : ascii) : quoted_char c = true -> reserved c = false.
Proof. destruct c as [[] [] [] [] [] [] [] []]; vm_compute; congruence. Qed.

Lemma quote_plus_none (p : ascii -> bool) (s : string) :
  (forall c, p c = true -> reserved c = true) -> none p (Url.quote_plus s) = true.
Proof.
  intros H. unfold none. apply (sall_impl quoted_char); [|apply quote_plus_chars].
  intros c Hc. apply negb_true_iff. destruct (p c) eqn:E; [|reflexivity].
  apply H in E. rewrite (quoted_not_reserved c Hc) in E. discriminate.
Qed.

Lemma reserved_eqb (d c : ascii) :
  reserved d = true -> Ascii.eqb d c = true -> reserved c = true.
Proof. intros H E. apply Ascii.eqb_eq in E. now subst. Qed.

(** *** Fields and pairs *)

Lemma split_on_here (sep : ascii) (a b : string) :
  none (Ascii.eqb sep) a = true ->
  Py.split_on sep (a +:+ String sep b) = a :: Py.split_on sep b.
Proof.
  intros Ha. induction a as [|c a IH]; simpl.
  - now rewrite Ascii.eqb_refl.
  - unfold none in Ha. simpl in Ha. apply andb_true_iff in Ha. destruct Ha as [Hc Ha].
    apply negb_true_iff in Hc. rewrite Ascii.eqb_sym, Hc. now rewrite (IH Ha).
Qed.

Lemma split_on_absent (sep : ascii) (a : string) :
  none (Ascii.eqb sep) a = true -> Py.split_on sep a = [a].
Proof.
  intros Ha. induction a as [|c a IH]; simpl; [reflexivity|].
  unfold none in Ha. simpl in Ha. apply andb_true_iff in Ha. destruct Ha as [Hc Ha].
  apply negb_true_iff in Hc. rewrite Ascii.eqb_sym, Hc. now rewrite (IH Ha).
Qed.

Lemma split_on_join (sep : ascii) (x : string) (l : list string) :
  Forall (fun f => none (Ascii.eqb sep) f = true) (x :: l) ->
  Py.split_on sep (Py.join (String sep "") (x :: l)) = x :: l.
Proof.
  revert x. induction l as [|y l IH]; intros x H.
  - simpl. apply split_on_absent. now inversion H.
  - inversion H as [|? ? Hx Hl]; subst.
    change (Py.join (String sep "") (x :: y :: l))
      with (x +:+ String sep "" +:+ Py.join (String sep "") (y :: l)).
    change (String sep "" +:+ Py.join (String sep "") (y :: l))
      with (String sep (Py.join (String sep "") (y :: l))).
    rewrite (split_on_here sep x _ Hx). now rewrite (IH y Hl).
Qed.

Lemma field_no_amp (kv : string * string) : none (Ascii.eqb "&") (field kv) = true.
Proof.
  unfold field. rewrite !none_app.
  rewrite !quote_plus_none by (intros c E; now apply (reserved_eqb "&" c)).
  reflexivity.
Qed.

Lemma field_truthy (kv : string * string) : Py.truthy (field kv) = true.
Proof. unfold field. destruct (Url.quote_plus (fst kv)); reflexivity. Qed.

Lemma parse_field_field (kv : string * string) : Url.parse_field (field kv) = kv.
Proof.
  unfold Url.parse_field, field. change ("=" +:+ Url.quote_plus (snd kv))
    with (String "=" (Url.quote_plus (snd kv))).
  rewrite cut_here by (apply quote_plus_none; intros c E; now apply (reserved_eqb "=" c)).
  rewrite !unquote_quote. now destruct kv.
Qed.

Lemma urlencode_fields (q : Url.Dict) :
  Url.urlencode q = Py.join "&" (List.map field q).
Proof. reflexivity. Qed.

(** Parsing an encoded query gives the pairs back. *)
Lemma parse_qsl_urlencode (q : Url.Dict) : Url.parse_qsl (Url.urlencode q) = q.
Proof.
  rewrite urlencode_fields. unfold Url.parse_qsl.
  destruct q as [|kv q]; [reflexivity|].
  assert (Hall : Forall (fun f => none (Ascii.eqb "&") f = true) (List.map field (kv :: q))).
  { apply List.Forall_forall. intros f Hf. apply in_map_iff in Hf.
    destruct Hf as (x & <- & _). apply field_no_amp. }
  cbn [List.map] in *. rewrite (split_on_join "&" (field kv) (List.map field q) Hall).
  change (field kv :: List.map field q) with (List.map field (kv :: q)).
  generalize (kv :: q). intros l. induction l as [|x l IH]; [reflexivity|].
  cbn [List.map List.filter]. rewrite field_truthy. cbn [List.map].
  now rewrite parse_field_field, IH.
Qed.

Lemma urlencode_none (p : ascii -> bool) (q : Url.Dict) :
  (forall c, p c = true -> reserved c = true) ->
  p "&"%char = false -> p "="%char = false ->
  none p (Url.urlencode q) = true.
Proof.
  intros H Ha He. rewrite urlencode_fields.
  assert (Hf : forall kv, none p (field kv) = true).
  { intros kv. unfold field. rewrite !none_app, !quote_plus_none by exact H.
    unfold none. simpl. now rewrite He. }
  induction q as [|kv q IH]; [reflexivity|].
  destruct q as [|kv' q]; [apply Hf|].
  change (Py.join "&" (List.map field (kv :: kv' :: q)))
    with (field kv +:+ "&" +:+ Py.join "&" (List.map field (kv' :: q))).
  rewrite !none_app, Hf, IH. unfold none. simpl. now rewrite Ha.
Qed.

(** *** Dictionaries *)

Lemma dict_set_fresh (k v : string) (d : Url.Dict) :
  ~ In k (keys d) -> Url.dict_set k v d = d ++ [(k, v)].
Proof.
  induction d as [|[k' v'] d IH]; simpl; intros H; [reflexivity|].
  destruct (String.eqb_spec k' k) as [->|Hne]; [exfalso; apply H; now left|].
  rewrite IH; [reflexivity|]. intros Hin. apply H. now right.
Qed.

Lemma dict_set_keys (k v : string) (d : Url.Dict) :
  keys (Url.dict_set k v d) = if Rest.mem k (keys d) then keys d else keys d ++ [k].
Proof.
  induction d as [|[k' v'] d IH]; simpl; [reflexivity|].
  rewrite (String.eqb_sym k k').
  destruct (String.eqb_spec k' k) as [->|Hne]; simpl; [reflexivity|].
  unfold keys in *. rewrite IH. unfold Rest.mem.
  destruct (List.existsb (String.eqb k) (List.map fst d)); reflexivity.
Qed.

Lemma dict_set_NoDup (k v : string) (d : Url.Dict) :
  List.NoDup (keys d) -> List.NoDup (keys (Url.dict_set k v d)).
Proof.
  intros H. rewrite dict_set_keys. destruct (Rest.mem k (keys d)) eqn:E; [exact H|].
  apply mem_not_In in E. apply List.NoDup_app; [exact H|repeat constructor; intros []|].
  intros a Ha [<-|[]]. contradiction.
Qed.

Lemma fold_put_NoDup (l : list (string * string)) (d : Url.Dict) :
  List.NoDup (keys d) -> List.NoDup (keys (List.fold_left put l d)).
Proof.
  revert d. induction l as [|kv l IH]; intros d H; simpl; [exact H|].
  apply IH. now apply dict_set_NoDup.
Qed.

(** The keys of a dictionary are all different. *)
Lemma dict_of_NoDup (l : list (string * string)) : List.NoDup (keys (Url.dict_of l)).
Proof. apply (fold_put_NoDup l []). constructor. Qed.

Lemma fold_put_fresh (l : list (string * string)) (d : Url.Dict) :
  List.NoDup (keys (d ++ l)) -> List.fold_left put l d = d ++ l.
Proof.
  revert d. induction l as [|[k v] l IH]; intros d H; simpl.
  - now rewrite app_nil_r.
  - unfold put at 2. cbn [fst snd]. rewrite dict_set_fresh.
    + rewrite IH; rewrite <- app_assoc; [reflexivity|exact H].
    + unfold keys in H. rewrite List.map_app in H. simpl in H.
      apply List.NoDup_remove_2 in H. intros Hin. apply H. apply in_or_app. now left.
Qed.

(** Pairs whose keys are all different make the dictionary that lists
    them in their order. *)
Lemma dict_of_distinct (l : list (string * string)) :
  List.NoDup (keys l) -> Url.dict_of l = l.
Proof. intros H. apply (fold_put_fresh l []). exact H. Qed.

Lemma filter_keys_NoDup (p : string * string -> bool) (d : Url.Dict) :
  List.NoDup (keys d) -> List.NoDup (keys (List.filter p d)).
Proof.
  induction d as [|kv d IH]; simpl; intros H; [constructor|].
  inversion H as [|? ? Hk Hd]; subst. destruct (p kv); [|now apply IH].
  simpl. constructor; [|now apply IH].
  intros Hin. apply Hk. unfold keys in *. apply in_map_iff in Hin.
  destruct Hin as (x & E & Hx). apply filter_In in Hx. apply in_map_iff. exists x. tauto.
Qed.

Lemma filter_twice {A} (p : A -> bool) (l : list A) :
  List.filter p (List.filter p l) = List.filter p l.
Proof.
  induction l as [|x l IH]; simpl; [reflexivity|].
  destruct (p x) eqn:E; simpl; [rewrite E, IH|]; auto.
Qed.

(** The query that normalisation writes is read back as the dictionary it
    was written from, in which no key is left to drop. *)
Lemma normalized_query_stable (qs : string) :
  let q := Url.drop_caps_keys (Url.dict_of (Url.parse_qsl qs)) in
  Url.drop_caps_keys (Url.dict_of (Url.parse_qsl (Url.urlencode q))) = q.
Proof.
  cbv zeta. rewrite parse_qsl_urlencode. rewrite dict_of_distinct.
  - apply filter_twice.
  - apply filter_keys_NoDup, dict_of_NoDup.
Qed.


(** ** Service URLs: splitting and joining *)

Lemma scheme_not_reserved (c : ascii) : Url.scheme_char c = true -> reserved c = false.
Proof. destruct c as [[] [] [] [] [] [] [] []]; vm_compute; congruence. Qed.

Lemma qf_not_scheme (c : ascii) : qf c = true -> Url.scheme_char c = false.
Proof. destruct c as [[] [] [] [] [] [] [] []]; vm_compute; congruence. Qed.

Lemma qf_netloc_end (c : ascii) : qf c = true -> Url.netloc_end c = true.
Proof. destruct c as [[] [] [] [] [] [] [] []]; vm_compute; congruence. Qed.

Lemma unsafe_c0 (c : ascii) : Url.is_c0_or_space c = false -> safe c = true.
Proof. destruct c as [[] [] [] [] [] [] [] []]; vm_compute; congruence. Qed.

Lemma alpha_not_c0 (c : ascii) : Py.is_alpha c = true -> Url.is_c0_or_space c = false.
Proof. destruct c as [[] [] [] [] [] [] [] []]; vm_compute; congruence. Qed.

Lemma lower_char_scheme (c : ascii) :
  Url.scheme_char c = true ->
  Url.scheme_char (Py.lower_char c) = true
  /\ Py.lower_char (Py.lower_char c) = Py.lower_char c
  /\ Py.is_alpha (Py.lower_char c) = Py.is_alpha c.
Proof. destruct c as [[] [] [] [] [] [] [] []]; vm_compute; intuition congruence. Qed.

Lemma first_is_app (p : ascii -> bool) (a b : string) :
  Url.first_is p (a +:+ b) = if Py.truthy a then Url.first_is p a else Url.first_is p b.
Proof. destruct a; reflexivity. Qed.

Lemma span_until_prefix (p : ascii -> bool) (a s : string) :
  none p a = true ->
  Url.span_until p (a +:+ s) = (a +:+ fst (Url.span_until p s), snd (Url.span_until p s)).
Proof.
  intros Ha. induction a as [|c a IH]; simpl.
  - now destruct (Url.span_until p s).
  - unfold none in Ha. simpl in Ha. apply andb_true_iff in Ha. destruct Ha as [Hc Ha].
    apply negb_true_iff in Hc. rewrite Hc, (IH Ha). reflexivity.
Qed.

Lemma span_until_cons (p : ascii -> bool) (c : ascii) (s : string) :
  p c = false ->
  Url.span_until p (String c s)
  = (String c (fst (Url.span_until p s)), snd (Url.span_until p s)).
Proof. intros H. simpl. rewrite H. now destruct (Url.span_until p s). Qed.

(** *** The scheme *)

Lemma split_scheme_eq (s : string) :
  Url.split_scheme s
  = match snd (Url.span_until (Ascii.eqb ":") s) with
    | String _ after =>
        if scheme_test (fst (Url.span_until (Ascii.eqb ":") s))
        then (Py.lower (fst (Url.span_until (Ascii.eqb ":") s)), after)
        else ("", s)
    | EmptyString => ("", s)
    end.
Proof. unfold Url.split_scheme. now destruct (Url.span_until (Ascii.eqb ":") s). Qed.

(** A URL has no scheme exactly when it has no colon, or what stands
    before its first colon is not a scheme. *)
Lemma no_scheme_iff (s : string) :
  Url.split_scheme s = ("", s)
  <-> snd (Url.span_until (Ascii.eqb ":") s) = ""
      \/ scheme_test (fst (Url.span_until (Ascii.eqb ":") s)) = false.
Proof.
  rewrite split_scheme_eq.
  destruct (Url.span_until (Ascii.eqb ":") s) as [pre rest]. cbn [fst snd].
  destruct rest as [|c after]; [split; auto|].
  destruct (scheme_test pre) eqn:E.
  - split; [|intros [H|H]; discriminate].
    intros [= H _]. destruct pre; [discriminate|discriminate].
  - split; auto.
Qed.

(** Whether a path followed by a query or a fragment has a scheme is
    decided by the path. *)
Lemma no_scheme_tail (pth tail : string) :
  none qf pth = true -> good_tail tail ->
  (Url.split_scheme (pth +:+ tail) = ("", pth +:+ tail)
   <-> Url.split_scheme pth = ("", pth)).
Proof.
  intros Hp Ht. rewrite !no_scheme_iff.
  destruct (Url.span_until (Ascii.eqb ":") pth) as [a rest] eqn:E.
  pose proof E as E'. apply span_until_parts in E'. destruct E' as (-> & Ha & Hr).
  cbn [fst snd]. destruct rest as [|c b].
  - rewrite append_empty_r in *. rewrite (span_until_prefix _ a tail Ha).
    cbn [fst snd]. split; [now left|]. intros _.
    destruct Ht as [->|Ht]; [now left|].
    destruct tail as [|d t]; [discriminate|]. simpl in Ht.
    right. unfold scheme_test. apply andb_false_iff. right.
    assert (Hd : Ascii.eqb ":" d = false).
    { destruct d as [[] [] [] [] [] [] [] []]; vm_compute in Ht |- *; congruence. }
    rewrite (span_until_cons _ d t Hd). cbn [fst].
    rewrite sall_app. cbn [Py.sall]. rewrite (qf_not_scheme d Ht). apply andb_false_r.
  - destruct Hr as [Hr|Hr]; [discriminate|].
    rewrite append_assoc3. rewrite (span_until_app _ a (String c b +:+ tail) Ha).
    + cbn [fst snd]. split; intros [H|H]; try discriminate; now right.
    + right. exact Hr.
Qed.

Lemma lower_scheme (pre : string) :
  Py.sall Url.scheme_char pre = true ->
  Py.sall Url.scheme_char (Py.lower pre) = true
  /\ Py.lower (Py.lower pre) = Py.lower pre
  /\ Url.first_is Py.is_alpha (Py.lower pre) = Url.first_is Py.is_alpha pre.
Proof.
  intros H. split; [|split].
  - induction pre as [|c pre IH]; simpl in *; [reflexivity|].
    apply andb_true_iff in H. destruct H as [Hc H].
    rewrite (proj1 (lower_char_scheme c Hc)). now apply IH.
  - induction pre as [|c pre IH]; simpl in *; [reflexivity|].
    apply andb_true_iff in H. destruct H as [Hc H]. unfold Py.lower in *. simpl.
    rewrite (proj1 (proj2 (lower_char_scheme c Hc))). now rewrite IH.
  - destruct pre as [|c pre]; simpl in *; [reflexivity|].
    apply andb_true_iff in H. destruct H as [Hc H].
    apply (proj2 (proj2 (lower_char_scheme c Hc))).
Qed.

Lemma scheme_none_colon (sch : string) :
  Py.sall Url.scheme_char sch = true -> none (Ascii.eqb ":") sch = true.
Proof.
  apply sall_impl. intros c Hc. apply scheme_not_reserved in Hc.
  apply negb_true_iff. destruct (Ascii.eqb ":" c) eqn:E; [|reflexivity].
  apply Ascii.eqb_eq in E. subst c. discriminate.
Qed.

(** A scheme followed by its colon is split off again. *)
Lemma split_scheme_scheme (sch rest : string) :
  scheme_test sch = true -> Py.lower sch = sch ->
  Url.split_scheme (sch +:+ String ":" rest) = (sch, rest).
Proof.
  intros Ht Hl. rewrite split_scheme_eq.
  assert (Hn : none (Ascii.eqb ":") sch = true).
  { apply scheme_none_colon. unfold scheme_test in Ht. now apply andb_true_iff in Ht. }
  rewrite (span_until_app _ sch (String ":" rest) Hn) by (right; reflexivity).
  cbn [fst snd]. now rewrite Ht, Hl.
Qed.

Lemma split_scheme_parts (s sch rest : string) :
  Url.split_scheme s = (sch, rest) ->
  (sch = "" /\ rest = s)
  \/ (exists pre, s = pre +:+ String ":" rest /\ scheme_test pre = true /\ sch = Py.lower pre).
Proof.
  rewrite split_scheme_eq.
  destruct (Url.span_until (Ascii.eqb ":") s) as [pre r] eqn:E.
  apply span_until_parts in E. destruct E as (-> & Hpre & Hr). cbn [fst snd].
  destruct r as [|c after]; [intros [= <- <-]; now left|].
  destruct (scheme_test pre) eqn:Ht; [|intros [= <- <-]; now left].
  intros [= <- <-]. right. exists pre.
  destruct Hr as [Hr|Hr]; [discriminate|]. cbn [Url.first_is] in Hr.
  apply Ascii.eqb_eq in Hr. subst c. auto.
Qed.

(** *** The network location *)

Lemma startswith_drop (p s : string) :
  Py.startswith p s = true -> s = p +:+ Py.drop (String.length p) s.
Proof.
  revert s. induction p as [|a p IH]; intros s; simpl; [reflexivity|].
  destruct s as [|b s]; [discriminate|]. intros H. apply andb_true_iff in H.
  destruct H as [Hab H]. apply Ascii.eqb_eq in Hab. subst b. now rewrite <- (IH s H).
Qed.

Lemma split_netloc_parts (s loc rest : string) :
  Url.split_netloc s = (loc, rest) ->
  (Py.startswith "//" s = false /\ loc = "" /\ rest = s)
  \/ (s = "//" +:+ loc +:+ rest /\ none Url.netloc_end loc = true
      /\ (rest = "" \/ Url.first_is Url.netloc_end rest = true)).
Proof.
  unfold Url.split_netloc. destruct (Py.startswith "//" s) eqn:E.
  - intros H. right. apply span_until_parts in H. destruct H as (H & Hl & Hr).
    apply startswith_drop in E. cbn [String.length] in E. rewrite H in E. auto.
  - intros [= <- <-]. now left.
Qed.

Lemma split_netloc_slashes (loc rest : string) :
  none Url.netloc_end loc = true ->
  rest = "" \/ Url.first_is Url.netloc_end rest = true ->
  Url.split_netloc ("//" +:+ loc +:+ rest) = (loc, rest).
Proof. intros Hl Hr. unfold Url.split_netloc. cbn. now apply span_until_app. Qed.

Lemma split_netloc_none (s : string) :
  Py.startswith "//" s = false -> Url.split_netloc s = ("", s).
Proof. intros H. unfold Url.split_netloc. now rewrite H. Qed.

(** *** Query and fragment *)

Lemma good_tail_of (qry frag : string) : good_tail (tail_of qry frag).
Proof.
  unfold good_tail, tail_of. destruct qry; destruct frag; cbn; auto.
Qed.

Lemma none_qf (s : string) :
  none qf s = none (Ascii.eqb "?") s && none (Ascii.eqb "#") s.
Proof.
  unfold none, qf. induction s as [|c s IH]; [reflexivity|]. cbn [Py.sall]. rewrite IH.
  destruct (Ascii.eqb "?" c), (Ascii.eqb "#" c); cbn; try reflexivity;
    rewrite ?andb_false_r; reflexivity.
Qed.

Lemma cut_tail (pth qry frag : string) :
  none qf pth = true -> none (Ascii.eqb "#") qry = true ->
  Url.cut "#" (pth +:+ tail_of qry frag)
  = (pth +:+ (if Py.truthy qry then "?" +:+ qry else ""), frag)
  /\ Url.cut "?" (pth +:+ (if Py.truthy qry then "?" +:+ qry else "")) = (pth, qry).
Proof.
  intros Hp Hq. rewrite none_qf in Hp. apply andb_true_iff in Hp. destruct Hp as [Hp1 Hp2].
  assert (Hh : none (Ascii.eqb "#") (pth +:+ (if Py.truthy qry then "?" +:+ qry else "")) = true).
  { rewrite none_app, Hp2. destruct qry; [reflexivity|]. cbn [Py.truthy andb].
    change ("?" +:+ String a qry) with (String "?" (String a qry)).
    unfold none in *. cbn [Py.sall] in *. exact Hq. }
  split.
  - unfold tail_of. rewrite <- append_assoc3. destruct frag as [|f frag].
    + cbn [Py.truthy]. rewrite append_empty_r. now apply cut_absent.
    + cbn [Py.truthy]. change ("#" +:+ String f frag) with (String "#" (String f frag)).
      now apply cut_here.
  - destruct qry as [|q qry].
    + cbn [Py.truthy]. rewrite append_empty_r. now apply cut_absent.
    + cbn [Py.truthy]. change ("?" +:+ String q qry) with (String "?" (String q qry)).
      now apply cut_here.
Qed.

(** What [cut] twice leaves of a URL after its network location. *)
Lemma cut_twice_parts (u2 u3 frag pth qry : string) :
  Url.cut "#" u2 = (u3, frag) -> Url.cut "?" u3 = (pth, qry) ->
  none qf pth = true /\ none (Ascii.eqb "#") qry = true
  /\ exists tail, u2 = pth +:+ tail /\ good_tail tail
                  /\ forall p, Py.sall p u2 = true ->
                       Py.sall p pth = true /\ Py.sall p qry = true /\ Py.sall p frag = true.
Proof.
  intros H1 H2. apply cut_parts in H1, H2.
  destruct H1 as [Hn3 H1]. destruct H2 as [Hnp H2].
  assert (Hparts : none (Ascii.eqb "#") pth = true /\ none (Ascii.eqb "#") qry = true).
  { destruct H2 as [->|[-> ->]]; [|now split].
    rewrite none_app in Hn3. apply andb_true_iff in Hn3. destruct Hn3 as [Ha Hb].
    split; [exact Ha|]. unfold none in *. cbn [Py.sall] in Hb.
    now apply andb_true_iff in Hb. }
  destruct Hparts as [Hph Hqh]. split; [rewrite none_qf; now rewrite Hnp, Hph|].
  split; [exact Hqh|].
  assert (Hs : forall p a b, Py.sall p (a +:+ b) = true -> Py.sall p a = true /\ Py.sall p b = true).
  { intros p a b H. rewrite sall_app in H. now apply andb_true_iff in H. }
  assert (Hc : forall p c a, Py.sall p (String c a) = true -> Py.sall p a = true).
  { intros p c a H. cbn [Py.sall] in H. now apply andb_true_iff in H. }
  destruct H2 as [->|[-> ->]]; destruct H1 as [->|[-> ->]].
  - exists (String "?" qry +:+ String "#" frag). split; [now rewrite append_assoc3|].
    split; [right; reflexivity|]. intros p H.
    apply Hs in H. destruct H as [H Hf]. apply Hc in Hf.
    apply Hs in H. destruct H as [H Hq]. apply Hc in Hq. auto.
  - exists (String "?" qry). split; [reflexivity|]. split; [right; reflexivity|].
    intros p H. apply Hs in H. destruct H as [H Hq]. apply Hc in Hq. auto.
  - exists (String "#" frag). split; [reflexivity|]. split; [right; reflexivity|].
    intros p H. apply Hs in H. destruct H as [H Hf]. apply Hc in Hf. auto.
  - exists "". split; [now rewrite append_empty_r|]. split; [now left|].
    intros p H. auto.
Qed.

(** ** Service URLs: what [urlsplit] returns is split again as it is *)

Lemma sfilter_sall (p : ascii -> bool) (s : string) : Py.sall p (Url.sfilter p s) = true.
Proof.
  induction s as [|c s IH]; [reflexivity|]. cbn [Url.sfilter].
  destruct (p c) eqn:E; [|exact IH]. cbn [Py.sall]. now rewrite E.
Qed.

Lemma sfilter_id (p : ascii -> bool) (s : string) :
  Py.sall p s = true -> Url.sfilter p s = s.
Proof.
  induction s as [|c s IH]; [reflexivity|]. cbn [Py.sall Url.sfilter]. intros H.
  apply andb_true_iff in H. destruct H as [Hc H]. now rewrite Hc, (IH H).
Qed.

Lemma lstrip_c0_first (s : string) :
  Url.first_is Url.is_c0_or_space (Url.lstrip_c0 s) = false.
Proof.
  induction s as [|c s IH]; [reflexivity|]. cbn [Url.lstrip_c0].
  destruct (Url.is_c0_or_space c) eqn:E; [exact IH|]. exact E.
Qed.

Lemma lstrip_c0_id (s : string) :
  Url.first_is Url.is_c0_or_space s = false -> Url.lstrip_c0 s = s.
Proof. destruct s as [|c s]; [reflexivity|]. cbn [Url.first_is Url.lstrip_c0]. now intros ->. Qed.

Lemma sfilter_first (s : string) :
  Url.first_is Url.is_c0_or_space s = false ->
  Url.first_is Url.is_c0_or_space (Url.sfilter safe s) = false.
Proof.
  destruct s as [|c s]; [reflexivity|]. cbn [Url.first_is Url.sfilter]. intros H.
  now rewrite (unsafe_c0 c H).
Qed.

Lemma split_scheme_not_alpha (s : string) :
  Url.first_is Py.is_alpha s = false -> Url.split_scheme s = ("", s).
Proof.
  intros H. apply no_scheme_iff. destruct s as [|c s]; [now left|]. right.
  cbn [Url.first_is] in H. destruct (Ascii.eqb ":" c) eqn:E.
  - cbn [Url.span_until]. rewrite E. reflexivity.
  - rewrite (span_until_cons _ c s E). cbn [fst]. unfold scheme_test.
    cbn [Url.first_is]. now rewrite H.
Qed.

Lemma qf_not_slash (c : ascii) : qf c = true -> Ascii.eqb "/" c = false.
Proof. destruct c as [[] [] [] [] [] [] [] []]; vm_compute; congruence. Qed.

Lemma qf_not_c0 (c : ascii) : qf c = true -> Url.is_c0_or_space c = false.
Proof. destruct c as [[] [] [] [] [] [] [] []]; vm_compute; congruence. Qed.

Lemma netloc_end_slash (c : ascii) :
  Url.netloc_end c = true -> qf c = false -> Ascii.eqb "/" c = true.
Proof. destruct c as [[] [] [] [] [] [] [] []]; vm_compute; congruence. Qed.

Lemma slash_netloc_end (c : ascii) : Ascii.eqb "/" c = true -> Url.netloc_end c = true.
Proof. destruct c as [[] [] [] [] [] [] [] []]; vm_compute; congruence. Qed.

Lemma slash_not_alpha (c : ascii) : Ascii.eqb "/" c = true -> Py.is_alpha c = false.
Proof. destruct c as [[] [] [] [] [] [] [] []]; vm_compute; congruence. Qed.

Lemma slash_not_c0 (c : ascii) : Ascii.eqb "/" c = true -> Url.is_c0_or_space c = false.
Proof. destruct c as [[] [] [] [] [] [] [] []]; vm_compute; congruence. Qed.

Lemma startswith_slash (s : string) :
  Py.startswith "/" s = Url.first_is (Ascii.eqb "/") s.
Proof. destruct s as [|c s]; [reflexivity|]. cbn [Py.startswith Url.first_is]. apply andb_true_r. Qed.

Lemma startswith_two (s : string) :
  Py.startswith "//" s = true -> Py.startswith "/" s = true.
Proof.
  destruct s as [|a s]; [discriminate|]. cbn [Py.startswith]. intros H.
  apply andb_true_iff in H. now rewrite (proj1 H).
Qed.

(** Whether a path followed by a query or a fragment starts with two
    slashes is decided by the path. *)
Lemma startswith_slashes_tail (pth tail : string) :
  good_tail tail -> Py.startswith "//" (pth +:+ tail) = Py.startswith "//" pth.
Proof.
  intros Ht. assert (Hq : Url.first_is (Ascii.eqb "/") tail = false).
  { destruct Ht as [->|Ht]; [reflexivity|]. destruct tail as [|d t]; [reflexivity|].
    cbn [Url.first_is] in *. now apply qf_not_slash. }
  destruct pth as [|a [|b p]].
  - destruct tail as [|d t]; [reflexivity|]. cbn [Url.first_is] in Hq.
    change (Ascii.eqb "/" d && Py.startswith "/" t = false). now rewrite Hq.
  - change (Ascii.eqb "/" a && Py.startswith "/" tail = Ascii.eqb "/" a && false).
    now rewrite startswith_slash, Hq.
  - reflexivity.
Qed.

Lemma urlunsplit_shape (P : Url.SplitResult) :
  Url.urlunsplit P
  = (if Py.truthy (Url.scheme P) then Url.scheme P +:+ ":" else "")
    +:+ body P +:+ tail_of (Url.query P) (Url.fragment P).
Proof.
  unfold Url.urlunsplit. fold (body P). unfold tail_of.
  destruct (Py.truthy (Url.scheme P)), (Py.truthy (Url.query P)), (Py.truthy (Url.fragment P));
    rewrite ?append_assoc3; cbn [String.append]; rewrite ?append_empty_r; reflexivity.
Qed.

Section SplitJoin.

Variable netloc_error : string -> option string.

Lemma none_split (p : ascii -> bool) (a b : string) :
  none p (a +:+ b) = true -> none p a = true /\ none p b = true.
Proof. rewrite none_app. apply andb_true_iff. Qed.

Lemma none_tail (p : ascii -> bool) (c : ascii) (a : string) :
  none p (String c a) = true -> none p a = true.
Proof. unfold none. cbn [Py.sall]. intros H. now apply andb_true_iff in H. Qed.

(** A path that follows a network location is empty or starts with a slash. *)
Lemma path_after_netloc (rest pth tail : string) :
  rest = "" \/ Url.first_is Url.netloc_end rest = true ->
  rest = pth +:+ tail -> none qf pth = true ->
  pth = "" \/ Py.startswith "/" pth = true.
Proof.
  intros Hr -> Hp. destruct pth as [|c p]; [now left|]. right.
  destruct Hr as [Hr|Hr]; [discriminate|]. cbn [String.append Url.first_is] in Hr.
  rewrite startswith_slash. cbn [Url.first_is]. apply netloc_end_slash; [exact Hr|].
  unfold none in Hp. cbn [Py.sall] in Hp. apply andb_true_iff in Hp.
  now apply negb_true_iff, (proj1 Hp).
Qed.

Lemma path_slash_bare (pth : string) :
  pth = "" \/ Py.startswith "/" pth = true ->
  Url.split_scheme pth = ("", pth) /\ Url.first_is Url.is_c0_or_space pth = false.
Proof.
  intros [->|H]; [split; reflexivity|]. rewrite startswith_slash in H.
  destruct pth as [|c p]; [discriminate|]. cbn [Url.first_is] in H. split.
  - apply split_scheme_not_alpha. cbn [Url.first_is]. now apply slash_not_alpha.
  - cbn [Url.first_is]. now apply slash_not_c0.
Qed.

Lemma urlsplit_inv (u : string) (P : Url.SplitResult) :
  Url.urlsplit netloc_error u = Ok P -> Inv netloc_error P.
Proof.
  unfold Url.urlsplit.
  change (Url.sfilter (fun c => negb (Url.is_unsafe c)) (Url.lstrip_c0 u))
    with (Url.sfilter safe (Url.lstrip_c0 u)).
  pose proof (sfilter_sall safe (Url.lstrip_c0 u)) as Hclean.
  pose proof (sfilter_first _ (lstrip_c0_first u)) as Hfirst.
  generalize dependent (Url.sfilter safe (Url.lstrip_c0 u)). intros u0 Hclean Hfirst.
  change (none Url.is_unsafe u0 = true) in Hclean.
  destruct (Url.split_scheme u0) as [sch u1] eqn:Es.
  destruct (Url.split_netloc u1) as [loc u2] eqn:En.
  destruct (if Py.truthy loc then netloc_error loc else None) eqn:Eok; [discriminate|].
  destruct (Url.cut "#" u2) as [u3 frag] eqn:Ef.
  destruct (Url.cut "?" u3) as [pth qry] eqn:Eq.
  intros [= <-].
  destruct (cut_twice_parts _ _ _ _ _ Ef Eq) as (Hpth & Hqry & tail & Hu2 & Htail & Hall).
  (* the scheme *)
  assert (Hsch : (sch = "" /\ u1 = u0)
                 \/ (scheme_test sch = true /\ Py.lower sch = sch
                     /\ none Url.is_unsafe sch = true /\ truthy_not_empty sch)).
  { destruct (split_scheme_parts _ _ _ Es) as [[-> ->]|(pre & Hu0 & Ht & ->)]; [now left|].
    right. unfold scheme_test in Ht. apply andb_true_iff in Ht. destruct Ht as [Ha Hs].
    destruct (lower_scheme pre Hs) as (H1 & H2 & H3).
    repeat split.
    - unfold scheme_test. now rewrite H3, Ha, H1.
    - exact H2.
    - revert H1. apply sall_impl. intros c Hc. apply scheme_not_reserved in Hc.
      unfold reserved in Hc. apply negb_true_iff.
      destruct (Url.is_unsafe c); [|reflexivity].
      rewrite !orb_true_r in Hc. cbn in Hc. rewrite ?orb_true_r in Hc. discriminate.
    - unfold truthy_not_empty. destruct pre; [discriminate|discriminate]. }
  assert (Hu1 : none Url.is_unsafe u1 = true).
  { destruct (split_scheme_parts _ _ _ Es) as [[-> ->]|(pre & Hu0 & Ht & ->)]; [exact Hclean|].
    rewrite Hu0 in Hclean. apply none_split in Hclean. destruct Hclean as [_ Hclean].
    now apply none_tail in Hclean. }
  (* the network location *)
  assert (Hloc : none Url.netloc_end loc = true /\ none Url.is_unsafe loc = true
                 /\ none Url.is_unsafe u2 = true).
  { destruct (split_netloc_parts _ _ _ En) as [(_ & -> & ->)|(Hs & Hl & _)]; [auto|].
    rewrite Hs in Hu1. apply none_split in Hu1. destruct Hu1 as [_ Hu1].
    apply none_split in Hu1. tauto. }
  destruct Hloc as (Hloc & Hlc & Hu2c).
  destruct (Hall _ Hu2c) as (Hpc & Hqc & Hfc).
  constructor; cbn [Url.scheme Url.netloc Url.path Url.query Url.fragment]; try assumption.
  - destruct Hsch as [[-> _]|(_ & _ & H & _)]; [reflexivity|exact H].
  - destruct Hsch as [[-> _]|(H1 & H2 & _)]; [now left|now right].
  - intros Hl. destruct (split_netloc_parts _ _ _ En) as [(_ & -> & _)|(_ & _ & Hr)]; [discriminate|].
    now apply (path_after_netloc u2 pth tail).
  - intros ->. destruct Hsch as [[_ ->]|(_ & _ & _ & H)]; [|now elim H].
    destruct (split_netloc_parts _ _ _ En) as [(_ & _ & ->)|(_ & _ & Hr)].
    + subst u0. split.
      * now apply (no_scheme_tail pth tail Hpth Htail).
      * rewrite first_is_app in Hfirst. destruct pth; [reflexivity|exact Hfirst].
    + apply path_slash_bare. now apply (path_after_netloc u2 pth tail).
Qed.

Lemma inv_with_query (P : Url.SplitResult) (q : Url.Dict) :
  Inv netloc_error P -> Inv netloc_error (Url.with_query P (Url.urlencode q)).
Proof.
  intros [H1 H2 H3 H4 H5 H6 H7 H8 H9 H10 H11 H12].
  constructor; cbn [Url.with_query Url.scheme Url.netloc Url.path Url.query Url.fragment];
    try assumption.
  - apply urlencode_none; [|reflexivity|reflexivity].
    intros c Hc. unfold reserved. rewrite Hc. now rewrite !orb_true_r.
  - apply urlencode_none; [|reflexivity|reflexivity].
    intros c Hc. unfold reserved. rewrite Hc. now rewrite !orb_true_r.
Qed.

(** The network location and what follows it are read back from the body. *)
Lemma split_body (P : Url.SplitResult) (tail : string) :
  Inv netloc_error P -> good_tail tail ->
  Url.split_netloc (body P +:+ tail) = (Url.netloc P, Url.path P +:+ tail).
Proof.
  intros [_ _ _ _ _ _ Hloc _ Hlp Hpth _ _] Ht. unfold body.
  assert (Hrest : forall p, p = "" \/ Py.startswith "/" p = true ->
                    (p +:+ tail = "" \/ Url.first_is Url.netloc_end (p +:+ tail) = true)).
  { intros p [->|Hp].
    - destruct Ht as [->|Ht]; [now left|right]. destruct tail as [|d t]; [discriminate|].
      cbn [String.append Url.first_is] in *. now apply qf_netloc_end.
    - right. rewrite startswith_slash in Hp. destruct p as [|c p]; [discriminate|].
      cbn [String.append Url.first_is] in *. now apply slash_netloc_end. }
  assert (Hempty : forall x, x = "" \/ Url.first_is Url.netloc_end x = true ->
                     Url.split_netloc ("//" +:+ x) = ("", x)).
  { intros x Hx. apply (split_netloc_slashes "" x); [reflexivity|exact Hx]. }
  destruct (Py.truthy (Url.netloc P)) eqn:El.
  - specialize (Hlp eq_refl).
    assert (Hp : (if Py.truthy (Url.path P) && negb (Py.startswith "/" (Url.path P))
                  then "/" +:+ Url.path P else Url.path P) = Url.path P).
    { destruct Hlp as [-> | ->]; [reflexivity|]. now rewrite andb_false_r. }
    rewrite Hp, !append_assoc3. apply split_netloc_slashes; [exact Hloc|].
    now apply Hrest.
  - assert (Hl : Url.netloc P = "") by (destruct (Url.netloc P); [reflexivity|discriminate]).
    rewrite Hl. destruct (Py.startswith "//" (Url.path P)) eqn:E2.
    + rewrite append_assoc3. apply Hempty, Hrest. right.
      now apply startswith_two.
    + destruct (Py.truthy (Url.scheme P) && Rest.mem (Url.scheme P) Url.uses_netloc
                && (negb (Py.truthy (Url.path P)) || Py.startswith "/" (Url.path P))) eqn:E3.
      * rewrite append_assoc3. apply Hempty, Hrest.
        apply andb_true_iff in E3. destruct E3 as [_ E3]. apply orb_true_iff in E3.
        destruct E3 as [E3|E3]; [left|now right].
        destruct (Url.path P); [reflexivity|discriminate].
      * apply split_netloc_none. now rewrite startswith_slashes_tail.
Qed.

(** The scheme is read back from the joined URL. *)
Lemma split_scheme_url (P : Url.SplitResult) (tail : string) :
  Inv netloc_error P -> good_tail tail ->
  Url.split_scheme ((if Py.truthy (Url.scheme P) then Url.scheme P +:+ ":" else "")
                    +:+ body P +:+ tail)
  = (Url.scheme P, body P +:+ tail).
Proof.
  intros [_ _ _ _ _ Hsch _ _ Hlp Hpth _ Hbare] Ht.
  destruct Hsch as [Hs|[Hs Hl]].
  - rewrite Hs. cbn [Py.truthy String.append]. specialize (Hbare Hs). unfold body.
    rewrite Hs. cbn [Py.truthy andb].
    assert (Hslash : forall x, Url.split_scheme ("//" +:+ x) = ("", "//" +:+ x)).
    { intros x. now apply split_scheme_not_alpha. }
    destruct (Py.truthy (Url.netloc P)); [rewrite !append_assoc3; apply Hslash|].
    destruct (Py.startswith "//" (Url.path P)); [rewrite !append_assoc3; apply Hslash|].
    now apply (no_scheme_tail _ _ Hpth Ht).
  - assert (Ht' : Py.truthy (Url.scheme P) = true).
    { unfold scheme_test in Hs. destruct (Url.scheme P); [discriminate|reflexivity]. }
    rewrite Ht', append_assoc3. now apply split_scheme_scheme.
Qed.

(** Joined parts have nothing for [urlsplit] to strip or to remove. *)
Lemma urlunsplit_clean (P : Url.SplitResult) :
  Inv netloc_error P ->
  Url.sfilter (fun c => negb (Url.is_unsafe c)) (Url.lstrip_c0 (Url.urlunsplit P))
  = Url.urlunsplit P.
Proof.
  intros [H1 H2 H3 H4 H5 Hsch _ _ _ _ _ Hbare].
  assert (Hfirst : Url.first_is Url.is_c0_or_space (Url.urlunsplit P) = false).
  { rewrite urlunsplit_shape. destruct Hsch as [Hs|[Hs Hl]].
    - specialize (Hbare Hs). unfold body. rewrite Hs. cbn [Py.truthy String.append andb].
      destruct (Py.truthy (Url.netloc P)); [reflexivity|].
      destruct (Py.startswith "//" (Url.path P)); [reflexivity|].
      rewrite first_is_app. destruct (Py.truthy (Url.path P)); [apply Hbare|].
      destruct (good_tail_of (Url.query P) (Url.fragment P)) as [->|Hq]; [reflexivity|].
      destruct (tail_of _ _) as [|d t]; [reflexivity|]. now apply qf_not_c0.
    - unfold scheme_test in Hs. apply andb_true_iff in Hs. destruct Hs as [Ha _].
      destruct (Url.scheme P) as [|c sch]; [discriminate|].
      cbn [Py.truthy String.append Url.first_is] in *. now apply alpha_not_c0. }
  rewrite (lstrip_c0_id _ Hfirst). apply sfilter_id.
  change (none Url.is_unsafe (Url.urlunsplit P) = true).
  rewrite urlunsplit_shape, !none_app.
  assert (Hb : none Url.is_unsafe (body P) = true).
  { unfold body.
    repeat match goal with
           | |- context [if ?b then _ else _] => destruct b
           end; rewrite ?none_app, ?H2, ?H3; reflexivity. }
  assert (Ht : none Url.is_unsafe (tail_of (Url.query P) (Url.fragment P)) = true).
  { unfold tail_of. rewrite none_app.
    destruct (Py.truthy (Url.query P)), (Py.truthy (Url.fragment P));
      rewrite ?none_app, ?H4, ?H5; reflexivity. }
  rewrite Hb, Ht. destruct (Py.truthy (Url.scheme P)); [|reflexivity].
  now rewrite none_app, H1.
Qed.

(** Parts that [urlsplit] returned are split again, once joined, as they are. *)
Lemma urlsplit_urlunsplit (P : Url.SplitResult) :
  Inv netloc_error P -> Url.urlsplit netloc_error (Url.urlunsplit P) = Ok P.
Proof.
  intros HP. unfold Url.urlsplit. rewrite (urlunsplit_clean P HP), urlunsplit_shape.
  pose proof (good_tail_of (Url.query P) (Url.fragment P)) as Ht.
  rewrite (split_scheme_url P _ HP Ht), (split_body P _ HP Ht).
  destruct HP as [_ _ _ _ _ _ _ Hok _ Hpth Hqry _]. rewrite Hok.
  destruct (cut_tail (Url.path P) (Url.query P) (Url.fragment P) Hpth Hqry) as [-> ->].
  now destruct P.
Qed.

End SplitJoin.

(** ** The URL helpers on the two releases of the interpreter *)

(** With a network location the two [urlunsplit] write the same URL. *)
Lemma urlunsplit_on_netloc (release : Url.Release) (P : Url.SplitResult) :
  Url.netloc P <> "" -> Url.On.urlunsplit release P = Url.urlunsplit P.
Proof.
  intros H. apply truthy_nonempty in H. destruct release; [|reflexivity].
  unfold Url.On.urlunsplit, Url.urlunsplit_before, Url.urlunsplit. now rewrite H.
Qed.

Section ReleaseProofs.

Variable release : Url.Release.
Variable netloc_error : string -> option string.

Lemma on_wms_normalize (u : string) (P : Url.SplitResult) :
  Url.urlsplit netloc_error u = Ok P -> Url.netloc P <> "" ->
  Url.On.wms_normalize_service_base release netloc_error u
  = Url.wms_normalize_service_base netloc_error u.
Proof.
  intros HP Hn. unfold Url.On.wms_normalize_service_base, Url.wms_normalize_service_base.
  rewrite HP. cbn [bind]. now rewrite urlunsplit_on_netloc.
Qed.

Lemma on_wmts_normalize (u : string) (P : Url.SplitResult) :
  Url.urlsplit netloc_error u = Ok P -> Url.netloc P <> "" ->
  Url.On.wmts_normalize_service_base release netloc_error u
  = Url.wmts_normalize_service_base netloc_error u.
Proof.
  intros HP Hn. unfold Url.On.wmts_normalize_service_base, Url.wmts_normalize_service_base.
  destruct (Py.truthy u); [|reflexivity]. now apply on_wms_normalize with P.
Qed.

Lemma on_wms_build_caps_url (link version : string) (P : Url.SplitResult) :
  Url.urlsplit netloc_error (Py.strip link) = Ok P -> Url.netloc P <> "" ->
  Url.On.wms_build_caps_url release netloc_error link version
  = Url.wms_build_caps_url netloc_error link version.
Proof.
  intros HP Hn. unfold Url.On.wms_build_caps_url, Url.wms_build_caps_url.
  rewrite HP. cbn [bind]. now rewrite urlunsplit_on_netloc.
Qed.

Lemma on_wmts_build_caps_url (link : string) (P : Url.SplitResult) :
  Url.urlsplit netloc_error (Py.strip link) = Ok P -> Url.netloc P <> "" ->
  Url.On.wmts_build_caps_url release netloc_error link
  = Url.wmts_build_caps_url netloc_error link.
Proof.
  intros HP Hn. unfold Url.On.wmts_build_caps_url, Url.wmts_build_caps_url.
  rewrite HP. cbn [bind]. now rewrite urlunsplit_on_netloc.
Qed.

Lemma on_clean_base_url (url : string) (P : Url.SplitResult) :
  Url.urlsplit netloc_error (Py.strip url) = Ok P -> Url.netloc P <> "" ->
  Url.On._clean_base_url release netloc_error url
  = RestSvc._clean_base_url netloc_error url.
Proof.
  intros HP Hn. unfold Url.On._clean_base_url, RestSvc._clean_base_url.
  rewrite HP. cbn [bind]. now rewrite urlunsplit_on_netloc.
Qed.

End ReleaseProofs.

(** On the latest release the helpers are those of [Url]. *)
Lemma on_since_3_12_4 (netloc_error : string -> option string) (u v : string) :
  Url.On.wms_normalize_service_base Url.Since_3_12_4 netloc_error u
  = Url.wms_normalize_service_base netloc_error u
  /\ Url.On.wmts_normalize_service_base Url.Since_3_12_4 netloc_error u
     = Url.wmts_normalize_service_base netloc_error u
  /\ Url.On.wms_build_caps_url Url.Since_3_12_4 netloc_error u v
     = Url.wms_build_caps_url netloc_error u v
  /\ Url.On.wmts_build_caps_url Url.Since_3_12_4 netloc_error u
     = Url.wmts_build_caps_url netloc_error u
  /\ Url.On._clean_base_url Url.Since_3_12_4 netloc_error u
     = RestSvc._clean_base_url netloc_error u.
Proof. repeat split. Qed.

(** ** The service base *)

Lemma with_query_twice (P : Url.SplitResult) (q : string) :
  Url.with_query (Url.with_query P q) q = Url.with_query P q.
Proof. reflexivity. Qed.

Lemma distinct_NoDup (l : list string) : distinct l = true -> List.NoDup l.
Proof.
  induction l as [|x l IH]; [constructor|]. cbn [distinct]. intros H.
  apply andb_true_iff in H. destruct H as [Hx H]. apply negb_true_iff in Hx.
  constructor; [now apply mem_not_In|now apply IH].
Qed.

Section BaseProofs.

Variable netloc_error : string -> option string.

(** What the normalisation returns for parts that [urlsplit] read. *)
Lemma normalize_service_base_parts (u : string) (P : Url.SplitResult) :
  Url.urlsplit netloc_error u = Ok P ->
  let kept := Url.drop_caps_keys (Url.dict_of (Url.parse_qsl (Url.query P))) in
  let r := Url.urlunsplit (Url.with_query P (Url.urlencode kept)) in
  Url.wms_normalize_service_base netloc_error u = Ok r
  /\ Url.wmts_normalize_service_base netloc_error u = Ok r
  /\ Url.urlsplit netloc_error r = Ok (Url.with_query P (Url.urlencode kept)).
Proof.
  intros HP kept r.
  assert (Hwms : Url.wms_normalize_service_base netloc_error u = Ok r).
  { unfold Url.wms_normalize_service_base. now rewrite HP. }
  split; [exact Hwms|split].
  - unfold Url.wmts_normalize_service_base. destruct (Py.truthy u) eqn:Eu; [exact Hwms|].
    destruct u; [|discriminate]. cbn in HP. injection HP as <-. reflexivity.
  - apply urlsplit_urlunsplit, inv_with_query. exact (urlsplit_inv _ _ _ HP).
Qed.

(** Normalising what the normalisation returned returns it. *)
Lemma normalize_service_base_again (u r : string) :
  Url.wms_normalize_service_base netloc_error u = Ok r ->
  Url.wms_normalize_service_base netloc_error r = Ok r.
Proof.
  unfold Url.wms_normalize_service_base at 1.
  destruct (Url.urlsplit netloc_error u) as [P|e] eqn:HP; [|discriminate].
  cbn [bind]. intros [= <-].
  destruct (normalize_service_base_parts u P HP) as (_ & _ & Hr). cbv zeta in Hr.
  unfold Url.wms_normalize_service_base. rewrite Hr. cbn [bind Url.with_query Url.query].
  now rewrite normalized_query_stable.
Qed.

End BaseProofs.

(** C8, as amended.  Normalising a service base is idempotent for a URL
    with a network location, with [urlunsplit] as it is before and as it
    is since CPython 3.12.4: for every URL that [urlsplit] accepts with a
    network location that is not empty, and whose decoded parameters are
    ASCII text, normalising the normalised URL gives the normalised URL
    again, by the WMS module's function and by the WMTS module's. *)
Theorem normalize_service_base_idempotent
    (release : Url.Release) (netloc_error : string -> option string)
    (u : string) (P : Url.SplitResult) :
  Url.urlsplit netloc_error u = Ok P ->
  Url.netloc P <> "" ->
  Url.plain_query (Url.query P) = true ->
  (let? r := Url.On.wms_normalize_service_base release netloc_error u in
   Url.On.wms_normalize_service_base release netloc_error r)
  = Url.On.wms_normalize_service_base release netloc_error u
  /\ (let? r := Url.On.wmts_normalize_service_base release netloc_error u in
      Url.On.wmts_normalize_service_base release netloc_error r)
     = Url.On.wmts_normalize_service_base release netloc_error u.
Proof.
  intros HP Hn _.
  destruct (normalize_service_base_parts netloc_error u P HP) as (H1 & H2 & H3).
  cbv zeta in H1, H2, H3.
  rewrite (on_wms_normalize release netloc_error u P HP Hn).
  rewrite (on_wmts_normalize release netloc_error u P HP Hn).
  rewrite H1, H2. cbn [bind].
  rewrite (on_wms_normalize release netloc_error _ _ H3 Hn).
  rewrite (on_wmts_normalize release netloc_error _ _ H3 Hn).
  pose proof (normalize_service_base_again netloc_error u _ H1) as Ha.
  split; [exact Ha|].
  unfold Url.wmts_normalize_service_base.
  destruct (Py.truthy _) eqn:Et; [exact Ha|].
  destruct (Url.urlunsplit _); [reflexivity|discriminate].
Qed.

Lemma normalize_service_base_idempotent_witness :
  (let? r := Url.On.wms_normalize_service_base Url.Before_3_12_4 Demo.any_netloc Demo.caps_link in
   Url.On.wms_normalize_service_base Url.Before_3_12_4 Demo.any_netloc r)
  = Url.On.wms_normalize_service_base Url.Before_3_12_4 Demo.any_netloc Demo.caps_link
  /\ (let? r := Url.On.wmts_normalize_service_base Url.Before_3_12_4 Demo.any_netloc Demo.caps_link in
      Url.On.wmts_normalize_service_base Url.Before_3_12_4 Demo.any_netloc r)
     = Url.On.wmts_normalize_service_base Url.Before_3_12_4 Demo.any_netloc Demo.caps_link.
Proof.
  apply (normalize_service_base_idempotent Url.Before_3_12_4 Demo.any_netloc Demo.caps_link
           Demo.caps_link_parts).
  - reflexivity.
  - discriminate.
  - reflexivity.
Defined.

(** C8 as it is stated fails before CPython 3.12.4 on a URL without a
    network location whose path starts with more than two slashes: each
    normalisation takes two of them away. *)
Lemma normalize_service_base_slashes_before_3_12_4 :
  Url.On.wms_normalize_service_base Url.Before_3_12_4 Demo.any_netloc
    "http://////x/wms?SERVICE=WMS"
  = Ok "http:////x/wms"
  /\ Url.On.wms_normalize_service_base Url.Before_3_12_4 Demo.any_netloc "http:////x/wms"
     = Ok "http://x/wms"
  /\ (let? r := Url.On.wms_normalize_service_base Url.Before_3_12_4 Demo.any_netloc
                  "http://////x/wms?SERVICE=WMS" in
      Url.On.wms_normalize_service_base Url.Before_3_12_4 Demo.any_netloc r)
     <> Url.On.wms_normalize_service_base Url.Before_3_12_4 Demo.any_netloc
          "http://////x/wms?SERVICE=WMS".
Proof. split; [reflexivity|]. split; [reflexivity|]. vm_compute. discriminate. Qed.

Example normalize_service_base_twice :
  Url.wms_normalize_service_base Demo.any_netloc Demo.caps_link
  = Ok "https://maps.example.org/ows?map=ortho&lang=de"
  /\ Url.wms_normalize_service_base Demo.any_netloc "https://maps.example.org/ows?map=ortho&lang=de"
     = Ok "https://maps.example.org/ows?map=ortho&lang=de".
Proof. split; reflexivity. Qed.

(** C7, as amended.  With [urlunsplit] as it is before and as it is
    since CPython 3.12.4, for a URL that [urlsplit] accepts with a
    network location that is not empty, in whose query no key is repeated
    and whose decoded parameters are ASCII text, both modules return the
    same service base; it splits into the
    scheme, network location, path and fragment that [urlsplit] read from
    the URL, and its query is [urlencode] of the URL's decoded parameters
    without those whose key is SERVICE, REQUEST or VERSION in any case,
    in their order, which is also what is read back from it. *)
Theorem normalize_service_base_frame
    (release : Url.Release) (netloc_error : string -> option string)
    (u : string) (P : Url.SplitResult) :
  Url.urlsplit netloc_error u = Ok P ->
  Url.netloc P <> "" ->
  Url.plain_query (Url.query P) = true ->
  List.NoDup (keys (Url.parse_qsl (Url.query P))) ->
  let others :=
    List.filter (fun kv => negb (Url.caps_key (fst kv))) (Url.parse_qsl (Url.query P)) in
  exists r Q,
    Url.On.wms_normalize_service_base release netloc_error u = Ok r
    /\ Url.On.wmts_normalize_service_base release netloc_error u = Ok r
    /\ Url.urlsplit netloc_error r = Ok Q
    /\ Url.scheme Q = Url.scheme P
    /\ Url.netloc Q = Url.netloc P
    /\ Url.path Q = Url.path P
    /\ Url.fragment Q = Url.fragment P
    /\ Url.query Q = Url.urlencode others
    /\ Url.parse_qsl (Url.query Q) = others.
Proof.
  intros HP Hn _ Hnd others.
  rewrite (on_wms_normalize release netloc_error u P HP Hn).
  rewrite (on_wmts_normalize release netloc_error u P HP Hn).
  destruct (normalize_service_base_parts netloc_error u P HP) as (H1 & H2 & H3).
  cbv zeta in H1, H2, H3. rewrite (dict_of_distinct _ Hnd) in H1, H2, H3.
  fold others in H1, H2, H3.
  exists (Url.urlunsplit (Url.with_query P (Url.urlencode others))),
         (Url.with_query P (Url.urlencode others)).
  repeat split; try assumption. apply parse_qsl_urlencode.
Qed.

Lemma normalize_service_base_frame_witness :
  exists r Q,
    Url.On.wms_normalize_service_base Url.Before_3_12_4 Demo.any_netloc Demo.caps_link = Ok r
    /\ Url.On.wmts_normalize_service_base Url.Before_3_12_4 Demo.any_netloc Demo.caps_link = Ok r
    /\ Url.urlsplit Demo.any_netloc r = Ok Q
    /\ Url.scheme Q = "https"
    /\ Url.netloc Q = "maps.example.org"
    /\ Url.path Q = "/ows"
    /\ Url.fragment Q = ""
    /\ Url.query Q = Url.urlencode [("map", "ortho"); ("lang", "de")]
    /\ Url.parse_qsl (Url.query Q) = [("map", "ortho"); ("lang", "de")].
Proof.
  apply (normalize_service_base_frame Url.Before_3_12_4 Demo.any_netloc Demo.caps_link
           Demo.caps_link_parts).
  - reflexivity.
  - discriminate.
  - reflexivity.
  - apply distinct_NoDup. vm_compute. reflexivity.
Defined.

(** C7 as it is stated fails, with either [urlunsplit]: the scheme is returned
    in lower case, and a parameter is written back as [urlencode] writes
    it, not as it was written. *)
Lemma normalize_service_base_rewrites_url :
  Url.On.wms_normalize_service_base Url.Before_3_12_4 Demo.any_netloc Demo.slash_link
  = Ok "http://maps.example.org/ows?map=%2Fdata%2Fortho.map"
  /\ Url.On.wms_normalize_service_base Url.Since_3_12_4 Demo.any_netloc Demo.slash_link
     = Ok "http://maps.example.org/ows?map=%2Fdata%2Fortho.map"
  /\ Url.On.wmts_normalize_service_base Url.Before_3_12_4 Demo.any_netloc Demo.slash_link
     = Ok "http://maps.example.org/ows?map=%2Fdata%2Fortho.map"
  /\ Url.On.wmts_normalize_service_base Url.Since_3_12_4 Demo.any_netloc Demo.slash_link
     = Ok "http://maps.example.org/ows?map=%2Fdata%2Fortho.map"
  /\ Py.startswith "HTTP://maps.example.org/ows?map=/data/ortho.map" Demo.slash_link = true
  /\ Py.startswith "HTTP:" "http://maps.example.org/ows?map=%2Fdata%2Fortho.map" = false
  /\ Py.contains "map=/data/ortho.map" "http://maps.example.org/ows?map=%2Fdata%2Fortho.map"
     = false.
Proof. repeat split; reflexivity. Qed.

(** Of a repeated key the dictionary keeps one entry, with the last value. *)
Example normalize_service_base_repeated_key :
  Url.wms_normalize_service_base Demo.any_netloc Demo.repeated_link
  = Ok "http://maps.example.org/ows?layers=b".
Proof. reflexivity. Qed.

(** ** Dictionaries of query parameters *)

Lemma get_dict_set (k k' v : string) (d : Url.Dict) :
  get k (Url.dict_set k' v d) = if String.eqb k' k then Some v else get k d.
Proof.
  unfold get. induction d as [|[a b] d IH]; cbn [Url.dict_set List.find fst snd].
  - now destruct (String.eqb k' k).
  - destruct (String.eqb_spec a k') as [->|Hak]; cbn [List.find fst snd].
    + now destruct (String.eqb k' k).
    + destruct (String.eqb_spec a k) as [->|Hakk].
      * destruct (String.eqb_spec k' k) as [->|_]; [congruence|reflexivity].
      * exact IH.
Qed.

(** Setting a key to the value it has changes nothing. *)
Lemma dict_set_same (k v : string) (d : Url.Dict) :
  get k d = Some v -> Url.dict_set k v d = d.
Proof.
  unfold get. induction d as [|[a b] d IH]; cbn [Url.dict_set List.find fst snd]; [discriminate|].
  destruct (String.eqb_spec a k) as [->|Hak].
  - now intros [= ->].
  - intros H. now rewrite (IH H).
Qed.

Lemma In_dict_set (kv : string * string) (k v : string) (d : Url.Dict) :
  In kv (Url.dict_set k v d) -> kv = (k, v) \/ In kv d.
Proof.
  induction d as [|[a b] d IH]; cbn [Url.dict_set].
  - intros [<-|[]]. now left.
  - destruct (String.eqb_spec a k) as [->|Hak].
    + intros [<-|H]; [now left|right; now right].
    + intros [<-|H]; [right; now left|]. destruct (IH H); [now left|right; now right].
Qed.

Lemma In_fold_put (kv : string * string) (l : list (string * string)) (d : Url.Dict) :
  In kv (List.fold_left put l d) -> In kv d \/ In kv l.
Proof.
  revert d. induction l as [|[k v] l IH]; intros d; cbn [List.fold_left]; [now left|].
  intros H. destruct (IH _ H) as [H1|H1]; [|right; now right].
  unfold put in H1. cbn [fst snd] in H1. apply In_dict_set in H1.
  destruct H1 as [->|H1]; [right; now left|now left].
Qed.

(** A dictionary holds only pairs it was made from. *)
Lemma In_dict_of (kv : string * string) (l : list (string * string)) :
  In kv (Url.dict_of l) -> In kv l.
Proof. intros H. apply (In_fold_put kv l []) in H. now destruct H. Qed.

Lemma get_app (k : string) (a b : Url.Dict) :
  get k (a ++ b) = match get k a with Some v => Some v | None => get k b end.
Proof.
  unfold get. induction a as [|[x y] a IH]; cbn [app List.find fst snd]; [reflexivity|].
  destruct (String.eqb x k); [reflexivity|exact IH].
Qed.

Lemma get_fold_put (k : string) (l : list (string * string)) (d : Url.Dict) :
  get k (List.fold_left put l d)
  = match last_value k l with Some v => Some v | None => get k d end.
Proof.
  unfold last_value. revert d. induction l as [|[a b] l IH]; intros d; cbn [List.fold_left List.rev].
  - reflexivity.
  - rewrite IH, get_app. destruct (get k (List.rev l)); [reflexivity|].
    unfold put. cbn [fst snd]. rewrite get_dict_set. unfold get.
    cbn [List.find fst snd]. now destruct (String.eqb a k).
Qed.

(** In the dictionary of a list of pairs a key has the value of its
    last occurrence. *)
Lemma get_dict_of (k : string) (l : list (string * string)) :
  get k (Url.dict_of l) = last_value k l.
Proof.
  unfold Url.dict_of. fold put. change (fun d kv => Url.dict_set (fst kv) (snd kv) d) with put.
  rewrite (get_fold_put k l []). now destruct (last_value k l).
Qed.

Lemma drop_caps_dict_set (k v : string) (d : Url.Dict) :
  Url.caps_key k = true ->
  Url.drop_caps_keys (Url.dict_set k v d) = Url.drop_caps_keys d.
Proof.
  intros Hk. unfold Url.drop_caps_keys.
  induction d as [|[a b] d IH]; cbn [Url.dict_set List.filter fst].
  - now rewrite Hk.
  - destruct (String.eqb_spec a k) as [->|Hak]; cbn [List.filter fst].
    + now rewrite Hk.
    + now rewrite IH.
Qed.

Lemma get_In (k v : string) (d : Url.Dict) : get k d = Some v -> In (k, v) d.
Proof.
  unfold get. destruct (List.find _ d) as [[a b]|] eqn:E; [|discriminate].
  intros [= <-]. apply List.find_some in E. destruct E as [Hin Hk].
  cbn [fst snd] in *. apply String.eqb_eq in Hk. now subst a.
Qed.

Lemma In_get (k v : string) (d : Url.Dict) :
  List.NoDup (keys d) -> In (k, v) d -> get k d = Some v.
Proof.
  unfold get, keys. induction d as [|[a b] d IH]; [intros _ []|].
  cbn [List.map List.find fst snd]. intros Hnd [E|Hin].
  - injection E as -> ->. now rewrite String.eqb_refl.
  - inversion Hnd as [|? ? Ha Hd]; subst. destruct (String.eqb_spec a k) as [->|_].
    + exfalso. apply Ha. apply in_map_iff. now exists (k, v).
    + now apply IH.
Qed.

(** ** Rewriting the query of a URL *)

Section Rewriting.

Variable netloc_error : string -> option string.

Lemma wms_build_caps_url_rewrite (u ver : string) :
  Url.wms_build_caps_url netloc_error u ver
  = rewrite_query netloc_error (wms_caps_update ver) (Py.strip u).
Proof. reflexivity. Qed.

Lemma wmts_build_caps_url_rewrite (u : string) :
  Url.wmts_build_caps_url netloc_error u
  = rewrite_query netloc_error wmts_caps_update (Py.strip u).
Proof. reflexivity. Qed.

Lemma wms_normalize_rewrite (u : string) :
  Url.wms_normalize_service_base netloc_error u
  = rewrite_query netloc_error Url.drop_caps_keys u.
Proof. reflexivity. Qed.

(** The shortcut of the WMTS module for the empty URL returns what the
    WMS module's function returns for it. *)
Lemma wmts_normalize_rewrite (u : string) :
  Url.wmts_normalize_service_base netloc_error u
  = rewrite_query netloc_error Url.drop_caps_keys u.
Proof.
  unfold Url.wmts_normalize_service_base. destruct u as [|c u]; reflexivity.
Qed.

(** The rewritten URL splits into the parts of the URL, with the query
    that was written. *)
Lemma rewrite_query_split (F : Url.Dict -> Url.Dict) (u : string) (P : Url.SplitResult) :
  Url.urlsplit netloc_error u = Ok P ->
  let q := Url.urlencode (F (Url.dict_of (Url.parse_qsl (Url.query P)))) in
  rewrite_query netloc_error F u = Ok (Url.urlunsplit (Url.with_query P q))
  /\ Url.urlsplit netloc_error (Url.urlunsplit (Url.with_query P q)) = Ok (Url.with_query P q).
Proof.
  intros HP q. split.
  - unfold rewrite_query. now rewrite HP.
  - apply urlsplit_urlunsplit, inv_with_query. exact (urlsplit_inv _ _ _ HP).
Qed.

Lemma rewrite_query_raises (F : Url.Dict -> Url.Dict) (u : string) (e : Exn) :
  Url.urlsplit netloc_error u = Raise e -> rewrite_query netloc_error F u = Raise e.
Proof. intros H. unfold rewrite_query. now rewrite H. Qed.

Lemma rewrite_query_ext (F G : Url.Dict -> Url.Dict) (u : string) :
  (forall d, List.NoDup (keys d) -> F d = G d) ->
  rewrite_query netloc_error F u = rewrite_query netloc_error G u.
Proof.
  intros H. unfold rewrite_query.
  destruct (Url.urlsplit netloc_error u) as [P|e]; [|reflexivity].
  cbn [bind]. now rewrite (H _ (dict_of_NoDup _)).
Qed.

(** Rewriting a rewritten URL rewrites the dictionary twice. *)
Lemma rewrite_query_compose (F G : Url.Dict -> Url.Dict) (u : string) :
  (forall d, List.NoDup (keys d) -> List.NoDup (keys (F d))) ->
  (let? r := rewrite_query netloc_error F u in rewrite_query netloc_error G r)
  = rewrite_query netloc_error (fun d => G (F d)) u.
Proof.
  intros HF. destruct (Url.urlsplit netloc_error u) as [P|e] eqn:HP.
  - destruct (rewrite_query_split F u P HP) as [-> Hr]. cbn [bind].
    unfold rewrite_query. rewrite Hr, HP. cbn [bind Url.with_query Url.query].
    rewrite parse_qsl_urlencode.
    rewrite (dict_of_distinct (F (Url.dict_of (Url.parse_qsl (Url.query P)))))
      by apply HF, dict_of_NoDup.
    reflexivity.
  - now rewrite !(rewrite_query_raises _ u e HP).
Qed.

Lemma wms_caps_update_NoDup (ver : string) (d : Url.Dict) :
  List.NoDup (keys d) -> List.NoDup (keys (wms_caps_update ver d)).
Proof. intros H. unfold wms_caps_update. now repeat apply dict_set_NoDup. Qed.

Lemma wmts_caps_update_NoDup (d : Url.Dict) :
  List.NoDup (keys d) -> List.NoDup (keys (wmts_caps_update d)).
Proof. intros H. unfold wmts_caps_update. now repeat apply dict_set_NoDup. Qed.

Lemma drop_caps_keys_NoDup (d : Url.Dict) :
  List.NoDup (keys d) -> List.NoDup (keys (Url.drop_caps_keys d)).
Proof. apply filter_keys_NoDup. Qed.

End Rewriting.

Lemma drop_wms_caps_update (ver : string) (d : Url.Dict) :
  Url.drop_caps_keys (wms_caps_update ver d) = Url.drop_caps_keys d.
Proof. unfold wms_caps_update. now rewrite !drop_caps_dict_set. Qed.

Lemma drop_wmts_caps_update (d : Url.Dict) :
  Url.drop_caps_keys (wmts_caps_update d) = Url.drop_caps_keys d.
Proof. unfold wmts_caps_update. now rewrite !drop_caps_dict_set. Qed.

Lemma caps_url_service_base (netloc_error : string -> option string) (link version : string) :
  (let? caps_url := Url.wms_build_caps_url netloc_error link version in
   Url.wms_normalize_service_base netloc_error caps_url)
  = Url.wms_normalize_service_base netloc_error (Py.strip link)
  /\ (let? caps_url := Url.wmts_build_caps_url netloc_error link in
      Url.wmts_normalize_service_base netloc_error caps_url)
     = Url.wmts_normalize_service_base netloc_error (Py.strip link).
Proof.
  split.
  - rewrite wms_build_caps_url_rewrite.
    transitivity (let? r := rewrite_query netloc_error (wms_caps_update version) (Py.strip link) in
                  rewrite_query netloc_error Url.drop_caps_keys r); [reflexivity|].
    rewrite rewrite_query_compose by apply wms_caps_update_NoDup.
    rewrite wms_normalize_rewrite. apply rewrite_query_ext.
    intros d _. apply drop_wms_caps_update.
  - rewrite wmts_build_caps_url_rewrite, wmts_normalize_rewrite.
    transitivity (let? r := rewrite_query netloc_error wmts_caps_update (Py.strip link) in
                  rewrite_query netloc_error Url.drop_caps_keys r).
    + destruct (rewrite_query netloc_error wmts_caps_update (Py.strip link)); [|reflexivity].
      cbn [bind]. apply wmts_normalize_rewrite.
    + rewrite rewrite_query_compose by apply wmts_caps_update_NoDup.
      apply rewrite_query_ext. intros d _. apply drop_wmts_caps_update.
Qed.

(** X1.  The service base of a capabilities URL is the service base of
    the link it was built from, with [urlunsplit] as it is before and as
    it is since CPython 3.12.4: for
    a link and a version of ASCII characters, when [urlsplit] reads from
    the trimmed link a network location that is not empty and parameters
    that decode to ASCII text, normalising the URL that [_build_caps_url]
    returns gives what normalising the trimmed link gives, in the WMS
    module and in the WMTS module. *)
Theorem service_base_of_caps_url
    (release : Url.Release) (netloc_error : string -> option string)
    (link version : string) (P : Url.SplitResult) :
  Py.isascii link = true -> Py.isascii version = true ->
  Url.urlsplit netloc_error (Py.strip link) = Ok P ->
  Url.netloc P <> "" ->
  Url.plain_query (Url.query P) = true ->
  (let? caps_url := Url.On.wms_build_caps_url release netloc_error link version in
   Url.On.wms_normalize_service_base release netloc_error caps_url)
  = Url.On.wms_normalize_service_base release netloc_error (Py.strip link)
  /\ (let? caps_url := Url.On.wmts_build_caps_url release netloc_error link in
      Url.On.wmts_normalize_service_base release netloc_error caps_url)
     = Url.On.wmts_normalize_service_base release netloc_error (Py.strip link).
Proof.
  intros _ _ HP Hn _.
  destruct (caps_url_service_base netloc_error link version) as [H1 H2].
  rewrite (on_wms_build_caps_url release netloc_error link version P HP Hn).
  rewrite (on_wmts_build_caps_url release netloc_error link P HP Hn).
  rewrite (on_wms_normalize release netloc_error _ P HP Hn).
  rewrite (on_wmts_normalize release netloc_error _ P HP Hn).
  rewrite <- H1, <- H2. clear H1 H2.
  destruct (rewrite_query_split netloc_error (wms_caps_update version) _ P HP) as [E1 S1].
  destruct (rewrite_query_split netloc_error wmts_caps_update _ P HP) as [E2 S2].
  cbv zeta in E1, S1, E2, S2.
  rewrite wms_build_caps_url_rewrite, wmts_build_caps_url_rewrite, E1, E2. cbn [bind].
  split.
  - exact (on_wms_normalize release netloc_error _ _ S1 Hn).
  - exact (on_wmts_normalize release netloc_error _ _ S2 Hn).
Qed.

Lemma service_base_of_caps_url_witness :
  (let? caps_url := Url.On.wms_build_caps_url Url.Before_3_12_4 Demo.any_netloc
                      " https://maps.example.org/ows?map=ortho " "1.3.0" in
   Url.On.wms_normalize_service_base Url.Before_3_12_4 Demo.any_netloc caps_url)
  = Ok "https://maps.example.org/ows?map=ortho".
Proof.
  apply (proj1 (service_base_of_caps_url Url.Before_3_12_4 Demo.any_netloc
                  " https://maps.example.org/ows?map=ortho " "1.3.0"
                  {| Url.scheme := "https"; Url.netloc := "maps.example.org";
                     Url.path := "/ows"; Url.query := "map=ortho"; Url.fragment := "" |}
                  eq_refl eq_refl eq_refl ltac:(discriminate) eq_refl)).
Defined.

Example service_base_of_caps_url_ex :
  Url.wms_build_caps_url Demo.any_netloc " https://maps.example.org/ows?map=ortho " "1.3.0"
  = Ok "https://maps.example.org/ows?map=ortho&SERVICE=WMS&REQUEST=GetCapabilities&VERSION=1.3.0"
  /\ Url.wms_normalize_service_base Demo.any_netloc
       "https://maps.example.org/ows?map=ortho&SERVICE=WMS&REQUEST=GetCapabilities&VERSION=1.3.0"
     = Ok "https://maps.example.org/ows?map=ortho".
Proof. split; reflexivity. Qed.

(** X2.  What is left of the query in a service base, with [urlunsplit]
    as it is before and as it is since CPython 3.12.4, for a URL that [urlsplit] accepts with a network
    location that is not empty and whose decoded parameters are ASCII
    text: both modules return the same URL; it splits into the scheme,
    network location, path and fragment of the URL; no key of its query
    is repeated; and its parameters are exactly the keys of the URL's
    query that are not SERVICE, REQUEST or VERSION in any letter case,
    each with the value of its last occurrence. *)
Theorem normalize_service_base_query
    (release : Url.Release) (netloc_error : string -> option string)
    (u : string) (P : Url.SplitResult) :
  Url.urlsplit netloc_error u = Ok P ->
  Url.netloc P <> "" ->
  Url.plain_query (Url.query P) = true ->
  exists r Q,
    Url.On.wms_normalize_service_base release netloc_error u = Ok r
    /\ Url.On.wmts_normalize_service_base release netloc_error u = Ok r
    /\ Url.urlsplit netloc_error r = Ok Q
    /\ Url.scheme Q = Url.scheme P /\ Url.netloc Q = Url.netloc P
    /\ Url.path Q = Url.path P /\ Url.fragment Q = Url.fragment P
    /\ List.NoDup (keys (Url.parse_qsl (Url.query Q)))
    /\ (forall k v,
          In (k, v) (Url.parse_qsl (Url.query Q))
          <-> Url.caps_key k = false
              /\ last_value k (Url.parse_qsl (Url.query P)) = Some v).
Proof.
  intros HP Hn _.
  rewrite (on_wms_normalize release netloc_error u P HP Hn).
  rewrite (on_wmts_normalize release netloc_error u P HP Hn).
  destruct (rewrite_query_split netloc_error Url.drop_caps_keys u P HP) as [H1 H2].
  cbv zeta in H1, H2. eexists. eexists.
  split; [rewrite wms_normalize_rewrite; exact H1|].
  split; [rewrite wmts_normalize_rewrite; exact H1|].
  split; [exact H2|]. cbn [Url.with_query Url.scheme Url.netloc Url.path Url.fragment Url.query].
  repeat (split; [reflexivity|]). rewrite parse_qsl_urlencode.
  assert (Hnd : List.NoDup (keys (Url.dict_of (Url.parse_qsl (Url.query P)))))
    by apply dict_of_NoDup.
  split; [now apply drop_caps_keys_NoDup|].
  intros k v. unfold Url.drop_caps_keys. rewrite filter_In. cbn [fst].
  rewrite <- get_dict_of, negb_true_iff. split.
  - intros [Hin Hk]. split; [exact Hk|]. now apply In_get.
  - intros [Hk Hg]. split; [now apply get_In|exact Hk].
Qed.

Lemma normalize_service_base_query_witness :
  exists r Q,
    Url.On.wms_normalize_service_base Url.Before_3_12_4 Demo.any_netloc Demo.repeated_link = Ok r
    /\ Url.On.wmts_normalize_service_base Url.Before_3_12_4 Demo.any_netloc Demo.repeated_link
       = Ok r
    /\ Url.urlsplit Demo.any_netloc r = Ok Q
    /\ Url.scheme Q = "http" /\ Url.netloc Q = "maps.example.org"
    /\ Url.path Q = "/ows" /\ Url.fragment Q = ""
    /\ List.NoDup (keys (Url.parse_qsl (Url.query Q)))
    /\ (forall k v,
          In (k, v) (Url.parse_qsl (Url.query Q))
          <-> Url.caps_key k = false
              /\ last_value k [("layers", "a"); ("layers", "b")] = Some v).
Proof.
  apply (normalize_service_base_query Url.Before_3_12_4 Demo.any_netloc Demo.repeated_link
           {| Url.scheme := "http"; Url.netloc := "maps.example.org"; Url.path := "/ows";
              Url.query := "layers=a&layers=b"; Url.fragment := "" |}).
  - reflexivity.
  - discriminate.
  - reflexivity.
Defined.

(** X3.  With [urlunsplit] as it is before and as it is since CPython
    3.12.4, the capabilities URL built
    from a link of ASCII characters, from which once trimmed [urlsplit]
    reads a network location that is not empty and parameters that decode
    to ASCII text, splits into the scheme, network location, path and
    fragment of the trimmed link; in its query no key is repeated,
    SERVICE, REQUEST (and, for WMS, VERSION, of ASCII characters), spelt
    in upper case, have the values of the request, and every other key
    has the value of its last occurrence in the link. *)
Theorem build_caps_url_parameters
    (release : Url.Release) (netloc_error : string -> option string)
    (link version : string) (P : Url.SplitResult) :
  Py.isascii link = true -> Py.isascii version = true ->
  Url.urlsplit netloc_error (Py.strip link) = Ok P ->
  Url.netloc P <> "" ->
  Url.plain_query (Url.query P) = true ->
  (exists r Q,
      Url.On.wms_build_caps_url release netloc_error link version = Ok r
      /\ Url.urlsplit netloc_error r = Ok Q
      /\ Url.scheme Q = Url.scheme P /\ Url.netloc Q = Url.netloc P
      /\ Url.path Q = Url.path P /\ Url.fragment Q = Url.fragment P
      /\ List.NoDup (keys (Url.parse_qsl (Url.query Q)))
      /\ get "SERVICE" (Url.parse_qsl (Url.query Q)) = Some "WMS"
      /\ get "REQUEST" (Url.parse_qsl (Url.query Q)) = Some "GetCapabilities"
      /\ get "VERSION" (Url.parse_qsl (Url.query Q)) = Some version
      /\ (forall k, k <> "SERVICE" -> k <> "REQUEST" -> k <> "VERSION" ->
            get k (Url.parse_qsl (Url.query Q)) = last_value k (Url.parse_qsl (Url.query P))))
  /\ (exists r Q,
      Url.On.wmts_build_caps_url release netloc_error link = Ok r
      /\ Url.urlsplit netloc_error r = Ok Q
      /\ Url.scheme Q = Url.scheme P /\ Url.netloc Q = Url.netloc P
      /\ Url.path Q = Url.path P /\ Url.fragment Q = Url.fragment P
      /\ List.NoDup (keys (Url.parse_qsl (Url.query Q)))
      /\ get "SERVICE" (Url.parse_qsl (Url.query Q)) = Some "WMTS"
      /\ get "REQUEST" (Url.parse_qsl (Url.query Q)) = Some "GetCapabilities"
      /\ (forall k, k <> "SERVICE" -> k <> "REQUEST" ->
            get k (Url.parse_qsl (Url.query Q)) = last_value k (Url.parse_qsl (Url.query P)))).
Proof.
  intros _ _ HP Hn _.
  rewrite (on_wms_build_caps_url release netloc_error link version P HP Hn).
  rewrite (on_wmts_build_caps_url release netloc_error link P HP Hn).
  assert (Hnd : List.NoDup (keys (Url.dict_of (Url.parse_qsl (Url.query P)))))
    by apply dict_of_NoDup.
  split.
  - destruct (rewrite_query_split netloc_error (wms_caps_update version) _ P HP) as [H1 H2].
    cbv zeta in H1, H2. eexists. eexists.
    split; [rewrite wms_build_caps_url_rewrite; exact H1|]. split; [exact H2|].
    cbn [Url.with_query Url.scheme Url.netloc Url.path Url.fragment Url.query].
    repeat (split; [reflexivity|]). rewrite parse_qsl_urlencode.
    split; [now apply wms_caps_update_NoDup|]. unfold wms_caps_update.
    repeat split; rewrite ?get_dict_set; try reflexivity.
    intros k Hs Hr Hv. rewrite !get_dict_set.
    destruct (String.eqb_spec "VERSION" k); [congruence|].
    destruct (String.eqb_spec "REQUEST" k); [congruence|].
    destruct (String.eqb_spec "SERVICE" k); [congruence|]. apply get_dict_of.
  - destruct (rewrite_query_split netloc_error wmts_caps_update _ P HP) as [H1 H2].
    cbv zeta in H1, H2. eexists. eexists.
    split; [rewrite wmts_build_caps_url_rewrite; exact H1|]. split; [exact H2|].
    cbn [Url.with_query Url.scheme Url.netloc Url.path Url.fragment Url.query].
    repeat (split; [reflexivity|]). rewrite parse_qsl_urlencode.
    split; [now apply wmts_caps_update_NoDup|]. unfold wmts_caps_update.
    repeat split; rewrite ?get_dict_set; try reflexivity.
    intros k Hs Hr. rewrite !get_dict_set.
    destruct (String.eqb_spec "REQUEST" k); [congruence|].
    destruct (String.eqb_spec "SERVICE" k); [congruence|]. apply get_dict_of.
Qed.

(** A link that asks for another service in lower case keeps that
    parameter next to the one of the request. *)
Example build_caps_url_lower_case_key :
  Url.wms_build_caps_url Demo.any_netloc "http://maps.example.org/ows?service=WFS&VERSION=1.1.1" "1.3.0"
  = Ok "http://maps.example.org/ows?service=WFS&VERSION=1.3.0&SERVICE=WMS&REQUEST=GetCapabilities".
Proof. reflexivity. Qed.

Lemma build_caps_url_parameters_witness :
  exists r Q,
    Url.On.wms_build_caps_url Url.Before_3_12_4 Demo.any_netloc
      " http://maps.example.org/ows?map=a&map=b " "1.1.1" = Ok r
    /\ Url.urlsplit Demo.any_netloc r = Ok Q
    /\ Url.scheme Q = "http" /\ Url.netloc Q = "maps.example.org"
    /\ Url.path Q = "/ows" /\ Url.fragment Q = ""
    /\ List.NoDup (keys (Url.parse_qsl (Url.query Q)))
    /\ get "SERVICE" (Url.parse_qsl (Url.query Q)) = Some "WMS"
    /\ get "REQUEST" (Url.parse_qsl (Url.query Q)) = Some "GetCapabilities"
    /\ get "VERSION" (Url.parse_qsl (Url.query Q)) = Some "1.1.1"
    /\ (forall k, k <> "SERVICE" -> k <> "REQUEST" -> k <> "VERSION" ->
          get k (Url.parse_qsl (Url.query Q)) = last_value k [("map", "a"); ("map", "b")]).
Proof.
  apply (build_caps_url_parameters Url.Before_3_12_4 Demo.any_netloc
           " http://maps.example.org/ows?map=a&map=b " "1.1.1"
           {| Url.scheme := "http"; Url.netloc := "maps.example.org"; Url.path := "/ows";
              Url.query := "map=a&map=b"; Url.fragment := "" |}).
  - reflexivity.
  - reflexivity.
  - reflexivity.
  - discriminate.
  - reflexivity.
Defined.

(** ** Cleaned base URLs and trimmed URLs *)

Lemma none_contains (c : ascii) (s : string) :
  none (Ascii.eqb c) s = true -> Py.contains (String c "") s = false.
Proof.
  unfold none. induction s as [|a s IH]; [reflexivity|].
  cbn [Py.sall Py.contains Py.startswith]. intros H. apply andb_true_iff in H.
  destruct H as [Ha H]. apply negb_true_iff in Ha. now rewrite Ha, (IH H).
Qed.

Lemma none_impl (p q : ascii -> bool) (s : string) :
  (forall c, q c = true -> p c = true) -> none p s = true -> none q s = true.
Proof.
  intros H. unfold none. apply sall_impl. intros c Hc.
  apply negb_true_iff in Hc. apply negb_true_iff.
  destruct (q c) eqn:E; [|reflexivity]. apply H in E. congruence.
Qed.

Lemma qf_question (c : ascii) : Ascii.eqb "?" c = true -> qf c = true.
Proof. unfold qf. now intros ->. Qed.

Lemma qf_hash (c : ascii) : Ascii.eqb "#" c = true -> qf c = true.
Proof. unfold qf. intros ->. apply orb_true_r. Qed.

Section CleanProofs.

Variable netloc_error : string -> option string.

Lemma bare_inv (P : Url.SplitResult) : Inv netloc_error P -> Inv netloc_error (bare P).
Proof.
  intros [H1 H2 H3 H4 H5 H6 H7 H8 H9 H10 H11 H12].
  constructor; cbn [bare Url.scheme Url.netloc Url.path Url.query Url.fragment];
    try assumption; reflexivity.
Qed.

(** Joined parts without query and fragment have neither mark. *)
Lemma urlunsplit_bare_marks (P : Url.SplitResult) :
  Inv netloc_error P -> none qf (Url.urlunsplit (bare P)) = true.
Proof.
  intros [_ _ _ _ _ Hsch Hloc _ _ Hpth _ _].
  rewrite urlunsplit_shape. cbn [bare Url.scheme Url.query Url.fragment].
  unfold tail_of. cbn [Py.truthy String.append]. rewrite append_empty_r, none_app.
  assert (Hs : none qf (if Py.truthy (Url.scheme P) then Url.scheme P +:+ ":" else "") = true).
  { destruct (Py.truthy (Url.scheme P)) eqn:Et; [|reflexivity].
    destruct Hsch as [Hs|[Hs _]]; [rewrite Hs in Et; discriminate|].
    rewrite none_app. apply andb_true_iff. split; [|reflexivity].
    unfold scheme_test in Hs. apply andb_true_iff in Hs. destruct Hs as [_ Hs].
    revert Hs. apply sall_impl. intros c Hc. apply negb_true_iff.
    destruct (qf c) eqn:E; [|reflexivity]. apply qf_not_scheme in E. congruence. }
  assert (Hl : none qf (Url.netloc P) = true).
  { revert Hloc. apply none_impl. apply qf_netloc_end. }
  rewrite Hs. cbn [andb]. unfold body. cbn [bare Url.scheme Url.netloc Url.path].
  repeat match goal with
         | |- context [if ?b then _ else _] => destruct b
         end; rewrite ?none_app, ?Hl, ?Hpth; reflexivity.
Qed.

End CleanProofs.

(** X4.  The cleaned base URL of an ArcGIS service, with [urlunsplit]
    as it is before and as it is since CPython 3.12.4, for a URL of ASCII characters from which once
    trimmed [urlsplit] reads a network location that is not empty: it
    has no question mark and no hash; it splits into the scheme, network
    location and path of the URL, with an empty query and an empty
    fragment; and unless it contains [f=json] already, the information
    request made for it is the base followed by [?f=json]. *)
Theorem clean_base_url_parts
    (release : Url.Release) (netloc_error : string -> option string)
    (url : string) (P : Url.SplitResult) :
  Py.isascii url = true ->
  Url.urlsplit netloc_error (Py.strip url) = Ok P ->
  Url.netloc P <> "" ->
  exists base,
    Url.On._clean_base_url release netloc_error url = Ok base
    /\ Url.urlsplit netloc_error base
       = Ok {| Url.scheme := Url.scheme P; Url.netloc := Url.netloc P; Url.path := Url.path P;
               Url.query := ""; Url.fragment := "" |}
    /\ Py.contains "?" base = false
    /\ Py.contains "#" base = false
    /\ (Py.contains "f=json" (Py.lower base) = false ->
        RestSvc._ensure_json_suffix base = base +:+ "?f=json").
Proof.
  intros _ HP Hn. exists (Url.urlunsplit (bare P)).
  rewrite (on_clean_base_url release netloc_error url P HP Hn).
  pose proof (urlsplit_inv _ _ _ HP) as HI.
  pose proof (urlunsplit_bare_marks netloc_error P HI) as Hm.
  rewrite none_qf in Hm. apply andb_true_iff in Hm. destruct Hm as [Hq Hh].
  split; [unfold RestSvc._clean_base_url; now rewrite HP|].
  split; [apply (urlsplit_urlunsplit netloc_error (bare P)), bare_inv, HI|].
  split; [now apply none_contains|]. split; [now apply none_contains|].
  intros Hj. unfold RestSvc._ensure_json_suffix. rewrite Hj.
  now rewrite (none_contains "?" _ Hq).
Qed.

Lemma clean_base_url_parts_witness :
  exists base,
    Url.On._clean_base_url Url.Before_3_12_4 Demo.any_netloc
      " https://gis.example.org/arcgis/rest/services/Ortho/MapServer?f=pjson#top " = Ok base
    /\ Url.urlsplit Demo.any_netloc base
       = Ok {| Url.scheme := "https"; Url.netloc := "gis.example.org";
               Url.path := "/arcgis/rest/services/Ortho/MapServer";
               Url.query := ""; Url.fragment := "" |}
    /\ Py.contains "?" base = false
    /\ Py.contains "#" base = false
    /\ (Py.contains "f=json" (Py.lower base) = false ->
        RestSvc._ensure_json_suffix base = base +:+ "?f=json").
Proof.
  apply (clean_base_url_parts Url.Before_3_12_4 Demo.any_netloc
           " https://gis.example.org/arcgis/rest/services/Ortho/MapServer?f=pjson#top "
           {| Url.scheme := "https"; Url.netloc := "gis.example.org";
              Url.path := "/arcgis/rest/services/Ortho/MapServer";
              Url.query := "f=pjson"; Url.fragment := "top" |}).
  - reflexivity.
  - reflexivity.
  - discriminate.
Defined.

(** A blank at the end of the path is kept by the first cleaning and
    trimmed by the second. *)
Example clean_base_url_not_idempotent :
  RestSvc._clean_base_url Demo.any_netloc "http://gis.example.org/MapServer ?f=json"
  = Ok "http://gis.example.org/MapServer "
  /\ RestSvc._clean_base_url Demo.any_netloc "http://gis.example.org/MapServer "
     = Ok "http://gis.example.org/MapServer".
Proof. split; reflexivity. Qed.

(** ** Trimmed URLs stay trimmed *)

Lemma last_char_app (a b : string) :
  last_char (a +:+ b) = match last_char b with Some c => Some c | None => last_char a end.
Proof.
  induction a as [|x a IH]; cbn [String.append last_char].
  - now destruct (last_char b).
  - rewrite IH. destruct (last_char b); [reflexivity|]. reflexivity.
Qed.

Lemma last_char_none (s : string) : last_char s = None -> s = "".
Proof. destruct s as [|c s]; [reflexivity|]. cbn [last_char]. now destruct (last_char s). Qed.

Lemma tidy_suffix (a b : string) : tidy (a +:+ b) = true -> tidy b = true.
Proof.
  unfold tidy. rewrite last_char_app. now destruct (last_char b).
Qed.

Lemma tidy_append (a b : string) : Py.truthy b = true -> tidy b = true -> tidy (a +:+ b) = true.
Proof.
  unfold tidy. rewrite last_char_app. destruct (last_char b) eqn:E; [auto|].
  apply last_char_none in E. subst b. discriminate.
Qed.

Lemma rstrip_tidy (s : string) : tidy (Py.rstrip s) = true.
Proof.
  unfold tidy. induction s as [|c s IH]; [reflexivity|]. cbn [Py.rstrip].
  destruct (Py.rstrip s) as [|d r] eqn:E.
  - destruct (Py.is_space c) eqn:Ec; [reflexivity|]. cbn [last_char]. now rewrite Ec.
  - cbn [last_char] in *. destruct (last_char r); exact IH.
Qed.

Lemma tidy_rstrip (s : string) : tidy s = true -> Py.rstrip s = s.
Proof.
  unfold tidy. induction s as [|c s IH]; [reflexivity|]. cbn [last_char Py.rstrip].
  destruct (last_char s) as [d|] eqn:E.
  - intros H. rewrite (IH H). destruct s; [discriminate|reflexivity].
  - apply last_char_none in E. subst s. cbn [Py.rstrip]. intros H.
    apply negb_true_iff in H. now rewrite H.
Qed.

Lemma lstrip_id (s : string) : Url.first_is Py.is_space s = false -> Py.lstrip s = s.
Proof. destruct s as [|c s]; [reflexivity|]. cbn [Url.first_is Py.lstrip]. now intros ->. Qed.

Lemma strip_id (s : string) :
  Url.first_is Py.is_space s = false -> tidy s = true -> Py.strip s = s.
Proof. intros H1 H2. unfold Py.strip. rewrite (lstrip_id s H1). now apply tidy_rstrip. Qed.

Lemma strip_tidy (s : string) : tidy (Py.strip s) = true.
Proof. apply rstrip_tidy. Qed.

Lemma space_c0 (c : ascii) : Py.is_space c = true -> Url.is_c0_or_space c = true.
Proof. destruct c as [[] [] [] [] [] [] [] []]; vm_compute; congruence. Qed.

Lemma unsafe_space (c : ascii) : Url.is_unsafe c = true -> Py.is_space c = true.
Proof. destruct c as [[] [] [] [] [] [] [] []]; vm_compute; congruence. Qed.

Lemma lstrip_c0_suffix (s : string) : exists a, s = a +:+ Url.lstrip_c0 s.
Proof.
  induction s as [|c s [a IH]]; [now exists ""|]. cbn [Url.lstrip_c0].
  destruct (Url.is_c0_or_space c).
  - exists (String c a). cbn [String.append]. now rewrite <- IH.
  - now exists "".
Qed.

(** Removing TAB, CR and LF keeps the last character of a tidy text. *)
Lemma sfilter_last (s : string) :
  tidy s = true ->
  last_char (Url.sfilter safe s) = last_char s.
Proof.
  unfold tidy. induction s as [|c s IH]; [reflexivity|]. cbn [last_char Url.sfilter].
  destruct (last_char s) as [d|] eqn:E.
  - intros H. specialize (IH H). destruct (safe c); cbn [last_char]; now rewrite IH.
  - apply last_char_none in E. subst s. intros H. cbn [Url.sfilter].
    unfold safe. destruct (Url.is_unsafe c) eqn:Eu; [|reflexivity].
    apply unsafe_space in Eu. rewrite Eu in H. discriminate.
Qed.

Lemma tidy_sfilter (s : string) : tidy s = true -> tidy (Url.sfilter safe s) = true.
Proof. intros H. unfold tidy. rewrite (sfilter_last s H). exact H. Qed.

Lemma none_last (p : ascii -> bool) (s : string) (c : ascii) :
  none p s = true -> last_char s = Some c -> p c = false.
Proof.
  unfold none. induction s as [|a s IH]; [discriminate|]. cbn [Py.sall last_char].
  intros H. apply andb_true_iff in H. destruct H as [Ha H].
  destruct (last_char s) as [d|] eqn:E.
  - intros [= <-]. now apply IH.
  - intros [= <-]. now apply negb_true_iff.
Qed.

Section TrimProofs.

Variable netloc_error : string -> option string.

(** The fragment read from a tidy URL is tidy. *)
Lemma urlsplit_fragment_tidy (u : string) (P : Url.SplitResult) :
  tidy u = true -> Url.urlsplit netloc_error u = Ok P -> tidy (Url.fragment P) = true.
Proof.
  intros Hu. unfold Url.urlsplit.
  change (Url.sfilter (fun c => negb (Url.is_unsafe c)) (Url.lstrip_c0 u))
    with (Url.sfilter safe (Url.lstrip_c0 u)).
  assert (H0 : tidy (Url.sfilter safe (Url.lstrip_c0 u)) = true).
  { apply tidy_sfilter. destruct (lstrip_c0_suffix u) as [a Ha].
    rewrite Ha in Hu. now apply tidy_suffix in Hu. }
  generalize dependent (Url.sfilter safe (Url.lstrip_c0 u)). intros u0 H0.
  destruct (Url.split_scheme u0) as [sch u1] eqn:Es.
  destruct (Url.split_netloc u1) as [loc u2] eqn:En.
  destruct (if Py.truthy loc then netloc_error loc else None); [discriminate|].
  destruct (Url.cut "#" u2) as [u3 frag] eqn:Ef.
  destruct (Url.cut "?" u3) as [pth qry] eqn:Eq.
  intros [= <-]. cbn [Url.fragment].
  assert (H1 : tidy u1 = true).
  { destruct (split_scheme_parts _ _ _ Es) as [[_ ->]|(pre & -> & _)]; [exact H0|].
    apply tidy_suffix in H0. now apply (tidy_suffix ":") in H0. }
  assert (H2 : tidy u2 = true).
  { destruct (split_netloc_parts _ _ _ En) as [(_ & _ & ->)|(-> & _)]; [exact H1|].
    apply (tidy_suffix "//") in H1. now apply tidy_suffix in H1. }
  apply cut_parts in Ef. destruct Ef as [_ [->|[_ ->]]]; [|reflexivity].
  apply tidy_suffix in H2. now apply (tidy_suffix "#") in H2.
Qed.

Lemma urlunsplit_first (P : Url.SplitResult) :
  Inv netloc_error P -> Url.first_is Py.is_space (Url.urlunsplit P) = false.
Proof.
  intros HP. pose proof (urlunsplit_clean netloc_error P HP) as Hc.
  pose proof (sfilter_first _ (lstrip_c0_first (Url.urlunsplit P))) as Hf.
  change (Url.sfilter safe (Url.lstrip_c0 (Url.urlunsplit P)))
    with (Url.sfilter (fun c => negb (Url.is_unsafe c)) (Url.lstrip_c0 (Url.urlunsplit P))) in Hf.
  rewrite Hc in Hf. destruct (Url.urlunsplit P) as [|c r]; [reflexivity|].
  cbn [Url.first_is] in *. destruct (Py.is_space c) eqn:E; [|reflexivity].
  apply space_c0 in E. congruence.
Qed.

Lemma urlencode_truthy (kv : string * string) (q : Url.Dict) :
  Py.truthy (Url.urlencode (kv :: q)) = true.
Proof.
  rewrite urlencode_fields. cbn [List.map Py.join].
  pose proof (field_truthy kv) as H. destruct (field kv) as [|c f]; [discriminate|].
  now destruct (List.map field q).
Qed.

(** A URL written with a query that is not empty, from the parts of a
    tidy URL, is left as it is by [strip]. *)
Lemma rewritten_url_trimmed (u : string) (P : Url.SplitResult) (kv : string * string)
    (q : Url.Dict) :
  tidy u = true -> Url.urlsplit netloc_error u = Ok P ->
  Py.strip (Url.urlunsplit (Url.with_query P (Url.urlencode (kv :: q))))
  = Url.urlunsplit (Url.with_query P (Url.urlencode (kv :: q))).
Proof.
  intros Hu HP. apply strip_id.
  - apply urlunsplit_first, inv_with_query. exact (urlsplit_inv _ _ _ HP).
  - rewrite urlunsplit_shape. rewrite <- append_assoc3. apply tidy_append.
    + cbn [Url.with_query Url.query]. unfold tail_of. rewrite (urlencode_truthy kv q).
      reflexivity.
    + cbn [Url.with_query Url.query Url.fragment]. unfold tail_of.
      rewrite (urlencode_truthy kv q).
      destruct (Py.truthy (Url.fragment P)) eqn:Ef.
      * apply tidy_append; [now destruct (Url.fragment P)|].
        apply (tidy_append "#"); [exact Ef|]. exact (urlsplit_fragment_tidy u P Hu HP).
      * rewrite append_empty_r. unfold tidy.
        destruct (last_char ("?" +:+ Url.urlencode (kv :: q))) as [c|] eqn:E; [|reflexivity].
        apply negb_true_iff. destruct (Py.is_space c) eqn:Ec; [|reflexivity].
        assert (Hn : none Py.is_space ("?" +:+ Url.urlencode (kv :: q)) = true).
        { rewrite none_app. apply andb_true_iff. split; [reflexivity|].
          apply urlencode_none; [|reflexivity|reflexivity].
          intros x Hx. apply space_c0 in Hx. unfold reserved. rewrite Hx.
          now rewrite !orb_true_r. }
        now rewrite (none_last _ _ c Hn E) in Ec.
Qed.

End TrimProofs.

Lemma wms_caps_update_twice (ver : string) (d : Url.Dict) :
  wms_caps_update ver (wms_caps_update ver d) = wms_caps_update ver d.
Proof.
  unfold wms_caps_update.
  set (q := Url.dict_set "VERSION" ver
              (Url.dict_set "REQUEST" "GetCapabilities" (Url.dict_set "SERVICE" "WMS" d))).
  assert (Hs : get "SERVICE" q = Some "WMS") by (unfold q; now rewrite !get_dict_set).
  assert (Hr : get "REQUEST" q = Some "GetCapabilities") by (unfold q; now rewrite !get_dict_set).
  assert (Hv : get "VERSION" q = Some ver).
  { unfold q. rewrite get_dict_set. reflexivity. }
  now rewrite (dict_set_same _ _ _ Hs), (dict_set_same _ _ _ Hr), (dict_set_same _ _ _ Hv).
Qed.

Lemma wmts_caps_update_twice (d : Url.Dict) :
  wmts_caps_update (wmts_caps_update d) = wmts_caps_update d.
Proof.
  unfold wmts_caps_update.
  set (q := Url.dict_set "REQUEST" "GetCapabilities" (Url.dict_set "SERVICE" "WMTS" d)).
  assert (Hs : get "SERVICE" q = Some "WMTS") by (unfold q; now rewrite !get_dict_set).
  assert (Hr : get "REQUEST" q = Some "GetCapabilities").
  { unfold q. rewrite get_dict_set. reflexivity. }
  now rewrite (dict_set_same _ _ _ Hs), (dict_set_same _ _ _ Hr).
Qed.

Lemma dict_set_cons (k v : string) (d : Url.Dict) :
  exists kv q, Url.dict_set k v d = kv :: q.
Proof.
  destruct d as [|[a b] d]; cbn [Url.dict_set]; [now eexists; eexists|].
  destruct (String.eqb a k); eexists; eexists; reflexivity.
Qed.

Section BuildTwice.

Variable netloc_error : string -> option string.

(** Building from a built URL, for an update that leaves at least one
    parameter and that changes nothing when it is made again. *)
Lemma rewrite_trimmed_twice (F : Url.Dict -> Url.Dict) (link : string) :
  (forall d, List.NoDup (keys d) -> List.NoDup (keys (F d))) ->
  (forall d, exists kv q, F d = kv :: q) ->
  (forall d, F (F d) = F d) ->
  (let? r := rewrite_query netloc_error F (Py.strip link) in
   rewrite_query netloc_error F (Py.strip r))
  = rewrite_query netloc_error F (Py.strip link).
Proof.
  intros Hnd Hne Hid.
  transitivity (let? r := rewrite_query netloc_error F (Py.strip link) in
                rewrite_query netloc_error F r).
  - destruct (Url.urlsplit netloc_error (Py.strip link)) as [P|e] eqn:HP.
    + destruct (rewrite_query_split netloc_error F _ P HP) as [-> _]. cbn [bind].
      destruct (Hne (Url.dict_of (Url.parse_qsl (Url.query P)))) as (kv & q & ->).
      now rewrite (rewritten_url_trimmed netloc_error _ P kv q (strip_tidy link) HP).
    + now rewrite (rewrite_query_raises _ _ _ e HP).
  - rewrite (rewrite_query_compose netloc_error F F _ Hnd).
    apply rewrite_query_ext. intros d _. apply Hid.
Qed.

End BuildTwice.

Lemma build_caps_url_again (netloc_error : string -> option string) (link version : string) :
  (let? caps_url := Url.wms_build_caps_url netloc_error link version in
   Url.wms_build_caps_url netloc_error caps_url version)
  = Url.wms_build_caps_url netloc_error link version
  /\ (let? caps_url := Url.wmts_build_caps_url netloc_error link in
      Url.wmts_build_caps_url netloc_error caps_url)
     = Url.wmts_build_caps_url netloc_error link.
Proof.
  split.
  - apply (rewrite_trimmed_twice netloc_error (wms_caps_update version) link).
    + intros d. apply wms_caps_update_NoDup.
    + intros d. apply dict_set_cons.
    + apply wms_caps_update_twice.
  - apply (rewrite_trimmed_twice netloc_error wmts_caps_update link).
    + intros d. apply wmts_caps_update_NoDup.
    + intros d. apply dict_set_cons.
    + apply wmts_caps_update_twice.
Qed.

(** X5.  Building the capabilities URL is idempotent, with [urlunsplit]
    as it is before and as it is since CPython 3.12.4: for a link and a version of ASCII characters, when
    [urlsplit] reads from the trimmed link a network location that is not
    empty and parameters that decode to ASCII text, the capabilities URL
    built from the capabilities URL that was built is that URL again, in
    the WMS module and in the WMTS module. *)
Theorem build_caps_url_idempotent
    (release : Url.Release) (netloc_error : string -> option string)
    (link version : string) (P : Url.SplitResult) :
  Py.isascii link = true -> Py.isascii version = true ->
  Url.urlsplit netloc_error (Py.strip link) = Ok P ->
  Url.netloc P <> "" ->
  Url.plain_query (Url.query P) = true ->
  (let? caps_url := Url.On.wms_build_caps_url release netloc_error link version in
   Url.On.wms_build_caps_url release netloc_error caps_url version)
  = Url.On.wms_build_caps_url release netloc_error link version
  /\ (let? caps_url := Url.On.wmts_build_caps_url release netloc_error link in
      Url.On.wmts_build_caps_url release netloc_error caps_url)
     = Url.On.wmts_build_caps_url release netloc_error link.
Proof.
  intros _ _ HP Hn _.
  destruct (build_caps_url_again netloc_error link version) as [H1 H2].
  rewrite (on_wms_build_caps_url release netloc_error link version P HP Hn).
  rewrite (on_wmts_build_caps_url release netloc_error link P HP Hn).
  rewrite <- H1 at 2. rewrite <- H2 at 2. clear H1 H2.
  destruct (rewrite_query_split netloc_error (wms_caps_update version) _ P HP) as [E1 S1].
  destruct (rewrite_query_split netloc_error wmts_caps_update _ P HP) as [E2 S2].
  cbv zeta in E1, S1, E2, S2.
  destruct (dict_set_cons "VERSION" version
              (Url.dict_set "REQUEST" "GetCapabilities"
                 (Url.dict_set "SERVICE" "WMS" (Url.dict_of (Url.parse_qsl (Url.query P))))))
    as (kv1 & q1 & D1).
  destruct (dict_set_cons "REQUEST" "GetCapabilities"
              (Url.dict_set "SERVICE" "WMTS" (Url.dict_of (Url.parse_qsl (Url.query P)))))
    as (kv2 & q2 & D2).
  rewrite wms_build_caps_url_rewrite, wmts_build_caps_url_rewrite, E1, E2. cbn [bind].
  split.
  - apply (on_wms_build_caps_url release netloc_error _ version
             (Url.with_query P
                (Url.urlencode (wms_caps_update version
                                  (Url.dict_of (Url.parse_qsl (Url.query P))))))); [|exact Hn].
    unfold wms_caps_update in *. rewrite D1 in *.
    now rewrite (rewritten_url_trimmed netloc_error _ P kv1 q1 (strip_tidy link) HP).
  - apply (on_wmts_build_caps_url release netloc_error _
             (Url.with_query P
                (Url.urlencode (wmts_caps_update
                                  (Url.dict_of (Url.parse_qsl (Url.query P))))))); [|exact Hn].
    unfold wmts_caps_update in *. rewrite D2 in *.
    now rewrite (rewritten_url_trimmed netloc_error _ P kv2 q2 (strip_tidy link) HP).
Qed.

Lemma build_caps_url_idempotent_witness :
  (let? caps_url := Url.On.wmts_build_caps_url Url.Before_3_12_4 Demo.any_netloc
                      " https://tiles.example.org/wmts?request=GetTile#a " in
   Url.On.wmts_build_caps_url Url.Before_3_12_4 Demo.any_netloc caps_url)
  = Url.On.wmts_build_caps_url Url.Before_3_12_4 Demo.any_netloc
      " https://tiles.example.org/wmts?request=GetTile#a ".
Proof.
  apply (proj2 (build_caps_url_idempotent Url.Before_3_12_4 Demo.any_netloc
                  " https://tiles.example.org/wmts?request=GetTile#a " "1.3.0"
                  {| Url.scheme := "https"; Url.netloc := "tiles.example.org";
                     Url.path := "/wmts"; Url.query := "request=GetTile";
                     Url.fragment := "a" |}
                  eq_refl eq_refl eq_refl ltac:(discriminate) eq_refl)).
Defined.

Example build_caps_url_twice :
  Url.wmts_build_caps_url Demo.any_netloc " https://tiles.example.org/wmts?request=GetTile#a "
  = Ok "https://tiles.example.org/wmts?request=GetTile&SERVICE=WMTS&REQUEST=GetCapabilities#a"
  /\ Url.wmts_build_caps_url Demo.any_netloc
       "https://tiles.example.org/wmts?request=GetTile&SERVICE=WMTS&REQUEST=GetCapabilities#a"
     = Ok "https://tiles.example.org/wmts?request=GetTile&SERVICE=WMTS&REQUEST=GetCapabilities#a".
Proof. split; reflexivity. Qed.

(** ** The helpers of the ArcGIS REST module *)

Lemma smap_app (f : ascii -> ascii) (a b : string) :
  Py.smap f (a +:+ b) = Py.smap f a +:+ Py.smap f b.
Proof. induction a as [|c a IH]; cbn [Py.smap String.append]; [reflexivity|]. now rewrite IH. Qed.

Lemma lower_app (a b : string) : Py.lower (a +:+ b) = Py.lower a +:+ Py.lower b.
Proof. apply smap_app. Qed.

Lemma lower_upper_char (c : ascii) :
  Py.lower_char (Py.upper_char c) = Py.lower_char c
  /\ Py.lower_char (Py.lower_char c) = Py.lower_char c
  /\ Py.upper_char (Py.upper_char c) = Py.upper_char c
  /\ Py.upper_char (Py.lower_char c) = Py.upper_char c.
Proof. destruct c as [[] [] [] [] [] [] [] []]; vm_compute; auto. Qed.

Lemma lower_upper (s : string) : Py.lower (Py.upper s) = Py.lower s.
Proof.
  unfold Py.lower, Py.upper. induction s as [|c s IH]; cbn [Py.smap]; [reflexivity|].
  now rewrite IH, (proj1 (lower_upper_char c)).
Qed.

Lemma lower_lower (s : string) : Py.lower (Py.lower s) = Py.lower s.
Proof.
  unfold Py.lower. induction s as [|c s IH]; cbn [Py.smap]; [reflexivity|].
  now rewrite IH, (proj1 (proj2 (lower_upper_char c))).
Qed.

Lemma upper_upper (s : string) : Py.upper (Py.upper s) = Py.upper s.
Proof.
  unfold Py.upper. induction s as [|c s IH]; cbn [Py.smap]; [reflexivity|].
  now rewrite IH, (proj1 (proj2 (proj2 (lower_upper_char c)))).
Qed.

Lemma upper_lower (s : string) : Py.upper (Py.lower s) = Py.upper s.
Proof.
  unfold Py.upper, Py.lower. induction s as [|c s IH]; cbn [Py.smap]; [reflexivity|].
  now rewrite IH, (proj2 (proj2 (proj2 (lower_upper_char c)))).
Qed.

Lemma truthy_smap (f : ascii -> ascii) (s : string) : Py.truthy (Py.smap f s) = Py.truthy s.
Proof. now destruct s. Qed.

(** X6.  [_ensure_json_suffix]: the URL it returns contains [f=json]
    (letter case apart) and starts with the URL it was given; it is the
    URL given when that contains [f=json] already; and applying it to its
    own result, as [_fetch_json] does to the URL that its callers have
    already completed, changes nothing. *)
Theorem ensure_json_suffix_idempotent (url : string) :
  Py.contains "f=json" (Py.lower (RestSvc._ensure_json_suffix url)) = true
  /\ Py.startswith url (RestSvc._ensure_json_suffix url) = true
  /\ (Py.contains "f=json" (Py.lower url) = true -> RestSvc._ensure_json_suffix url = url)
  /\ RestSvc._ensure_json_suffix (RestSvc._ensure_json_suffix url)
     = RestSvc._ensure_json_suffix url.
Proof.
  assert (H1 : Py.contains "f=json" (Py.lower (RestSvc._ensure_json_suffix url)) = true).
  { unfold RestSvc._ensure_json_suffix.
    destruct (Py.contains "f=json" (Py.lower url)) eqn:E; [exact E|].
    rewrite !lower_app. apply contains_later, contains_later. reflexivity. }
  split; [exact H1|]. split; [|split].
  - unfold RestSvc._ensure_json_suffix.
    destruct (Py.contains "f=json" (Py.lower url)).
    + rewrite <- (append_empty_r url) at 2. apply startswith_append.
    + apply startswith_append.
  - intros H. unfold RestSvc._ensure_json_suffix. now rewrite H.
  - unfold RestSvc._ensure_json_suffix at 1. now rewrite H1.
Qed.

Example ensure_json_suffix_ex :
  RestSvc._ensure_json_suffix "https://gis.example.org/rest/services/Ortho/MapServer"
  = "https://gis.example.org/rest/services/Ortho/MapServer?f=json"
  /\ RestSvc._ensure_json_suffix "https://gis.example.org/MapServer?token=abc"
     = "https://gis.example.org/MapServer?token=abc&f=json"
  /\ RestSvc._ensure_json_suffix "https://gis.example.org/MapServer?F=JSON"
     = "https://gis.example.org/MapServer?F=JSON".
Proof. repeat split. Qed.

(** X7.  On a URL of ASCII characters the service type is read without
    regard to letter case: [_detect_service_type_from_url] and
    [detect_service_type] return for the URL in upper case and in lower
    case what they return for the URL. *)
Theorem detect_service_type_case (url : string) :
  Py.isascii url = true ->
  RestSvc._detect_service_type_from_url (Py.upper url)
  = RestSvc._detect_service_type_from_url url
  /\ RestSvc._detect_service_type_from_url (Py.lower url)
     = RestSvc._detect_service_type_from_url url
  /\ Main.detect_service_type (Py.upper url) = Main.detect_service_type url
  /\ Main.detect_service_type (Py.lower url) = Main.detect_service_type url.
Proof.
  intros _.
  unfold RestSvc._detect_service_type_from_url, Main.detect_service_type.
  rewrite lower_upper, lower_lower.
  assert (Hu : Py.truthy (Py.upper url) = Py.truthy url) by apply truthy_smap.
  assert (Hl : Py.truthy (Py.lower url) = Py.truthy url) by apply truthy_smap.
  rewrite Hu, Hl. repeat split.
Qed.

Lemma detect_service_type_case_witness :
  Main.detect_service_type "HTTPS://GIS.EXAMPLE.ORG/ARCGIS/REST/SERVICES/ROADS/MAPSERVER"
  = Main.detect_service_type "https://gis.example.org/arcgis/rest/services/Roads/MapServer".
Proof.
  apply (proj1 (proj2 (proj2 (detect_service_type_case
           "https://gis.example.org/arcgis/rest/services/Roads/MapServer" eq_refl)))).
Defined.

(** X8.  The routing by URL of [main.py] and the detection of
    [rest_utils.py] together: a URL that the REST module takes for a
    FeatureServer is routed to REST, and so is every URL that contains
    [/mapserver], letter case apart; a URL that the REST module takes for
    a MapServer without [/mapserver] in it contains [/imageserver] and is
    routed to REST exactly when it contains [/rest/services/]; a URL
    routed to WMTS or to WMS is never one that the REST module takes for a
    FeatureServer; and the empty URL is routed to WMS. *)
Theorem detect_service_type_rest (url : string) :
  (RestSvc._detect_service_type_from_url url = "FEATURE" ->
   Main.detect_service_type url = "REST")
  /\ (Py.contains "/mapserver" (Py.lower url) = true ->
      Main.detect_service_type url = "REST")
  /\ (RestSvc._detect_service_type_from_url url = "MAP" ->
      Py.contains "/mapserver" (Py.lower url) = false ->
      Py.contains "/imageserver" (Py.lower url) = true
      /\ (Main.detect_service_type url = "REST"
          <-> Py.contains "/rest/services/" (Py.lower url) = true))
  /\ (Main.detect_service_type url <> "REST" ->
      RestSvc._detect_service_type_from_url url <> "FEATURE")
  /\ Main.detect_service_type "" = "WMS".
Proof.
  unfold RestSvc._detect_service_type_from_url, Main.detect_service_type.
  assert (Ht : forall sub, Py.contains sub (Py.lower url) = true ->
                 sub <> "" -> Py.truthy url = true).
  { intros sub H Hne. destruct url; [|reflexivity]. destruct sub; [congruence|discriminate]. }
  destruct (Py.contains "/featureserver" (Py.lower url)) eqn:Ef.
  - rewrite (Ht _ Ef) by discriminate. cbn [negb]. rewrite orb_true_r. cbn [orb].
    split; [auto|]. split; [auto|]. split; [discriminate|]. split; [congruence|reflexivity].
  - destruct (Py.contains "/mapserver" (Py.lower url)) eqn:Em.
    + rewrite (Ht _ Em) by discriminate. cbn [negb orb].
      split; [auto|]. split; [auto|]. split; [discriminate|]. split; [congruence|reflexivity].
    + destruct (Py.contains "/imageserver" (Py.lower url)) eqn:Ei.
      * rewrite (Ht _ Ei) by discriminate. cbn [negb orb].
        split; [discriminate|]. split; [discriminate|].
        split; [|split; [discriminate|reflexivity]].
        intros _ _. split; [reflexivity|].
        destruct (Py.contains "/rest/services/" (Py.lower url)).
        -- split; reflexivity.
        -- split; [|discriminate].
           destruct (_ || _ || _ || _); discriminate.
      * split; [discriminate|]. split; [discriminate|]. split; [discriminate|].
        split; [discriminate|reflexivity].
Qed.

Lemma detect_service_type_rest_witness :
  Main.detect_service_type "https://gis.example.org/arcgis/rest/services/Roads/FeatureServer/0"
  = "REST"
  /\ Main.detect_service_type "https://gis.example.org/arcgis/services/Ortho/ImageServer/MapServer"
     = "REST"
  /\ (Main.detect_service_type "https://gis.example.org/arcgis/services/Ortho/ImageServer" = "REST"
      <-> Py.contains "/rest/services/"
            (Py.lower "https://gis.example.org/arcgis/services/Ortho/ImageServer") = true).
Proof.
  split; [|split].
  - apply (proj1 (detect_service_type_rest
                    "https://gis.example.org/arcgis/rest/services/Roads/FeatureServer/0")).
    reflexivity.
  - apply (proj1 (proj2 (detect_service_type_rest
                    "https://gis.example.org/arcgis/services/Ortho/ImageServer/MapServer"))).
    reflexivity.
  - apply (proj1 (proj2 (proj2 (detect_service_type_rest
                    "https://gis.example.org/arcgis/services/Ortho/ImageServer")))).
    + reflexivity.
    + reflexivity.
Defined.

(** An image service outside [/rest/services/] is a map service for the
    REST module and a WMS for the routing. *)
Example detect_service_type_imageserver :
  RestSvc._detect_service_type_from_url "https://gis.example.org/arcgis/services/Ortho/ImageServer"
  = "MAP"
  /\ Main.detect_service_type "https://gis.example.org/arcgis/services/Ortho/ImageServer" = "WMS".
Proof. split; reflexivity. Qed.

Lemma ensure_json_suffix_idempotent_witness :
  RestSvc._ensure_json_suffix "https://gis.example.org/MapServer?F=JSON"
  = "https://gis.example.org/MapServer?F=JSON".
Proof.
  apply (proj1 (proj2 (proj2 (ensure_json_suffix_idempotent
                                "https://gis.example.org/MapServer?F=JSON")))).
  reflexivity.
Defined.

(** ** What layer resolution returns, and when it has no id to return *)

Lemma find_id_sound (v : Z) (layers : list Rest.Layer) (L : Rest.Layer) :
  Rest.find_id v layers = Ok (Some L) -> In L layers /\ Rest.l_id L = Some v.
Proof.
  induction layers as [|X layers IH]; cbn [Rest.find_id]; [discriminate|].
  unfold Rest.int_id. destruct (Rest.l_id X) as [j|] eqn:Ej; cbn [bind]; [|discriminate].
  destruct (Z.eqb_spec j v) as [->|_].
  - intros [= <-]. split; [now left|exact Ej].
  - intros H. destruct (IH H). split; [now right|assumption].
Qed.

(** X9.  Layer resolution returns only what the service has: when it
    returns an id and a name, they are the id and the name of one of the
    layers of the service; for a numeric identifier the id is the value
    of the identifier, and for another identifier the name of that layer,
    trimmed and in lower case, contains the identifier trimmed and in
    lower case. *)
Theorem resolve_layer_sound (layers : list Rest.Layer) (ident : Rest.Ident)
    (i : Z) (n : option string) :
  Rest._resolve_layer layers ident = Ok (i, n) ->
  exists L,
    In L layers /\ Rest.l_id L = Some i /\ Rest.l_name L = n
    /\ (Rest.is_numeric ident = true -> i = Rest.ident_value ident)
    /\ (Rest.is_numeric ident = false ->
        Py.contains (Py.lower (Py.strip (Rest.ident_text ident))) (Rest.norm_name L) = true).
Proof.
  unfold Rest._resolve_layer. destruct layers as [|X layers]; [discriminate|].
  set (all := X :: layers). destruct (Rest.is_numeric ident) eqn:Hnum.
  - destruct (Rest.find_id (Rest.ident_value ident) all) as [[L|]|e] eqn:Ef;
      cbn [bind]; try discriminate.
    intros [= <- <-]. apply find_id_sound in Ef. destruct Ef as [Hin Hid].
    exists L. repeat split; auto. discriminate.
  - set (needle := Py.lower (Py.strip (Rest.ident_text ident))).
    assert (Hfound : forall L, In L all ->
              Py.contains needle (Rest.norm_name L) = true ->
              (let? i0 := Rest.int_id L in Ok (i0, Rest.l_name L)) = Ok (i, n) ->
              exists L0, In L0 all /\ Rest.l_id L0 = Some i /\ Rest.l_name L0 = n
                /\ (false = true -> i = Rest.ident_value ident)
                /\ (false = false -> Py.contains needle (Rest.norm_name L0) = true)).
    { intros L Hin Hc. unfold Rest.int_id. destruct (Rest.l_id L) as [j|] eqn:Ej;
        cbn [bind]; [|discriminate].
      intros [= <- <-]. exists L. repeat split; auto. discriminate. }
    destruct (List.find (fun L => String.eqb (Rest.norm_name L) needle) all) as [L|] eqn:E1.
    + apply List.find_some in E1. destruct E1 as [Hin He]. apply String.eqb_eq in He.
      apply (Hfound L Hin). rewrite He. apply contains_refl.
    + destruct (List.find (fun L => Py.truthy needle && Py.contains needle (Rest.norm_name L)) all)
        as [L|] eqn:E2; [|discriminate].
      apply List.find_some in E2. destruct E2 as [Hin He]. apply andb_true_iff in He.
      apply (Hfound L Hin). exact (proj2 He).
Qed.

Lemma resolve_layer_sound_witness :
  exists L,
    In L Demo.roads_layers /\ Rest.l_id L = Some 4%Z /\ Rest.l_name L = Some "Main Roads"
    /\ (Rest.is_numeric (Rest.IdStr "roads") = true -> 4%Z = Rest.ident_value (Rest.IdStr "roads"))
    /\ (Rest.is_numeric (Rest.IdStr "roads") = false ->
        Py.contains (Py.lower (Py.strip (Rest.ident_text (Rest.IdStr "roads"))))
          (Rest.norm_name L) = true).
Proof.
  apply (resolve_layer_sound Demo.roads_layers (Rest.IdStr "roads") 4%Z (Some "Main Roads")).
  reflexivity.
Defined.

(** X10.  A layer without an id makes resolution fail with a
    [TypeError], which is not the [ValueError] of a layer that is not
    found: for a numeric identifier when such a layer stands before any
    layer with the id looked for, and for a name when it is the first
    layer that the name designates.  The identifier is of ASCII
    characters and, when it is numeric, of no more than 4300 digits, the
    interpreter's default limit for [int()]. *)
Theorem resolve_layer_missing_id (layers pre post : list Rest.Layer) (L : Rest.Layer)
    (ident : Rest.Ident) :
  layers = pre ++ L :: post -> Rest.l_id L = None ->
  Py.isascii (Rest.ident_text ident) = true ->
  let needle := Py.lower (Py.strip (Rest.ident_text ident)) in
  (Rest.is_numeric ident = true ->
   (String.length (Rest.ident_text ident) <= 4300)%nat ->
   Forall (other_id (Rest.ident_value ident)) pre ->
   Rest._resolve_layer layers ident = Raise TypeError)
  /\ (Rest.is_numeric ident = false ->
      Forall (fun X => Rest.norm_name X <> needle) pre -> Rest.norm_name L = needle ->
      Rest._resolve_layer layers ident = Raise TypeError)
  /\ (Rest.is_numeric ident = false -> needle <> "" ->
      Forall (fun X => Rest.norm_name X <> needle) layers ->
      Forall (fun X => Py.contains needle (Rest.norm_name X) = false) pre ->
      Py.contains needle (Rest.norm_name L) = true ->
      Rest._resolve_layer layers ident = Raise TypeError).
Proof.
  intros -> HL _ needle. split; [|split].
  - intros Hnum _ Hpre. unfold Rest._resolve_layer. rewrite Hnum.
    assert (Hf : Rest.find_id (Rest.ident_value ident) (pre ++ L :: post) = Raise TypeError).
    { induction Hpre as [|X pre (j & Hj & Hne) _ IH]; cbn [app Rest.find_id].
      - unfold Rest.int_id. now rewrite HL.
      - unfold Rest.int_id. rewrite Hj. cbn [bind].
        destruct (Z.eqb_spec j (Rest.ident_value ident)); [contradiction|exact IH]. }
    rewrite Hf. now destruct pre.
  - intros Hnum Hpre Hname. rewrite resolve_by_name by (auto; now destruct pre).
    cbv zeta. fold needle.
    rewrite (find_first _ pre post L).
    + unfold Rest.int_id. now rewrite HL.
    + now apply eqb_false_forall.
    + now apply String.eqb_eq.
  - intros Hnum Hne Hall Hpre Hc. rewrite resolve_by_name by (auto; now destruct pre).
    cbv zeta. fold needle.
    rewrite (find_none_all _ _ (eqb_false_forall needle _ Hall)).
    rewrite (find_first _ pre post L).
    + unfold Rest.int_id. now rewrite HL.
    + apply List.Forall_forall. intros X HX.
      rewrite (proj1 (List.Forall_forall _ _) Hpre X HX). apply andb_false_r.
    + rewrite Hc. apply truthy_nonempty in Hne. now rewrite Hne.
Qed.

Lemma resolve_layer_missing_id_witness :
  Rest._resolve_layer Demo.unnumbered_layers (Rest.IdStr "4") = Raise TypeError
  /\ Rest._resolve_layer Demo.unnumbered_layers (Rest.IdStr "Sketch") = Raise TypeError.
Proof.
  split.
  - apply (proj1 (resolve_layer_missing_id Demo.unnumbered_layers
                    [ {| Rest.l_id := Some 0%Z; Rest.l_name := Some "Parcels" |} ]
                    [ {| Rest.l_id := Some 4%Z; Rest.l_name := Some "Main Roads" |} ]
                    {| Rest.l_id := None; Rest.l_name := Some "Sketch" |}
                    (Rest.IdStr "4") eq_refl eq_refl eq_refl)); [reflexivity|simpl; lia|].
    constructor; [|constructor]. exists 0%Z. split; [reflexivity|discriminate].
  - apply (proj1 (proj2 (resolve_layer_missing_id Demo.unnumbered_layers
                    [ {| Rest.l_id := Some 0%Z; Rest.l_name := Some "Parcels" |} ]
                    [ {| Rest.l_id := Some 4%Z; Rest.l_name := Some "Main Roads" |} ]
                    {| Rest.l_id := None; Rest.l_name := Some "Sketch" |}
                    (Rest.IdStr "Sketch") eq_refl eq_refl eq_refl))); [reflexivity| |reflexivity].
    constructor; [discriminate|constructor].
Defined.

(** ** The image format of a map service *)

(** X11.  The format chosen for a map service is always one the service
    advertises, whatever was requested; only when the service advertises
    none is it [png32]. *)
Theorem prefer_arcgis_format_available (requested : option string) (available : list string) :
  In (Rest._prefer_arcgis_format requested available) available
  \/ (available = [] /\ Rest._prefer_arcgis_format requested available = "png32").
Proof.
  unfold Rest._prefer_arcgis_format.
  assert (Hf : In (match List.find (fun p => Rest.mem p available) Rest.arcgis_prefs with
                   | Some p => p
                   | None => match available with a :: _ => a | [] => "png32" end
                   end) available
               \/ (available = []
                   /\ match List.find (fun p => Rest.mem p available) Rest.arcgis_prefs with
                      | Some p => p
                      | None => match available with a :: _ => a | [] => "png32" end
                      end = "png32")).
  { destruct (List.find (fun p => Rest.mem p available) Rest.arcgis_prefs) as [p|] eqn:E.
    - apply List.find_some in E. left. now apply mem_In.
    - destruct available as [|a l]; [right; now split|left; now left]. }
  destruct (Py.truthy (or_empty requested)); [|exact Hf].
  destruct (Rest.mem (Py.lower (Py.strip (or_empty requested))) available) eqn:Em; [|exact Hf].
  left. now apply mem_In.
Qed.

(** X12.  The tokens read from [supportedImageFormatTypes] are not empty
    and in lower case, and a requested format that the service lists is
    chosen whatever its letter case and the blanks around it: when the
    request, trimmed and in lower case, is an entry of the list, trimmed
    and in lower case, that entry is the format chosen. *)
Theorem requested_format_chosen (fmt_str : option string) :
  (forall x, In x (Rest._parse_supported_formats fmt_str) -> x <> "" /\ Py.lower x = x)
  /\ (forall t requested,
        In t (Py.split_on "," (or_empty fmt_str)) -> Py.strip t <> "" -> requested <> "" ->
        Py.lower (Py.strip requested) = Py.lower (Py.strip t) ->
        Rest._prefer_arcgis_format (Some requested) (Rest._parse_supported_formats fmt_str)
        = Py.lower (Py.strip t)).
Proof.
  split.
  - intros x Hx. unfold Rest._parse_supported_formats in Hx. apply in_map_iff in Hx.
    destruct Hx as (t & <- & Ht). apply filter_In in Ht. destruct Ht as [_ Ht].
    split; [|apply lower_lower].
    apply truthy_nonempty. unfold Py.lower. now rewrite truthy_smap.
  - intros t requested Hin Ht Hr He. unfold Rest._prefer_arcgis_format. cbn [or_empty].
    apply truthy_nonempty in Hr. rewrite Hr, He.
    assert (Hm : Rest.mem (Py.lower (Py.strip t)) (Rest._parse_supported_formats fmt_str) = true).
    { apply mem_In. unfold Rest._parse_supported_formats. apply in_map_iff. exists t.
      split; [reflexivity|]. apply filter_In. split; [exact Hin|]. now apply truthy_nonempty. }
    now rewrite Hm.
Qed.

Lemma requested_format_chosen_witness :
  Rest._prefer_arcgis_format (Some " JPG ") (Rest._parse_supported_formats (Some "PNG32, Jpg ,GIF"))
  = Py.lower (Py.strip " Jpg ").
Proof.
  apply (proj2 (requested_format_chosen (Some "PNG32, Jpg ,GIF")) " Jpg " " JPG ").
  - right. left. reflexivity.
  - discriminate.
  - discriminate.
  - reflexivity.
Defined.

(** ** The normalisation of CRS codes in the three modules *)

Lemma space_case_char (c : ascii) :
  Py.is_space (Py.upper_char c) = Py.is_space c
  /\ Py.is_space (Py.lower_char c) = Py.is_space c.
Proof. destruct c as [[] [] [] [] [] [] [] []]; vm_compute; auto. Qed.

Lemma lstrip_smap (f : ascii -> ascii) (s : string) :
  (forall c, Py.is_space (f c) = Py.is_space c) ->
  Py.lstrip (Py.smap f s) = Py.smap f (Py.lstrip s).
Proof.
  intros Hf. induction s as [|c s IH]; [reflexivity|]. cbn [Py.smap Py.lstrip].
  rewrite Hf. destruct (Py.is_space c); [exact IH|reflexivity].
Qed.

Lemma rstrip_smap (f : ascii -> ascii) (s : string) :
  (forall c, Py.is_space (f c) = Py.is_space c) ->
  Py.rstrip (Py.smap f s) = Py.smap f (Py.rstrip s).
Proof.
  intros Hf. induction s as [|c s IH]; [reflexivity|]. cbn [Py.smap Py.rstrip].
  rewrite IH, Hf. destruct (Py.rstrip s); cbn [Py.smap]; [|reflexivity].
  now destruct (Py.is_space c).
Qed.

Lemma strip_smap (f : ascii -> ascii) (s : string) :
  (forall c, Py.is_space (f c) = Py.is_space c) ->
  Py.strip (Py.smap f s) = Py.smap f (Py.strip s).
Proof. intros Hf. unfold Py.strip. now rewrite lstrip_smap, rstrip_smap. Qed.

Lemma strip_upper (s : string) : Py.strip (Py.upper s) = Py.upper (Py.strip s).
Proof. apply strip_smap. intros c. apply space_case_char. Qed.

Lemma lstrip_first (s : string) : Url.first_is Py.is_space (Py.lstrip s) = false.
Proof.
  induction s as [|c s IH]; [reflexivity|]. cbn [Py.lstrip].
  destruct (Py.is_space c) eqn:E; [exact IH|exact E].
Qed.

Lemma rstrip_first (s : string) :
  Url.first_is Py.is_space s = false -> Url.first_is Py.is_space (Py.rstrip s) = false.
Proof.
  destruct s as [|c s]; [reflexivity|]. cbn [Url.first_is Py.rstrip]. intros H.
  destruct (Py.rstrip s); [now rewrite H|exact H].
Qed.

(** Trimming a trimmed text changes nothing. *)
Lemma strip_strip (s : string) : Py.strip (Py.strip s) = Py.strip s.
Proof.
  apply strip_id; [|apply strip_tidy]. apply rstrip_first, lstrip_first.
Qed.

Lemma epsg_case_char (c : ascii) :
  Ascii.eqb "E" (Py.upper_char c) = Ascii.eqb "e" (Py.lower_char c)
  /\ Ascii.eqb "P" (Py.upper_char c) = Ascii.eqb "p" (Py.lower_char c)
  /\ Ascii.eqb "S" (Py.upper_char c) = Ascii.eqb "s" (Py.lower_char c)
  /\ Ascii.eqb "G" (Py.upper_char c) = Ascii.eqb "g" (Py.lower_char c).
Proof. destruct c as [[] [] [] [] [] [] [] []]; vm_compute; auto. Qed.

Lemma startswith_epsg_case (s : string) :
  Py.startswith "EPSG" (Py.upper s) = Py.startswith "epsg" (Py.lower s).
Proof.
  unfold Py.upper, Py.lower.
  destruct s as [|c1 [|c2 [|c3 [|c4 s]]]]; cbn [Py.smap Py.startswith];
    rewrite ?(proj1 (epsg_case_char c1)), ?(proj1 (proj2 (epsg_case_char c2))),
      ?(proj1 (proj2 (proj2 (epsg_case_char c3)))), ?(proj2 (proj2 (proj2 (epsg_case_char c4))));
    reflexivity.
Qed.

(** ["EPSG" in s.upper()] and ["epsg" in s.lower()] are the same test. *)
Lemma contains_epsg_case (s : string) :
  Py.contains "EPSG" (Py.upper s) = Py.contains "epsg" (Py.lower s).
Proof.
  induction s as [|c s IH]; [reflexivity|].
  change (Py.upper (String c s)) with (String (Py.upper_char c) (Py.upper s)).
  change (Py.lower (String c s)) with (String (Py.lower_char c) (Py.lower s)).
  cbn [Py.contains]. rewrite IH. f_equal.
  exact (startswith_epsg_case (String c s)).
Qed.

Lemma digit_upper_char (c : ascii) :
  Py.is_digit c = true -> Py.upper_char c = c /\ Py.is_space c = false.
Proof. destruct c as [[] [] [] [] [] [] [] []]; vm_compute; intuition congruence. Qed.

Lemma digits_upper (d : string) : Py.sall Py.is_digit d = true -> Py.upper d = d.
Proof.
  unfold Py.upper. induction d as [|c d IH]; [reflexivity|]. cbn [Py.sall Py.smap].
  intros H. apply andb_true_iff in H. destruct H as [Hc H].
  now rewrite (proj1 (digit_upper_char c Hc)), (IH H).
Qed.

Lemma digits_tidy (d : string) : Py.sall Py.is_digit d = true -> tidy d = true.
Proof.
  intros H. unfold tidy. destruct (last_char d) as [c|] eqn:E; [|reflexivity].
  apply negb_true_iff. destruct (Py.is_space c) eqn:Ec; [|reflexivity].
  assert (Hd : Py.is_digit c = true).
  { clear Ec. revert c E. induction d as [|a d IH]; [discriminate|].
    cbn [Py.sall last_char] in *. apply andb_true_iff in H. destruct H as [Ha H].
    intros c. destruct (last_char d) as [x|] eqn:El.
    - intros [= <-]. now apply IH.
    - now intros [= <-]. }
  apply digit_upper_char in Hd. destruct Hd. congruence.
Qed.

(** A code in the normal form is what the normalisation returns for it. *)
Lemma authid_fixed (r : string) :
  Py.startswith "EPSG:" r = true -> Py.strip r = r -> Py.upper r = r ->
  Wmts._to_qgis_authid (Some r) = Some r.
Proof.
  intros Hs Ht Hu. unfold Wmts._to_qgis_authid. cbn [or_empty].
  destruct r as [|c r]; [discriminate|]. cbn [Py.truthy]. now rewrite Ht, Hu, Hs.
Qed.

Lemma authid_form (s r : string) :
  Wmts._to_qgis_authid (Some s) = Some r ->
  Py.startswith "EPSG:" r = true /\ Py.strip r = r /\ Py.upper r = r.
Proof.
  unfold Wmts._to_qgis_authid. cbn [or_empty]. destruct (Py.truthy s); [|discriminate].
  destruct (Py.startswith "EPSG:" (Py.upper (Py.strip s))) eqn:E1.
  - intros [= <-]. split; [exact E1|]. split; [|apply upper_upper].
    now rewrite strip_upper, strip_strip.
  - destruct (Py.contains "epsg" (Py.lower (Py.strip s))); [|discriminate].
    destruct (Wmts.last_digit_token _) as [d|] eqn:Ed; [|discriminate].
    intros [= <-]. unfold Wmts.last_digit_token in Ed. apply List.find_some in Ed.
    destruct Ed as [_ Hd]. unfold Py.isdigit in Hd. apply andb_true_iff in Hd.
    destruct Hd as [Ht Hd]. split; [apply (startswith_append "EPSG:" d)|]. split.
    + apply strip_id; [reflexivity|].
      apply (tidy_append "EPSG:" d); [exact Ht|now apply digits_tidy].
    + transitivity ("EPSG:" +:+ Py.upper d); [reflexivity|].
      now rewrite (digits_upper d Hd).
Qed.

Lemma crs_normalisers_agree_aux (code : string) :
  Ui._normalize_epsg code = or_empty (Wmts._to_qgis_authid (Some code))
  /\ Wms.normalize_crs code
     = match Wmts._to_qgis_authid (Some code) with Some r => [r] | None => [] end.
Proof.
  split.
  - unfold Ui._normalize_epsg, Wmts._to_qgis_authid. cbn [or_empty].
    destruct (Py.truthy code); [|reflexivity].
    destruct (Py.startswith "EPSG:" (Py.upper (Py.strip code))); [reflexivity|].
    destruct (Py.contains "epsg" (Py.lower (Py.strip code))); [|reflexivity].
    now destruct (Wmts.last_digit_token _).
  - unfold Wms.normalize_crs, Wmts._to_qgis_authid. cbn [or_empty].
    destruct (Py.truthy code); [|reflexivity].
    destruct (Py.startswith "EPSG:" (Py.upper (Py.strip code))); [reflexivity|].
    rewrite contains_epsg_case.
    destruct (Py.contains "epsg" (Py.lower (Py.strip code))); [|reflexivity].
    now destruct (Wmts.last_digit_token _).
Qed.

(** X13.  One normalisation in three modules: for every code,
    [_normalize_epsg] of the dialog returns the authority id that
    [_to_qgis_authid] of the WMTS module returns (and the empty string
    where that returns [None]), and for a code of ASCII characters the WMS
    parser keeps exactly that authority id, or nothing. *)
Theorem crs_normalisers_agree (code : string) :
  Ui._normalize_epsg code = or_empty (Wmts._to_qgis_authid (Some code))
  /\ (Py.isascii code = true ->
      Wms.normalize_crs code
      = match Wmts._to_qgis_authid (Some code) with Some r => [r] | None => [] end)
  /\ (Ui._normalize_epsg code = "" <-> Wmts._to_qgis_authid (Some code) = None).
Proof.
  destruct (crs_normalisers_agree_aux code) as [H1 H2].
  split; [exact H1|]. split; [intros _; exact H2|].
  rewrite H1. destruct (Wmts._to_qgis_authid (Some code)) as [r|] eqn:E; cbn [or_empty].
  - apply authid_form in E. destruct E as [E _].
    split; [intros ->; discriminate|discriminate].
  - split; reflexivity.
Qed.

Lemma crs_normalisers_agree_witness :
  Wms.normalize_crs " urn:ogc:def:crs:epsg::3857 "
  = match Wmts._to_qgis_authid (Some " urn:ogc:def:crs:epsg::3857 ") with
    | Some r => [r]
    | None => []
    end.
Proof.
  apply (proj1 (proj2 (crs_normalisers_agree " urn:ogc:def:crs:epsg::3857 "))).
  reflexivity.
Defined.

(** X14.  A normalised code is in the form [EPSG:...], without blanks
    around it and in upper case, and normalising it again returns it: in
    the WMTS module, in the dialog and in the WMS parser. *)
Theorem to_qgis_authid_fixed (crs_str r : string) :
  Wmts._to_qgis_authid (Some crs_str) = Some r ->
  Py.startswith "EPSG:" r = true
  /\ Py.strip r = r /\ Py.upper r = r
  /\ Wmts._to_qgis_authid (Some r) = Some r
  /\ Ui._normalize_epsg r = r
  /\ Wms.normalize_crs r = [r].
Proof.
  intros H. apply authid_form in H. destruct H as (H1 & H2 & H3).
  pose proof (authid_fixed r H1 H2 H3) as Hf.
  repeat split; try assumption.
  - rewrite (proj1 (crs_normalisers_agree_aux r)). now rewrite Hf.
  - rewrite (proj2 (crs_normalisers_agree_aux r)). now rewrite Hf.
Qed.

Lemma to_qgis_authid_fixed_witness :
  Py.startswith "EPSG:" "EPSG:3857" = true
  /\ Py.strip "EPSG:3857" = "EPSG:3857" /\ Py.upper "EPSG:3857" = "EPSG:3857"
  /\ Wmts._to_qgis_authid (Some "EPSG:3857") = Some "EPSG:3857"
  /\ Ui._normalize_epsg "EPSG:3857" = "EPSG:3857"
  /\ Wms.normalize_crs "EPSG:3857" = ["EPSG:3857"].
Proof.
  apply (to_qgis_authid_fixed " urn:ogc:def:crs:EPSG::3857 " "EPSG:3857"). reflexivity.
Defined.

(** ** The CRS choices of the dialog *)

Lemma normal_code_fixed (tok c : string) :
  In c (Wms.normalize_crs tok) ->
  Py.startswith "EPSG:" c = true /\ Ui._normalize_epsg c = c /\ Py.truthy c = true.
Proof.
  rewrite (proj2 (crs_normalisers_agree_aux tok)).
  destruct (Wmts._to_qgis_authid (Some tok)) as [r|] eqn:E; [|intros []].
  intros [<-|[]]. apply authid_form in E. destruct E as (H1 & H2 & H3).
  split; [exact H1|]. split.
  - rewrite (proj1 (crs_normalisers_agree_aux r)). now rewrite (authid_fixed r H1 H2 H3).
  - destruct r; [discriminate|reflexivity].
Qed.

Lemma normalize_epsg_form (s : string) :
  Py.truthy (Ui._normalize_epsg s) = true ->
  Py.startswith "EPSG:" (Ui._normalize_epsg s) = true.
Proof.
  rewrite (proj1 (crs_normalisers_agree_aux s)).
  destruct (Wmts._to_qgis_authid (Some s)) as [r|] eqn:E; [|discriminate].
  intros _. now apply authid_form in E.
Qed.

(** The codes of a layer that the WMS parser lists are normalised codes. *)
Lemma parsed_crs_normal (root : Xml.Element) (d : Wms.Layer) (c : string) :
  In d (Wms.parse_layers_of_root root) -> In c (Wms.crs_list d) ->
  exists tok, In c (Wms.normalize_crs tok).
Proof.
  destruct (Wms.root_layer root) as [rl|] eqn:Er.
  - rewrite (parse_layers_listing root rl Er). intros Hd Hc.
    apply uniq_from_In in Hd. destruct Hd as [(pre & post & E & _) _].
    assert (Hin : In d (List.flat_map WmsSpec.entry (WmsSpec.listing rl []))).
    { rewrite E. apply in_or_app. right. now left. }
    apply in_flat_map in Hin. destruct Hin as ([anc e] & _ & Hin).
    rewrite entry_eq in Hin. destruct (WmsSpec.layer_name e); [|destruct Hin].
    destruct Hin as [<-|[]]. cbn [Wms.crs_list] in Hc.
    apply (proj1 (sorted_set_In _ _)) in Hc. apply (proj1 (codes_In _ _)) in Hc.
    destruct Hc as (a & tok & _ & _ & Hc).
    now exists tok.
  - unfold Wms.parse_layers_of_root. rewrite Er. intros [].
Qed.

Lemma crs_of_normal_list (l : list string) :
  (forall c, In c l -> exists tok, In c (Wms.normalize_crs tok)) ->
  Ui.crs_of_payload (Ui.CrsList l) = l.
Proof.
  intros H. cbn [Ui.crs_of_payload]. induction l as [|c l IH]; [reflexivity|].
  cbn [List.map List.filter]. destruct (H c (or_introl eq_refl)) as [tok Hc].
  apply normal_code_fixed in Hc. destruct Hc as (_ & Hn & Ht).
  rewrite Hn. unfold str_or. rewrite Ht, Ht. f_equal. apply IH.
  intros x Hx. apply H. now right.
Qed.

Lemma flat_map_same {A B} (f g : A -> list B) (l : list A) :
  (forall x, In x l -> f x = g x) -> List.flat_map f l = List.flat_map g l.
Proof.
  induction l as [|x l IH]; intros H; cbn [List.flat_map]; [reflexivity|].
  rewrite (H x (or_introl eq_refl)), IH; [reflexivity|]. intros y Hy. apply H. now right.
Qed.

(** X15.  The CRS choices that the dialog offers are sorted, without
    repetition and all in the form [EPSG:...], whatever the tree holds;
    and for a tree that lists the layers of a WMS capabilities document
    they are exactly the codes of the listed layers, sorted and without
    repetition. *)
Theorem supported_crs_of_listing :
  (forall tree,
      Sorted ascending (Ui.get_all_supported_crs tree)
      /\ List.NoDup (Ui.get_all_supported_crs tree)
      /\ forall c, In c (Ui.get_all_supported_crs tree) -> Py.startswith "EPSG:" c = true)
  /\ (forall root base_url,
        Ui.get_all_supported_crs
          (List.map Ui.of_wms
             (List.map (WmsLoad.item_of base_url) (Wms.parse_layers_of_root root)))
        = Wms.sorted_set (List.flat_map Wms.crs_list (Wms.parse_layers_of_root root))).
Proof.
  split.
  - intros tree. unfold Ui.get_all_supported_crs. split; [apply sorted_Sorted|].
    split; [apply sorted_set_NoDup|]. intros c Hc.
    apply (proj1 (sorted_set_In _ _)) in Hc. apply (proj1 (in_flat_map _ _ _)) in Hc. destruct Hc as (it & _ & Hc).
    destruct (Ui.payload it) as [l|d| |]; cbn [Ui.crs_of_payload] in Hc; try destruct Hc.
    + apply filter_In in Hc. destruct Hc as [Hc Ht]. apply in_map_iff in Hc.
      destruct Hc as (crs & <- & _). unfold str_or in *.
      destruct (Py.truthy (Ui._normalize_epsg crs)) eqn:En; [now apply normalize_epsg_form|].
      destruct (Py.startswith "EPSG:" crs) eqn:Es; [exact Es|discriminate].
    + apply filter_In in Hc. destruct Hc as [Hc Ht]. apply in_map_iff in Hc.
      destruct Hc as (ms & <- & _). now apply normalize_epsg_form.
  - intros root base_url. unfold Ui.get_all_supported_crs. f_equal.
    rewrite List.map_map, flat_map_concat_map, List.map_map, <- flat_map_concat_map.
    apply flat_map_same. intros d Hd. cbn [Ui.of_wms Ui.payload WmsLoad.item_of Gui.item_crs].
    apply crs_of_normal_list. intros c Hc. exact (parsed_crs_normal root d c Hd Hc).
Qed.

Example supported_crs_of_listing_ex :
  Ui.get_all_supported_crs
    [ {| Ui.text0 := "a"; Ui.text1 := "A"; Ui.checked := false; Ui.base := None;
         Ui.payload := Ui.CrsList ["EPSG:4326"; "urn:ogc:def:crs:EPSG::3857"; "CRS:84"] |};
      {| Ui.text0 := "b"; Ui.text1 := "B"; Ui.checked := true; Ui.base := None;
         Ui.payload := Ui.OtherDict |};
      {| Ui.text0 := "c"; Ui.text1 := "C"; Ui.checked := false; Ui.base := None;
         Ui.payload := Ui.CrsList ["epsg:4326"; "EPSG:25832"] |} ]
  = ["EPSG:25832"; "EPSG:3857"; "EPSG:4326"].
Proof. vm_compute. reflexivity. Qed.

Lemma supported_crs_of_listing_witness :
  Py.startswith "EPSG:" "EPSG:3857" = true.
Proof.
  apply (proj2 (proj2 (proj1 supported_crs_of_listing
           [ {| Ui.text0 := "a"; Ui.text1 := "A"; Ui.checked := false; Ui.base := None;
                Ui.payload := Ui.CrsList ["urn:ogc:def:crs:EPSG::3857"] |} ]))).
  vm_compute. now left.
Defined.

(** ** The procedures: what they leave behind *)

Section ProcedureProofs.

Variable netloc_error : string -> option string.
Variable _blocking_get : string -> Z -> option string * string.
Variable fromstring : string -> Outcome Xml.Element.

Lemma wmts_build_caps_url_raises (link : string) (e : Exn) :
  Url.wmts_build_caps_url netloc_error link = Raise e -> exists m, e = ValueError m.
Proof.
  unfold Url.wmts_build_caps_url, bind.
  destruct (Url.urlsplit netloc_error (Py.strip link)) eqn:E; [discriminate|].
  intros [= <-]. now apply urlsplit_raises in E.
Qed.

Lemma wmts_normalize_raises (url : string) (e : Exn) :
  Url.wmts_normalize_service_base netloc_error url = Raise e -> exists m, e = ValueError m.
Proof.
  unfold Url.wmts_normalize_service_base. destruct (Py.truthy url); [|discriminate].
  apply normalize_service_base_raises.
Qed.

Lemma extract_gettile_raises (xml_bytes : string) (e : Exn) :
  WmtsAdd._extract_gettile_base fromstring xml_bytes = Raise e ->
  fromstring xml_bytes = Raise e.
Proof.
  unfold WmtsAdd._extract_gettile_base, WmtsAdd.parse, bind.
  destruct (fromstring xml_bytes); [discriminate|]. intros [= <-]. reflexivity.
Qed.

Lemma run_lift {A} (o : Outcome A) (w : Panel.World) : Panel.run (Gui.lift o) w = (w, o).
Proof. now destruct w. Qed.

Lemma run_get (url : string) (w : Panel.World) :
  Panel.run (Net.http_get_bytes _blocking_get url 15000) w
  = (requested url w,
     match _blocking_get url 15000%Z with
     | (None, err) => Raise (RuntimeError ("Network error for " +:+ url +:+ ": " +:+ err))
     | (Some data, used) => Ok (data, used)
     end).
Proof.
  unfold Panel.run, Net.http_get_bytes.
  destruct (_blocking_get url 15000%Z) as [[data|] used]; reflexivity.
Qed.

Lemma run_critical (link m : string) (w : Panel.World) :
  Panel.run (Gui.critical "WMTS Error" (WmtsLoad.failure_text link [m])) w
  = (reported link m w, Ok tt).
Proof. reflexivity. Qed.

(** [load_wmts_layers] case by case. *)
Lemma load_wmts_layers_eq (wmts_link : string) (w : Panel.World) :
  WmtsLoad.load_wmts_layers netloc_error _blocking_get fromstring wmts_link w
  = let link := Py.strip wmts_link in
    match Url.wmts_build_caps_url netloc_error link with
    | Raise e => (reported link (exn_text e) w, Ok tt)
    | Ok caps_url =>
        let w1 := requested caps_url w in
        match _blocking_get caps_url 15000%Z with
        | (None, err) =>
            (reported link ("Network error for " +:+ caps_url +:+ ": " +:+ err) w1, Ok tt)
        | (Some xml_bytes, used) =>
            match fromstring xml_bytes with
            | Raise e =>
                match WmtsAdd.caught e with
                | Some msg => (reported link msg w1, Ok tt)
                | None => (w1, Raise e)
                end
            | Ok root =>
                match WmtsCaps._parse_layers root (WmtsCaps._parse_tile_matrix_sets root) with
                | [] => (reported link "No layers found in WMTS GetCapabilities." w1, Ok tt)
                | layers =>
                    match Url.wmts_normalize_service_base netloc_error used with
                    | Raise e => (reported link (exn_text e) w1, Ok tt)
                    | Ok caps_base =>
                        match Url.wmts_normalize_service_base netloc_error
                                (WmtsCaps.gettile_base_of_root root) with
                        | Raise e => (reported link (exn_text e) w1, Ok tt)
                        | Ok tile_base =>
                            (listed (List.map (WmtsLoad.item_of caps_base tile_base) layers) w1,
                             Ok tt)
                        end
                    end
                end
            end
        end
    end.
Proof.
  unfold WmtsLoad.load_wmts_layers, WmtsLoad.load_body, Panel.mbind. cbv zeta.
  rewrite run_lift.
  destruct (Url.wmts_build_caps_url netloc_error (Py.strip wmts_link)) as [caps_url|e] eqn:Eb.
  - rewrite run_get.
    destruct (_blocking_get caps_url 15000%Z) as [[xml_bytes|] used]; [|reflexivity].
    cbn [fst snd]. rewrite run_lift. unfold WmtsAdd.parse at 1.
    destruct (fromstring xml_bytes) as [root|e0] eqn:Ef;
      [|destruct (WmtsAdd.caught e0); reflexivity].
    destruct (WmtsCaps._parse_layers root (WmtsCaps._parse_tile_matrix_sets root)) as [|l ls].
    + rewrite run_lift. reflexivity.
    + rewrite run_lift.
      destruct (Url.wmts_normalize_service_base netloc_error used) as [cb|e] eqn:E1.
      * rewrite run_lift. unfold WmtsAdd._extract_gettile_base, WmtsAdd.parse. rewrite Ef.
        cbn [bind]. rewrite run_lift.
        destruct (Url.wmts_normalize_service_base netloc_error
                    (WmtsCaps.gettile_base_of_root root)) as [tb|e] eqn:E2; [reflexivity|].
        apply wmts_normalize_raises in E2. destruct E2 as [m ->]. reflexivity.
      * apply wmts_normalize_raises in E1. destruct E1 as [m ->]. reflexivity.
  - apply wmts_build_caps_url_raises in Eb. destruct Eb as [m ->]. reflexivity.
Qed.

End ProcedureProofs.

Ltac outcome_conjuncts :=
  cbn [fst snd reported requested listed Panel.tree Panel.dialogs Panel.requests
         Panel.constructed Panel.project];
  split; [intros ? ?; discriminate|];
  split; [reflexivity|]; split; [reflexivity|];
  split; [intros _|split; [intros ?|split; [|split]]].

(** X16.  Listing the layers of a WMTS raises nothing but an exception of
    the XML parser that its [except] clause does not name (any other than
    [ParseError], [ValueError] and [RuntimeError], such as the
    [LookupError] of an unknown encoding), which escapes after the
    request with the tree and the dialogs untouched; and it touches
    neither the project nor the descriptors.  When it returns, either it
    has failed, left the tree as it was and shown one message titled
    [WMTS Error] with the error (for capabilities without layers: [No
    layers found in WMTS GetCapabilities.]); or it has shown nothing and
    filled the tree with one unchecked item per layer of the
    capabilities, in their order, each with the normalised base of the
    capabilities URL that answered and with that of the advertised
    GetTile URL.  One request is made, for the capabilities URL of the
    trimmed link; none when that URL cannot be built. *)
Theorem load_wmts_layers_outcome
    (netloc_error : string -> option string)
    (_blocking_get : string -> Z -> option string * string)
    (fromstring : string -> Outcome Xml.Element)
    (wmts_link : string) (w : Panel.World) :
  let link := Py.strip wmts_link in
  let result := WmtsLoad.load_wmts_layers netloc_error _blocking_get fromstring wmts_link w in
  let layers_of := fun root =>
    WmtsCaps._parse_layers root (WmtsCaps._parse_tile_matrix_sets root) in
  (forall e, snd result = Raise e ->
     WmtsAdd.caught e = None
     /\ exists caps_url xml_bytes used,
          Url.wmts_build_caps_url netloc_error link = Ok caps_url
          /\ _blocking_get caps_url 15000%Z = (Some xml_bytes, used)
          /\ fromstring xml_bytes = Raise e
          /\ fst result = requested caps_url w)
  /\ Panel.constructed (fst result) = Panel.constructed w
  /\ Panel.project (fst result) = Panel.project w
  /\ (snd result = Ok tt ->
      (Panel.tree (fst result) = Panel.tree w
       /\ exists m, Panel.dialogs (fst result)
                    = Panel.dialogs w ++ [("WMTS Error", WmtsLoad.failure_text link [m])])
      \/ (Panel.dialogs (fst result) = Panel.dialogs w
          /\ exists root caps_base tile_base,
               layers_of root <> []
               /\ Panel.tree (fst result)
                  = List.map (WmtsLoad.item_of caps_base tile_base) (layers_of root)))
  /\ (forall e, Url.wmts_build_caps_url netloc_error link = Raise e ->
        Panel.requests (fst result) = Panel.requests w)
  /\ (forall caps_url, Url.wmts_build_caps_url netloc_error link = Ok caps_url ->
        Panel.requests (fst result) = Panel.requests w ++ [caps_url])
  /\ (forall caps_url xml_bytes used root,
        Url.wmts_build_caps_url netloc_error link = Ok caps_url ->
        _blocking_get caps_url 15000%Z = (Some xml_bytes, used) ->
        fromstring xml_bytes = Ok root ->
        (layers_of root = [] ->
         fst result
         = reported link "No layers found in WMTS GetCapabilities." (requested caps_url w))
        /\ (layers_of root <> [] ->
            forall caps_base tile_base,
              Url.wmts_normalize_service_base netloc_error used = Ok caps_base ->
              Url.wmts_normalize_service_base netloc_error (WmtsCaps.gettile_base_of_root root)
              = Ok tile_base ->
              fst result
              = listed (List.map (WmtsLoad.item_of caps_base tile_base) (layers_of root))
                  (requested caps_url w)))
  /\ (forall caps_url xml_bytes used e,
        Url.wmts_build_caps_url netloc_error link = Ok caps_url ->
        _blocking_get caps_url 15000%Z = (Some xml_bytes, used) ->
        fromstring xml_bytes = Raise e ->
        (forall m, WmtsAdd.caught e = Some m ->
           result = (reported link m (requested caps_url w), Ok tt))
        /\ (WmtsAdd.caught e = None -> result = (requested caps_url w, Raise e))).
Proof.
  intros link result layers_of. subst result.
  rewrite load_wmts_layers_eq. cbv zeta. fold link.
  destruct (Url.wmts_build_caps_url netloc_error link) as [caps_url|e] eqn:Eb.
  2:{ outcome_conjuncts.
      - left. split; [reflexivity|]. now eexists.
      - reflexivity.
      - discriminate.
      - discriminate.
      - discriminate. }
  destruct (_blocking_get caps_url 15000%Z) as [[xml_bytes|] used] eqn:Eg.
  2:{ outcome_conjuncts.
      - left. split; [reflexivity|]. now eexists.
      - discriminate.
      - intros c [= <-]. reflexivity.
      - intros c x u r [= <-]. rewrite Eg. discriminate.
      - intros c x u r [= <-]. rewrite Eg. discriminate. }
  destruct (fromstring xml_bytes) as [root|e] eqn:Ef.
  2:{ destruct (WmtsAdd.caught e) as [m|] eqn:Ec.
      - outcome_conjuncts.
        + left. split; [reflexivity|]. now eexists.
        + discriminate.
        + intros c [= <-]. reflexivity.
        + intros c x u r [= <-]. rewrite Eg. intros [= <- <-]. rewrite Ef. discriminate.
        + intros c x u e0 [= <-]. rewrite Eg. intros [= <- <-]. rewrite Ef. intros [= <-].
          rewrite Ec. split; [intros m0 [= <-]; reflexivity|discriminate].
      - cbn [fst snd requested Panel.tree Panel.dialogs Panel.requests
               Panel.constructed Panel.project].
        split; [|split; [reflexivity|split; [reflexivity|split; [discriminate|
                 split; [discriminate|split; [|split]]]]]].
        + intros e0 [= <-]. split; [exact Ec|]. now exists caps_url, xml_bytes, used.
        + intros c [= <-]. reflexivity.
        + intros c x u r [= <-]. rewrite Eg. intros [= <- <-]. rewrite Ef. discriminate.
        + intros c x u e0 [= <-]. rewrite Eg. intros [= <- <-]. rewrite Ef. intros [= <-].
          rewrite Ec. split; [discriminate|reflexivity]. }
  fold (layers_of root).
  destruct (layers_of root) as [|l ls] eqn:El.
  { outcome_conjuncts.
    - left. split; [reflexivity|]. now eexists.
    - discriminate.
    - intros c [= <-]. reflexivity.
    - intros c x u r [= <-]. rewrite Eg. intros [= <- <-]. rewrite Ef. intros [= <-].
      rewrite El. split; [reflexivity|congruence].
    - intros c x u r [= <-]. rewrite Eg. intros [= <- <-]. rewrite Ef. discriminate. }
  destruct (Url.wmts_normalize_service_base netloc_error used) as [cb|e] eqn:E1.
  2:{ outcome_conjuncts.
      - left. split; [reflexivity|]. now eexists.
      - discriminate.
      - intros c [= <-]. reflexivity.
      - intros c x u r [= <-]. rewrite Eg. intros [= <- <-]. rewrite Ef. intros [= <-].
        rewrite El. split; [discriminate|]. intros _ cb tb. rewrite E1. discriminate.
      - intros c x u r [= <-]. rewrite Eg. intros [= <- <-]. rewrite Ef. discriminate. }
  destruct (Url.wmts_normalize_service_base netloc_error (WmtsCaps.gettile_base_of_root root))
    as [tb|e] eqn:E2.
  2:{ outcome_conjuncts.
      - left. split; [reflexivity|]. now eexists.
      - discriminate.
      - intros c [= <-]. reflexivity.
      - intros c x u r [= <-]. rewrite Eg. intros [= <- <-]. rewrite Ef. intros [= <-].
        rewrite El. split; [discriminate|]. intros _ cb' tb' _. rewrite E2. discriminate.
      - intros c x u r [= <-]. rewrite Eg. intros [= <- <-]. rewrite Ef. discriminate. }
  outcome_conjuncts.
  - right. split; [reflexivity|]. exists root, cb, tb. rewrite El. split; [discriminate|reflexivity].
  - discriminate.
  - intros c [= <-]. reflexivity.
  - intros c x u r [= <-]. rewrite Eg. intros [= <- <-]. rewrite Ef. intros [= <-].
    rewrite El. split; [discriminate|].
    intros _ cb' tb'. rewrite E1, E2. intros [= <-] [= <-]. reflexivity.
  - intros c x u r [= <-]. rewrite Eg. intros [= <- <-]. rewrite Ef. discriminate.
Qed.

Lemma load_wmts_layers_outcome_witness :
  fst (WmtsLoad.load_wmts_layers Demo.any_netloc Demo.wmts_get Demo.wmts_fromstring
         " http://maps.example.org/wmts " empty_panel)
  = listed
      (List.map (WmtsLoad.item_of "https://mirror.example.org/service"
                   "https://tiles.example.org/wmts/tile")
         (WmtsCaps._parse_layers Demo.wmts_caps (WmtsCaps._parse_tile_matrix_sets Demo.wmts_caps)))
      (requested "http://maps.example.org/wmts?SERVICE=WMTS&REQUEST=GetCapabilities" empty_panel)
  /\ WmtsLoad.load_wmts_layers Demo.any_netloc Demo.wmts_get Demo.unknown_encoding
       " http://maps.example.org/wmts " empty_panel
     = (requested "http://maps.example.org/wmts?SERVICE=WMTS&REQUEST=GetCapabilities" empty_panel,
        Raise (LookupError "unknown encoding: x-unknown")).
Proof.
  split.
  - apply (proj2 (proj1 (proj2 (proj2 (proj2 (proj2 (proj2 (proj2
             (load_wmts_layers_outcome Demo.any_netloc Demo.wmts_get Demo.wmts_fromstring
                " http://maps.example.org/wmts " empty_panel)))))))
             "http://maps.example.org/wmts?SERVICE=WMTS&REQUEST=GetCapabilities"
             "wmts capabilities"
             "https://mirror.example.org/service?SERVICE=WMTS&REQUEST=GetCapabilities"
             Demo.wmts_caps eq_refl eq_refl eq_refl)).
    + vm_compute. discriminate.
    + reflexivity.
    + vm_compute. reflexivity.
  - apply (proj2 (proj2 (proj2 (proj2 (proj2 (proj2 (proj2 (proj2
             (load_wmts_layers_outcome Demo.any_netloc Demo.wmts_get Demo.unknown_encoding
                " http://maps.example.org/wmts " empty_panel)))))))
             "http://maps.example.org/wmts?SERVICE=WMTS&REQUEST=GetCapabilities"
             "wmts capabilities"
             "https://mirror.example.org/service?SERVICE=WMTS&REQUEST=GetCapabilities"
             (LookupError "unknown encoding: x-unknown") eq_refl eq_refl eq_refl)).
    reflexivity.
Defined.

(** X17.  A link that [urlsplit] refuses: listing the layers of a WMS
    lets the [ValueError] escape, with no request made, no message shown
    and the tree untouched, while listing the layers of a WMTS catches it
    and shows it in a message titled [WMTS Error]. *)
Theorem unparsable_link_listing
    (netloc_error : string -> option string)
    (_blocking_get : string -> Z -> option string * string)
    (fromstring : string -> Outcome Xml.Element)
    (link m : string) (w : Gui.World) (p : Panel.World) :
  Url.urlsplit netloc_error (Py.strip link) = Raise (ValueError m) ->
  WmsLoad.load_wms_layers netloc_error _blocking_get fromstring link w
  = (w, Raise (ValueError m))
  /\ WmtsLoad.load_wmts_layers netloc_error _blocking_get fromstring link p
     = (reported (Py.strip link) m p, Ok tt).
Proof.
  intros H. split.
  - rewrite load_wms_layers_spec. unfold LoadSpec.load, LoadSpec.attempt, LoadSpec.caps_url.
    cbv zeta. rewrite wms_build_caps_url_rewrite, strip_strip.
    now rewrite (rewrite_query_raises netloc_error _ _ _ H).
  - rewrite load_wmts_layers_eq. cbv zeta.
    rewrite wmts_build_caps_url_rewrite, strip_strip.
    now rewrite (rewrite_query_raises netloc_error _ _ _ H).
Qed.

Lemma unparsable_link_listing_witness :
  WmsLoad.load_wms_layers bracket_netloc Demo.wms_get Demo.wms_fromstring
    " http://[::1/wms " Demo.empty_world
  = (Demo.empty_world, Raise (ValueError "Invalid IPv6 URL"))
  /\ WmtsLoad.load_wmts_layers bracket_netloc Demo.wms_get Demo.wms_fromstring
       " http://[::1/wms " empty_panel
     = (reported (Py.strip " http://[::1/wms ") "Invalid IPv6 URL" empty_panel, Ok tt).
Proof.
  apply (unparsable_link_listing bracket_netloc Demo.wms_get Demo.wms_fromstring
           " http://[::1/wms " "Invalid IPv6 URL" Demo.empty_world empty_panel).
  reflexivity.
Defined.

Section AddOutcome.

Variable netloc_error : string -> option string.
Variable _blocking_get : string -> Z -> option string * string.
Variable fromstring : string -> Outcome Xml.Element.
Variable isValid : string -> string -> bool.

(** What the loop over the base URLs leaves. *)
Lemma try_bases_outcome (params : list string) (name : string) (bases : list string) :
  forall (last_err : option string) (w : Gui.World),
    let r := WmtsAdd.try_bases isValid params name bases last_err w in
    Gui.tree (fst r) = Gui.tree w /\ Gui.requests (fst r) = Gui.requests w
    /\ Gui.dialogs (fst r) = Gui.dialogs w
    /\ ((exists uri before,
            snd r = Ok tt /\ isValid uri name = true
            /\ Gui.project (fst r) = Gui.project w ++ [(uri, name)]
            /\ Gui.constructed (fst r) = Gui.constructed w ++ before ++ [uri]
            /\ Forall (fun u => isValid u name = false) before)
        \/ (exists m tried,
              snd r = Raise (RuntimeError m)
              /\ Gui.project (fst r) = Gui.project w
              /\ Gui.constructed (fst r) = Gui.constructed w ++ tried
              /\ Forall (fun u => isValid u name = false) tried)).
Proof.
  induction bases as [|b bases IH]; intros last_err w; cbn [WmtsAdd.try_bases].
  - cbv zeta. unfold Gui.lift. cbn [fst snd]. repeat (split; [reflexivity|]).
    right. eexists. exists []. rewrite app_nil_r. repeat split. constructor.
  - cbv zeta. destruct (isValid (WmtsAdd.uri_for params b) name) eqn:Ev.
    + unfold Gui.addMapLayer, Gui.log_constructed.
      cbn [fst snd Gui.tree Gui.requests Gui.dialogs Gui.project Gui.constructed].
      repeat (split; [reflexivity|]). left. exists (WmtsAdd.uri_for params b), [].
      repeat split; [exact Ev|constructor].
    + specialize (IH (Some ("Invalid with base: " +:+ b))
                     (Gui.log_constructed (WmtsAdd.uri_for params b) w)).
      cbv zeta in IH. destruct IH as (H1 & H2 & H3 & H4).
      cbn [Gui.log_constructed Gui.tree Gui.requests Gui.dialogs Gui.project
             Gui.constructed] in *.
      repeat (split; [assumption|]).
      destruct H4 as [(uri & before & Ho & Hv & Hp & Hc & Hb)|(m & tried & Ho & Hp & Hc & Hb)].
      * left. exists uri, (WmtsAdd.uri_for params b :: before).
        repeat split; try assumption.
        -- rewrite Hc, <- app_assoc. reflexivity.
        -- now constructor.
      * right. exists m, (WmtsAdd.uri_for params b :: tried).
        repeat split; try assumption.
        -- rewrite Hc, <- app_assoc. reflexivity.
        -- now constructor.
Qed.

Lemma plan_raises (layer_identifier : string) (matrix_set fmt : option string)
    (xml_bytes used : string) (e : Exn) :
  WmtsAdd.plan netloc_error fromstring layer_identifier matrix_set fmt xml_bytes used = Raise e ->
  (exists m, WmtsAdd.caught e = Some m) \/ fromstring xml_bytes = Raise e.
Proof.
  unfold WmtsAdd.plan. unfold WmtsAdd.parse at 1.
  destruct (fromstring xml_bytes) as [root|e0] eqn:Ep; cbn [bind].
  2:{ intros [= <-]. now right. }
  destruct (WmtsAdd.find_layer _ layer_identifier) as [L|]; [|intros [= <-]; left; now eexists].
  match goal with
  | |- context [bind ?c _] => destruct c as [chosen|e1] eqn:Ec
  end; cbn [bind].
  2:{ intros [= <-]. left.
      destruct (Py.truthy _) in Ec; [discriminate|].
      destruct (WmtsCaps.matrix_sets L); [|discriminate].
      injection Ec as <-. now eexists. }
  match goal with
  | |- context [if ?b then _ else _] => destruct b
  end; [intros [= <-]; left; now eexists|].
  destruct (Url.wmts_normalize_service_base netloc_error used) as [cb|e1] eqn:E1; cbn [bind].
  2:{ intros [= <-]. left. apply wmts_normalize_raises in E1. destruct E1 as [m ->]. now exists m. }
  destruct (WmtsAdd._extract_gettile_base fromstring xml_bytes) as [gt|e1] eqn:E2; cbn [bind].
  2:{ intros [= <-]. apply extract_gettile_raises in E2. congruence. }
  destruct (Url.wmts_normalize_service_base netloc_error gt) as [tb|e1] eqn:E3; cbn [bind].
  2:{ intros [= <-]. left. apply wmts_normalize_raises in E3. destruct E3 as [m ->]. now exists m. }
  discriminate.
Qed.

Lemma plan_parser_raises (layer_identifier : string) (matrix_set fmt : option string)
    (xml_bytes used : string) (e : Exn) :
  fromstring xml_bytes = Raise e ->
  WmtsAdd.plan netloc_error fromstring layer_identifier matrix_set fmt xml_bytes used = Raise e.
Proof. intros H. unfold WmtsAdd.plan, WmtsAdd.parse. now rewrite H. Qed.

End AddOutcome.

(** X18.  Adding a WMTS layer leaves the tree as it was and raises
    nothing but an exception of the XML parser that its [except] clause
    does not name (any other than [ParseError], [ValueError] and
    [RuntimeError], such as the [LookupError] of an unknown encoding),
    which escapes after the request with nothing added and nothing shown.
    When it returns, either it has added exactly one layer to the
    project, whose descriptor the validator accepted, after descriptors
    that the validator refused, and shown nothing; or it has added
    nothing and shown exactly one message titled [WMTS Error], every
    descriptor it has constructed having been refused. *)
Theorem add_wmts_layer_outcome
    (netloc_error : string -> option string)
    (_blocking_get : string -> Z -> option string * string)
    (fromstring : string -> Outcome Xml.Element)
    (isValid : string -> string -> bool)
    (layer_identifier wmts_link : string) (matrix_set fmt : option string) (w : Gui.World) :
  let result := WmtsAdd.add_wmts_layer netloc_error _blocking_get fromstring isValid
                  layer_identifier wmts_link matrix_set fmt w in
  (forall e, snd result = Raise e ->
     WmtsAdd.caught e = None
     /\ exists caps_url xml_bytes used,
          Url.wmts_build_caps_url netloc_error (Py.strip wmts_link) = Ok caps_url
          /\ _blocking_get caps_url 15000%Z = (Some xml_bytes, used)
          /\ fromstring xml_bytes = Raise e
          /\ fst result = Gui.log_request caps_url w)
  /\ Gui.tree (fst result) = Gui.tree w
  /\ (snd result = Ok tt ->
      (exists uri name before,
          isValid uri name = true
          /\ Gui.project (fst result) = Gui.project w ++ [(uri, name)]
          /\ Gui.dialogs (fst result) = Gui.dialogs w
          /\ Gui.constructed (fst result) = Gui.constructed w ++ before ++ [uri]
          /\ Forall (fun u => isValid u name = false) before)
      \/ (exists text name tried,
            Gui.project (fst result) = Gui.project w
            /\ Gui.dialogs (fst result) = Gui.dialogs w ++ [("WMTS Error", text)]
            /\ Gui.constructed (fst result) = Gui.constructed w ++ tried
            /\ Forall (fun u => isValid u name = false) tried))
  /\ (forall caps_url xml_bytes used e,
        Url.wmts_build_caps_url netloc_error (Py.strip wmts_link) = Ok caps_url ->
        _blocking_get caps_url 15000%Z = (Some xml_bytes, used) ->
        fromstring xml_bytes = Raise e ->
        WmtsAdd.caught e = None ->
        result = (Gui.log_request caps_url w, Raise e)).
Proof.
  cbv zeta. unfold WmtsAdd.add_wmts_layer, WmtsAdd.add_body, Gui.mbind, Gui.lift.
  set (link := Py.strip wmts_link).
  assert (Hfail : forall (w' : Gui.World) m,
            Gui.tree w' = Gui.tree w -> Gui.project w' = Gui.project w ->
            Gui.dialogs w' = Gui.dialogs w -> Gui.constructed w' = Gui.constructed w ->
            let r := Gui.critical "WMTS Error"
                       (WmtsAdd.failure_text layer_identifier link m) w' in
            (forall e, snd r = Raise e ->
               WmtsAdd.caught e = None
               /\ exists caps_url xml_bytes used,
                    Url.wmts_build_caps_url netloc_error link = Ok caps_url
                    /\ _blocking_get caps_url 15000%Z = (Some xml_bytes, used)
                    /\ fromstring xml_bytes = Raise e
                    /\ fst r = Gui.log_request caps_url w)
            /\ Gui.tree (fst r) = Gui.tree w
            /\ (snd r = Ok tt ->
                (exists uri name before,
                    isValid uri name = true
                    /\ Gui.project (fst r) = Gui.project w ++ [(uri, name)]
                    /\ Gui.dialogs (fst r) = Gui.dialogs w
                    /\ Gui.constructed (fst r) = Gui.constructed w ++ before ++ [uri]
                    /\ Forall (fun u => isValid u name = false) before)
                \/ (exists text name tried,
                      Gui.project (fst r) = Gui.project w
                      /\ Gui.dialogs (fst r) = Gui.dialogs w ++ [("WMTS Error", text)]
                      /\ Gui.constructed (fst r) = Gui.constructed w ++ tried
                      /\ Forall (fun u => isValid u name = false) tried))).
  { intros w' m Ht Hp Hd Hc. cbv zeta. unfold Gui.critical.
    cbn [fst snd Gui.tree Gui.project Gui.dialogs Gui.constructed].
    split; [discriminate|]. split; [exact Ht|]. intros _. right.
    eexists. exists "", []. rewrite Hp, Hd, Hc, app_nil_r. repeat split. constructor. }
  destruct (Url.wmts_build_caps_url netloc_error link) as [caps_url|e] eqn:Eb.
  2:{ apply wmts_build_caps_url_raises in Eb. destruct Eb as [m ->]. cbn [WmtsAdd.caught].
      split; [|split; [|split; [|discriminate]]]; now apply Hfail. }
  unfold Net.http_get_bytes.
  destruct (_blocking_get caps_url 15000%Z) as [[xml_bytes|] used] eqn:Eg.
  2:{ cbn [WmtsAdd.caught].
      split; [|split; [|split; [|intros c x u e0 [= <-]; rewrite Eg; discriminate]]];
        now apply Hfail. }
  cbn [fst snd].
  destruct (WmtsAdd.plan netloc_error fromstring layer_identifier matrix_set fmt xml_bytes used)
    as [p|e] eqn:Ep.
  2:{ destruct (WmtsAdd.caught e) as [m|] eqn:Ec.
      - split; [|split; [|split]]; try now apply Hfail.
        intros c x u e0 [= <-]. rewrite Eg. intros [= <- <-] Hf Hc.
        rewrite (plan_parser_raises netloc_error _ layer_identifier matrix_set fmt _ used _ Hf) in Ep. congruence.
      - apply plan_raises in Ep. destruct Ep as [(m & Hm)|Hf]; [congruence|].
        cbn [fst snd Gui.log_request Gui.tree].
        split; [|split; [reflexivity|split; [discriminate|]]].
        + intros e0 [= <-]. split; [exact Ec|]. now exists caps_url, xml_bytes, used.
        + intros c x u e0 [= <-]. rewrite Eg. intros [= <- <-] Hf' _. congruence. }
  assert (Hparsed : forall e0, fromstring xml_bytes <> Raise e0).
  { intros e0 Hf. rewrite (plan_parser_raises netloc_error _ layer_identifier matrix_set fmt _ used _ Hf) in Ep. discriminate. }
  pose proof (try_bases_outcome isValid (WmtsAdd.common_params p) (WmtsAdd.display_name p)
                (WmtsAdd.base_candidates p) None (Gui.log_request caps_url w)) as Ht.
  cbv zeta in Ht. destruct Ht as (H1 & H2 & H3 & H4).
  destruct (WmtsAdd.try_bases isValid _ _ _ None (Gui.log_request caps_url w)) as [w' o].
  cbn [fst snd Gui.log_request Gui.tree Gui.requests Gui.dialogs Gui.project
         Gui.constructed] in *.
  destruct H4 as [(uri & before & -> & Hv & Hp & Hc & Hb)|(m & tried & -> & Hp & Hc & Hb)].
  - cbn [fst snd]. split; [discriminate|]. split; [exact H1|]. split.
    + intros _. left. exists uri, (WmtsAdd.display_name p), before. auto.
    + intros c x u e0 [= <-]. rewrite Eg. intros [= <- <-] Hf. now destruct (Hparsed e0).
  - cbn [WmtsAdd.caught]. unfold Gui.critical.
    cbn [fst snd Gui.tree Gui.project Gui.dialogs Gui.constructed].
    split; [discriminate|]. split; [exact H1|]. split.
    + intros _. right.
      eexists. exists (WmtsAdd.display_name p), tried. rewrite Hp, H3, Hc. auto.
    + intros c x u e0 [= <-]. rewrite Eg. intros [= <- <-] Hf. now destruct (Hparsed e0).
Qed.

Lemma add_wmts_layer_outcome_witness :
  WmtsAdd.add_wmts_layer Demo.any_netloc Demo.wmts_get Demo.unknown_encoding Demo.tiles_valid
    "ortho" " http://maps.example.org/wmts " None None Demo.empty_world
  = (Gui.log_request "http://maps.example.org/wmts?SERVICE=WMTS&REQUEST=GetCapabilities"
       Demo.empty_world,
     Raise (LookupError "unknown encoding: x-unknown")).
Proof.
  apply (proj2 (proj2 (proj2
           (add_wmts_layer_outcome Demo.any_netloc Demo.wmts_get Demo.unknown_encoding
              Demo.tiles_valid "ortho" " http://maps.example.org/wmts " None None
              Demo.empty_world)))
           "http://maps.example.org/wmts?SERVICE=WMTS&REQUEST=GetCapabilities"
           "wmts capabilities"
           "https://mirror.example.org/service?SERVICE=WMTS&REQUEST=GetCapabilities"
           (LookupError "unknown encoding: x-unknown") eq_refl eq_refl eq_refl eq_refl).
Defined.

Lemma endswith_refl (p : string) : Py.endswith p p = true.
Proof. destruct p; cbn [Py.endswith]; now rewrite String.eqb_refl. Qed.

Lemma endswith_cons (p : string) (c : ascii) (s : string) :
  Py.endswith p s = true -> Py.endswith p (String c s) = true.
Proof. intros H. cbn [Py.endswith]. rewrite H. apply orb_true_r. Qed.

Lemma endswith_later (p a s : string) :
  Py.endswith p s = true -> Py.endswith p (a +:+ s) = true.
Proof.
  intros H. induction a as [|c a IH]; [exact H|]. cbn [String.append].
  now apply endswith_cons.
Qed.

(** X19.  Adding a WMS layer never raises.  It constructs one
    descriptor, whose last parameter is the trimmed link, with the CRS
    given, or that of the project when none is given, or EPSG:4326 when
    the project has none either.  When the validator accepts the
    descriptor the layer is added and nothing is shown; when it refuses,
    nothing is added and one message is shown, which names the layer, the
    link, the CRS and the format. *)
Theorem add_wms_layer_outcome
    (project_crs : string) (isValid : string -> string -> bool)
    (layer_name wms_link : string) (crs : option string) (img_format : string) (w : Gui.World) :
  let link := Py.strip wms_link in
  let c := WmsAdd.effective_crs project_crs crs in
  let uri := WmsAdd.wms_uri layer_name link c img_format in
  let result := WmsAdd.add_wms_layer project_crs isValid layer_name wms_link crs img_format w in
  snd result = Ok tt
  /\ Gui.tree (fst result) = Gui.tree w
  /\ Gui.constructed (fst result) = Gui.constructed w ++ [uri]
  /\ Py.endswith ("&url=" +:+ link) uri = true
  /\ (forall given, crs = Some given -> given <> "" -> c = given)
  /\ (or_empty crs = "" -> project_crs <> "" -> c = project_crs)
  /\ (or_empty crs = "" -> project_crs = "" -> c = "EPSG:4326")
  /\ (isValid uri layer_name = true ->
      Gui.project (fst result) = Gui.project w ++ [(uri, layer_name)]
      /\ Gui.dialogs (fst result) = Gui.dialogs w)
  /\ (isValid uri layer_name = false ->
      Gui.project (fst result) = Gui.project w
      /\ exists text,
           Gui.dialogs (fst result) = Gui.dialogs w ++ [("Error", text)]
           /\ Py.contains layer_name text = true /\ Py.contains link text = true
           /\ Py.contains c text = true /\ Py.contains img_format text = true).
Proof.
  cbv zeta. unfold WmsAdd.add_wms_layer, WmsLoad.clean_url.
  set (link := Py.strip wms_link). set (c := WmsAdd.effective_crs project_crs crs).
  set (uri := WmsAdd.wms_uri layer_name link c img_format).
  assert (Hend : Py.endswith ("&url=" +:+ link) uri = true).
  { unfold uri, WmsAdd.wms_uri. cbn [Py.join].
    repeat first [apply endswith_refl | apply endswith_later | apply endswith_cons]. }
  destruct (isValid uri layer_name) eqn:Ev.
  - unfold Gui.addMapLayer, Gui.log_constructed.
    cbn [fst snd Gui.tree Gui.project Gui.dialogs Gui.constructed].
    repeat (split; [reflexivity|]). split; [exact Hend|].
    split; [|split; [|split; [|split]]]; try discriminate; try (now split).
    + intros given -> Hg. unfold c, WmsAdd.effective_crs. cbn [or_empty].
      apply truthy_nonempty in Hg. now rewrite Hg.
    + intros He Hp. unfold c, WmsAdd.effective_crs, str_or. rewrite He.
      apply truthy_nonempty in Hp. now rewrite Hp.
    + intros He ->. unfold c, WmsAdd.effective_crs. now rewrite He.
  - unfold Gui.critical, Gui.log_constructed.
    cbn [fst snd Gui.tree Gui.project Gui.dialogs Gui.constructed].
    repeat (split; [reflexivity|]). split; [exact Hend|].
    split; [|split; [|split; [|split]]]; try discriminate.
    + intros given -> Hg. unfold c, WmsAdd.effective_crs. cbn [or_empty].
      apply truthy_nonempty in Hg. now rewrite Hg.
    + intros He Hp. unfold c, WmsAdd.effective_crs, str_or. rewrite He.
      apply truthy_nonempty in Hp. now rewrite Hp.
    + intros He ->. unfold c, WmsAdd.effective_crs. now rewrite He.
    + intros _. split; [reflexivity|]. eexists. split; [reflexivity|].
      unfold WmsAdd.failure_text. repeat split.
      * apply contains_later, contains_later, contains_here.
      * do 6 apply contains_later. apply contains_here.
      * do 10 apply contains_later. apply contains_here.
      * do 13 apply contains_later. rewrite <- (append_empty_r img_format) at 2.
        apply contains_here.
Qed.

Lemma add_wms_layer_outcome_witness :
  Gui.project (fst (WmsAdd.add_wms_layer "EPSG:25832" Demo.never_valid "ortho"
                      " http://maps.example.org/wms " None "image/jpeg" Demo.empty_world))
  = Gui.project Demo.empty_world
  /\ exists text,
       Gui.dialogs (fst (WmsAdd.add_wms_layer "EPSG:25832" Demo.never_valid "ortho"
                           " http://maps.example.org/wms " None "image/jpeg" Demo.empty_world))
       = Gui.dialogs Demo.empty_world ++ [("Error", text)]
       /\ Py.contains "ortho" text = true
       /\ Py.contains (Py.strip " http://maps.example.org/wms ") text = true
       /\ Py.contains (WmsAdd.effective_crs "EPSG:25832" None) text = true
       /\ Py.contains "image/jpeg" text = true.
Proof.
  apply (proj2 (proj2 (proj2 (proj2 (proj2 (proj2 (proj2 (proj2
           (add_wms_layer_outcome "EPSG:25832" Demo.never_valid "ortho"
              " http://maps.example.org/wms " None "image/jpeg" Demo.empty_world))))))))).
  reflexivity.
Defined.

(** ** The layers read from WMTS capabilities *)

(** What the loop over the styles keeps true: the style flagged as
    default is one of the identifiers collected, none of which is empty. *)
Lemma styles_fold (sts : list Xml.Element) :
  forall acc : list string * option string,
    (forall s, snd acc = Some s -> In s (fst acc)) ->
    (forall s, In s (fst acc) -> s <> "") ->
    let r := List.fold_left
               (fun acc st =>
                  let sid := WmtsCaps.style_id st in
                  if Py.truthy sid then
                    (fst acc ++ [sid], if WmtsCaps.is_default_flag st then Some sid else snd acc)
                  else acc) sts acc in
    (forall s, snd r = Some s -> In s (fst r)) /\ (forall s, In s (fst r) -> s <> "").
Proof.
  induction sts as [|st sts IH]; intros acc H1 H2; cbn [List.fold_left]; [now split|].
  apply IH.
  - destruct (Py.truthy (WmtsCaps.style_id st)) eqn:Et; [|exact H1]. cbn [fst snd].
    intros s Hs. apply in_or_app. destruct (WmtsCaps.is_default_flag st).
    + injection Hs as <-. right. now left.
    + left. now apply H1.
  - destruct (Py.truthy (WmtsCaps.style_id st)) eqn:Et; [|exact H2]. cbn [fst].
    intros s Hs. apply in_app_or in Hs. destruct Hs as [Hs|[<-|[]]]; [now apply H2|].
    now apply truthy_nonempty.
Qed.

Lemma styles_of_sound (layer : Xml.Element) :
  (forall s, snd (WmtsCaps.styles_of layer) = Some s -> In s (fst (WmtsCaps.styles_of layer)))
  /\ (forall s, In s (fst (WmtsCaps.styles_of layer)) -> s <> "").
Proof.
  unfold WmtsCaps.styles_of. apply (styles_fold _ ([], None)); cbn [fst snd].
  - discriminate.
  - intros s [].
Qed.

Lemma pick_default_style_sound (styles : list string) (flagged : option string) :
  (forall s, flagged = Some s -> In s styles) ->
  (WmtsCaps.pick_default_style styles flagged = None <-> styles = [])
  /\ (forall s, WmtsCaps.pick_default_style styles flagged = Some s -> In s styles).
Proof.
  intros Hf. unfold WmtsCaps.pick_default_style. destruct flagged as [f|].
  - split; [|intros s [= <-]; now apply Hf]. split; [discriminate|].
    intros ->. now destruct (Hf f eq_refl).
  - destruct (List.find _ styles) as [d|] eqn:E.
    + apply List.find_some in E. split; [|intros s [= <-]; apply E].
      split; [discriminate|]. intros ->. now destruct (proj1 E).
    + destruct styles as [|a l]; cbn [List.hd_error].
      * split; [now split|discriminate].
      * split; [split; discriminate|]. intros s [= <-]. now left.
Qed.

Lemma prefer_matrix_set_sound (sets : list Wmts.MatrixSet) :
  (Wmts._prefer_matrix_set sets = None <-> sets = [])
  /\ (forall i, Wmts._prefer_matrix_set sets = Some i ->
        exists ms, In ms sets /\ Wmts.ms_id ms = i).
Proof.
  unfold Wmts._prefer_matrix_set. destruct sets as [|first rest]; [split; [now split|discriminate]|].
  set (sets := first :: rest).
  destruct (List.find (fun s => Wmts.is_3857 (Wmts.ms_crs s)) sets) as [s|] eqn:E1.
  - apply List.find_some in E1. split; [split; discriminate|].
    intros i [= <-]. exists s. split; [apply E1|reflexivity].
  - destruct (List.find (fun s => Wmts.is_4326 (Wmts.ms_crs s)) sets) as [s|] eqn:E2.
    + apply List.find_some in E2. split; [split; discriminate|].
      intros i [= <-]. exists s. split; [apply E2|reflexivity].
    + split; [split; discriminate|]. intros i [= <-]. exists first. split; [now left|reflexivity].
Qed.

(** X20.  Every layer that [_parse_layers] lists is well formed: its
    identifier is not empty; none of its formats is empty; each of its
    matrix sets has an identifier that is not empty and the CRS that the
    dictionary of tile matrix sets gives for it; its default format is
    one of its formats, its default matrix set one of its matrix sets and
    its default style one of its styles, and each default is missing only
    when the layer has no format, no matrix set or no style. *)
Theorem parse_layers_well_formed (root : Xml.Element) (tms_dict : gmap string WmtsCaps.Tms)
    (L : WmtsCaps.Layer) :
  In L (WmtsCaps._parse_layers root tms_dict) ->
  WmtsCaps.identifier L <> ""
  /\ (forall f, In f (WmtsCaps.formats L) -> f <> "")
  /\ (forall ms, In ms (WmtsCaps.matrix_sets L) ->
        Wmts.ms_id ms <> ""
        /\ Wmts.ms_crs ms = match tms_dict !! Wmts.ms_id ms with
                            | Some t => WmtsCaps.tms_crs t
                            | None => None
                            end)
  /\ (WmtsCaps.default_format L = None <-> WmtsCaps.formats L = [])
  /\ (forall f, WmtsCaps.default_format L = Some f -> In f (WmtsCaps.formats L))
  /\ (WmtsCaps.default_matrix_set L = None <-> WmtsCaps.matrix_sets L = [])
  /\ (forall i, WmtsCaps.default_matrix_set L = Some i ->
        exists ms, In ms (WmtsCaps.matrix_sets L) /\ Wmts.ms_id ms = i)
  /\ (WmtsCaps.default_style L = None <-> WmtsCaps.styles L = [])
  /\ (forall s, WmtsCaps.default_style L = Some s -> In s (WmtsCaps.styles L) /\ s <> "").
Proof.
  unfold WmtsCaps._parse_layers.
  destruct (Xml.find (Xml.tag_is (WmtsCaps.wmts "Contents")) root) as [contents|]; [|intros []].
  intros H. apply in_flat_map in H. destruct H as (layer & _ & H).
  destruct (Xml.find (Xml.tag_is (WmtsCaps.ows "Identifier")) layer) as [ident_el|]; [|destruct H].
  destruct (Py.truthy (WmtsCaps.stripped_text ident_el)) eqn:Et; [|destruct H].
  destruct H as [<-|[]].
  cbn [WmtsCaps.identifier WmtsCaps.formats WmtsCaps.matrix_sets WmtsCaps.styles
         WmtsCaps.default_format WmtsCaps.default_matrix_set WmtsCaps.default_style].
  set (fmts := List.filter Py.truthy _).
  assert (Hfmts : forall f, In f fmts -> f <> "").
  { intros f Hf. apply filter_In in Hf. now apply truthy_nonempty. }
  destruct (styles_of_sound layer) as [Hs1 Hs2].
  destruct (pick_default_style_sound _ _ Hs1) as [Hp1 Hp2].
  destruct (prefer_matrix_set_sound (WmtsCaps.ms_links tms_dict layer)) as [Hm1 Hm2].
  split; [now apply truthy_nonempty|]. split; [exact Hfmts|]. split.
  { intros ms Hms. unfold WmtsCaps.ms_links in Hms. apply in_flat_map in Hms.
    destruct Hms as (link & _ & Hms).
    destruct (Xml.find (Xml.tag_is (WmtsCaps.wmts "TileMatrixSet")) link) as [ms_el|];
      [|destruct Hms].
    destruct (Py.truthy (WmtsCaps.stripped_text ms_el)) eqn:Em; [|destruct Hms].
    destruct Hms as [<-|[]]. cbn [Wmts.ms_id Wmts.ms_crs].
    split; [now apply truthy_nonempty|reflexivity]. }
  split.
  { rewrite prefer_format_none. split.
    - intros H. destruct fmts as [|f l]; [reflexivity|].
      exfalso. apply (Hfmts f); [now left|]. apply H. now left.
    - intros -> f []. }
  split; [intros f Hf; now apply prefer_format_member in Hf|].
  split; [exact Hm1|]. split; [exact Hm2|]. split; [exact Hp1|].
  intros s Hs. apply Hp2 in Hs. split; [exact Hs|now apply Hs2].
Qed.

Lemma parse_layers_well_formed_witness :
  In "image/png" (WmtsCaps.formats demo_wmts_layer)
  /\ (exists ms, In ms (WmtsCaps.matrix_sets demo_wmts_layer)
                 /\ Wmts.ms_id ms = "GoogleMapsCompatible")
  /\ In "default" (WmtsCaps.styles demo_wmts_layer).
Proof.
  assert (H : In demo_wmts_layer
                (WmtsCaps._parse_layers Demo.wmts_caps
                   (WmtsCaps._parse_tile_matrix_sets Demo.wmts_caps)))
    by (vm_compute; now left).
  pose proof (parse_layers_well_formed Demo.wmts_caps
                (WmtsCaps._parse_tile_matrix_sets Demo.wmts_caps) demo_wmts_layer H)
    as (_ & _ & _ & _ & Hf & _ & Hm & _ & Hs).
  split; [now apply Hf|]. split; [now apply Hm|]. now apply Hs.
Defined.

(** X21.  Locating the layer to add: the layer found is one of the
    layers, and it matches the identifier asked for exactly, or its
    identifier or its trimmed title matches it without regard to letter
    case; a layer whose identifier is exactly the one asked for is found
    whenever there is one, whatever stands before it; and no layer is
    found only when none matches in any of the three ways. *)
Theorem find_layer_precedence (layers : list WmtsCaps.Layer) (layer_identifier : string) :
  let low := Py.lower (Py.strip layer_identifier) in
  (forall L, WmtsAdd.find_layer layers layer_identifier = Some L ->
     In L layers
     /\ (WmtsCaps.identifier L = layer_identifier
         \/ Py.lower (WmtsCaps.identifier L) = low
         \/ Py.lower (Py.strip (WmtsCaps.title L)) = low))
  /\ (forall L0, In L0 layers -> WmtsCaps.identifier L0 = layer_identifier ->
        exists L, WmtsAdd.find_layer layers layer_identifier = Some L
                  /\ WmtsCaps.identifier L = layer_identifier)
  /\ (WmtsAdd.find_layer layers layer_identifier = None
      <-> forall L, In L layers ->
            WmtsCaps.identifier L <> layer_identifier
            /\ Py.lower (WmtsCaps.identifier L) <> low
            /\ Py.lower (Py.strip (WmtsCaps.title L)) <> low).
Proof.
  intros low. unfold WmtsAdd.find_layer. fold low.
  destruct (List.find (fun L => String.eqb (WmtsCaps.identifier L) layer_identifier) layers)
    as [A|] eqn:E1.
  { pose proof (List.find_some _ _ E1) as [Hin He]. apply String.eqb_eq in He.
    split; [intros L [= <-]; auto|]. split; [intros L0 _ _; now exists A|].
    split; [discriminate|]. intros H. now destruct (H A Hin). }
  pose proof (List.find_none _ _ E1) as N1.
  assert (X1 : forall L, In L layers -> WmtsCaps.identifier L <> layer_identifier).
  { intros L HL. apply String.eqb_neq. now apply N1. }
  destruct (List.find (fun L => String.eqb (Py.lower (WmtsCaps.identifier L)) low) layers)
    as [B|] eqn:E2.
  { pose proof (List.find_some _ _ E2) as [Hin He]. apply String.eqb_eq in He.
    split; [intros L [= <-]; auto|]. split; [intros L0 H0 H1; now destruct (X1 L0 H0)|].
    split; [discriminate|]. intros H. now destruct (H B Hin) as (_ & H2 & _). }
  pose proof (List.find_none _ _ E2) as N2.
  destruct (List.find (fun L => String.eqb (Py.lower (Py.strip (WmtsCaps.title L))) low) layers)
    as [C|] eqn:E3.
  { pose proof (List.find_some _ _ E3) as [Hin He]. apply String.eqb_eq in He.
    split; [intros L [= <-]; auto|]. split; [intros L0 H0 H1; now destruct (X1 L0 H0)|].
    split; [discriminate|]. intros H. now destruct (H C Hin) as (_ & _ & H3). }
  pose proof (List.find_none _ _ E3) as N3.
  split; [discriminate|]. split; [intros L0 H0 H1; now destruct (X1 L0 H0)|].
  split; [|reflexivity]. intros _ L HL. split; [now apply X1|].
  split; apply String.eqb_neq; [now apply N2|now apply N3].
Qed.

Lemma find_layer_precedence_witness :
  exists L, WmtsAdd.find_layer
              [ {| WmtsCaps.identifier := "ORTHO"; WmtsCaps.title := "ortho";
                   WmtsCaps.formats := []; WmtsCaps.matrix_sets := []; WmtsCaps.styles := [];
                   WmtsCaps.default_style := None; WmtsCaps.default_format := None;
                   WmtsCaps.default_matrix_set := None |};
                demo_wmts_layer ] "ortho" = Some L
            /\ WmtsCaps.identifier L = "ortho".
Proof.
  apply (proj1 (proj2 (find_layer_precedence _ "ortho")) demo_wmts_layer).
  - right. now left.
  - reflexivity.
Defined.

(** ** Trailing slashes, and the selection after a listing *)

Lemma drop_last_app (u : string) (c : ascii) : RestSvc.drop_last (u +:+ String c "") = u.
Proof.
  induction u as [|a u IH]; [reflexivity|]. cbn [String.append RestSvc.drop_last].
  rewrite IH. destruct u; reflexivity.
Qed.

Lemma endswith_char (c : ascii) (u : string) :
  Py.endswith (String c "") u = true -> exists v, u = v +:+ String c "".
Proof.
  induction u as [|a u IH]; [discriminate|]. cbn [Py.endswith]. intros H.
  apply orb_true_iff in H. destruct H as [H|H].
  - apply String.eqb_eq in H. exists "". now rewrite <- H.
  - destruct (IH H) as [v ->]. now exists (String a v).
Qed.

(** X22.  [_strip_trailing_slash] removes one slash at the end and
    nothing else: a URL followed by a slash gives the URL back, a URL
    that does not end with a slash is returned as it is, and in both
    cases the result followed by the slash removed is the URL. *)
Theorem strip_trailing_slash_once (u : string) :
  RestSvc._strip_trailing_slash (u +:+ "/") = u
  /\ (Py.endswith "/" u = false -> RestSvc._strip_trailing_slash u = u)
  /\ (Py.endswith "/" u = true -> RestSvc._strip_trailing_slash u +:+ "/" = u).
Proof.
  unfold RestSvc._strip_trailing_slash. split; [|split].
  - rewrite (endswith_later "/" u "/" eq_refl). apply drop_last_app.
  - now intros ->.
  - intros H. rewrite H. apply endswith_char in H. destruct H as [v ->].
    now rewrite drop_last_app.
Qed.

Lemma strip_trailing_slash_once_witness :
  RestSvc._strip_trailing_slash "https://gis.example.org/MapServer//" +:+ "/"
  = "https://gis.example.org/MapServer//".
Proof.
  apply (proj2 (proj2 (strip_trailing_slash_once "https://gis.example.org/MapServer//"))).
  reflexivity.
Defined.

Lemma filter_unchecked {A} (f : A -> Ui.Item) (l : list A) :
  (forall x, Ui.checked (f x) = false) -> List.filter Ui.checked (List.map f l) = [].
Proof.
  intros H. induction l as [|x l IH]; [reflexivity|]. cbn [List.map List.filter].
  now rewrite H, IH.
Qed.

(** X23.  Nothing is selected after a listing: in the tree that
    [load_wms_layers], [load_wmts_layers] or [populate_layers] fills,
    every item is unchecked, so [selected_items] and
    [selected_layer_names] return the empty list until an item is
    ticked. *)
Theorem listing_selects_nothing :
  (forall base_url layers,
      Ui.selected_items (List.map Ui.of_wms (List.map (WmsLoad.item_of base_url) layers)) = []
      /\ Ui.selected_layer_names
           (List.map Ui.of_wms (List.map (WmsLoad.item_of base_url) layers)) = [])
  /\ (forall caps_base tile_base layers,
        Ui.selected_items (List.map (WmtsLoad.item_of caps_base tile_base) layers) = []
        /\ Ui.selected_layer_names (List.map (WmtsLoad.item_of caps_base tile_base) layers) = [])
  /\ (forall layers,
        Ui.selected_items (Ui.populate_layers layers) = []
        /\ Ui.selected_layer_names (Ui.populate_layers layers) = []).
Proof.
  unfold Ui.selected_items, Ui.selected_layer_names, Ui.populate_layers.
  split; [|split].
  - intros base_url layers. rewrite List.map_map.
    rewrite (filter_unchecked _ layers) by reflexivity. now split.
  - intros cb tb layers. rewrite (filter_unchecked _ layers) by reflexivity. now split.
  - intros layers. rewrite (filter_unchecked _ layers) by reflexivity. now split.
Qed.

